(** * imsdk-server-core: the clustered WebSocket messaging fabric

    A shallow embedding of the packet codec ([WssBridgePackData]), the bridge
    client ([WssBridge]), the server-side session ([WssSession]) and the
    message server ([WssServer]), followed by the properties of the
    specification that are settled against them.

    Conventions of the embedding.
    - A JavaScript value is a [jsval]; numbers are integers ([Z]): reqIds,
      counters, timestamps and close codes are integral in the program, and
      fractional doubles are outside the model.
    - Objects used as dictionaries are finite maps ([gmap]) that hold the
      entries of the object itself; a dictionary keyed by a session id is
      keyed by the integer instead of its decimal string.  A read under a key
      that the dictionary does not hold and that names a member of
      [Object.prototype] ([inherited]) finds that member, and each function
      says what it does with it.  A write under [__proto__], which only
      [setRouter], [setRemote] and [initClusters] can make and which replaces
      the prototype of the map, is kept as an entry: it reads back the same,
      and the names that the new prototype lends to the map are outside the
      model.  The order in which [for ... in] visits a dictionary is outside
      the model; no property below depends on it.
    - Objects shared by reference (sessions) live in a heap indexed by the
      session id, which the program allocates from a global counter.
    - Calls that leave the program (socket sends and closes, user callbacks,
      handlers, log lines) are recorded, in program order, in an event trace.
      A call that throws before its first update leaves the state as it was.
    - [Date.now()], the random salt and iv, and the uuid nonce are inputs.
    - The JSON and crypto-js libraries are a parameter ([Platform]). *)

From stdpp Require Import gmap strings list fin_maps pretty.
From Stdlib Require Import ZArith Lia Ascii.

Set Warnings "-register-all".
Open Scope string_scope.
Open Scope list_scope.
Open Scope Z_scope.

(** ** JavaScript values *)

Inductive jsval : Type :=
  | JUndefined
  | JNull
  | JBool (b : bool)
  | JNum (n : Z)
  | JStr (s : string)
  | JArr (l : list jsval)
  | JObj (l : list (string * jsval)).

(** [typeof v === 'string'], [typeof v === 'number']. *)
Definition typeof_string (v : jsval) : bool :=
  match v with JStr _ => true | _ => false end.

Definition typeof_number (v : jsval) : bool :=
  match v with JNum _ => true | _ => false end.

(** ToBoolean: [undefined], [null], [false], [0] and [''] are falsy. *)
Definition truthy (v : jsval) : bool :=
  match v with
  | JUndefined | JNull => false
  | JBool b => b
  | JNum n => negb (n =? 0)
  | JStr s => negb (String.eqb s "")
  | JArr _ | JObj _ => true
  end.

(** [v === undefined || v === null] *)
Definition is_nullish (v : jsval) : bool :=
  match v with JUndefined | JNull => true | _ => false end.

(** A callback or object reference that may be missing is truthy when present. *)
Definition present {A} (o : option A) : bool :=
  match o with Some _ => true | None => false end.

(** [v === s] for a string constant [s]. *)
Definition strict_eq_str (v : jsval) (s : string) : bool :=
  match v with JStr t => String.eqb t s | _ => false end.

(** Own property of a dictionary-like object literal. *)
Fixpoint assoc (k : string) (l : list (string * jsval)) : option jsval :=
  match l with
  | [] => None
  | (k', v) :: l' => if String.eqb k k' then Some v else assoc k l'
  end.

(** [obj[k] = v]: an existing key keeps its place, a new one goes last. *)
Fixpoint obj_set (k : string) (v : jsval) (l : list (string * jsval)) : list (string * jsval) :=
  match l with
  | [] => [(k, v)]
  | (k', v') :: l' => if String.eqb k k' then (k, v) :: l' else (k', v') :: obj_set k v l'
  end.

(** [v.k] for an identifier [k] among route, reqId, message, tid, word, sign,
    code and data; none of them names a built-in property of a primitive or of
    an array.  Reading a property of [undefined] or [null] throws a TypeError
    ([None]); a missing property reads as [undefined]. *)
Definition prop (v : jsval) (k : string) : option jsval :=
  match v with
  | JUndefined | JNull => None
  | JObj l => Some (default JUndefined (assoc k l))
  | _ => Some JUndefined
  end.

(** The names of the members of [Object.prototype].  The dictionaries of
    the program are object literals: reading [dict[key]] where the dictionary
    has no entry of its own under [key] gives the inherited member when [key]
    is one of these names, a function (under [__proto__] the prototype
    itself), which is truthy, has none of the properties of a session, a
    channel or a listener array, and is no array. *)
Definition prototype_keys : list string :=
  ["constructor"; "__defineGetter__"; "__defineSetter__"; "hasOwnProperty";
   "__lookupGetter__"; "__lookupSetter__"; "isPrototypeOf"; "propertyIsEnumerable";
   "toString"; "valueOf"; "__proto__"; "toLocaleString"].

Definition inherited (key : string) : bool :=
  existsb (String.eqb key) prototype_keys.

(** The inherited members whose [length] is 0 or [undefined]: a loop that
    counts up to it runs no round.  The others have a [length] of 1 or 2. *)
Definition inherited_empty (key : string) : bool :=
  existsb (String.eqb key) ["toString"; "valueOf"; "toLocaleString"; "__proto__"].

(** What [dict[key]] gives: the entry of the dictionary, an inherited
    member, or [undefined]. *)
Inductive slot (A : Type) : Type :=
  | Own (a : A)
  | Inherited
  | Missing.
Arguments Own {A} a.
Arguments Inherited {A}.
Arguments Missing {A}.

(** Primitive values, the results of ToPrimitive and of [+]; [PNaN] is the
    one non-integral number that [+] can produce from integers. *)
Inductive prim : Type :=
  | PUndefined
  | PNull
  | PBool (b : bool)
  | PNum (n : Z)
  | PNaN
  | PStr (s : string).

Definition string_of_bool (b : bool) : string := if b then "true" else "false".

(** [Array.prototype.join(',')] on the strings of the elements. *)
Fixpoint join_comma (l : list string) : string :=
  match l with
  | [] => ""
  | [s] => s
  | s :: l' => s +:+ "," +:+ join_comma l'
  end.

(** The string of an array element inside [join]: [undefined] and [null]
    give the empty string. *)
Fixpoint join_item (v : jsval) : string :=
  match v with
  | JUndefined | JNull => ""
  | JBool b => string_of_bool b
  | JNum n => pretty n
  | JStr s => s
  | JArr l => join_comma (map join_item l)
  | JObj _ => "[object Object]"
  end.

(** [v.toString()]; it throws on [undefined] and [null].  An object with a
    [toString] of its own (a mongodb ObjectId) behaves, for this program, as
    the string it returns: only [toString()] and truthiness are ever used. *)
Definition toString (v : jsval) : option string :=
  match v with
  | JUndefined | JNull => None
  | _ => Some (join_item v)
  end.

Definition ToPrimitive (v : jsval) : prim :=
  match v with
  | JUndefined => PUndefined
  | JNull => PNull
  | JBool b => PBool b
  | JNum n => PNum n
  | JStr s => PStr s
  | JArr _ | JObj _ => PStr (join_item v)
  end.

Definition prim_ToString (p : prim) : string :=
  match p with
  | PUndefined => "undefined"
  | PNull => "null"
  | PBool b => string_of_bool b
  | PNum n => pretty n
  | PNaN => "NaN"
  | PStr s => s
  end.

Definition prim_ToNumber (p : prim) : option Z :=
  match p with
  | PNull => Some 0
  | PBool b => Some (if b then 1 else 0)
  | PNum n => Some n
  | PUndefined | PNaN | PStr _ => None
  end.

Definition prim_is_string (p : prim) : bool :=
  match p with PStr _ => true | _ => false end.

(** The addition operator on primitives: string concatenation as soon as one
    operand is a string, numeric addition otherwise. *)
Definition prim_add (a b : prim) : prim :=
  if prim_is_string a || prim_is_string b
  then PStr (prim_ToString a +:+ prim_ToString b)
  else match prim_ToNumber a, prim_ToNumber b with
       | Some x, Some y => PNum (x + y)
       | _, _ => PNaN
       end.

(** JavaScript [a % b === 0]; the remainder by zero is NaN. *)
Definition mod_is_zero (a b : Z) : bool :=
  if b =? 0 then false else Z.rem a b =? 0.

(** ** 32-bit words and array buffers *)

(** ToInt32, the conversion applied when a number is stored in an
    [Int32Array]. *)
Definition to_int32 (z : Z) : Z := (z + 2 ^ 31) mod 2 ^ 32 - 2 ^ 31.

Definition int32 (z : Z) : Prop := - 2 ^ 31 <= z < 2 ^ 31.

(** An [ArrayBuffer] is its bytes, each in [0, 256). *)
Definition ArrayBuffer : Type := list Z.

(** The four bytes of a word in the byte order of the host (little endian). *)
Definition word_bytes (w : Z) : list Z :=
  [w mod 256; (w / 256) mod 256; (w / 65536) mod 256; (w / 16777216) mod 256].

(** [new Int32Array(words).buffer] *)
Definition Int32Array_buffer (words : list Z) : ArrayBuffer :=
  flat_map word_bytes words.

(** [Array.prototype.slice.call(new Int32Array(data))]; the constructor throws
    a RangeError ([None]) when the byte length is not a multiple of 4. *)
Fixpoint Int32Array_of_buffer (data : ArrayBuffer) : option (list Z) :=
  match data with
  | [] => Some []
  | b0 :: b1 :: b2 :: b3 :: rest =>
      match Int32Array_of_buffer rest with
      | Some ws => Some (to_int32 (b0 + 256 * b1 + 65536 * b2 + 16777216 * b3) :: ws)
      | None => None
      end
  | _ => None
  end.

(** [words.slice(from, to)] and [words.slice(from)] for in-range bounds. *)
Definition slice {A} (from to : nat) (l : list A) : list A :=
  take (to - from) (drop from l).

(** A frame as it crosses the socket: text or binary. *)
Inductive wire : Type :=
  | WText (s : string)
  | WBinary (b : ArrayBuffer).

(** ** The libraries the codec calls *)

(** [JSON] and crypto-js.  A [WordArray] whose bytes fill whole words is the
    list of its words.  [None] stands for a thrown exception. *)
Class Platform : Type := {
  (** [JSON.stringify(v)] *)
  JSON_stringify : jsval -> option string;
  (** [JSON.parse(s)] *)
  JSON_parse : string -> option jsval;
  (** [CryptoJS.HmacSHA256(salt, pwd)], the words of the digest *)
  HmacSHA256 : list Z -> string -> list Z;
  (** [CryptoJS.AES.encrypt(str, key, {iv, CBC, Pkcs7}).ciphertext] *)
  AES_encrypt : string -> list Z -> list Z -> list Z;
  (** [CryptoJS.AES.decrypt({ciphertext}, key, {iv, CBC, Pkcs7})
      .toString(CryptoJS.enc.Utf8)] *)
  AES_decrypt : list Z -> list Z -> list Z -> option string;
  (** [wordArray.toString(CryptoJS.enc.Base64)] *)
  Base64_stringify : list Z -> string;
  (** [CryptoJS.enc.Base64.parse(s).words] *)
  Base64_parse : string -> list Z;
  (** [CryptoJS.MD5(data).toString()] *)
  MD5 : prim -> string
}.

(** A configured password: [null] or a string; the empty string is falsy. *)
Definition pwd_set (pwd : option string) : option string :=
  match pwd with
  | Some p => if String.eqb p "" then None else Some p
  | None => None
  end.

(** ** WssBridgePackData *)

Module WssBridgePackData.

Definition ROUTE_HEARTICK : string := "$heartick$".
Definition ROUTE_RESPONSE : string := "$response$".

Definition CODE_RETRY : Z * string := (4101, "retry").
Definition CODE_CLOSE : Z * string := (4102, "close").
Definition CODE_ERROR : Z * string := (4103, "error").
Definition CODE_CALL : Z * string := (4104, "call").

Record t : Type := Build {
  route : jsval;
  reqId : jsval;
  message : jsval
}.

(** The instance as [JSON.stringify] sees it: its own enumerable properties
    in the order the constructor assigns them. *)
Definition to_object (pack : t) : jsval :=
  JObj [("route", route pack); ("reqId", reqId pack); ("message", message pack)].

(** [new WssBridgePackData(obj.route, obj.reqId, obj.message)] *)
Definition of_object (obj : jsval) : option t :=
  match prop obj "route", prop obj "reqId", prop obj "message" with
  | Some r, Some i, Some m => Some (Build r i m)
  | _, _, _ => None
  end.

Section Codec.
Context `{Platform}.

(** [serialize(pack, pwd, binary)]; [salt] and [iv] are the two results of
    [CryptoJS.lib.WordArray.random(16)].  The result is [None] where the
    source returns [null]. *)
Definition serialize (pack : t) (pwd : option string) (binary : bool)
    (salt iv : list Z) : option wire :=
  match JSON_stringify (to_object pack) with
  | None => None
  | Some str =>
      match pwd_set pwd with
      | Some p =>
          let key := HmacSHA256 salt p in
          let body := AES_encrypt str key iv in
          let encRes := salt ++ iv ++ body in
          Some (if binary then WBinary (Int32Array_buffer encRes)
                else WText (Base64_stringify encRes))
      | None => Some (WText str)
      end
  end.

(** The words of an encrypted frame: those of the buffer, or those of the
    Base64 text. *)
Definition frame_words (data : wire) : option (list Z) :=
  match data with
  | WBinary b => Int32Array_of_buffer b
  | WText s => Some (Base64_parse s)
  end.

(** [deserialize(data, pwd)]; [None] where the source returns [null]. *)
Definition deserialize (data : wire) (pwd : option string) : option t :=
  match pwd_set pwd with
  | Some p =>
      match frame_words data with
      | None => None
      | Some words =>
          let salt := slice 0 4 words in
          let iv := slice 4 8 words in
          let key := HmacSHA256 salt p in
          let body := drop 8 words in
          match AES_decrypt body key iv with
          | None => None
          | Some decRes =>
              match JSON_parse decRes with
              | None => None
              | Some obj => of_object obj
              end
          end
      end
  | None =>
      match data with
      | WBinary _ => of_object (JObj [])
      | WText s =>
          match JSON_parse s with
          | None => None
          | Some obj => of_object obj
          end
      end
  end.
End Codec.

End WssBridgePackData.

(** [readyState] of a WebSocket. *)
Inductive readyState : Type := CONNECTING | OPEN | CLOSING | CLOSED.

Definition is_open (socket : option readyState) : bool :=
  match socket with Some OPEN => true | _ => false end.

(** What the program reads from [Date.now()] and from the random generator
    around one call: the clock, and a salt and an iv for the codec. *)
Record input : Type := Input {
  clock : Z;
  rand_salt : list Z;
  rand_iv : list Z
}.

(** ** WssBridgeResponse, WssBridgeRequest *)

Module WssBridgeResponse.
Record t : Type := Build {
  code : jsval;
  data : jsval
}.

(** [new WssBridgeResponse(504, 'Gateway Timeout')] *)
Definition GatewayTimeout : t := Build (JNum 504) (JStr "Gateway Timeout").

(** [resp.ok], which is the test [resp.code === 200] of the bridge *)
Definition ok (resp : t) : bool :=
  match code resp with JNum 200 => true | _ => false end.
End WssBridgeResponse.

(** A callback is known by a name; calling it is an event. *)
Definition callback : Type := nat.

Module WssBridgeRequest.
Record t : Type := Build {
  time : Z;
  onsuccess : option callback;
  onerror : option callback
}.
End WssBridgeRequest.

(** ** WssBridgeListener *)

(** A callback argument as [===] sees it: [undefined], [null], or a function,
    which is known by its name. *)
Inductive handler : Type :=
  | HUndefined
  | HNull
  | HFun (cb : callback).

Definition handler_eq (a b : handler) : bool :=
  match a, b with
  | HUndefined, HUndefined | HNull, HNull => true
  | HFun x, HFun y => Nat.eqb x y
  | _, _ => false
  end.

Module WssBridgeListener.
Record t : Type := Build {
  once : bool;
  onmessage : handler
}.
End WssBridgeListener.

(** ** WssBridge *)

Module WssBridge.

(** The bridge as far as the properties need it: its state, the sending of
    requests, the timer tick with the timeout sweep, the heartbeat and the
    reconnection, and [connect] and [disconnect]. *)

(** What leaves the bridge.  A call of a request's callback carries the
    reqId under which the request is filed: it names the request object
    whose callback runs. *)
Inductive event : Type :=
  | SocketNew (host : string)
  | SocketSend (data : wire)
  | SocketClose (code : Z) (reason : string)
  | CallSuccess (reqId : Z) (cb : callback) (resp : WssBridgeResponse.t)
  | CallError (reqId : Z) (cb : callback) (resp : WssBridgeResponse.t)
  | OnError (message : string)
  | OnRetry (count : Z)
  | OnSecond (second delay : Z).

Record t : Type := Build {
  host : string;
  pwd : option string;
  binary : bool;
  timeout : Z;
  heartick : Z;
  conntick : Z;
  timer : bool;
  timerInc : Z;
  reqIdInc : Z;
  netDelay : Z;
  retryCnt : Z;
  (** [_requests], in the enumeration order of [for ... in]: ascending
      reqId, which is also the order of insertion *)
  requests : list (Z * WssBridgeRequest.t);
  socket : option readyState;
  paused : bool;
  expired : bool;
  has_onerror : bool;
  has_onretry : bool;
  has_onsecond : bool;
  trace : list event
}.

Definition emit (e : event) (b : t) : t :=
  Build (host b) (pwd b) (binary b) (timeout b) (heartick b) (conntick b)
    (timer b) (timerInc b) (reqIdInc b) (netDelay b) (retryCnt b) (requests b)
    (socket b) (paused b) (expired b) (has_onerror b) (has_onretry b)
    (has_onsecond b) (trace b ++ [e]).

Definition set_requests (r : list (Z * WssBridgeRequest.t)) (b : t) : t :=
  Build (host b) (pwd b) (binary b) (timeout b) (heartick b) (conntick b)
    (timer b) (timerInc b) (reqIdInc b) (netDelay b) (retryCnt b) r
    (socket b) (paused b) (expired b) (has_onerror b) (has_onretry b)
    (has_onsecond b) (trace b).

Definition set_socket (s : option readyState) (b : t) : t :=
  Build (host b) (pwd b) (binary b) (timeout b) (heartick b) (conntick b)
    (timer b) (timerInc b) (reqIdInc b) (netDelay b) (retryCnt b) (requests b)
    s (paused b) (expired b) (has_onerror b) (has_onretry b)
    (has_onsecond b) (trace b).

Definition set_timerInc (n : Z) (b : t) : t :=
  Build (host b) (pwd b) (binary b) (timeout b) (heartick b) (conntick b)
    (timer b) n (reqIdInc b) (netDelay b) (retryCnt b) (requests b)
    (socket b) (paused b) (expired b) (has_onerror b) (has_onretry b)
    (has_onsecond b) (trace b).

Definition set_reqIdInc (n : Z) (b : t) : t :=
  Build (host b) (pwd b) (binary b) (timeout b) (heartick b) (conntick b)
    (timer b) (timerInc b) n (netDelay b) (retryCnt b) (requests b)
    (socket b) (paused b) (expired b) (has_onerror b) (has_onretry b)
    (has_onsecond b) (trace b).

Definition set_retryCnt (n : Z) (b : t) : t :=
  Build (host b) (pwd b) (binary b) (timeout b) (heartick b) (conntick b)
    (timer b) (timerInc b) (reqIdInc b) (netDelay b) n (requests b)
    (socket b) (paused b) (expired b) (has_onerror b) (has_onretry b)
    (has_onsecond b) (trace b).

Definition set_timer_expired (timer' expired' : bool) (b : t) : t :=
  Build (host b) (pwd b) (binary b) (timeout b) (heartick b) (conntick b)
    timer' (timerInc b) (reqIdInc b) (netDelay b) (retryCnt b) (requests b)
    (socket b) (paused b) expired' (has_onerror b) (has_onretry b)
    (has_onsecond b) (trace b).

(** [new WssBridge(host, pwd, binary, timeout, heartick, conntick)]; [host]
    is taken after the http(s) to ws(s) rewriting. *)
Definition create (host : string) (pwd : option string) (binary : bool)
    (timeout heartick conntick : Z) : t :=
  Build host pwd binary timeout heartick conntick false 0 0 0 0 [] None
    false false false false false [].

Definition isConnected (b : t) : bool := is_open (socket b).

(** [this._requests[reqId] = request]: an existing key keeps its place, a
    new one goes last. *)
Fixpoint requests_set (reqId : Z) (r : WssBridgeRequest.t)
    (l : list (Z * WssBridgeRequest.t)) : list (Z * WssBridgeRequest.t) :=
  match l with
  | [] => [(reqId, r)]
  | (k, r') :: l' =>
      if k =? reqId then (k, r) :: l' else (k, r') :: requests_set reqId r l'
  end.

Fixpoint requests_get (reqId : Z) (l : list (Z * WssBridgeRequest.t))
    : option WssBridgeRequest.t :=
  match l with
  | [] => None
  | (k, r) :: l' => if k =? reqId then Some r else requests_get reqId l'
  end.

(** [delete this._requests[reqId]] *)
Definition requests_delete (reqId : Z) (l : list (Z * WssBridgeRequest.t))
    : list (Z * WssBridgeRequest.t) :=
  List.filter (fun kr => negb (fst kr =? reqId)) l.

(** [request.callError(resp)] for the request filed under [reqId] *)
Definition callError (reqId : Z) (r : WssBridgeRequest.t) (resp : WssBridgeResponse.t)
    (b : t) : t :=
  match WssBridgeRequest.onerror r with
  | Some cb => emit (CallError reqId cb resp) b
  | None => b
  end.

(** [request.callSuccess(resp)] for the request filed under [reqId] *)
Definition callSuccess (reqId : Z) (r : WssBridgeRequest.t) (resp : WssBridgeResponse.t)
    (b : t) : t :=
  match WssBridgeRequest.onsuccess r with
  | Some cb => emit (CallSuccess reqId cb resp) b
  | None => b
  end.

Definition safeClose (code : Z) (reason : string) (b : t) : t :=
  match socket b with
  | Some _ => set_socket None (emit (SocketClose code reason) b)
  | None => b
  end.

Definition safeOpen (b : t) : t :=
  let b := safeClose (fst WssBridgePackData.CODE_RETRY)
             (snd WssBridgePackData.CODE_RETRY) b in
  if expired b then b
  else set_socket (Some CONNECTING) (emit (SocketNew (host b)) b).

Section Net.
Context `{Platform}.

Definition sendPackData (pack : WssBridgePackData.t) (i : input) (b : t) : t :=
  if expired b then b
  else if isConnected b then
    match WssBridgePackData.serialize pack (pwd b) (binary b) (rand_salt i) (rand_iv i) with
    | None | Some (WText "") =>
        if has_onerror b then emit (OnError "Serialize Error") b else b
    | Some data => emit (SocketSend data) b
    end
  else b.

(** [request(route, message, onsuccess, onerror)] *)
Definition request (route : string) (message : jsval)
    (onsuccess onerror : option callback) (i : input) (b : t) : t :=
  let reqId := reqIdInc b in
  let b := set_reqIdInc (reqId + 1) b in
  let b :=
    if present onsuccess || present onerror
    then set_requests (requests_set reqId (WssBridgeRequest.Build (clock i) onsuccess onerror) (requests b)) b
    else b in
  sendPackData (WssBridgePackData.Build (JStr route) (JNum reqId) message) i b.

(** The first loop of [onTimerTick]: every request older than the
    timeout gets [callError(504, 'Gateway Timeout')] and its reqId is
    pushed on [list].  Callbacks are events; they do not re-enter the
    bridge while the loop runs. *)
Fixpoint sweep (time timeout : Z) (l : list (Z * WssBridgeRequest.t)) (b : t)
    : t * list Z :=
  match l with
  | [] => (b, [])
  | (reqId, request) :: l' =>
      if time - WssBridgeRequest.time request >? timeout
      then
        let '(b', list) := sweep time timeout l' (callError reqId request WssBridgeResponse.GatewayTimeout b) in
        (b', reqId :: list)
      else sweep time timeout l' b
  end.

(** The second loop: [delete this._requests[list[i]]]. *)
Definition delete_all (list : list Z) (b : t) : t :=
  fold_left (fun b reqId => set_requests (requests_delete reqId (requests b)) b) list b.

(** The rest of [onTimerTick] after the sweep: the heartbeat when connected,
    the reconnection attempt when not, then the per-second callback. *)
Definition keepalive (hb : input) (b : t) : t :=
  let b :=
    if isConnected b then
      if mod_is_zero (timerInc b) (heartick b) then
        let reqId := reqIdInc b in
        let b := set_reqIdInc (reqId + 1) b in
        sendPackData
          (WssBridgePackData.Build (JStr WssBridgePackData.ROUTE_HEARTICK)
             (JNum reqId) (JNum (clock hb))) hb b
      else b
    else
      if mod_is_zero (timerInc b) (conntick b) && negb (paused b) then
        let b := set_retryCnt (retryCnt b + 1) b in
        let b := if has_onretry b then emit (OnRetry (retryCnt b)) b else b in
        safeOpen b
      else b in
  if has_onsecond b then emit (OnSecond (timerInc b) (netDelay b)) b else b.

(** [onTimerTick()]; [i] is read when the tick starts, [hb] when the
    heartbeat packet is built. *)
Definition onTimerTick (i hb : input) (b : t) : t :=
  let b := set_timerInc (timerInc b + 1) b in
  let time := clock i in
  let '(b, list) := sweep time (timeout b) (requests b) b in
  let b := delete_all list b in
  keepalive hb b.
End Net.

(** [connect(onopen, onclose, onerror, onretry, onsecond)]: the socket is
    opened and the timer started.  The callbacks that the modelled functions
    call are recorded by their presence. *)
Definition connect (onerror onretry onsecond : bool) (b : t) : t :=
  let b :=
    Build (host b) (pwd b) (binary b) (timeout b) (heartick b) (conntick b)
      (timer b) (timerInc b) (reqIdInc b) (netDelay b) (retryCnt b) (requests b)
      (socket b) (paused b) (expired b) onerror onretry onsecond (trace b) in
  let b := safeOpen b in
  set_timer_expired true (expired b) b.

Definition disconnect (b : t) : t :=
  let b := set_timer_expired false true b in
  safeClose (fst WssBridgePackData.CODE_CALL) (snd WssBridgePackData.CODE_CALL) b.

(** *** The constructor's address and the reconnection switch *)

(** The address as the constructor stores it: one that begins with [https:]
    or [http:] has that prefix replaced by [wss:] or [ws:]. *)
Definition ws_host (host : string) : string :=
  if String.prefix "https:" host
  then "wss:" +:+ String.substring 6 (String.length host - 6) host
  else if String.prefix "http:" host
  then "ws:" +:+ String.substring 5 (String.length host - 5) host
  else host.

(** [new WssBridge(host, pwd, binary, timeout, heartick, conntick)] *)
Definition constructor (host : string) (pwd : option string) (binary : bool)
    (timeout heartick conntick : Z) : t :=
  create (ws_host host) pwd binary timeout heartick conntick.

Definition set_netDelay (n : Z) (b : t) : t :=
  Build (host b) (pwd b) (binary b) (timeout b) (heartick b) (conntick b)
    (timer b) (timerInc b) (reqIdInc b) n (retryCnt b) (requests b)
    (socket b) (paused b) (expired b) (has_onerror b) (has_onretry b)
    (has_onsecond b) (trace b).

Definition set_paused (p : bool) (b : t) : t :=
  Build (host b) (pwd b) (binary b) (timeout b) (heartick b) (conntick b)
    (timer b) (timerInc b) (reqIdInc b) (netDelay b) (retryCnt b) (requests b)
    (socket b) p (expired b) (has_onerror b) (has_onretry b)
    (has_onsecond b) (trace b).

Definition pauseReconnect (b : t) : t := set_paused true b.
Definition resumeReconnect (b : t) : t := set_paused false b.
Definition getNetDelay (b : t) : Z := netDelay b.

(** *** The socket's events *)

(** The calls of the callbacks that are no request's: [onopen], [onclose]
    and a listener's [onmessage].  A function that makes such calls returns
    them, in the order in which it makes them; they come after the events
    that the same function adds to the trace. *)
Inductive notice : Type :=
  | OnOpen
  | OnClose (code : Z) (reason : string)
  | OnMessage (cb : callback) (message : jsval).

(** [v || d] for a string [v] that may be missing. *)
Definition or_string (v : option string) (d : string) : string :=
  match v with
  | Some s => if String.eqb s "" then d else s
  | None => d
  end.

(** [onSocketOpen(e)]; [onopen] tells whether [connect] was given one. *)
Definition onSocketOpen (onopen : bool) (b : t) : t * list notice :=
  (set_retryCnt 0 b, if onopen then [OnOpen] else []).

(** [onSocketClose(e)] with [e.code] and [e.reason] *)
Definition onSocketClose (onclose : bool) (code : option Z) (reason : option string)
    (b : t) : t * list notice :=
  if expired b then (b, [])
  else
    (safeClose (fst WssBridgePackData.CODE_CLOSE) (snd WssBridgePackData.CODE_CLOSE) b,
     if onclose then [OnClose (default 0 code) (or_string reason "Unknow Reason")] else []).

(** [onSocketError(e)] with [e.message] *)
Definition onSocketError (message : option string) (b : t) : t :=
  if expired b then b
  else
    let b := safeClose (fst WssBridgePackData.CODE_ERROR)
               (snd WssBridgePackData.CODE_ERROR) b in
    if has_onerror b then emit (OnError (or_string message "Unknow Error")) b else b.

(** *** Listeners *)

(** The table [_listeners].  A listener object is known by its address,
    which [fresh] hands out: [indexOf] compares objects, not their fields.
    The functions above never read the table, and [addListener],
    [removeListener] and [triggerEvent] touch nothing else. *)
Record table : Type := Table {
  listeners : gmap string (list (nat * WssBridgeListener.t));
  fresh : nat
}.

Definition no_listeners : table := Table ∅ 0.

(** The string under which a value indexes a dictionary. *)
Definition property_key (v : jsval) : string := prim_ToString (ToPrimitive v).

(** [addListener(route, once, onmessage)].  Where the table has no array
    under the route and the route names a member of [Object.prototype],
    [listeners] is that member, which is not [undefined]; [listeners.push]
    throws, and nothing is registered. *)
Definition addListener (route : string) (once : bool) (onmessage : handler)
    (T : table) : table :=
  let item := (fresh T, WssBridgeListener.Build once onmessage) in
  match listeners T !! route with
  | Some ls => Table (<[route := ls ++ [item]]> (listeners T)) (S (fresh T))
  | None =>
      if inherited route then T
      else Table (<[route := [item]]> (listeners T)) (S (fresh T))
  end.

(** [listeners.indexOf(item)] for the object at the address [a] *)
Fixpoint indexOf (a : nat) (l : list (nat * WssBridgeListener.t)) : option nat :=
  match l with
  | [] => None
  | (a', _) :: l' => if Nat.eqb a' a then Some 0%nat else S <$> indexOf a l'
  end.

(** [removeListener(route, onmessage)]: the listeners of the callback are
    collected in [list], then taken out of the array one by one, the last
    first, each where [indexOf] finds it.  With an inherited member for
    [listeners] the table stays as it is: the [delete] finds nothing, and the
    loop over the member runs no round or throws at its first item. *)
Definition removeListener (route : string) (onmessage : handler) (T : table) : table :=
  match listeners T !! route with
  | None => T
  | Some ls =>
      match onmessage with
      | HUndefined => Table (delete route (listeners T)) (fresh T)
      | _ =>
          let list :=
            List.filter
              (fun item => handler_eq (WssBridgeListener.onmessage (snd item)) onmessage)
              ls in
          let ls :=
            fold_left
              (fun ls item =>
                 match indexOf (fst item) ls with
                 | Some index => delete index ls
                 | None => ls
                 end)
              (rev list) ls in
          if (length ls =? 0)%nat
          then Table (delete route (listeners T)) (fresh T)
          else Table (<[route := ls]> (listeners T)) (fresh T)
      end
  end.

(** [item.callMessage(message)] *)
Definition callMessage (item : WssBridgeListener.t) (message : jsval) : list notice :=
  match WssBridgeListener.onmessage item with
  | HFun cb => [OnMessage cb message]
  | _ => []
  end.

(** [triggerEvent(pack)]: every listener of the route is called, in the
    order of the array, and then [removeListener] is called with the callback
    of each listener that is [once].  Callbacks do not re-enter the bridge
    while the loop runs.  With an inherited member for [listeners] nothing is
    called: the loop runs no round or throws at its first item. *)
Definition triggerEvent (pack : WssBridgePackData.t) (T : table) : table * list notice :=
  let route := property_key (WssBridgePackData.route pack) in
  match listeners T !! route with
  | None => (T, [])
  | Some ls =>
      let calls :=
        flat_map (fun item => callMessage (snd item) (WssBridgePackData.message pack)) ls in
      let oncelist := List.filter (fun item => WssBridgeListener.once (snd item)) ls in
      (fold_left
         (fun T item => removeListener route (WssBridgeListener.onmessage (snd item)) T)
         oncelist T,
       calls)
  end.

(** *** Incoming frames *)

(** [Date.now() - v].  The model's numbers are integers: [None] where the
    difference is not one ([undefined] gives NaN), or is the number that a
    text denotes (strings, arrays and objects), which the model does not
    evaluate. *)
Definition clock_minus (now : Z) (v : jsval) : option Z :=
  match v with
  | JNum n => Some (now - n)
  | JNull => Some now
  | JBool b => Some (now - (if b then 1 else 0))
  | _ => None
  end.

(** [this._requests[key]]: the keys of the dictionary are the decimal
    strings of the reqIds. *)
Definition requests_find (key : string) (l : list (Z * WssBridgeRequest.t))
    : option (Z * WssBridgeRequest.t) :=
  List.find (fun kr => String.eqb (pretty (fst kr)) key) l.

Section Read.
Context `{Platform}.

(** [readPackData(data)]: the bridge, the table and the listener calls
    afterwards; [None] only where the net delay becomes a number that is no
    integer: where [clock_minus] has no answer, and where the reqId of a
    response names a member of [Object.prototype], which is taken for the
    request and has no [time]. *)
Definition readPackData (data : wire) (i : input) (b : t) (T : table)
    : option (t * table * list notice) :=
  match WssBridgePackData.deserialize data (pwd b) with
  | None =>
      Some (if has_onerror b then emit (OnError "Deserialize Error") b else b, T, [])
  | Some pack =>
      if strict_eq_str (WssBridgePackData.route pack) WssBridgePackData.ROUTE_HEARTICK then
        match clock_minus (clock i) (WssBridgePackData.message pack) with
        | Some delay => Some (set_netDelay delay b, T, [])
        | None => None
        end
      else if strict_eq_str (WssBridgePackData.route pack) WssBridgePackData.ROUTE_RESPONSE then
        match requests_find (property_key (WssBridgePackData.reqId pack)) (requests b) with
        | None =>
            if inherited (property_key (WssBridgePackData.reqId pack)) then None
            else Some (b, T, [])
        | Some (reqId, request) =>
            let b := set_netDelay (clock i - WssBridgeRequest.time request) b in
            let message :=
              if truthy (WssBridgePackData.message pack)
              then WssBridgePackData.message pack else JObj [] in
            let resp :=
              WssBridgeResponse.Build (default JUndefined (prop message "code"))
                (default JUndefined (prop message "data")) in
            let b :=
              if WssBridgeResponse.ok resp
              then callSuccess reqId request resp b
              else callError reqId request resp b in
            Some (set_requests (requests_delete reqId (requests b)) b, T, [])
        end
      else
        let '(T, calls) := triggerEvent pack T in
        Some (b, T, calls)
  end.

(** [onSocketMessage(e)] with [e.data] *)
Definition onSocketMessage (data : wire) (i : input) (b : t) (T : table)
    : option (t * table * list notice) :=
  if expired b then Some (b, T, []) else readPackData data i b T.
End Read.

End WssBridge.

(** ** WssSession *)

Module WssSession.

Record t : Type := Build {
  id : Z;
  (** [_socket]: [null], or the socket with its [readyState] *)
  socket : option readyState;
  ip : string;
  (** [_uid]: [null] until bound *)
  uid : jsval;
  context : gmap string jsval;
  channel : gset string;
  reqIdList : list Z;
  lastHeart : Z
}.

Definition set_socket (s : option readyState) (x : t) : t :=
  Build (id x) s (ip x) (uid x) (context x) (channel x) (reqIdList x) (lastHeart x).

Definition set_uid (u : jsval) (x : t) : t :=
  Build (id x) (socket x) (ip x) u (context x) (channel x) (reqIdList x) (lastHeart x).

Definition set_channel (c : gset string) (x : t) : t :=
  Build (id x) (socket x) (ip x) (uid x) (context x) c (reqIdList x) (lastHeart x).

Definition set_reqIdList (l : list Z) (x : t) : t :=
  Build (id x) (socket x) (ip x) (uid x) (context x) (channel x) l (lastHeart x).

Definition set_lastHeart (h : Z) (x : t) : t :=
  Build (id x) (socket x) (ip x) (uid x) (context x) (channel x) (reqIdList x) h.

(** [new WssSession(socket, ip)] with [id] drawn from [_increment]. *)
Definition create (id : Z) (ip : string) (time : Z) : t :=
  Build id (Some OPEN) ip JNull ∅ ∅ [] time.

(** [send] hands the frame to the socket only when it is open. *)
Definition send (x : t) : bool := is_open (socket x).

(** [close(code, reason)]: whether the socket is closed by the call, and
    the session afterwards. *)
Definition close (x : t) : bool * t :=
  match socket x with
  | Some _ => (true, set_socket None x)
  | None => (false, x)
  end.

Definition bindUid (u : jsval) (x : t) : t := set_uid u x.
Definition unbindUid (x : t) : t := set_uid JNull x.

Definition setContext (key : string) (value : jsval) (x : t) : t :=
  Build (id x) (socket x) (ip x) (uid x) (<[key := value]> (context x)) (channel x)
    (reqIdList x) (lastHeart x).

Definition getContext (key : string) (x : t) : jsval :=
  default JUndefined (context x !! key).

Definition delContext (key : string) (x : t) : t :=
  Build (id x) (socket x) (ip x) (uid x) (delete key (context x)) (channel x)
    (reqIdList x) (lastHeart x).

(** [joinChannel(gid)] and [quitChannel(gid)], on the string of [gid]. *)
Definition joinChannel (gid : string) (x : t) : t :=
  set_channel ({[gid]} ∪ channel x) x.

Definition quitChannel (gid : string) (x : t) : t :=
  set_channel (channel x ∖ {[gid]}) x.

(** [this._reqIdList.splice(0, n)]: the count is clamped to the length and
    to zero. *)
Definition splice0 (n : Z) (l : list Z) : list Z := drop (Z.to_nat n) l.

(** [this._reqIdList.lastIndexOf(reqId) >= 0] *)
Definition seen (reqId : Z) (l : list Z) : bool :=
  existsb (Z.eqb reqId) l.

(** [updateReqId(reqId, cacheSize)] *)
Definition updateReqId (reqId cacheSize : Z) (x : t) : bool * t :=
  if seen reqId (reqIdList x) then (false, x)
  else
    let l := if Z.of_nat (length (reqIdList x)) >=? cacheSize
             then splice0 (cacheSize / 2) (reqIdList x)
             else reqIdList x in
    (true, set_reqIdList (l ++ [reqId]) x).

Definition updateHeart (time : Z) (x : t) : t := set_lastHeart time x.

Definition isBinded (x : t) : bool := truthy (uid x).

Definition isExpired (time timeout : Z) (x : t) : bool :=
  time >? lastHeart x + timeout.

End WssSession.

(** ** RouteCode *)

Module RouteCode.
Definition ROUTE_HEARTICK : string := "$heartick$".
Definition ROUTE_RESPONSE : string := "$response$".
Definition ROUTE_INNERP2P : string := "$innerP2P$".
Definition ROUTE_INNERGRP : string := "$innerGRP".
Definition ROUTE_INNERALL : string := "$innerALL$".
Definition ROUTE_INNERRMC : string := "$innerRMC$".

Definition CODE_PARSE : Z * string := (4001, "parse error").
Definition CODE_FORMAT : Z * string := (4002, "format error").
Definition CODE_REPEAT : Z * string := (4003, "repeat error").
Definition CODE_SIGN : Z * string := (4004, "sign error").
Definition CODE_REMOTE : Z * string := (4005, "remote error").
Definition CODE_ROUTE : Z * string := (4006, "route error").
Definition CODE_SOCKET : Z * string := (4007, "socket error").
Definition CODE_TIMEOUT : Z * string := (4008, "timeout error").
Definition CODE_NEWBIND : Z * string := (4009, "newbind error").

(** A route of the reserved form: it begins and ends with a dollar sign. *)
Definition dollar_delimited (route : string) : bool :=
  String.prefix "$" route && String.prefix "$" (String.rev route)
  && (2 <=? String.length route)%nat.

(** The route constants of the class, in the order of their declaration. *)
Definition routes : list string :=
  [ROUTE_HEARTICK; ROUTE_RESPONSE; ROUTE_INNERP2P; ROUTE_INNERGRP;
   ROUTE_INNERALL; ROUTE_INNERRMC].
End RouteCode.

(** ** WssServer *)

Module WssServer.

(** A reference to a session object: its address in the heap, which is the
    session's own [id]. *)
Abbreviation ref := Z.

Record WssServerConfig : Type := Config {
  pwd : option string;
  secret : option string;
  binary : bool;
  cycle : Z;
  timeout : Z;
  reqIdCache : Z
}.

(** The defaults of the constructor. *)
Definition default_config : WssServerConfig :=
  Config None None false (60 * 1000) (60 * 1000 * 3) 32.

Record GroupChannel : Type := Channel {
  count : Z;
  sessions : gmap Z ref
}.

Record ClusterNode : Type := Node {
  grp : string;
  url : string;
  rmc : WssBridge.t
}.

(** What leaves the server: socket operations, calls of the listeners the
    application registered, and log lines (level, first word, session). *)
Inductive event : Type :=
  | SocketSend (session : ref) (data : option wire) (binary : bool)
  | SocketClose (session : ref) (code : Z) (reason : string)
  | CallRouter (listener : callback) (session : ref) (pack : WssBridgePackData.t)
  | CallRemote (listener : callback) (session : ref) (pack : WssBridgePackData.t)
  | CallSessionClose (listener : callback) (session : ref) (code : Z) (reason : string)
  | Log (level what : string) (session : option ref).

Record t : Type := Build {
  config : WssServerConfig;
  routerMap : gmap string callback;
  remoteMap : gmap string callback;
  socketMap : gmap Z ref;
  sessionMap : gmap string ref;
  channelMap : gmap string GroupChannel;
  clusterMap : gmap string (list ClusterNode);
  sessionCloseListener : option callback;
  (** the session objects, and [WssSession._increment] *)
  heap : gmap ref WssSession.t;
  increment : Z;
  trace : list event
}.

Definition emit (e : event) (σ : t) : t :=
  Build (config σ) (routerMap σ) (remoteMap σ) (socketMap σ) (sessionMap σ)
    (channelMap σ) (clusterMap σ) (sessionCloseListener σ) (heap σ) (increment σ)
    (trace σ ++ [e]).

Definition set_heap (h : gmap ref WssSession.t) (σ : t) : t :=
  Build (config σ) (routerMap σ) (remoteMap σ) (socketMap σ) (sessionMap σ)
    (channelMap σ) (clusterMap σ) (sessionCloseListener σ) h (increment σ)
    (trace σ).

Definition set_socketMap (m : gmap Z ref) (σ : t) : t :=
  Build (config σ) (routerMap σ) (remoteMap σ) m (sessionMap σ)
    (channelMap σ) (clusterMap σ) (sessionCloseListener σ) (heap σ) (increment σ)
    (trace σ).

Definition set_sessionMap (m : gmap string ref) (σ : t) : t :=
  Build (config σ) (routerMap σ) (remoteMap σ) (socketMap σ) m
    (channelMap σ) (clusterMap σ) (sessionCloseListener σ) (heap σ) (increment σ)
    (trace σ).

Definition set_channelMap (m : gmap string GroupChannel) (σ : t) : t :=
  Build (config σ) (routerMap σ) (remoteMap σ) (socketMap σ) (sessionMap σ)
    m (clusterMap σ) (sessionCloseListener σ) (heap σ) (increment σ)
    (trace σ).

Definition set_clusterMap (m : gmap string (list ClusterNode)) (σ : t) : t :=
  Build (config σ) (routerMap σ) (remoteMap σ) (socketMap σ) (sessionMap σ)
    (channelMap σ) m (sessionCloseListener σ) (heap σ) (increment σ)
    (trace σ).

Definition set_increment (n : Z) (σ : t) : t :=
  Build (config σ) (routerMap σ) (remoteMap σ) (socketMap σ) (sessionMap σ)
    (channelMap σ) (clusterMap σ) (sessionCloseListener σ) (heap σ) n
    (trace σ).

(** [new WssServer(context, category, config)] *)
Definition create (config : WssServerConfig) : t :=
  Build config ∅ ∅ ∅ ∅ ∅ ∅ None ∅ 1 [].

Definition setRouter (route : string) (listener : callback) (σ : t) : t :=
  Build (config σ) (<[route := listener]> (routerMap σ)) (remoteMap σ)
    (socketMap σ) (sessionMap σ) (channelMap σ) (clusterMap σ)
    (sessionCloseListener σ) (heap σ) (increment σ) (trace σ).

(** [setListeners(serverCyclerListener, sessionCloseListener)]; the cycle
    listener belongs to the supervisor, which is not part of the model. *)
Definition setListeners (sessionCloseListener : option callback) (σ : t) : t :=
  Build (config σ) (routerMap σ) (remoteMap σ) (socketMap σ) (sessionMap σ)
    (channelMap σ) (clusterMap σ) sessionCloseListener (heap σ) (increment σ)
    (trace σ).

Definition setRemote (route : string) (listener : callback) (σ : t) : t :=
  Build (config σ) (routerMap σ) (<[route := listener]> (remoteMap σ))
    (socketMap σ) (sessionMap σ) (channelMap σ) (clusterMap σ)
    (sessionCloseListener σ) (heap σ) (increment σ) (trace σ).

(** *** Calls on a session object through its reference

    A reference the program holds is always allocated; where the heap has
    nothing at a reference the call is void. *)

(** [session.send(data, this._getSendOptions())] *)
Definition session_send (session : ref) (data : option wire) (σ : t) : t :=
  match heap σ !! session with
  | Some x =>
      if WssSession.send x
      then emit (SocketSend session data (binary (config σ))) σ
      else σ
  | None => σ
  end.

(** [session.close(code, reason)] *)
Definition session_close (session : ref) (cr : Z * string) (σ : t) : t :=
  match heap σ !! session with
  | Some x =>
      let '(closes, x') := WssSession.close x in
      if closes
      then set_heap (<[session := x']> (heap σ)) (emit (SocketClose session (fst cr) (snd cr)) σ)
      else σ
  | None => σ
  end.

Definition session_isBinded (session : ref) (σ : t) : bool :=
  from_option WssSession.isBinded false (heap σ !! session).

Definition session_update (f : WssSession.t -> WssSession.t) (session : ref) (σ : t) : t :=
  set_heap (alter f session (heap σ)) σ.

(** *** UID binding *)

(** [unbindUid(session)] *)
Definition unbindUid (session : ref) (σ : t) : t :=
  match heap σ !! session with
  | Some x =>
      if negb (WssSession.isBinded x) then σ
      else
        let σ := emit (Log "debug" "unbindUid:" (Some session)) σ in
        match toString (WssSession.uid x) with
        | Some key =>
            let σ := set_sessionMap (delete key (sessionMap σ)) σ in
            session_update WssSession.unbindUid session σ
        | None => σ
        end
  | None => σ
  end.

(** What [bindUid] does once [sessionold] is dealt with. *)
Definition rebind (session : ref) (uid : jsval) (key : string) (σ : t) : t :=
  let σ := unbindUid session σ in
  let σ := session_update (WssSession.bindUid uid) session σ in
  let σ := set_sessionMap (<[key := session]> (sessionMap σ)) σ in
  emit (Log "debug" "bindUid:" (Some session)) σ.

(** [bindUid(session, uid, closeold)]; [uid.toString()] throws on
    [undefined] and [null], before anything is changed.  Where the index has
    no entry under the key and the key names a member of [Object.prototype],
    [sessionold] is that member, and [unbindUid(sessionold)] throws at
    [sessionold.isBinded()], before anything is changed. *)
Definition bindUid (session : ref) (uid : jsval) (closeold : bool) (σ : t) : t :=
  match toString uid with
  | None => σ
  | Some key =>
      match sessionMap σ !! key with
      | Some sessionold =>
          let σ := unbindUid sessionold σ in
          let σ :=
            if closeold then session_close sessionold RouteCode.CODE_NEWBIND σ else σ in
          rebind session uid key σ
      | None =>
          if inherited key then σ else rebind session uid key σ
      end
  end.

(** [getSession(uid)]: what [this._sessionMap[uid.toString()]] gives;
    [None] where [uid.toString()] throws. *)
Definition getSession (uid : jsval) (σ : t) : option (slot ref) :=
  match toString uid with
  | Some key =>
      Some match sessionMap σ !! key with
           | Some session => Own session
           | None => if inherited key then Inherited else Missing
           end
  | None => None
  end.

(** *** Channels *)

(** [joinChannel(session, gid)] with [channel] at hand *)
Definition join (session : ref) (key : string) (channel : GroupChannel) (σ : t) : t :=
  let '(channel, σ) :=
    if negb (present (sessions channel !! session))
    then (Channel (count channel + 1) (<[session := session]> (sessions channel)),
          session_update (WssSession.joinChannel key) session σ)
    else (channel, σ) in
  let σ := set_channelMap (<[key := channel]> (channelMap σ)) σ in
  emit (Log "debug" "joinChannel:" (Some session)) σ.

(** [joinChannel(session, gid)].  Where the registry has no channel under
    the key and the key names a member of [Object.prototype], [channel] is
    that member instead of a new channel, and [channel.sessions[session.id]]
    throws, before anything is changed. *)
Definition joinChannel (session : ref) (gid : jsval) (σ : t) : t :=
  match toString gid with
  | None => σ
  | Some key =>
      match channelMap σ !! key with
      | Some channel => join session key channel σ
      | None => if inherited key then σ else join session key (Channel 0 ∅) σ
      end
  end.

(** [quitChannel(session, gid)] *)
Definition quitChannel (session : ref) (gid : jsval) (σ : t) : t :=
  match toString gid with
  | None => σ
  | Some key =>
      match channelMap σ !! key with
      | None => σ
      | Some channel =>
          let '(channel, σ) :=
            if present (sessions channel !! session)
            then (Channel (count channel - 1) (delete session (sessions channel)),
                  session_update (WssSession.quitChannel key) session σ)
            else (channel, σ) in
          let σ :=
            if count channel <=? 0
            then set_channelMap (delete key (channelMap σ)) σ
            else set_channelMap (<[key := channel]> (channelMap σ)) σ in
          emit (Log "debug" "quitChannel:" (Some session)) σ
      end
  end.

(** [deleteChannel(gid)].  With an inherited member for [channel], the
    loop over [channel.sessions], which is [undefined], runs no round, the
    [delete] finds nothing, and the log line is written. *)
Definition deleteChannel (gid : jsval) (σ : t) : t :=
  match toString gid with
  | None => σ
  | Some key =>
      match channelMap σ !! key with
      | None => if inherited key then emit (Log "debug" "deleteChannel:" None) σ else σ
      | Some channel =>
          let σ :=
            foldl (fun σ kv => session_update (WssSession.quitChannel key) (snd kv) σ)
              σ (map_to_list (sessions channel)) in
          let σ := set_channelMap (delete key (channelMap σ)) σ in
          emit (Log "debug" "deleteChannel:" None) σ
      end
  end.

(** *** Connections *)

(** [_onWebSocketConnection(socket, request)]; [ip] is the address that
    [getIPV4] resolves, [time] the clock when the session is made. *)
Definition _onWebSocketConnection (ip : string) (time : Z) (σ : t) : t :=
  let session := increment σ in
  let σ := set_increment (session + 1) σ in
  let σ := set_heap (<[session := WssSession.create session ip time]> (heap σ)) σ in
  let σ := set_socketMap (<[session := session]> (socketMap σ)) σ in
  emit (Log "info" "on websocket connection:" (Some session)) σ.

(** The listener of the socket's [close] event. *)
Definition _onWebSocketClose (session : ref) (code : Z) (reason : string) (σ : t) : t :=
  let σ := emit (Log "info" "on websocket close:" (Some session)) σ in
  let σ :=
    match sessionCloseListener σ with
    | Some listener => emit (CallSessionClose listener session code reason) σ
    | None => σ
    end in
  let gids := from_option (fun x => elements (WssSession.channel x)) [] (heap σ !! session) in
  let σ := foldl (fun σ gid => quitChannel session (JStr gid) σ) σ gids in
  let σ := unbindUid session σ in
  set_socketMap (delete session (socketMap σ)) σ.

(** The listener of the socket's [error] event. *)
Definition _onWebSocketError (session : ref) (error : string) (σ : t) : t :=
  let σ := emit (Log "error" "on websocket error:" (Some session)) σ in
  session_close session
    (fst RouteCode.CODE_SOCKET, snd RouteCode.CODE_SOCKET +:+ ": " +:+ error) σ.

Section Net.
Context `{Platform}.

Definition serialize (pack : WssBridgePackData.t) (i : input) (σ : t) : option wire :=
  WssBridgePackData.serialize pack (pwd (config σ)) (binary (config σ))
    (rand_salt i) (rand_iv i).

(** [response(session, reqPack, message)] *)
Definition response (session : ref) (reqPack : WssBridgePackData.t)
    (message : WssBridgeResponse.t) (i : input) (σ : t) : t :=
  let pack :=
    WssBridgePackData.Build (JStr RouteCode.ROUTE_RESPONSE)
      (WssBridgePackData.reqId reqPack)
      (JObj [("code", WssBridgeResponse.code message);
             ("data", WssBridgeResponse.data message)]) in
  let σ := session_send session (serialize pack i σ) σ in
  emit (Log "debug" "response:" (Some session)) σ.

(** [pushSession(uid, route, message)].  With an inherited member for
    [session], [session.send] throws, and nothing is changed. *)
Definition pushSession (uid route message : jsval) (i : input) (σ : t) : t :=
  match toString uid with
  | None => σ
  | Some key =>
      match sessionMap σ !! key with
      | None => σ
      | Some session =>
          let pack := WssBridgePackData.Build route JUndefined message in
          let σ := session_send session (serialize pack i σ) σ in
          emit (Log "debug" "pushSession:" (Some session)) σ
      end
  end.

(** [pushChannel(gid, route, message)]; the members are visited in the
    enumeration order of the map.  With an inherited member for [channel],
    the loop over [channel.sessions], which is [undefined], runs no round,
    and the log line is written. *)
Definition pushChannel (gid route message : jsval) (i : input) (σ : t) : t :=
  match toString gid with
  | None => σ
  | Some key =>
      match channelMap σ !! key with
      | None => if inherited key then emit (Log "debug" "pushChannel:" None) σ else σ
      | Some channel =>
          let pack := WssBridgePackData.Build route JUndefined message in
          let data := serialize pack i σ in
          let σ := foldl (fun σ kv => session_send (snd kv) data σ) σ
                     (map_to_list (sessions channel)) in
          emit (Log "debug" "pushChannel:" None) σ
      end
  end.

(** [broadcast(route, message)] *)
Definition broadcast (route message : jsval) (i : input) (σ : t) : t :=
  let pack := WssBridgePackData.Build route JUndefined message in
  let data := serialize pack i σ in
  let σ := foldl (fun σ kv => session_send (snd kv) data σ) σ
             (map_to_list (sessionMap σ)) in
  emit (Log "debug" "broadcast:" None) σ.

(** [_sendHeartick(session, reqPack)] *)
Definition _sendHeartick (session : ref) (reqPack : WssBridgePackData.t)
    (i : input) (σ : t) : t :=
  let pack :=
    WssBridgePackData.Build (JStr RouteCode.ROUTE_HEARTICK)
      (WssBridgePackData.reqId reqPack) (WssBridgePackData.message reqPack) in
  let σ := session_send session (serialize pack i σ) σ in
  emit (Log "trace" "_sendHeartick:" (Some session)) σ.

(** [this._config.secret] as an operand of [+]. *)
Definition secret_prim (σ : t) : prim :=
  match secret (config σ) with Some s => PStr s | None => PNull end.

(** [_generateInnerData(tid, route, message)]; [word] is the uuid. *)
Definition _generateInnerData (tid : jsval) (route : string) (message : jsval)
    (word : string) (σ : t) : jsval :=
  let sign := MD5 (prim_add (prim_add (PStr route) (PStr word)) (secret_prim σ)) in
  JObj ((if truthy tid then [("tid", tid)] else []) ++
        [("route", JStr route); ("message", message); ("word", JStr word);
         ("sign", JStr sign)]).

(** [_validateInnerData(data)]; reading a property of [undefined] or
    [null] throws ([None]). *)
Definition _validateInnerData (data : jsval) (σ : t) : option bool :=
  match prop data "route", prop data "word", prop data "sign" with
  | Some route, Some word, Some sign =>
      Some (strict_eq_str sign
              (MD5 (prim_add (prim_add (ToPrimitive route) (ToPrimitive word))
                      (secret_prim σ))))
  | _, _, _ => None
  end.

(** [cluster[index]] for a number [index]. *)
Definition cluster_at (cluster : list ClusterNode) (index : Z) : option ClusterNode :=
  if index <? 0 then None else cluster !! Z.to_nat index.

(** [handle.rmc.request(route, innerData)] on the node at [index]. *)
Definition node_request (index : nat) (route : string) (innerData : jsval) (i : input)
    (cluster : list ClusterNode) : list ClusterNode :=
  match cluster !! index with
  | Some handle =>
      <[index := Node (grp handle) (url handle)
                   (WssBridge.request route innerData None None i (rmc handle))]> cluster
  | None => cluster
  end.

(** [pushClusterChannel(appName, gid, route, message, dispatchCallback)];
    [ins k] is what the request to the node at index [k] reads.  A missing
    group, or an index outside the group, throws before anything is
    sent. *)
Definition pushClusterChannel (appName : string) (gid : jsval) (route : string)
    (message : jsval) (word : string)
    (dispatchCallback : option (list ClusterNode -> jsval -> jsval -> Z))
    (ins : nat -> input) (σ : t) : t :=
  match clusterMap σ !! appName with
  | None => σ
  | Some cluster =>
      let innerData := _generateInnerData gid route message word σ in
      match dispatchCallback with
      | Some f =>
          let index := f cluster gid innerData in
          match cluster_at cluster index with
          | None => σ
          | Some _ =>
              let k := Z.to_nat index in
              let cluster := node_request k RouteCode.ROUTE_INNERGRP innerData (ins k)
                               cluster in
              emit (Log "debug" "pushClusterChannel:" None)
                (set_clusterMap (<[appName := cluster]> (clusterMap σ)) σ)
          end
      | None =>
          foldl (fun σ k =>
                   let cluster := default [] (clusterMap σ !! appName) in
                   let cluster := node_request k RouteCode.ROUTE_INNERGRP innerData (ins k)
                                    cluster in
                   emit (Log "debug" "pushClusterChannel:" None)
                     (set_clusterMap (<[appName := cluster]> (clusterMap σ)) σ))
            σ (seq 0 (length cluster))
      end
  end.

(** [data.k] where [data] is known to be neither [undefined] nor [null]. *)
Definition field (data : jsval) (k : string) : jsval :=
  default JUndefined (prop data k).

(** The string under which a value indexes a dictionary. *)
Definition property_key (v : jsval) : string := prim_ToString (ToPrimitive v).

(** The error exits of [_onWebSocketMessage]: a log line, then the close. *)
Definition reject (session : ref) (cr : Z * string) (σ : t) : t :=
  session_close session cr (emit (Log "error" "_onWebSocketMessage:" (Some session)) σ).

(** The route dispatch of [_onWebSocketMessage], for a packet that passed
    the format check and the reqId check.  Where [_routerMap] or [_remoteMap]
    has no listener of its own under the route and the route names a member
    of [Object.prototype], that member is taken for the listener: the debug
    line is written and the member is called as a method of the map, which
    returns or throws and changes nothing; no listener of the application is
    called and the session is not closed. *)
Definition dispatch (session : ref) (pack : WssBridgePackData.t) (route : string)
    (i : input) (σ : t) : t :=
  let message := WssBridgePackData.message pack in
  if String.eqb route RouteCode.ROUTE_HEARTICK then
    let σ := emit (Log "trace" "_onWebSocketMessage:" (Some session)) σ in
    let σ := session_update (WssSession.updateHeart (clock i)) session σ in
    _sendHeartick session pack i σ
  else if String.eqb route RouteCode.ROUTE_INNERP2P then
    match _validateInnerData message σ with
    | Some true =>
        let σ := emit (Log "debug" "_onWebSocketMessage:" (Some session)) σ in
        pushSession (field message "tid") (field message "route") (field message "message") i σ
    | Some false => reject session RouteCode.CODE_SIGN σ
    | None => σ
    end
  else if String.eqb route RouteCode.ROUTE_INNERGRP then
    match _validateInnerData message σ with
    | Some true =>
        let σ := emit (Log "debug" "_onWebSocketMessage:" (Some session)) σ in
        pushChannel (field message "tid") (field message "route") (field message "message") i σ
    | Some false => reject session RouteCode.CODE_SIGN σ
    | None => σ
    end
  else if String.eqb route RouteCode.ROUTE_INNERALL then
    match _validateInnerData message σ with
    | Some true =>
        let σ := emit (Log "debug" "_onWebSocketMessage:" (Some session)) σ in
        broadcast (field message "route") (field message "message") i σ
    | Some false => reject session RouteCode.CODE_SIGN σ
    | None => σ
    end
  else if String.eqb route RouteCode.ROUTE_INNERRMC then
    match _validateInnerData message σ with
    | Some true =>
        match remoteMap σ !! property_key (field message "route") with
        | Some listener =>
            let σ := emit (Log "debug" "_onWebSocketMessage:" (Some session)) σ in
            emit (CallRemote listener session
                    (WssBridgePackData.Build (field message "route")
                       (WssBridgePackData.reqId pack) (field message "message"))) σ
        | None =>
            if inherited (property_key (field message "route"))
            then emit (Log "debug" "_onWebSocketMessage:" (Some session)) σ
            else reject session RouteCode.CODE_REMOTE σ
        end
    | Some false => reject session RouteCode.CODE_SIGN σ
    | None => σ
    end
  else
    match routerMap σ !! route with
    | Some listener =>
        let σ := emit (Log "debug" "_onWebSocketMessage:" (Some session)) σ in
        emit (CallRouter listener session pack) σ
    | None =>
        if inherited route
        then emit (Log "debug" "_onWebSocketMessage:" (Some session)) σ
        else reject session RouteCode.CODE_ROUTE σ
    end.

(** [_onWebSocketMessage(session, data)] *)
Definition _onWebSocketMessage (session : ref) (data : wire) (i : input) (σ : t) : t :=
  match WssBridgePackData.deserialize data (pwd (config σ)) with
  | None => reject session RouteCode.CODE_PARSE σ
  | Some pack =>
      if negb (typeof_string (WssBridgePackData.route pack))
         || negb (typeof_number (WssBridgePackData.reqId pack))
         || is_nullish (WssBridgePackData.message pack)
      then reject session RouteCode.CODE_FORMAT σ
      else
        match WssBridgePackData.route pack, WssBridgePackData.reqId pack,
              heap σ !! session with
        | JStr route, JNum reqId, Some x =>
            let '(fresh, x) := WssSession.updateReqId reqId (reqIdCache (config σ)) x in
            let σ := set_heap (<[session := x]> (heap σ)) σ in
            if negb fresh then reject session RouteCode.CODE_REPEAT σ
            else dispatch session pack route i σ
        | _, _, _ => σ
        end
  end.

(** *** Further pushes *)

(** The loop of [pushSessionBatch]; it stops where [uids[i].toString()]
    throws, and where [session] is an inherited member, whose [send] is no
    function; it tells whether it came to its end. *)
Fixpoint pushSessionBatch_loop (uids : list jsval) (data : option wire) (σ : t) : t * bool :=
  match uids with
  | [] => (σ, true)
  | uid :: uids =>
      match toString uid with
      | None => (σ, false)
      | Some key =>
          match sessionMap σ !! key with
          | Some session => pushSessionBatch_loop uids data (session_send session data σ)
          | None =>
              if inherited key then (σ, false) else pushSessionBatch_loop uids data σ
          end
      end
  end.

(** [pushSessionBatch(uids, route, message)] *)
Definition pushSessionBatch (uids : list jsval) (route message : jsval) (i : input)
    (σ : t) : t :=
  let pack := WssBridgePackData.Build route JUndefined message in
  let data := serialize pack i σ in
  let '(σ, finished) := pushSessionBatch_loop uids data σ in
  if finished then emit (Log "debug" "pushSessionBatch:" None) σ else σ.

(** [pushChannelCustom(gid, route, message, customCallback)]; [ins r] is
    what the codec reads for the member [r]. *)
Definition pushChannelCustom (gid route message : jsval)
    (customCallback : jsval -> jsval -> jsval) (ins : ref -> input) (σ : t) : t :=
  match toString gid with
  | None => σ
  | Some key =>
      match channelMap σ !! key with
      | None => σ
      | Some channel =>
          foldl (fun σ kv =>
                   let session := snd kv in
                   match heap σ !! session with
                   | Some x =>
                       let pack :=
                         WssBridgePackData.Build route JUndefined
                           (customCallback (WssSession.uid x) message) in
                       let σ := session_send session (serialize pack (ins session) σ) σ in
                       emit (Log "debug" "pushChannelCustom:" (Some session)) σ
                   | None => σ
                   end)
            σ (map_to_list (sessions channel))
      end
  end.

(** *** Further calls on the cluster *)

(** The body that [pushClusterSession] and [clusterBroadcast] share with
    [pushClusterChannel]: [inner] is the reserved route of the request,
    [what] the first word of the log line. *)
Definition cluster_push (inner what : string) (appName : string) (tid : jsval)
    (route : string) (message : jsval) (word : string)
    (dispatchCallback : option (list ClusterNode -> jsval -> jsval -> Z))
    (ins : nat -> input) (σ : t) : t :=
  match clusterMap σ !! appName with
  | None => σ
  | Some cluster =>
      let innerData := _generateInnerData tid route message word σ in
      match dispatchCallback with
      | Some f =>
          let index := f cluster tid innerData in
          match cluster_at cluster index with
          | None => σ
          | Some _ =>
              let k := Z.to_nat index in
              let cluster := node_request k inner innerData (ins k) cluster in
              emit (Log "debug" what None)
                (set_clusterMap (<[appName := cluster]> (clusterMap σ)) σ)
          end
      | None =>
          foldl (fun σ k =>
                   let cluster := default [] (clusterMap σ !! appName) in
                   let cluster := node_request k inner innerData (ins k) cluster in
                   emit (Log "debug" what None)
                     (set_clusterMap (<[appName := cluster]> (clusterMap σ)) σ))
            σ (seq 0 (length cluster))
      end
  end.

(** [pushClusterSession(appName, uid, route, message, dispatchCallback)] *)
Definition pushClusterSession (appName : string) (uid : jsval) (route : string)
    (message : jsval) (word : string)
    (dispatchCallback : option (list ClusterNode -> jsval -> jsval -> Z))
    (ins : nat -> input) (σ : t) : t :=
  cluster_push RouteCode.ROUTE_INNERP2P "pushClusterSession:" appName uid route message
    word dispatchCallback ins σ.

(** [clusterBroadcast(appName, route, message, dispatchCallback)] *)
Definition clusterBroadcast (appName : string) (route : string) (message : jsval)
    (word : string)
    (dispatchCallback : option (list ClusterNode -> jsval -> jsval -> Z))
    (ins : nat -> input) (σ : t) : t :=
  cluster_push RouteCode.ROUTE_INNERALL "clusterBroadcast:" appName JNull route message
    word dispatchCallback ins σ.

(** The body that [callRemote] and [callRemoteForResult] share: one node is
    picked, by [dispatchCallback] or at random, and sent the request.
    [rand] is [Math.floor(Math.random() * cluster.length)].  A missing group
    and an index outside the group throw before anything is sent. *)
Definition remote_call (what : string) (onsuccess onerror : option callback)
    (appName : string) (route : string) (message : jsval) (word : string)
    (dispatchCallback : option (list ClusterNode -> jsval -> jsval -> Z))
    (rand : Z) (i : input) (σ : t) : t :=
  match clusterMap σ !! appName with
  | None => σ
  | Some cluster =>
      let innerData := _generateInnerData JNull route message word σ in
      let index :=
        match dispatchCallback with
        | Some f => f cluster JNull innerData
        | None => Z.min rand (Z.of_nat (length cluster) - 1)
        end in
      match cluster_at cluster index with
      | None => σ
      | Some handle =>
          let σ := emit (Log "debug" what None) σ in
          let handle :=
            Node (grp handle) (url handle)
              (WssBridge.request RouteCode.ROUTE_INNERRMC innerData onsuccess onerror i
                 (rmc handle)) in
          set_clusterMap (<[appName := <[Z.to_nat index := handle]> cluster]> (clusterMap σ)) σ
      end
  end.

(** [callRemote(appName, route, message, dispatchCallback)] *)
Definition callRemote (appName : string) (route : string) (message : jsval)
    (word : string)
    (dispatchCallback : option (list ClusterNode -> jsval -> jsval -> Z))
    (rand : Z) (i : input) (σ : t) : t :=
  remote_call "callRemote:" None None appName route message word dispatchCallback rand i σ.

(** [callRemoteForResult(appName, route, message, dispatchCallback)];
    [resolve] is the function that settles the promise: it is the success
    callback and the error callback of the request. *)
Definition callRemoteForResult (appName : string) (route : string) (message : jsval)
    (word : string)
    (dispatchCallback : option (list ClusterNode -> jsval -> jsval -> Z))
    (resolve : callback) (rand : Z) (i : input) (σ : t) : t :=
  remote_call "callRemoteForResult:" (Some resolve) (Some resolve) appName route message
    word dispatchCallback rand i σ.
End Net.

(** *** The cluster's making, the server's start and close, the life cycle *)

(** An entry of [context.nodes]. *)
Record address : Type := Address {
  host : jsval;
  inip : jsval;
  port : jsval;
  ssls : jsval
}.

(** [(ssls ? 'wss://' : 'ws://') + (inip || host) + ':' + port] *)
Definition node_url (a : address) : string :=
  prim_ToString
    (prim_add
       (prim_add
          (prim_add (PStr (if truthy (ssls a) then "wss://" else "ws://"))
             (ToPrimitive (if truthy (inip a) then inip a else host a)))
          (PStr ":"))
       (ToPrimitive (port a))).

(** [initClusters()]; [links] and [nodes] are those of the context.  A link
    that has no entry in [nodes] throws, and the groups made before it
    stay.  A link that names a member of [Object.prototype] finds that
    member: with a [length] of 0 or [undefined] it makes an empty group,
    which is not registered, and otherwise [address[0].ssls] throws. *)
Fixpoint initClusters (links : list string) (nodes : gmap string (list address))
    (σ : t) : t :=
  match links with
  | [] => σ
  | appName :: links =>
      match nodes !! appName with
      | None => if inherited_empty appName then initClusters links nodes σ else σ
      | Some addresses =>
          let heartick := cycle (config σ) / 1000 in
          let cluster :=
            map (fun a =>
                   Node appName (node_url a)
                     (WssBridge.constructor (node_url a) (pwd (config σ))
                        (binary (config σ)) 8000 heartick 2))
              addresses in
          let σ :=
            if (0 <? length cluster)%nat
            then set_clusterMap (<[appName := cluster]> (clusterMap σ)) σ
            else σ in
          initClusters links nodes σ
      end
  end.

(** [_connectForCluster(node)]: the bridge is connected with an [onopen],
    an [onclose], an [onerror] and an [onretry], and without [onsecond]. *)
Definition _connectForCluster (node : ClusterNode) : ClusterNode :=
  Node (grp node) (url node) (WssBridge.connect true true false (rmc node)).

(** [start()]: the error it throws, or the server with the bridges of the
    cluster connected.  The listening socket and the timer of the life cycle
    belong to the environment. *)
Definition start (σ : t) : string + t :=
  if cycle (config σ) <? 10000 then inl "cycle >= 10,000ms"
  else if timeout (config σ) <? 30000 then inl "timeout >= 30,000ms"
  else if cycle (config σ) * 3 >? timeout (config σ) then inl "timeout >= cycle * 3"
  else inr (set_clusterMap (map _connectForCluster <$> clusterMap σ) σ).

(** [close()] *)
Definition close (σ : t) : t :=
  set_clusterMap
    (map (fun node => Node (grp node) (url node) (WssBridge.disconnect (rmc node)))
       <$> clusterMap σ) σ.

(** [_onServerLifeCycle()]: the state after the loop and the log line, and
    the two totals, which are stored in [_totalSocket] and [_totalSession]
    and handed to the cycle listener.  [now r] is the clock when the session
    [r] is examined. *)
Definition _onServerLifeCycle (now : ref -> Z) (σ : t) : t * (Z * Z) :=
  let '(σ, totals) :=
    foldl (fun '(σ, (totalSocket, totalSession)) kv =>
             let session := snd kv in
             match heap σ !! session with
             | Some x =>
                 if WssSession.isExpired (now session) (timeout (config σ)) x
                 then (session_close session RouteCode.CODE_TIMEOUT σ,
                       (totalSocket, totalSession))
                 else (σ, (totalSocket + 1,
                           totalSession + (if WssSession.isBinded x then 1 else 0)))
             | None => (σ, (totalSocket, totalSession))
             end)
      (σ, (0, 0)) (map_to_list (socketMap σ)) in
  (emit (Log "info" "_onServerLifeCycle:" None) σ, totals).

End WssServer.

(** ** A reference platform

    An executable instance of [Platform], on which the model can be run:
    compact JSON text over integers, strings, arrays and objects, Base64, and
    stand-ins for the digests and the cipher.  Every property below is
    proved for an arbitrary platform; this one supplies concrete runs. *)

Module Ref.

Definition code (c : ascii) : Z := Z.of_N (N_of_ascii c).
Definition char (z : Z) : ascii := ascii_of_N (Z.to_N (z mod 256)).
Definition quote : ascii := char 34.
Definition backslash : ascii := char 92.
Definition str1 (c : ascii) : string := String c "".

Definition hex_digit (z : Z) : ascii :=
  if z <? 10 then char (48 + z) else char (87 + z).

Definition escape_char (c : ascii) : string :=
  let n := code c in
  if n =? 34 then String backslash (str1 quote)
  else if n =? 92 then String backslash (str1 backslash)
  else if n =? 8 then String backslash "b"
  else if n =? 9 then String backslash "t"
  else if n =? 10 then String backslash "n"
  else if n =? 12 then String backslash "f"
  else if n =? 13 then String backslash "r"
  else if n <? 32 then
    String backslash ("u00" +:+ String (hex_digit (n / 16)) (str1 (hex_digit (n mod 16))))
  else str1 c.

Fixpoint escape (s : string) : string :=
  match s with
  | EmptyString => ""
  | String c s' => escape_char c +:+ escape s'
  end.

Definition quoted (s : string) : string :=
  String quote (escape s +:+ str1 quote).

Fixpoint print (v : jsval) : string :=
  match v with
  | JUndefined | JNull => "null"
  | JBool b => if b then "true" else "false"
  | JNum n => pretty n
  | JStr s => quoted s
  | JArr l => "[" +:+ join_comma (map print l) +:+ "]"
  | JObj l =>
      let fix members (l : list (string * jsval)) : list string :=
        match l with
        | [] => []
        | (k, JUndefined) :: l' => members l'
        | (k, v) :: l' => (quoted k +:+ ":" +:+ print v) :: members l'
        end in
      "{" +:+ join_comma (members l) +:+ "}"
  end.

Definition JSON_stringify (v : jsval) : option string :=
  match v with
  | JUndefined => None
  | _ => Some (print v)
  end.


Definition is_ws (c : ascii) : bool :=
  let n := code c in (n =? 32) || (n =? 9) || (n =? 10) || (n =? 13).

Fixpoint skip_ws (s : string) : string :=
  match s with
  | String c s' => if is_ws c then skip_ws s' else s
  | EmptyString => s
  end.

Definition digit (c : ascii) : option Z :=
  let n := code c in if (48 <=? n) && (n <=? 57) then Some (n - 48) else None.

Definition hex_value (c : ascii) : option Z :=
  let n := code c in
  if (48 <=? n) && (n <=? 57) then Some (n - 48)
  else if (97 <=? n) && (n <=? 102) then Some (n - 87)
  else if (65 <=? n) && (n <=? 70) then Some (n - 55)
  else None.

Fixpoint parse_digits (acc : Z) (s : string) : Z * string :=
  match s with
  | String c s' =>
      match digit c with
      | Some d => parse_digits (10 * acc + d) s'
      | None => (acc, s)
      end
  | EmptyString => (acc, s)
  end.

(** An integer literal: no leading zeros, no fraction, no exponent. *)
Definition parse_nat (s : string) : option (Z * string) :=
  match s with
  | String c s' =>
      match digit c with
      | Some 0 => Some (0, s')
      | Some d => Some (parse_digits d s')
      | None => None
      end
  | EmptyString => None
  end.

Definition parse_number (s : string) : option (Z * string) :=
  match s with
  | String c s' =>
      if code c =? 45
      then match parse_nat s' with Some (n, r) => Some (- n, r) | None => None end
      else parse_nat s
  | EmptyString => None
  end.

(** The characters of a string literal after its opening quote. *)
Fixpoint parse_chars (s : string) : option (string * string) :=
  match s with
  | EmptyString => None
  | String c s' =>
      let n := code c in
      if n =? 34 then Some ("", s')
      else if n <? 32 then None
      else if n =? 92 then
        match s' with
        | String e s'' =>
            let m := code e in
            let plain (x : Z) :=
              match parse_chars s'' with
              | Some (t, r) => Some (String (char x) t, r)
              | None => None
              end in
            if m =? 34 then plain 34
            else if m =? 92 then plain 92
            else if m =? 47 then plain 47
            else if m =? 98 then plain 8
            else if m =? 116 then plain 9
            else if m =? 110 then plain 10
            else if m =? 102 then plain 12
            else if m =? 114 then plain 13
            else if m =? 117 then
              match s'' with
              | String h1 (String h2 (String h3 (String h4 s3))) =>
                  match hex_value h1, hex_value h2, hex_value h3, hex_value h4 with
                  | Some 0, Some 0, Some a, Some b =>
                      if a <? 8 then
                        match parse_chars s3 with
                        | Some (t, r) => Some (String (char (16 * a + b)) t, r)
                        | None => None
                        end
                      else None
                  | _, _, _, _ => None
                  end
              | _ => None
              end
            else None
        | EmptyString => None
        end
      else
        match parse_chars s' with
        | Some (t, r) => Some (String c t, r)
        | None => None
        end
  end.

Definition expect (word : string) (v : jsval) (s : string) : option (jsval * string) :=
  if String.prefix word s
  then Some (v, String.substring (String.length word) (String.length s - String.length word) s)
  else None.

(** A value, the elements of an array after its bracket, and the members of
    an object after its brace; [fuel] bounds the number of calls. *)
Fixpoint parse_value (fuel : nat) (s : string) : option (jsval * string) :=
  match fuel with
  | O => None
  | S fuel =>
      match skip_ws s with
      | EmptyString => None
      | String c s' =>
          let n := code c in
          if n =? 110 then expect "null" JNull (String c s')
          else if n =? 116 then expect "true" (JBool true) (String c s')
          else if n =? 102 then expect "false" (JBool false) (String c s')
          else if n =? 34 then
            match parse_chars s' with
            | Some (t, r) => Some (JStr t, r)
            | None => None
            end
          else if n =? 91 then
            match skip_ws s' with
            | String c' r =>
                if code c' =? 93 then Some (JArr [], r) else parse_elements fuel [] s'
            | EmptyString => None
            end
          else if n =? 123 then
            match skip_ws s' with
            | String c' r =>
                if code c' =? 125 then Some (JObj [], r) else parse_members fuel [] s'
            | EmptyString => None
            end
          else
            match parse_number (String c s') with
            | Some (z, r) => Some (JNum z, r)
            | None => None
            end
      end
  end
with parse_elements (fuel : nat) (acc : list jsval) (s : string) : option (jsval * string) :=
  match fuel with
  | O => None
  | S fuel =>
      match parse_value fuel s with
      | Some (v, r) =>
          match skip_ws r with
          | String c r' =>
              if code c =? 44 then parse_elements fuel (acc ++ [v]) r'
              else if code c =? 93 then Some (JArr (acc ++ [v]), r')
              else None
          | EmptyString => None
          end
      | None => None
      end
  end
with parse_members (fuel : nat) (acc : list (string * jsval)) (s : string)
    : option (jsval * string) :=
  match fuel with
  | O => None
  | S fuel =>
      match skip_ws s with
      | String q s' =>
          if code q =? 34 then
            match parse_chars s' with
            | Some (k, r) =>
                match skip_ws r with
                | String colon r' =>
                    if code colon =? 58 then
                      match parse_value fuel r' with
                      | Some (v, r'') =>
                          match skip_ws r'' with
                          | String c r3 =>
                              if code c =? 44 then parse_members fuel (obj_set k v acc) r3
                              else if code c =? 125 then Some (JObj (obj_set k v acc), r3)
                              else None
                          | EmptyString => None
                          end
                      | None => None
                      end
                    else None
                | EmptyString => None
                end
            | None => None
            end
          else None
      | EmptyString => None
      end
  end.

Definition JSON_parse (s : string) : option jsval :=
  match parse_value (S (String.length s)) s with
  | Some (v, r) =>
      match skip_ws r with
      | EmptyString => Some v
      | _ => None
      end
  | None => None
  end.


(** The bytes of a word array, most significant byte first, and back. *)
Definition bytes_of_word (w : Z) : list Z :=
  [Z.land (Z.shiftr w 24) 255; Z.land (Z.shiftr w 16) 255;
   Z.land (Z.shiftr w 8) 255; Z.land w 255].

Definition bytes_of_words (ws : list Z) : list Z := flat_map bytes_of_word ws.

Fixpoint words_of_bytes (bs : list Z) : list Z :=
  match bs with
  | [] => []
  | [a] => [to_int32 (Z.shiftl a 24)]
  | [a; b] => [to_int32 (Z.shiftl a 24 + Z.shiftl b 16)]
  | [a; b; c] => [to_int32 (Z.shiftl a 24 + Z.shiftl b 16 + Z.shiftl c 8)]
  | a :: b :: c :: d :: bs' =>
      to_int32 (Z.shiftl a 24 + Z.shiftl b 16 + Z.shiftl c 8 + d) :: words_of_bytes bs'
  end.

Definition bytes_of_string (s : string) : list Z := map code (String.list_ascii_of_string s).
Definition string_of_bytes (bs : list Z) : string := String.string_of_list_ascii (map char bs).

(** Base64 over the standard alphabet, with [=] padding. *)
Definition alphabet : string :=
  "ABCDEFGHIJKLMNOPQRSTUVWXYZabcdefghijklmnopqrstuvwxyz0123456789+/".

Definition b64_char (n : Z) : ascii :=
  default (char 61) (String.get (Z.to_nat n) alphabet).

Definition b64_value (c : ascii) : option Z :=
  let n := code c in
  if (65 <=? n) && (n <=? 90) then Some (n - 65)
  else if (97 <=? n) && (n <=? 122) then Some (n - 71)
  else if (48 <=? n) && (n <=? 57) then Some (n + 4)
  else if n =? 43 then Some 62
  else if n =? 47 then Some 63
  else None.

Fixpoint b64_encode (bs : list Z) : string :=
  match bs with
  | [] => ""
  | [a] =>
      String (b64_char (a / 4)) (String (b64_char (a mod 4 * 16)) "==")
  | [a; b] =>
      String (b64_char (a / 4)) (String (b64_char (a mod 4 * 16 + b / 16))
        (String (b64_char (b mod 16 * 4)) "="))
  | a :: b :: c :: bs' =>
      String (b64_char (a / 4)) (String (b64_char (a mod 4 * 16 + b / 16))
        (String (b64_char (b mod 16 * 4 + c / 64)) (String (b64_char (c mod 64))
          (b64_encode bs'))))
  end.

(** Decoding stops at the first character outside the alphabet. *)
Fixpoint b64_values (s : string) : list Z :=
  match s with
  | EmptyString => []
  | String c s' =>
      match b64_value c with
      | Some v => v :: b64_values s'
      | None => []
      end
  end.

Fixpoint b64_bytes (vs : list Z) : list Z :=
  match vs with
  | a :: b :: c :: d :: vs' =>
      (a * 4 + b / 16) :: (b mod 16 * 16 + c / 4) :: (c mod 4 * 64 + d) :: b64_bytes vs'
  | [a; b; c] => [a * 4 + b / 16; b mod 16 * 16 + c / 4]
  | [a; b] => [a * 4 + b / 16]
  | _ => []
  end.

Definition Base64_stringify (ws : list Z) : string := b64_encode (bytes_of_words ws).
Definition Base64_parse (s : string) : list Z := words_of_bytes (b64_bytes (b64_values s)).

(** Stand-ins for the digests and the cipher.  They have the interface of
    the crypto-js functions and just enough of their algebra: the digest is a
    function of its arguments, the cipher is undone by the same key and iv,
    and decryption fails on bytes that are not text. *)

Definition mix (seed : Z) (xs : list Z) : Z :=
  fold_left (fun h x => to_int32 (h * 16777619 + x + 40503)) xs seed.

Definition HmacSHA256 (salt : list Z) (pwd : string) : list Z :=
  map (fun j => mix (mix (2166136261 + j) (bytes_of_string pwd)) salt) [0; 1; 2; 3; 4; 5; 6; 7].

Definition pad_pkcs7 (bs : list Z) : list Z :=
  let n := 16 - Z.of_nat (length bs) mod 16 in
  bs ++ replicate (Z.to_nat n) n.

Definition unpad_pkcs7 (bs : list Z) : list Z :=
  let n := default 0 (last bs) in
  take (length bs - Z.to_nat n) bs.

Definition xor_block (a b : list Z) : list Z := zip_with Z.lxor a b.

(** Cipher block chaining over blocks of four words; a block is enciphered
    by adding the key to it bitwise. *)
Fixpoint cbc_encrypt (key prev : list Z) (ws : list Z) : list Z :=
  match ws with
  | a :: b :: c :: d :: ws' =>
      let block := xor_block (xor_block [a; b; c; d] prev) (take 4 key) in
      block ++ cbc_encrypt key block ws'
  | _ => []
  end.

Fixpoint cbc_decrypt (key prev : list Z) (ws : list Z) : list Z :=
  match ws with
  | a :: b :: c :: d :: ws' =>
      xor_block (xor_block [a; b; c; d] (take 4 key)) prev
        ++ cbc_decrypt key [a; b; c; d] ws'
  | _ => []
  end.

Definition AES_encrypt (str : string) (key iv : list Z) : list Z :=
  cbc_encrypt key iv (words_of_bytes (pad_pkcs7 (bytes_of_string str))).

Definition AES_decrypt (body key iv : list Z) : option string :=
  let bs := unpad_pkcs7 (bytes_of_words (cbc_decrypt key iv body)) in
  if forallb (fun b => b <? 128) bs then Some (string_of_bytes bs) else None.

Definition hex8 (w : Z) : string :=
  String.string_of_list_ascii
    (map (fun k => hex_digit (Z.land (Z.shiftr w (4 * k)) 15)) [7; 6; 5; 4; 3; 2; 1; 0]).

(** [MD5] of whatever the argument prints as, as 32 hexadecimal digits. *)
Definition MD5 (data : prim) : string :=
  let bs := bytes_of_string (prim_ToString data) in
  hex8 (mix 1 bs) +:+ hex8 (mix 2 bs) +:+ hex8 (mix 3 bs) +:+ hex8 (mix 4 bs).

Definition platform : Platform :=
  Build_Platform JSON_stringify JSON_parse HmacSHA256 AES_encrypt AES_decrypt
    Base64_stringify Base64_parse MD5.

End Ref.

(** ** Concrete runs

    A small deployment on the reference platform: a server with the password
    [p] and the secret [s], two connected sessions, the user route [echo],
    and one peer node in the group [chat]. *)

Module Scenario.

Definition rnd : input := Input 1000 [1; -2; 3; 2147483647] [-2147483648; 5; 6; -7].

Definition config : WssServer.WssServerConfig :=
  WssServer.Config (Some "p") (Some "s") false 60000 180000 32.

(** The peer's bridge as [initClusters] makes it, its socket open. *)
Definition peer : WssServer.ClusterNode :=
  WssServer.Node "chat" "ws://10.0.0.2:3000"
    (WssBridge.set_socket (Some OPEN)
       (WssBridge.create "ws://10.0.0.2:3000" (Some "p") false 8000 60 2)).

(** Sessions 1 and 2 are connected. *)
Definition server : WssServer.t :=
  WssServer.set_clusterMap {[ "chat" := [peer] ]}
    (WssServer.setRouter "echo" 7%nat
       (WssServer._onWebSocketConnection "10.0.0.8" 0
          (WssServer._onWebSocketConnection "10.0.0.7" 0 (WssServer.create config)))).

(** Session 1 is bound to the UID [u]. *)
Definition bound : WssServer.t := WssServer.bindUid 1 (JStr "u") true server.

(** Session 1 holds the UID 0. *)
Definition zero : WssServer.t := WssServer.bindUid 1 (JNum 0) true server.

(** The same server without a password. *)
Definition plain : WssServer.t :=
  WssServer._onWebSocketConnection "10.0.0.7" 0
    (WssServer.create WssServer.default_config).

Definition echo : WssBridgePackData.t :=
  WssBridgePackData.Build (JStr "echo") (JNum 1) (JStr "hi").

Definition heartbeat : WssBridgePackData.t :=
  WssBridgePackData.Build (JStr "$heartick$") (JNum 7) (JNum 1000).

(** The frame of a packet under the password [p], as text. *)
Definition frame_of (pack : WssBridgePackData.t) : wire :=
  default (WText "")
    (WssBridgePackData.serialize (H := Ref.platform) pack (Some "p") false
       (rand_salt rnd) (rand_iv rnd)).

Definition echo_frame : wire := frame_of echo.

(** The packets that the server sent to a session, as the peer decodes
    them, and the sessions it closed, with the codes. *)
Definition sent_to (session : Z) (σ : WssServer.t) : list (option WssBridgePackData.t) :=
  flat_map
    (fun e => match e with
              | WssServer.SocketSend s (Some d) _ =>
                  if s =? session
                  then [WssBridgePackData.deserialize (H := Ref.platform) d (Some "p")]
                  else []
              | _ => []
              end)
    (WssServer.trace σ).

Definition closes (σ : WssServer.t) : list (Z * Z) :=
  flat_map (fun e => match e with WssServer.SocketClose s c _ => [(s, c)] | _ => [] end)
    (WssServer.trace σ).

(** Session 1 after it sent [echo] once. *)
Definition served : WssServer.t :=
  WssServer._onWebSocketMessage (H := Ref.platform) 1 echo_frame rnd server.

(** Session 1 of [plain] in the channel [room]. *)
Definition joined : WssServer.t := WssServer.joinChannel 1 (JStr "room") plain.

(** A bridge that never connected; the same with a request filed at time 0
    under reqId 0 and another at time 5000 under reqId 1. *)
Definition idle : WssBridge.t := WssBridge.create "ws://10.0.0.2:3000" None false 8000 60 3.

Definition offline : WssBridge.t :=
  WssBridge.request (H := Ref.platform) "b" JNull (Some 3%nat) None (Input 5000 [] [])
    (WssBridge.request (H := Ref.platform) "a" JNull None (Some 5%nat) (Input 0 [] []) idle).

(** The server after [pushClusterChannel] to the group [chat], and the
    frames its peer bridges sent. *)
Definition group_push : WssServer.t :=
  WssServer.pushClusterChannel (H := Ref.platform) "chat" (JStr "g") "evt" (JNum 1) "w-1"
    None (fun _ => rnd) server.

Definition peer_sent (σ : WssServer.t) : list wire :=
  flat_map
    (fun node =>
       flat_map (fun e => match e with WssBridge.SocketSend d => [d] | _ => [] end)
         (WssBridge.trace (WssServer.rmc node)))
    (default [] (WssServer.clusterMap σ !! "chat")).

(** A signed envelope, and the same envelope with another payload and
    another target. *)
Definition envelope : jsval :=
  WssServer._generateInnerData (H := Ref.platform) (JStr "u") "evt" (JNum 1) "w-1" server.

Definition forged : jsval :=
  match envelope with
  | JObj l => JObj (obj_set "tid" (JStr "v") (obj_set "message" (JStr "forged") l))
  | v => v
  end.

End Scenario.

(** * Notions used in the statements *)

(** The ring after a novel id is recorded: the oldest half of the capacity is
    dropped first when the ring has reached the capacity. *)
Definition ring_push (reqId cacheSize : Z) (ring : list Z) : list Z :=
  (if Z.of_nat (length ring) >=? cacheSize
   then drop (Z.to_nat (cacheSize / 2)) ring
   else ring) ++ [reqId].

(** The calls that change the registries of the server: a connection, the
    channel operations, the UID operations and the close event of a socket. *)
Inductive registry_step : WssServer.t -> WssServer.t -> Prop :=
  | step_connection ip time σ :
      registry_step σ (WssServer._onWebSocketConnection ip time σ)
  | step_joinChannel S gid σ :
      registry_step σ (WssServer.joinChannel S gid σ)
  | step_quitChannel S gid σ :
      registry_step σ (WssServer.quitChannel S gid σ)
  | step_deleteChannel gid σ :
      registry_step σ (WssServer.deleteChannel gid σ)
  | step_close S code reason σ :
      registry_step σ (WssServer._onWebSocketClose S code reason σ)
  | step_bindUid S uid closeold σ :
      registry_step σ (WssServer.bindUid S uid closeold σ)
  | step_unbindUid S σ :
      registry_step σ (WssServer.unbindUid S σ).

(** The states a server started with [config] can come to have. *)
Definition reachable (config : WssServer.WssServerConfig) (σ : WssServer.t) : Prop :=
  rtc registry_step (WssServer.create config) σ.

(** The count of a channel is the number of its members, and is positive. *)
Definition channel_ok (channel : WssServer.GroupChannel) : Prop :=
  WssServer.count channel = Z.of_nat (size (WssServer.sessions channel))
  /\ WssServer.count channel > 0.

Definition channels_ok (σ : WssServer.t) : Prop :=
  forall key channel, WssServer.channelMap σ !! key = Some channel -> channel_ok channel.

(** No channel is registered under a key that names a member of
    [Object.prototype]. *)
Definition own_channels (σ : WssServer.t) : Prop :=
  forall key, inherited key = true -> WssServer.channelMap σ !! key = None.

(** The count of the channel registered under [key]; no channel, no members. *)
Definition member_count (key : string) (σ : WssServer.t) : Z :=
  from_option WssServer.count 0 (WssServer.channelMap σ !! key).

(** A pending request is overdue at [time] when its age exceeds the timeout. *)
Definition overdue (time timeout : Z) (kr : Z * WssBridgeRequest.t) : bool :=
  time - WssBridgeRequest.time (snd kr) >? timeout.

(** The calls, among the events of a bridge, of the callbacks of the request
    filed under [reqId]. *)
Definition calls_for (reqId : Z) (events : list WssBridge.event) : list WssBridge.event :=
  List.filter (fun e => match e with
                   | WssBridge.CallSuccess k _ _ | WssBridge.CallError k _ _ => k =? reqId
                   | _ => false
                   end) events.

(** The one call that completes a request with 504: its error callback, when
    it has one, on the Gateway Timeout response. *)
Definition timeout_call (reqId : Z) (request : WssBridgeRequest.t) : list WssBridge.event :=
  match WssBridgeRequest.onerror request with
  | Some cb => [WssBridge.CallError reqId cb WssBridgeResponse.GatewayTimeout]
  | None => []
  end.

(** A bridge after some more events. *)
Definition with_events (events : list WssBridge.event) (b : WssBridge.t) : WssBridge.t :=
  WssBridge.Build (WssBridge.host b) (WssBridge.pwd b) (WssBridge.binary b)
    (WssBridge.timeout b) (WssBridge.heartick b) (WssBridge.conntick b)
    (WssBridge.timer b) (WssBridge.timerInc b) (WssBridge.reqIdInc b)
    (WssBridge.netDelay b) (WssBridge.retryCnt b) (WssBridge.requests b)
    (WssBridge.socket b) (WssBridge.paused b) (WssBridge.expired b)
    (WssBridge.has_onerror b) (WssBridge.has_onretry b) (WssBridge.has_onsecond b)
    (WssBridge.trace b ++ events).

(** The calls that the timeout sweep makes over the pending requests [l]. *)
Definition sweep_events (time timeout : Z) (l : list (Z * WssBridgeRequest.t))
    : list WssBridge.event :=
  flat_map (fun kr => if overdue time timeout kr then timeout_call (fst kr) (snd kr) else []) l.

(** A step of the bridge that leaves the pending requests alone and calls no
    request callback. *)
Definition quiet (b b' : WssBridge.t) : Prop :=
  WssBridge.requests b' = WssBridge.requests b
  /\ exists events, WssBridge.trace b' = WssBridge.trace b ++ events
                /\ forall reqId, calls_for reqId events = [].

(** The packet that carries nothing: every field is [undefined]. *)
Definition empty_pack : WssBridgePackData.t :=
  WssBridgePackData.Build JUndefined JUndefined JUndefined.

(** The JSON library carries [pack] through the text [str]: it prints the
    packet as [str] and reads the three fields back from it. *)
Definition json_carries `{Platform} (pack : WssBridgePackData.t) (str : string) : Prop :=
  JSON_stringify (WssBridgePackData.to_object pack) = Some str
  /\ exists obj, JSON_parse str = Some obj /\ WssBridgePackData.of_object obj = Some pack.

(** The crypto library carries the text [str] under the password [p] with
    the given salt and iv: both are four words, decryption with the derived
    key undoes encryption, a binary frame is made of 32-bit words, and a text
    frame survives Base64. *)
Definition cipher_carries `{Platform} (p : string) (binary : bool) (salt iv : list Z)
    (str : string) : Prop :=
  let key := HmacSHA256 salt p in
  let body := AES_encrypt str key iv in
  length salt = 4%nat /\ length iv = 4%nat
  /\ AES_decrypt body key iv = Some str
  /\ (if binary then Forall int32 (salt ++ iv ++ body)
      else Base64_parse (Base64_stringify (salt ++ iv ++ body)) = salt ++ iv ++ body).

(** The steps of [deserialize] that throw, each of which the [catch] turns
    into [null]. *)
Inductive decode_throws `{Platform} : wire -> option string -> Prop :=
  | throws_buffer_length pwd p buffer :
      (* RangeError: the byte length of the buffer is not a multiple of 4 *)
      pwd_set pwd = Some p ->
      Int32Array_of_buffer buffer = None ->
      decode_throws (WBinary buffer) pwd
  | throws_decrypt pwd p data words :
      (* Malformed UTF-8 data: the decrypted bytes are not text *)
      pwd_set pwd = Some p ->
      WssBridgePackData.frame_words data = Some words ->
      AES_decrypt (drop 8 words) (HmacSHA256 (slice 0 4 words) p) (slice 4 8 words) = None ->
      decode_throws data pwd
  | throws_parse_decrypted pwd p data words decRes :
      (* SyntaxError: the decrypted text is not JSON *)
      pwd_set pwd = Some p ->
      WssBridgePackData.frame_words data = Some words ->
      AES_decrypt (drop 8 words) (HmacSHA256 (slice 0 4 words) p) (slice 4 8 words)
        = Some decRes ->
      JSON_parse decRes = None ->
      decode_throws data pwd
  | throws_null_decrypted pwd p data words decRes obj :
      (* TypeError: the decrypted text is the JSON null *)
      pwd_set pwd = Some p ->
      WssBridgePackData.frame_words data = Some words ->
      AES_decrypt (drop 8 words) (HmacSHA256 (slice 0 4 words) p) (slice 4 8 words)
        = Some decRes ->
      JSON_parse decRes = Some obj ->
      is_nullish obj = true ->
      decode_throws data pwd
  | throws_parse_text pwd s :
      (* SyntaxError: the text is not JSON *)
      pwd_set pwd = None ->
      JSON_parse s = None ->
      decode_throws (WText s) pwd
  | throws_null_text pwd s obj :
      (* TypeError: the text is the JSON null *)
      pwd_set pwd = None ->
      JSON_parse s = Some obj ->
      is_nullish obj = true ->
      decode_throws (WText s) pwd.

(** A frame that the codec itself makes in plaintext mode. *)
Definition plaintext_frame `{Platform} (data : wire) : Prop :=
  exists pack binary salt iv,
    WssBridgePackData.serialize pack None binary salt iv = Some data.

(** The boolean form of [int32]. *)
Definition is_int32 (z : Z) : bool := (- 2 ^ 31 <=? z) && (z <? 2 ^ 31).

(** ** Notions for the further properties *)

(** A server after some more events. *)
Definition more (events : list WssServer.event) (σ : WssServer.t) : WssServer.t :=
  WssServer.Build (WssServer.config σ) (WssServer.routerMap σ) (WssServer.remoteMap σ)
    (WssServer.socketMap σ) (WssServer.sessionMap σ) (WssServer.channelMap σ)
    (WssServer.clusterMap σ) (WssServer.sessionCloseListener σ) (WssServer.heap σ)
    (WssServer.increment σ) (WssServer.trace σ ++ events).

(** The frame that [session.send] hands to the socket of the session [r]:
    one when the socket is open, none otherwise. *)
Definition frames_to (data : option wire) (σ : WssServer.t) (r : WssServer.ref)
    : list WssServer.event :=
  match WssServer.heap σ !! r with
  | Some x =>
      if WssSession.send x
      then [WssServer.SocketSend r data (WssServer.binary (WssServer.config σ))]
      else []
  | None => []
  end.

(** Two states of a session object that differ at most in the socket, the
    ring of reqIds and the time of the last heartbeat. *)
Definition same_identity (x x' : WssSession.t) : Prop :=
  WssSession.id x' = WssSession.id x /\ WssSession.ip x' = WssSession.ip x
  /\ WssSession.uid x' = WssSession.uid x
  /\ WssSession.context x' = WssSession.context x
  /\ WssSession.channel x' = WssSession.channel x.

(** The registries and the configuration are the same in both states. *)
Definition registries_kept (σ σ' : WssServer.t) : Prop :=
  WssServer.config σ' = WssServer.config σ
  /\ WssServer.routerMap σ' = WssServer.routerMap σ
  /\ WssServer.remoteMap σ' = WssServer.remoteMap σ
  /\ WssServer.socketMap σ' = WssServer.socketMap σ
  /\ WssServer.sessionMap σ' = WssServer.sessionMap σ
  /\ WssServer.channelMap σ' = WssServer.channelMap σ
  /\ WssServer.clusterMap σ' = WssServer.clusterMap σ
  /\ WssServer.sessionCloseListener σ' = WssServer.sessionCloseListener σ
  /\ WssServer.increment σ' = WssServer.increment σ.

(** No session object but that of [S] differs between the two states, and
    that of [S] keeps its identity. *)
Definition heap_confined (S : WssServer.ref) (σ σ' : WssServer.t) : Prop :=
  forall r,
    match WssServer.heap σ !! r, WssServer.heap σ' !! r with
    | Some x, Some x' => same_identity x x' /\ (r ≠ S -> x' = x)
    | None, None => True
    | _, _ => False
    end.

(** An event that the handling of a frame of the session [S] may add: a
    close is a close of [S] with one of the codes 4001 to 4006, a listener
    that is called is called for [S], and the close listener is not called. *)
Definition handling_event (S : WssServer.ref) (e : WssServer.event) : Prop :=
  match e with
  | WssServer.SocketSend _ _ _ | WssServer.Log _ _ _ => True
  | WssServer.SocketClose r code _ => r = S /\ 4001 <= code <= 4006
  | WssServer.CallRouter _ r _ | WssServer.CallRemote _ r _ => r = S
  | WssServer.CallSessionClose _ _ _ _ => False
  end.

(** The events of a push: frames and log lines. *)
Definition push_event (e : WssServer.event) : Prop :=
  match e with
  | WssServer.SocketSend _ _ _ | WssServer.Log _ _ _ => True
  | _ => False
  end.

(** The trace of [σ'] is that of [σ] and then events that are all [P]. *)
Definition grows (P : WssServer.event -> Prop) (σ σ' : WssServer.t) : Prop :=
  exists events, WssServer.trace σ' = WssServer.trace σ ++ events /\ Forall P events.

(** What the handling of a frame of [S] may do to the server. *)
Definition confined (S : WssServer.ref) (σ σ' : WssServer.t) : Prop :=
  registries_kept σ σ' /\ heap_confined S σ σ' /\ grows (handling_event S) σ σ'.

(** The state after an error exit of [_onWebSocketMessage] closed the socket
    of [S], whose session object was [x]. *)
Definition closed (S : WssServer.ref) (cr : Z * string) (x : WssSession.t)
    (σ : WssServer.t) : WssServer.t :=
  WssServer.set_heap (<[S := WssSession.set_socket None x]> (WssServer.heap σ))
    (more [WssServer.Log "error" "_onWebSocketMessage:" (Some S);
           WssServer.SocketClose S (fst cr) (snd cr)] σ).



(** The reserved routes whose message is a signed envelope. *)
Definition inner_routes : list string :=
  [RouteCode.ROUTE_INNERP2P; RouteCode.ROUTE_INNERGRP; RouteCode.ROUTE_INNERALL;
   RouteCode.ROUTE_INNERRMC].

(** The session after the packets with the reqIds [ids] came in, in this
    order, and the reqIds among them that [updateReqId] accepted. *)
Definition feed (cacheSize : Z) (ids : list Z) (x : WssSession.t) : WssSession.t :=
  fold_left (fun x reqId => snd (WssSession.updateReqId reqId cacheSize x)) ids x.

Fixpoint accepted (cacheSize : Z) (ids : list Z) (x : WssSession.t) : list Z :=
  match ids with
  | [] => []
  | reqId :: ids =>
      let '(fresh, x') := WssSession.updateReqId reqId cacheSize x in
      (if fresh then [reqId] else []) ++ accepted cacheSize ids x'
  end.

(** The number of the latest accepted reqIds that the ring is sure to hold. *)
Definition window (cacheSize : Z) : Z := cacheSize - cacheSize / 2 + 1.

(** The session [r] is listed in the channel registered under [key]; the
    session object of [r] lists the channel; the session object of [r] holds
    a truthy UID whose string is [key]. *)
Definition member (key : string) (r : WssServer.ref) (σ : WssServer.t) : Prop :=
  exists channel, WssServer.channelMap σ !! key = Some channel
                  /\ WssServer.sessions channel !! r = Some r.

Definition joined (key : string) (r : WssServer.ref) (σ : WssServer.t) : Prop :=
  exists x, WssServer.heap σ !! r = Some x /\ key ∈ WssSession.channel x.

Definition bound_to (key : string) (r : WssServer.ref) (σ : WssServer.t) : Prop :=
  exists x, WssServer.heap σ !! r = Some x /\ truthy (WssSession.uid x) = true
            /\ toString (WssSession.uid x) = Some key.

(** The registries agree with the session objects. *)
Record consistent (σ : WssServer.t) : Prop := Consistent {
  (** a session object lies at its own id, below the counter *)
  heap_below : forall r x, WssServer.heap σ !! r = Some x ->
                 WssSession.id x = r /\ r < WssServer.increment σ;
  counts_right : channels_ok σ;
  (** a channel lists a session under the session's id *)
  members_keyed : forall key channel k r,
                    WssServer.channelMap σ !! key = Some channel ->
                    WssServer.sessions channel !! k = Some r -> r = k;
  (** a channel lists a session exactly when the session lists the channel *)
  members_joined : forall key r, member key r σ <-> joined key r σ;
  (** the connected sessions are listed under their ids, and exist *)
  sockets_keyed : forall k r, WssServer.socketMap σ !! k = Some r ->
                    r = k /\ is_Some (WssServer.heap σ !! r)
}.

(** The index of UIDs agrees with the session objects as far as [isBinded]
    sees them: a session that holds a truthy UID is the entry under the
    string of this UID; every entry is a session object; no entry lies under
    a name that [Object.prototype] lends. An entry can lead to a session
    that holds another UID or none: [unbindUid] leaves the entry of a
    session that holds the UID [0] or [''], and of one that was bound anew
    while it held such a UID. *)
Record indexed (σ : WssServer.t) : Prop := Indexed {
  index_bound : forall key r, bound_to key r σ -> WssServer.sessionMap σ !! key = Some r;
  index_heap : forall key r, WssServer.sessionMap σ !! key = Some r ->
                 is_Some (WssServer.heap σ !! r);
  index_own : forall key, inherited key = true -> WssServer.sessionMap σ !! key = None
}.

(** The session objects of both states hold the same UIDs. *)
Definition same_uids (σ σ' : WssServer.t) : Prop :=
  forall r, WssSession.uid <$> WssServer.heap σ' !! r = WssSession.uid <$> WssServer.heap σ !! r.

(** The number of entries of the index that lead to the session [r]. *)
Definition entries (r : WssServer.ref) (σ : WssServer.t) : nat :=
  length (List.filter (fun kv => snd kv =? r) (map_to_list (WssServer.sessionMap σ))).

(** The sessions and the registries of sessions are the same in both
    states. *)
Definition sessions_kept (σ σ' : WssServer.t) : Prop :=
  WssServer.heap σ' = WssServer.heap σ
  /\ WssServer.channelMap σ' = WssServer.channelMap σ
  /\ WssServer.sessionMap σ' = WssServer.sessionMap σ
  /\ WssServer.socketMap σ' = WssServer.socketMap σ
  /\ WssServer.increment σ' = WssServer.increment σ
  /\ WssServer.config σ' = WssServer.config σ.

(** The calls that a running server goes through: connections, frames,
    socket errors and close events, which the sockets bring; the life cycle;
    and the calls of the application: the channel and UID operations, on
    sessions that exist and with any group id and any UID, the pushes, the
    registration of listeners, and the calls on the cluster. *)
Inductive server_step `{Platform} : WssServer.t -> WssServer.t -> Prop :=
  | run_connection ip time σ :
      server_step σ (WssServer._onWebSocketConnection ip time σ)
  | run_message S data i σ :
      server_step σ (WssServer._onWebSocketMessage S data i σ)
  | run_error S error σ :
      server_step σ (WssServer._onWebSocketError S error σ)
  | run_close S code reason σ :
      server_step σ (WssServer._onWebSocketClose S code reason σ)
  | run_cycle now σ :
      server_step σ (fst (WssServer._onServerLifeCycle now σ))
  | run_joinChannel S gid σ :
      is_Some (WssServer.heap σ !! S) ->
      server_step σ (WssServer.joinChannel S gid σ)
  | run_quitChannel S gid σ :
      server_step σ (WssServer.quitChannel S gid σ)
  | run_deleteChannel gid σ :
      server_step σ (WssServer.deleteChannel gid σ)
  | run_bindUid S uid closeold σ :
      is_Some (WssServer.heap σ !! S) ->
      server_step σ (WssServer.bindUid S uid closeold σ)
  | run_unbindUid S σ :
      server_step σ (WssServer.unbindUid S σ)
  | run_response S reqPack message i σ :
      server_step σ (WssServer.response S reqPack message i σ)
  | run_pushSession uid route message i σ :
      server_step σ (WssServer.pushSession uid route message i σ)
  | run_pushSessionBatch uids route message i σ :
      server_step σ (WssServer.pushSessionBatch uids route message i σ)
  | run_pushChannel gid route message i σ :
      server_step σ (WssServer.pushChannel gid route message i σ)
  | run_pushChannelCustom gid route message customCallback ins σ :
      server_step σ (WssServer.pushChannelCustom gid route message customCallback ins σ)
  | run_broadcast route message i σ :
      server_step σ (WssServer.broadcast route message i σ)
  | run_setRouter route listener σ :
      server_step σ (WssServer.setRouter route listener σ)
  | run_setRemote route listener σ :
      server_step σ (WssServer.setRemote route listener σ)
  | run_setListeners listener σ :
      server_step σ (WssServer.setListeners listener σ)
  | run_initClusters links nodes σ :
      server_step σ (WssServer.initClusters links nodes σ)
  | run_start σ σ' :
      WssServer.start σ = inr σ' ->
      server_step σ σ'
  | run_server_close σ :
      server_step σ (WssServer.close σ)
  | run_pushClusterSession appName uid route message word dispatchCallback ins σ :
      server_step σ
        (WssServer.pushClusterSession appName uid route message word dispatchCallback ins σ)
  | run_pushClusterChannel appName gid route message word dispatchCallback ins σ :
      server_step σ
        (WssServer.pushClusterChannel appName gid route message word dispatchCallback ins σ)
  | run_clusterBroadcast appName route message word dispatchCallback ins σ :
      server_step σ
        (WssServer.clusterBroadcast appName route message word dispatchCallback ins σ)
  | run_callRemote appName route message word dispatchCallback rand i σ :
      server_step σ (WssServer.callRemote appName route message word dispatchCallback rand i σ)
  | run_callRemoteForResult appName route message word dispatchCallback resolve rand i σ :
      server_step σ
        (WssServer.callRemoteForResult appName route message word dispatchCallback resolve
           rand i σ).

(** The states that a server started with [config] can come to have. *)
Definition runs `{Platform} (config : WssServer.WssServerConfig) (σ : WssServer.t) : Prop :=
  rtc server_step (WssServer.create config) σ.


(** Whether [session.send] would find the socket of [r] open. *)
Definition is_live (r : WssServer.ref) (σ : WssServer.t) : bool :=
  from_option WssSession.send false (WssServer.heap σ !! r).

(** Every session object of [σ] is in [σ'] with the same identity, and
    there is no other in [σ']. *)
Definition alike (σ σ' : WssServer.t) : Prop :=
  forall r,
    match WssServer.heap σ !! r, WssServer.heap σ' !! r with
    | Some x, Some x' => same_identity x x'
    | None, None => True
    | _, _ => False
    end.

(** The sessions that are connected, as the life cycle visits them; whether
    the life cycle counts the session [r], which it examines at [now r];
    what it adds to the trace for [r]. *)
Definition connected (σ : WssServer.t) : list WssServer.ref :=
  (map_to_list (WssServer.socketMap σ)).*2.

Definition expired_at (now : WssServer.ref -> Z) (σ : WssServer.t) (r : WssServer.ref) : bool :=
  match WssServer.heap σ !! r with
  | Some x => WssSession.isExpired (now r) (WssServer.timeout (WssServer.config σ)) x
  | None => false
  end.

Definition counted (now : WssServer.ref -> Z) (σ : WssServer.t) (r : WssServer.ref) : bool :=
  match WssServer.heap σ !! r with
  | Some x => negb (WssSession.isExpired (now r) (WssServer.timeout (WssServer.config σ)) x)
  | None => false
  end.

Definition has_socket (r : WssServer.ref) (σ : WssServer.t) : bool :=
  match WssServer.heap σ !! r with
  | Some x => present (WssSession.socket x)
  | None => false
  end.

Definition timeout_closes (now : WssServer.ref -> Z) (σ : WssServer.t) (r : WssServer.ref)
    : list WssServer.event :=
  if expired_at now σ r && has_socket r σ
  then [WssServer.SocketClose r (fst RouteCode.CODE_TIMEOUT) (snd RouteCode.CODE_TIMEOUT)]
  else [].

(** The closes, among some events, of the socket of the session [r]. *)
Definition closes_for (r : WssServer.ref) (events : list WssServer.event)
    : list (Z * string) :=
  flat_map (fun e => match e with
                     | WssServer.SocketClose s code reason =>
                         if s =? r then [(code, reason)] else []
                     | _ => []
                     end) events.

(** Every node of [cluster] is in [cluster'] with the same group and url,
    and with its bridge after the request of the envelope on the route
    [inner], made without callbacks. *)
Definition requested `{Platform} (inner : string) (envelope : jsval) (ins : nat -> input)
    (cluster cluster' : list WssServer.ClusterNode) : Prop :=
  length cluster' = length cluster
  /\ forall (k : nat) node, cluster !! k = Some node ->
       cluster' !! k =
         Some (WssServer.Node (WssServer.grp node) (WssServer.url node)
                 (WssBridge.request inner envelope None None (ins k) (WssServer.rmc node))).

(** The tables that the listener operations of a bridge lead to. *)
Inductive table_step : WssBridge.table -> WssBridge.table -> Prop :=
  | table_addListener route once onmessage T :
      table_step T (WssBridge.addListener route once onmessage T)
  | table_removeListener route onmessage T :
      table_step T (WssBridge.removeListener route onmessage T)
  | table_triggerEvent pack T :
      table_step T (fst (WssBridge.triggerEvent pack T)).

(** The listeners of a route whose callback is not [h]; those whose
    callback is none of [hs], which are none at all when [undefined] is
    among [hs]. *)
Definition without (h : handler) (ls : list (nat * WssBridgeListener.t))
    : list (nat * WssBridgeListener.t) :=
  List.filter (fun item => negb (handler_eq (WssBridgeListener.onmessage (snd item)) h)) ls.

Definition without_all (hs : list handler) (ls : list (nat * WssBridgeListener.t))
    : list (nat * WssBridgeListener.t) :=
  if existsb (handler_eq HUndefined) hs then []
  else List.filter
         (fun item =>
            negb (existsb (handler_eq (WssBridgeListener.onmessage (snd item))) hs)) ls.

(** The table with the listeners [ls] under [route]; an array left empty is
    taken out. *)
Definition put (route : string) (ls : list (nat * WssBridgeListener.t))
    (T : WssBridge.table) : WssBridge.table :=
  WssBridge.Table
    (match ls with
     | [] => delete route (WssBridge.listeners T)
     | _ => <[route := ls]> (WssBridge.listeners T)
     end)
    (WssBridge.fresh T).

(** No route has an empty array, and the listener objects of a route are
    all different and were handed out by the table. *)
Definition table_ok (T : WssBridge.table) : Prop :=
  forall route ls, WssBridge.listeners T !! route = Some ls ->
    ls ≠ [] /\ NoDup ls.*1 /\ forall a, a ∈ ls.*1 -> (a < WssBridge.fresh T)%nat.

(** The listeners registered under a route, in the order of their array. *)
Definition listeners_of (route : string) (T : WssBridge.table)
    : list (nat * WssBridgeListener.t) :=
  default [] (WssBridge.listeners T !! route).

(** The tables a bridge can have: it starts with none, and only
    [addListener], [removeListener] and [triggerEvent] write it. *)
Definition tables (T : WssBridge.table) : Prop := rtc table_step WssBridge.no_listeners T.

(** The callbacks that [pack] sets off, in the order of their calls. *)
Definition calls_of (pack : WssBridgePackData.t) (T : WssBridge.table)
    : list WssBridge.notice :=
  snd (WssBridge.triggerEvent pack T).

(** What can happen to a bridge: the calls of its public functions, the
    ticks of its timer, the events of a socket it has opened, which is not
    told to forget the bridge when it is given up, and the changes of the
    ready state of the socket it holds. *)
Inductive bridge_step `{Platform} : WssBridge.t -> WssBridge.t -> Prop :=
  | do_connect onerror onretry onsecond b :
      bridge_step b (WssBridge.connect onerror onretry onsecond b)
  | do_disconnect b :
      bridge_step b (WssBridge.disconnect b)
  | do_request route message onsuccess onerror i b :
      bridge_step b (WssBridge.request route message onsuccess onerror i b)
  | do_pauseReconnect b :
      bridge_step b (WssBridge.pauseReconnect b)
  | do_resumeReconnect b :
      bridge_step b (WssBridge.resumeReconnect b)
  | on_tick i hb b :
      bridge_step b (WssBridge.onTimerTick i hb b)
  | on_open onopen b :
      bridge_step b (fst (WssBridge.onSocketOpen onopen b))
  | on_message data i b T b' T' calls :
      WssBridge.onSocketMessage data i b T = Some (b', T', calls) ->
      bridge_step b b'
  | on_close onclose code reason b :
      bridge_step b (fst (WssBridge.onSocketClose onclose code reason b))
  | on_error message b :
      bridge_step b (WssBridge.onSocketError message b)
  | on_readyState s s' b :
      WssBridge.socket b = Some s ->
      bridge_step b (WssBridge.set_socket (Some s') b).

(** The bridges that a constructed bridge can become. *)
Definition bridges `{Platform} (b : WssBridge.t) : Prop :=
  exists host pwd binary timeout heartick conntick,
    rtc bridge_step (WssBridge.constructor host pwd binary timeout heartick conntick) b.

(** The reqIds are handed out by the counter, pending requests have not been
    answered, and no request has been answered twice. *)
Record bridge_ok (b : WssBridge.t) : Prop := {
  keys_distinct : NoDup (map fst (WssBridge.requests b));
  keys_below : forall k, In k (map fst (WssBridge.requests b)) -> k < WssBridge.reqIdInc b;
  pending_unanswered :
    forall k, In k (map fst (WssBridge.requests b)) -> calls_for k (WssBridge.trace b) = [];
  answered_once : forall k, (length (calls_for k (WssBridge.trace b)) <= 1)%nat;
  unissued_unanswered :
    forall k, WssBridge.reqIdInc b <= k -> calls_for k (WssBridge.trace b) = []
}.

(** The events that a bridge can still have after [disconnect]: the 504 of
    a request that has waited too long, and the calls of [onretry] and
    [onsecond]. *)
Definition idle_event (e : WssBridge.event) : Prop :=
  match e with
  | WssBridge.CallError _ _ resp => resp = WssBridgeResponse.GatewayTimeout
  | WssBridge.OnRetry _ | WssBridge.OnSecond _ _ => True
  | _ => False
  end.

(** The response that a frame's packet carries to a request's callback, and
    the one call it leads to. *)
Definition response_of (message : jsval) : WssBridgeResponse.t :=
  let message := if truthy message then message else JObj [] in
  WssBridgeResponse.Build (default JUndefined (prop message "code"))
    (default JUndefined (prop message "data")).

Definition answer (reqId : Z) (request : WssBridgeRequest.t) (resp : WssBridgeResponse.t)
    : list WssBridge.event :=
  if WssBridgeResponse.ok resp
  then match WssBridgeRequest.onsuccess request with
       | Some cb => [WssBridge.CallSuccess reqId cb resp]
       | None => []
       end
  else match WssBridgeRequest.onerror request with
       | Some cb => [WssBridge.CallError reqId cb resp]
       | None => []
       end.

(** From [b] to [b'] the bridge stays given up and without a socket, and
    has only the events of a bridge given up. *)
Definition idle_after (b b' : WssBridge.t) : Prop :=
  WssBridge.expired b' = true /\ WssBridge.socket b' = None /\
  exists events, WssBridge.trace b' = WssBridge.trace b ++ events /\ Forall idle_event events.

(** ** Concrete runs for the further properties

    A server that went through two connections, a [joinChannel] and a
    [bindUid]; a bridge that connected and has one request under way; a
    table with two listeners of one route. *)

(** A value on its way from the server to a bridge.  The server hands it to
    [send] with the [binary] option of its configuration ([_getSendOptions]),
    which alone decides the kind of the frame; the socket of the bridge reads
    a text frame as a string and a binary frame as an array buffer
    ([binaryType] of [safeOpen]).  A string sent as text arrives as it is,
    and so does a buffer sent as binary; a string sent as binary arrives as
    a buffer, and a buffer sent as text as a string. *)
Inductive arrives : wire -> bool -> wire -> Prop :=
  | text_frame s : arrives (WText s) false (WText s)
  | binary_frame buffer : arrives (WBinary buffer) true (WBinary buffer)
  | text_as_binary s buffer : arrives (WText s) true (WBinary buffer)
  | binary_as_text buffer s : arrives (WBinary buffer) false (WText s).

Module Trial.

Definition pair : WssServer.t :=
  WssServer._onWebSocketConnection "10.0.0.8" 0
    (WssServer._onWebSocketConnection "10.0.0.7" 0 (WssServer.create Scenario.config)).

Definition busy : WssServer.t :=
  WssServer.bindUid 1 (JStr "u") true (WssServer.joinChannel 1 (JStr "room") pair).

(** Session 1 after it was bound to the UID 0 and then to [u]: the index
    leads to it under both strings. *)
Definition stale : WssServer.t :=
  WssServer.bindUid 1 (JStr "u") true (WssServer.bindUid 1 (JNum 0) true pair).

(** The ring of a session that has seen nothing, and six packets. *)
Definition newcomer : WssSession.t := WssSession.create 1 "10.0.0.7" 0.

Definition ids : list Z := [1; 2; 3; 4; 5; 3].

(** A packet whose message is no envelope. *)
Definition unsigned : WssBridgePackData.t :=
  WssBridgePackData.Build (JStr "$innerP2P$") (JNum 1) (JStr "x").

(** An envelope for the user [u], signed by [Scenario.bound]. *)
Definition letter : jsval :=
  WssServer._generateInnerData (H := Ref.platform) (JStr "u") "evt" (JNum 1) "w-1"
    Scenario.bound.

(** The cluster of [initClusters] with one group of two addresses. *)
Definition nodes : gmap string (list WssServer.address) :=
  {[ "chat" := [WssServer.Address (JStr "a.example") (JStr "10.0.0.2") (JNum 3000) (JBool false);
                WssServer.Address (JStr "b.example") JUndefined (JNum 443) (JBool true)] ]}.

Definition linked : WssServer.t :=
  WssServer.initClusters ["chat"] nodes (WssServer.create Scenario.config).

Definition chat : list WssServer.ClusterNode :=
  default [] (WssServer.clusterMap linked !! "chat").

(** A bridge after [connect], its socket open; the same with the request
    [echo] under way, filed at time 0 under reqId 0. *)
Definition online : WssBridge.t :=
  WssBridge.set_socket (Some OPEN)
    (WssBridge.connect false false true
       (WssBridge.constructor "http://10.0.0.1:3000" (Some "p") false 8000 60 3)).

Definition asked : WssBridge.t :=
  WssBridge.request (H := Ref.platform) "echo" (JStr "hi") (Some 3%nat) (Some 5%nat)
    (Input 0 (rand_salt Scenario.rnd) (rand_iv Scenario.rnd)) online.

(** The answer of the server to the request, and its frame. *)
Definition reply : WssBridgeResponse.t := WssBridgeResponse.Build (JNum 200) (JStr "ok").

Definition answer_pack : WssBridgePackData.t :=
  WssBridgePackData.Build (JStr "$response$") (JNum 0)
    (JObj [("code", JNum 200); ("data", JStr "ok")]).

Definition answer_frame : wire := Scenario.frame_of answer_pack.

(** The heartbeat that [online] sends at time 1000, and its frame. *)
Definition beat : WssBridgePackData.t :=
  WssBridgePackData.Build (JStr "$heartick$") (JNum 0) (JNum 1000).

Definition beat_frame : wire := Scenario.frame_of beat.

(** A listener of [evt] that stays and one that is called once. *)
Definition listening : WssBridge.table :=
  WssBridge.addListener "evt" true (HFun 1%nat)
    (WssBridge.addListener "evt" false (HFun 2%nat) WssBridge.no_listeners).

Definition event : WssBridgePackData.t :=
  WssBridgePackData.Build (JStr "evt") JUndefined (JStr "news").

End Trial.

(** * Properties *)

(** Reduction of the projections and setters of the server state only. *)
Ltac project :=
  cbn [WssServer.config WssServer.routerMap WssServer.remoteMap WssServer.socketMap
       WssServer.sessionMap WssServer.channelMap WssServer.clusterMap
       WssServer.sessionCloseListener WssServer.heap WssServer.increment WssServer.trace
       WssServer.emit WssServer.set_heap WssServer.set_socketMap WssServer.set_sessionMap
       WssServer.set_channelMap WssServer.set_clusterMap WssServer.set_increment
       WssServer.session_update fst snd RouteCode.CODE_NEWBIND].

(** ** Words and buffers *)

Lemma word_bytes_value (w : Z) :
  w mod 256 + 256 * ((w / 256) mod 256) + 65536 * ((w / 65536) mod 256)
    + 16777216 * ((w / 16777216) mod 256) = w mod 2 ^ 32.
Proof.
  change (2 ^ 32) with 4294967296.
  pose proof (Z.div_mod w 256 ltac:(lia)).
  pose proof (Z.mod_pos_bound w 256 ltac:(lia)).
  pose proof (Z.div_mod (w / 256) 256 ltac:(lia)).
  pose proof (Z.mod_pos_bound (w / 256) 256 ltac:(lia)).
  pose proof (Z.div_mod (w / 65536) 256 ltac:(lia)).
  pose proof (Z.mod_pos_bound (w / 65536) 256 ltac:(lia)).
  pose proof (Z.div_mod (w / 16777216) 256 ltac:(lia)).
  pose proof (Z.mod_pos_bound (w / 16777216) 256 ltac:(lia)).
  assert (w / 65536 = w / 256 / 256) by (rewrite Z.div_div by lia; reflexivity).
  assert (w / 16777216 = w / 65536 / 256) by (rewrite Z.div_div by lia; reflexivity).
  assert (w / 4294967296 = w / 16777216 / 256) by (rewrite Z.div_div by lia; reflexivity).
  pose proof (Z.div_mod w 4294967296 ltac:(lia)).
  lia.
Qed.

Lemma to_int32_id (w : Z) : int32 w -> to_int32 w = w.
Proof.
  unfold int32, to_int32. intros Hw.
  rewrite Z.mod_small by lia. lia.
Qed.

Lemma to_int32_mod (w : Z) : to_int32 (w mod 2 ^ 32) = to_int32 w.
Proof.
  unfold to_int32.
  rewrite Zplus_mod_idemp_l. reflexivity.
Qed.

Lemma Int32Array_roundtrip (words : list Z) :
  Int32Array_of_buffer (Int32Array_buffer words) = Some (map to_int32 words).
Proof.
  induction words as [|w ws IH]; [reflexivity|].
  cbn [Int32Array_buffer flat_map word_bytes app Int32Array_of_buffer].
  fold (Int32Array_buffer ws). rewrite IH. cbn [map].
  rewrite word_bytes_value, to_int32_mod. reflexivity.
Qed.

Lemma map_to_int32_id (words : list Z) :
  Forall int32 words -> map to_int32 words = words.
Proof.
  induction 1 as [|w ws Hw _ IH]; [reflexivity|].
  cbn. rewrite to_int32_id, IH by assumption. reflexivity.
Qed.

(** ** The receive pipeline *)

Section Pipeline.
Context `{Platform}.

Lemma seen_elem_of (reqId : Z) (l : list Z) :
  WssSession.seen reqId l = true <-> reqId ∈ l.
Proof.
  unfold WssSession.seen. rewrite existsb_exists. split.
  - intros (y & Hy & Heq). apply Z.eqb_eq in Heq. subst y.
    by apply list_elem_of_In.
  - intros Hin. exists reqId. split; [by apply list_elem_of_In | apply Z.eqb_refl].
Qed.

Lemma seen_not_elem_of (reqId : Z) (l : list Z) :
  WssSession.seen reqId l = false <-> reqId ∉ l.
Proof.
  rewrite <- seen_elem_of. destruct (WssSession.seen reqId l); split; congruence.
Qed.

(** What [session.close] does to a session that still has its socket. *)
Lemma session_close_live (S : WssServer.ref) (cr : Z * string) (σ : WssServer.t)
    (x : WssSession.t) (rs : readyState) :
  WssServer.heap σ !! S = Some x ->
  WssSession.socket x = Some rs ->
  WssServer.session_close S cr σ =
    WssServer.set_heap (<[S := WssSession.set_socket None x]> (WssServer.heap σ))
      (WssServer.emit (WssServer.SocketClose S (fst cr) (snd cr)) σ).
Proof.
  intros Hx Hs. unfold WssServer.session_close, WssSession.close.
  rewrite Hx, Hs. reflexivity.
Qed.

(** C4. A well-formed packet whose reqId is already in the session's ring
    makes the server log the error and close the session with code 4003, and
    nothing else: no handler is called and nothing is sent.  A well-formed
    packet with a novel reqId goes on to the route dispatch, with the id
    appended to the ring after the oldest floor(reqIdCache / 2) entries were
    dropped when the ring already held reqIdCache ids or more.  The default
    reqIdCache is 32. *)
Theorem reqId_ring_check (σ : WssServer.t) (S : WssServer.ref) (data : wire) (i : input)
    (route : string) (reqId : Z) (message : jsval) (x : WssSession.t) (rs : readyState) :
  let pack := WssBridgePackData.Build (JStr route) (JNum reqId) message in
  let cacheSize := WssServer.reqIdCache (WssServer.config σ) in
  WssBridgePackData.deserialize data (WssServer.pwd (WssServer.config σ)) = Some pack ->
  is_nullish message = false ->
  WssServer.heap σ !! S = Some x ->
  WssSession.socket x = Some rs ->
  (reqId ∈ WssSession.reqIdList x ->
     WssServer._onWebSocketMessage S data i σ =
       WssServer.set_heap (<[S := WssSession.set_socket None x]> (WssServer.heap σ))
         (WssServer.emit (WssServer.SocketClose S 4003 "repeat error")
            (WssServer.emit (WssServer.Log "error" "_onWebSocketMessage:" (Some S)) σ)))
  /\ (reqId ∉ WssSession.reqIdList x ->
     WssServer._onWebSocketMessage S data i σ =
       WssServer.dispatch S pack route i
         (WssServer.set_heap
            (<[S := WssSession.set_reqIdList
                      (ring_push reqId cacheSize (WssSession.reqIdList x)) x]>
               (WssServer.heap σ)) σ))
  /\ WssServer.reqIdCache WssServer.default_config = 32.
Proof.
  intros pack cacheSize Hdec Hmsg Hx Hsock.
  unfold WssServer._onWebSocketMessage. rewrite Hdec.
  cbn [WssBridgePackData.route WssBridgePackData.reqId WssBridgePackData.message pack
       typeof_string typeof_number negb orb].
  rewrite Hmsg, Hx. unfold WssSession.updateReqId.
  split; [|split; [|reflexivity]]; intros Hin.
  - apply seen_elem_of in Hin. rewrite Hin. cbn [negb].
    unfold WssServer.reject.
    erewrite session_close_live; cycle 1.
    { cbn. apply lookup_insert_eq. }
    { exact Hsock. }
    cbn. rewrite insert_insert_eq. reflexivity.
  - apply seen_not_elem_of in Hin. rewrite Hin. cbn [negb]. reflexivity.
Qed.

(** C9. The verdict of [_validateInnerData] is a function of the route, word
    and sign properties of the envelope alone: two envelopes that agree on
    these three get the same verdict, whatever their message and tid.  So a
    verified envelope stays verified when its payload or its target id is
    replaced. *)
Theorem validateInnerData_reads_route_word_sign (σ : WssServer.t) (d1 d2 : jsval) :
  prop d1 "route" = prop d2 "route" ->
  prop d1 "word" = prop d2 "word" ->
  prop d1 "sign" = prop d2 "sign" ->
  WssServer._validateInnerData d1 σ = WssServer._validateInnerData d2 σ.
Proof.
  intros Hroute Hword Hsign. unfold WssServer._validateInnerData.
  rewrite Hroute, Hword, Hsign. reflexivity.
Qed.

End Pipeline.

(** ** UID binding *)

Lemma heap_session_update (f : WssSession.t -> WssSession.t) (S r : WssServer.ref)
    (σ : WssServer.t) :
  WssServer.heap (WssServer.session_update f S σ) !! r =
    if decide (S = r) then f <$> WssServer.heap σ !! S else WssServer.heap σ !! r.
Proof. unfold WssServer.session_update. cbn. apply lookup_alter. Qed.

Lemma unbindUid_unbound (S : WssServer.ref) (σ : WssServer.t) (x : WssSession.t) :
  WssServer.heap σ !! S = Some x ->
  WssSession.isBinded x = false ->
  WssServer.unbindUid S σ = σ.
Proof. intros Hx Hb. unfold WssServer.unbindUid. rewrite Hx, Hb. reflexivity. Qed.

Lemma unbindUid_bound (S : WssServer.ref) (σ : WssServer.t) (x : WssSession.t)
    (key : string) :
  WssServer.heap σ !! S = Some x ->
  WssSession.isBinded x = true ->
  toString (WssSession.uid x) = Some key ->
  WssServer.unbindUid S σ =
    WssServer.session_update WssSession.unbindUid S
      (WssServer.set_sessionMap (delete key (WssServer.sessionMap σ))
         (WssServer.emit (WssServer.Log "debug" "unbindUid:" (Some S)) σ)).
Proof.
  intros Hx Hb Hk. unfold WssServer.unbindUid. rewrite Hx, Hb. cbn. rewrite Hk.
  reflexivity.
Qed.

(** A truthy value has a string. *)
Lemma truthy_toString (v : jsval) : truthy v = true -> is_Some (toString v).
Proof. destruct v; cbn; intros Hv; try discriminate; eauto. Qed.

(** [quitChannel] touches neither the UID index nor the UID or socket of any
    session. *)
Lemma quitChannel_sessionMap (S : WssServer.ref) (gid : jsval) (σ : WssServer.t) :
  WssServer.sessionMap (WssServer.quitChannel S gid σ) = WssServer.sessionMap σ.
Proof.
  unfold WssServer.quitChannel.
  destruct (toString gid) as [key|]; [|reflexivity].
  destruct (WssServer.channelMap σ !! key) as [channel|]; [|reflexivity].
  destruct (present (WssServer.sessions channel !! S)); cbn;
    match goal with |- context [if ?c then _ else _] => destruct c end; reflexivity.
Qed.

Lemma quitChannel_uid (S r : WssServer.ref) (gid : jsval) (σ : WssServer.t) :
  WssSession.uid <$> WssServer.heap (WssServer.quitChannel S gid σ) !! r =
  WssSession.uid <$> WssServer.heap σ !! r.
Proof.
  unfold WssServer.quitChannel.
  destruct (toString gid) as [key|]; [|reflexivity].
  destruct (WssServer.channelMap σ !! key) as [channel|]; [|reflexivity].
  destruct (present (WssServer.sessions channel !! S)); cbn;
    match goal with |- context [if ?c then _ else _] => destruct c end; cbn;
    try reflexivity;
    rewrite lookup_alter; case_decide; try reflexivity; subst;
    destruct (WssServer.heap σ !! r); reflexivity.
Qed.

Lemma quitChannels_sessionMap (S : WssServer.ref) (gids : list string) (σ : WssServer.t) :
  WssServer.sessionMap (foldl (fun σ gid => WssServer.quitChannel S (JStr gid) σ) σ gids)
  = WssServer.sessionMap σ.
Proof.
  revert σ. induction gids as [|gid gids IH]; intros σ; [reflexivity|].
  cbn [foldl]. rewrite IH. apply quitChannel_sessionMap.
Qed.

Lemma quitChannels_uid (S r : WssServer.ref) (gids : list string) (σ : WssServer.t) :
  WssSession.uid <$>
    WssServer.heap (foldl (fun σ gid => WssServer.quitChannel S (JStr gid) σ) σ gids) !! r
  = WssSession.uid <$> WssServer.heap σ !! r.
Proof.
  revert σ. induction gids as [|gid gids IH]; intros σ; [reflexivity|].
  cbn [foldl]. rewrite IH. apply quitChannel_uid.
Qed.

(** The close handler leaves the UID index alone when the session is not
    bound, and removes the session's own key when it is. *)
Lemma onWebSocketClose_unbound (S : WssServer.ref) (code : Z) (reason : string)
    (σ : WssServer.t) (x : WssSession.t) :
  WssServer.heap σ !! S = Some x ->
  WssSession.isBinded x = false ->
  WssServer.sessionMap (WssServer._onWebSocketClose S code reason σ) = WssServer.sessionMap σ.
Proof.
  intros Hx Hb. unfold WssServer._onWebSocketClose.
  set (σ1 := match WssServer.sessionCloseListener _ with Some _ => _ | None => _ end).
  set (gids := from_option _ _ _).
  set (σ2 := foldl _ σ1 gids).
  assert (Hheap : WssServer.heap σ1 !! S = Some x).
  { subst σ1. cbn. destruct (WssServer.sessionCloseListener σ); exact Hx. }
  assert (Hmap : WssServer.sessionMap σ1 = WssServer.sessionMap σ).
  { subst σ1. cbn. destruct (WssServer.sessionCloseListener σ); reflexivity. }
  pose proof (quitChannels_uid S S gids σ1) as Huid. fold σ2 in Huid.
  rewrite Hheap in Huid. cbn in Huid.
  destruct (WssServer.heap σ2 !! S) as [x2|] eqn:Hx2; [|discriminate].
  cbn in Huid. injection Huid as Huid.
  cbn. rewrite (unbindUid_unbound S σ2 x2 Hx2).
  - subst σ2. rewrite quitChannels_sessionMap. exact Hmap.
  - unfold WssSession.isBinded in *. rewrite Huid. exact Hb.
Qed.

Lemma onWebSocketClose_bound (S : WssServer.ref) (code : Z) (reason : string)
    (σ : WssServer.t) (x : WssSession.t) (key : string) :
  WssServer.heap σ !! S = Some x ->
  WssSession.isBinded x = true ->
  toString (WssSession.uid x) = Some key ->
  WssServer.sessionMap (WssServer._onWebSocketClose S code reason σ) !! key = None.
Proof.
  intros Hx Hb Hk. unfold WssServer._onWebSocketClose.
  set (σ1 := match WssServer.sessionCloseListener _ with Some _ => _ | None => _ end).
  set (gids := from_option _ _ _).
  set (σ2 := foldl _ σ1 gids).
  assert (Hheap : WssServer.heap σ1 !! S = Some x).
  { subst σ1. cbn. destruct (WssServer.sessionCloseListener σ); exact Hx. }
  pose proof (quitChannels_uid S S gids σ1) as Huid. fold σ2 in Huid.
  rewrite Hheap in Huid. cbn in Huid.
  destruct (WssServer.heap σ2 !! S) as [x2|] eqn:Hx2; [|discriminate].
  cbn in Huid. injection Huid as Huid.
  cbn. rewrite (unbindUid_bound S σ2 x2 key Hx2).
  - cbn. apply lookup_delete_eq.
  - unfold WssSession.isBinded in *. rewrite Huid. exact Hb.
  - rewrite Huid. exact Hk.
Qed.

(** [bindUid(B, u, true)] while another session A is bound to [u], for a
    UID that [isBinded] takes for one: A is unbound first and closed with code
    4009 after that, a UID that B was bound to before is removed from the
    index, the index maps the string of [u] to B afterwards, and the close
    event of A, when it comes, leaves that entry in place. *)
Lemma bindUid_displaces_old_session (σ : WssServer.t) (A B : WssServer.ref) (u : jsval)
    (key : string) (a b : WssSession.t) (rs : readyState) :
  A ≠ B ->
  toString u = Some key ->
  WssServer.sessionMap σ !! key = Some A ->
  WssServer.heap σ !! A = Some a ->
  WssServer.heap σ !! B = Some b ->
  WssSession.isBinded a = true ->
  toString (WssSession.uid a) = Some key ->
  WssSession.socket a = Some rs ->
  let σ' := WssServer.bindUid B u true σ in
  WssServer.trace σ' =
    WssServer.trace σ
      ++ [WssServer.Log "debug" "unbindUid:" (Some A);
          WssServer.SocketClose A 4009 "newbind error"]
      ++ (if WssSession.isBinded b then [WssServer.Log "debug" "unbindUid:" (Some B)] else [])
      ++ [WssServer.Log "debug" "bindUid:" (Some B)]
  /\ WssServer.heap σ' !! A = Some (WssSession.set_socket None (WssSession.unbindUid a))
  /\ (forall kb, WssSession.isBinded b = true -> toString (WssSession.uid b) = Some kb ->
        kb ≠ key -> WssServer.sessionMap σ' !! kb = None)
  /\ WssServer.heap σ' !! B = Some (WssSession.bindUid u b)
  /\ WssServer.sessionMap σ' !! key = Some B
  /\ (forall code reason,
        WssServer.sessionMap (WssServer._onWebSocketClose A code reason σ') !! key = Some B).
Proof.
  intros HAB Hu HkA Ha Hb Hbound Hka Hsock σ'.
  assert (Hσ' : exists σ1,
    σ' = WssServer.emit (WssServer.Log "debug" "bindUid:" (Some B))
           (WssServer.set_sessionMap (<[key := B]> (WssServer.sessionMap σ1))
              (WssServer.session_update (WssSession.bindUid u) B σ1))
    /\ σ1 = WssServer.unbindUid B
         (WssServer.session_close A RouteCode.CODE_NEWBIND (WssServer.unbindUid A σ))).
  { eexists. split; [|reflexivity]. subst σ'. unfold WssServer.bindUid, WssServer.rebind.
    rewrite Hu, HkA. reflexivity. }
  destruct Hσ' as (σ1 & Hσ' & Hσ1).
  set (σA := WssServer.session_close A RouteCode.CODE_NEWBIND (WssServer.unbindUid A σ)) in *.
  assert (HσA : σA =
    WssServer.set_heap
      (<[A := WssSession.set_socket None (WssSession.unbindUid a)]>
         (alter WssSession.unbindUid A (WssServer.heap σ)))
      (WssServer.emit (WssServer.SocketClose A 4009 "newbind error")
         (WssServer.session_update WssSession.unbindUid A
            (WssServer.set_sessionMap (delete key (WssServer.sessionMap σ))
               (WssServer.emit (WssServer.Log "debug" "unbindUid:" (Some A)) σ))))).
  { subst σA. rewrite (unbindUid_bound A σ a key Ha Hbound Hka).
    erewrite session_close_live; [reflexivity| |].
    - cbn. rewrite lookup_alter_eq, Ha. reflexivity.
    - exact Hsock. }
  assert (HbA : WssServer.heap σA !! B = Some b).
  { rewrite HσA. cbn. rewrite lookup_insert_ne, lookup_alter_ne by done. exact Hb. }
  assert (HaA : WssServer.heap σA !! A = Some (WssSession.set_socket None (WssSession.unbindUid a))).
  { rewrite HσA. cbn. apply lookup_insert_eq. }
  assert (Hfinal :
    WssServer.trace σ1 =
      WssServer.trace σ
        ++ [WssServer.Log "debug" "unbindUid:" (Some A);
            WssServer.SocketClose A 4009 "newbind error"]
        ++ (if WssSession.isBinded b then [WssServer.Log "debug" "unbindUid:" (Some B)] else [])
    /\ WssServer.heap σ1 !! A = Some (WssSession.set_socket None (WssSession.unbindUid a))
    /\ WssServer.heap σ1 !! B = Some (if WssSession.isBinded b then WssSession.unbindUid b else b)
    /\ (forall kb, WssSession.isBinded b = true -> toString (WssSession.uid b) = Some kb ->
          WssServer.sessionMap σ1 !! kb = None)).
  { destruct (WssSession.isBinded b) eqn:Hbb.
    - destruct (truthy_toString _ Hbb) as [kb Hkb].
      rewrite Hσ1, (unbindUid_bound B σA b kb HbA Hbb Hkb), HσA. cbn.
      rewrite <- !app_assoc. cbn. split; [reflexivity|].
      rewrite lookup_alter_ne, lookup_insert_eq by done. split; [reflexivity|].
      rewrite lookup_alter_eq, lookup_insert_ne, lookup_alter_ne, Hb by done.
      split; [reflexivity|].
      intros kb' _ Hkb'. assert (kb' = kb) by congruence. subst kb'.
      apply lookup_delete_eq.
    - rewrite Hσ1, (unbindUid_unbound B σA b HbA Hbb), HσA. cbn.
      rewrite <- ?app_assoc. cbn. split; [reflexivity|].
      rewrite lookup_insert_eq. split; [reflexivity|].
      rewrite lookup_insert_ne, lookup_alter_ne, Hb by done.
      split; [reflexivity|]. intros kb Habs. discriminate. }
  destruct Hfinal as (Htrace & HA1 & HB1 & Hprior).
  assert (HA' : WssServer.heap σ' !! A = Some (WssSession.set_socket None (WssSession.unbindUid a))).
  { rewrite Hσ'. cbn. rewrite lookup_alter_ne by done. exact HA1. }
  assert (Hkey' : WssServer.sessionMap σ' !! key = Some B).
  { rewrite Hσ'. cbn. apply lookup_insert_eq. }
  split; [|split; [|split; [|split; [|split]]]].
  - rewrite Hσ'. cbn. rewrite Htrace, <- !app_assoc. reflexivity.
  - exact HA'.
  - intros kb Hbb Hkb Hne. rewrite Hσ'. cbn.
    rewrite lookup_insert_ne by done. by apply Hprior.
  - rewrite Hσ'. cbn. rewrite lookup_alter_eq, HB1.
    destruct (WssSession.isBinded b); reflexivity.
  - exact Hkey'.
  - intros code reason.
    rewrite (onWebSocketClose_unbound A code reason σ' _ HA'); [exact Hkey'|reflexivity].
Qed.

(** [bindUid(S, u, true)] while S is itself the session bound to [u], for a
    UID that [isBinded] takes for one: the server closes S's own socket with
    code 4009 and then installs S again as the binding of [u].  The index then
    maps the string of [u] to a session without a socket, until the close
    event of S removes the entry. *)
Lemma bindUid_on_own_uid_closes_self (σ : WssServer.t) (S : WssServer.ref) (u : jsval)
    (key : string) (s : WssSession.t) (rs : readyState) :
  toString u = Some key ->
  WssServer.sessionMap σ !! key = Some S ->
  WssServer.heap σ !! S = Some s ->
  WssSession.isBinded s = true ->
  toString (WssSession.uid s) = Some key ->
  WssSession.socket s = Some rs ->
  let σ' := WssServer.bindUid S u true σ in
  WssServer.trace σ' =
    WssServer.trace σ
      ++ [WssServer.Log "debug" "unbindUid:" (Some S);
          WssServer.SocketClose S 4009 "newbind error";
          WssServer.Log "debug" "bindUid:" (Some S)]
  /\ WssServer.sessionMap σ' !! key = Some S
  /\ WssServer.heap σ' !! S = Some (WssSession.bindUid u (WssSession.set_socket None s))
  /\ (truthy u = true ->
      forall code reason,
        WssServer.sessionMap (WssServer._onWebSocketClose S code reason σ') !! key = None).
Proof.
  intros Hu Hk Hs Hbound Hks Hsock σ'.
  set (σ1 := WssServer.session_update WssSession.unbindUid S
               (WssServer.set_sessionMap (delete key (WssServer.sessionMap σ))
                  (WssServer.emit (WssServer.Log "debug" "unbindUid:" (Some S)) σ))).
  set (σ2 := WssServer.set_heap
               (<[S := WssSession.set_socket None (WssSession.unbindUid s)]> (WssServer.heap σ1))
               (WssServer.emit (WssServer.SocketClose S 4009 "newbind error") σ1)).
  assert (Hσ' : σ' =
    WssServer.emit (WssServer.Log "debug" "bindUid:" (Some S))
      (WssServer.set_sessionMap (<[key := S]> (WssServer.sessionMap σ2))
         (WssServer.session_update (WssSession.bindUid u) S σ2))).
  { subst σ'. unfold WssServer.bindUid, WssServer.rebind. rewrite Hu, Hk.
    rewrite (unbindUid_bound S σ s key Hs Hbound Hks). fold σ1.
    rewrite (session_close_live S RouteCode.CODE_NEWBIND σ1
               (WssSession.unbindUid s) rs); cycle 1.
    { subst σ1. project. rewrite lookup_alter_eq, Hs. reflexivity. }
    { exact Hsock. }
    cbn [fst snd RouteCode.CODE_NEWBIND]. fold σ2.
    rewrite (unbindUid_unbound S σ2 (WssSession.set_socket None (WssSession.unbindUid s)));
      [reflexivity| |reflexivity].
    subst σ2. project. apply lookup_insert_eq. }
  assert (HS' : WssServer.heap σ' !! S =
                  Some (WssSession.bindUid u (WssSession.set_socket None s))).
  { rewrite Hσ'. subst σ2. project. rewrite lookup_alter_eq, lookup_insert_eq. reflexivity. }
  split; [|split; [|split]].
  - rewrite Hσ'. subst σ2 σ1. project. rewrite <- !app_assoc. reflexivity.
  - rewrite Hσ'. project. apply lookup_insert_eq.
  - exact HS'.
  - intros Htruthy code reason.
    apply (onWebSocketClose_bound S code reason σ' _ key HS'); [exact Htruthy | exact Hu].
Qed.

(** C3. [bindUid(B, u, true)] while another session A holds a UID [u] that
    is 0 or the empty string: A is closed with code 4009 without having been
    unbound.  [unbindUid(A)] returns at [!session.isBinded()], which reads a
    falsy UID as no UID: no unbind is logged, and the object of A keeps [u].
    The index maps the string of [u] to B afterwards, so that A and B both
    hold [u]. *)
Theorem bindUid_leaves_falsy_holder_bound (σ : WssServer.t) (A B : WssServer.ref)
    (u : jsval) (key : string) (a b : WssSession.t) (rs : readyState) :
  A ≠ B ->
  toString u = Some key ->
  truthy u = false ->
  WssServer.sessionMap σ !! key = Some A ->
  WssServer.heap σ !! A = Some a ->
  WssServer.heap σ !! B = Some b ->
  WssSession.uid a = u ->
  WssSession.socket a = Some rs ->
  let σ' := WssServer.bindUid B u true σ in
  WssServer.trace σ' =
    WssServer.trace σ
      ++ [WssServer.SocketClose A 4009 "newbind error"]
      ++ (if WssSession.isBinded b then [WssServer.Log "debug" "unbindUid:" (Some B)] else [])
      ++ [WssServer.Log "debug" "bindUid:" (Some B)]
  /\ WssServer.heap σ' !! A = Some (WssSession.set_socket None a)
  /\ WssSession.uid (WssSession.set_socket None a) = u
  /\ WssServer.heap σ' !! B = Some (WssSession.bindUid u b)
  /\ WssServer.sessionMap σ' !! key = Some B.
Proof.
  intros HAB Hu Hfalsy HkA Ha Hb Hua Hsock σ'.
  assert (Hunbound : WssSession.isBinded a = false).
  { unfold WssSession.isBinded. rewrite Hua. exact Hfalsy. }
  set (σA := WssServer.set_heap (<[A := WssSession.set_socket None a]> (WssServer.heap σ))
               (WssServer.emit (WssServer.SocketClose A 4009 "newbind error") σ)).
  assert (Hσ' : σ' = WssServer.rebind B u key σA).
  { subst σ'. unfold WssServer.bindUid. rewrite Hu, HkA.
    rewrite (unbindUid_unbound A σ a Ha Hunbound).
    rewrite (session_close_live A RouteCode.CODE_NEWBIND σ a rs Ha Hsock). reflexivity. }
  assert (HbA : WssServer.heap σA !! B = Some b).
  { subst σA. project. rewrite lookup_insert_ne by done. exact Hb. }
  assert (HaA : WssServer.heap σA !! A = Some (WssSession.set_socket None a)).
  { subst σA. project. apply lookup_insert_eq. }
  rewrite Hσ'. unfold WssServer.rebind.
  destruct (WssSession.isBinded b) eqn:Hbb.
  - destruct (truthy_toString _ Hbb) as [kb Hkb].
    rewrite (unbindUid_bound B σA b kb HbA Hbb Hkb). subst σA. project.
    rewrite <- !app_assoc. cbn [app]. split; [reflexivity|].
    rewrite !lookup_alter_ne, lookup_insert_eq by done. split; [reflexivity|].
    split; [exact Hua|].
    rewrite !lookup_alter_eq, lookup_insert_ne, Hb by done.
    split; [reflexivity | apply lookup_insert_eq].
  - rewrite (unbindUid_unbound B σA b HbA Hbb). subst σA. project.
    rewrite <- !app_assoc. cbn [app]. split; [reflexivity|].
    rewrite lookup_alter_ne, lookup_insert_eq by done. split; [reflexivity|].
    split; [exact Hua|].
    rewrite lookup_alter_eq, lookup_insert_ne, Hb by done.
    split; [reflexivity | apply lookup_insert_eq].
Qed.

(** C10. [bindUid(S, u, true)] while S itself holds a UID [u] that is 0 or
    the empty string: the server closes the socket of S with code 4009 and
    installs S again, without an unbind, and the index maps the string of [u]
    to S, which has no socket.  The close event of S does not remove the
    entry: its [unbindUid(S)] returns at [!session.isBinded()], and the index
    keeps the closed session. *)
Theorem bindUid_falsy_uid_survives_close (σ : WssServer.t) (S : WssServer.ref)
    (u : jsval) (key : string) (s : WssSession.t) (rs : readyState) :
  toString u = Some key ->
  truthy u = false ->
  WssServer.sessionMap σ !! key = Some S ->
  WssServer.heap σ !! S = Some s ->
  WssSession.uid s = u ->
  WssSession.socket s = Some rs ->
  let σ' := WssServer.bindUid S u true σ in
  WssServer.trace σ' =
    WssServer.trace σ
      ++ [WssServer.SocketClose S 4009 "newbind error";
          WssServer.Log "debug" "bindUid:" (Some S)]
  /\ WssServer.sessionMap σ' !! key = Some S
  /\ WssServer.heap σ' !! S = Some (WssSession.bindUid u (WssSession.set_socket None s))
  /\ (forall code reason,
        WssServer.sessionMap (WssServer._onWebSocketClose S code reason σ') !! key = Some S).
Proof.
  intros Hu Hfalsy Hk Hs Hus Hsock σ'.
  assert (Hunbound : WssSession.isBinded s = false).
  { unfold WssSession.isBinded. rewrite Hus. exact Hfalsy. }
  set (σ1 := WssServer.set_heap (<[S := WssSession.set_socket None s]> (WssServer.heap σ))
               (WssServer.emit (WssServer.SocketClose S 4009 "newbind error") σ)).
  assert (Hσ' : σ' =
    WssServer.emit (WssServer.Log "debug" "bindUid:" (Some S))
      (WssServer.set_sessionMap (<[key := S]> (WssServer.sessionMap σ1))
         (WssServer.session_update (WssSession.bindUid u) S σ1))).
  { subst σ'. unfold WssServer.bindUid, WssServer.rebind. rewrite Hu, Hk.
    rewrite (unbindUid_unbound S σ s Hs Hunbound).
    rewrite (session_close_live S RouteCode.CODE_NEWBIND σ s rs Hs Hsock).
    cbn [fst snd RouteCode.CODE_NEWBIND]. fold σ1.
    rewrite (unbindUid_unbound S σ1 (WssSession.set_socket None s));
      [reflexivity| |exact Hunbound].
    subst σ1. project. apply lookup_insert_eq. }
  assert (HS' : WssServer.heap σ' !! S =
                  Some (WssSession.bindUid u (WssSession.set_socket None s))).
  { rewrite Hσ'. subst σ1. project. rewrite lookup_alter_eq, lookup_insert_eq. reflexivity. }
  assert (Hkey' : WssServer.sessionMap σ' !! key = Some S).
  { rewrite Hσ'. project. apply lookup_insert_eq. }
  split; [|split; [|split]].
  - rewrite Hσ'. subst σ1. project. rewrite <- !app_assoc. reflexivity.
  - exact Hkey'.
  - exact HS'.
  - intros code reason.
    rewrite (onWebSocketClose_unbound S code reason σ' _ HS'); [exact Hkey' | exact Hfalsy].
Qed.

(** ** Channels *)

Lemma channelMap_session_close (S : WssServer.ref) (cr : Z * string) (σ : WssServer.t) :
  WssServer.channelMap (WssServer.session_close S cr σ) = WssServer.channelMap σ.
Proof.
  unfold WssServer.session_close.
  destruct (WssServer.heap σ !! S) as [x|]; [|reflexivity].
  destruct (WssSession.close x) as [[] x']; reflexivity.
Qed.

Lemma channelMap_unbindUid (S : WssServer.ref) (σ : WssServer.t) :
  WssServer.channelMap (WssServer.unbindUid S σ) = WssServer.channelMap σ.
Proof.
  unfold WssServer.unbindUid.
  destruct (WssServer.heap σ !! S) as [x|]; [|reflexivity].
  destruct (WssSession.isBinded x); [|reflexivity]. cbn.
  destruct (toString (WssSession.uid x)); reflexivity.
Qed.

Lemma channelMap_bindUid (S : WssServer.ref) (uid : jsval) (closeold : bool)
    (σ : WssServer.t) :
  WssServer.channelMap (WssServer.bindUid S uid closeold σ) = WssServer.channelMap σ.
Proof.
  assert (Hre : forall key σ0,
            WssServer.channelMap (WssServer.rebind S uid key σ0) = WssServer.channelMap σ0).
  { intros key σ0. unfold WssServer.rebind. cbn. apply channelMap_unbindUid. }
  unfold WssServer.bindUid.
  destruct (toString uid) as [key|]; [|reflexivity].
  destruct (WssServer.sessionMap σ !! key) as [old|].
  - rewrite Hre. destruct closeold;
      rewrite ?channelMap_session_close, channelMap_unbindUid; reflexivity.
  - destruct (inherited key); [reflexivity | apply Hre].
Qed.

Lemma channelMap_quitSessions (key : string) (l : list (Z * WssServer.ref)) (σ : WssServer.t) :
  WssServer.channelMap
    (foldl (fun σ kv => WssServer.session_update (WssSession.quitChannel key) (snd kv) σ) σ l)
  = WssServer.channelMap σ.
Proof.
  revert σ. induction l as [|kv l IH]; intros σ; [reflexivity|].
  cbn [foldl]. rewrite IH. reflexivity.
Qed.

Lemma channels_ok_insert (key : string) (channel : WssServer.GroupChannel) (σ σ' : WssServer.t) :
  channels_ok σ ->
  channel_ok channel ->
  WssServer.channelMap σ' = <[key := channel]> (WssServer.channelMap σ) ->
  channels_ok σ'.
Proof.
  intros Hok Hc Hmap k c. rewrite Hmap, lookup_insert. case_decide.
  - intros [= <-]. exact Hc.
  - apply Hok.
Qed.

Lemma channels_ok_delete (key : string) (σ σ' : WssServer.t) :
  channels_ok σ ->
  WssServer.channelMap σ' = delete key (WssServer.channelMap σ) ->
  channels_ok σ'.
Proof.
  intros Hok Hmap k c. rewrite Hmap, lookup_delete. case_decide; [discriminate|].
  apply Hok.
Qed.

Lemma channels_ok_same (σ σ' : WssServer.t) :
  channels_ok σ ->
  WssServer.channelMap σ' = WssServer.channelMap σ ->
  channels_ok σ'.
Proof. intros Hok Hmap k c. rewrite Hmap. apply Hok. Qed.

Lemma joinChannel_ok (S : WssServer.ref) (gid : jsval) (σ : WssServer.t) :
  channels_ok σ -> channels_ok (WssServer.joinChannel S gid σ).
Proof.
  intros Hok.
  assert (Hjoin : forall c,
            WssServer.count c = Z.of_nat (size (WssServer.sessions c)) ->
            (is_Some (WssServer.sessions c !! S) -> channel_ok c) ->
            forall key, channels_ok (WssServer.join S key c σ)).
  { intros c Hcount Hmember key. unfold WssServer.join.
    destruct (WssServer.sessions c !! S) as [r|] eqn:HS; cbn.
    - eapply channels_ok_insert; [exact Hok| |reflexivity]. apply Hmember. eauto.
    - eapply channels_ok_insert; [exact Hok| |reflexivity].
      split; cbn [WssServer.count WssServer.sessions];
        [rewrite map_size_insert_None by exact HS|]; lia. }
  unfold WssServer.joinChannel.
  destruct (toString gid) as [key|]; [|exact Hok].
  destruct (WssServer.channelMap σ !! key) as [c|] eqn:Hkey.
  - destruct (Hok key c Hkey) as [Hcount Hpos]. apply Hjoin; [exact Hcount|]. by split.
  - destruct (inherited key); [exact Hok|].
    apply Hjoin; [reflexivity|]. cbn. rewrite lookup_empty. intros [? [=]].
Qed.

Lemma quitChannel_ok (S : WssServer.ref) (gid : jsval) (σ : WssServer.t) :
  channels_ok σ -> channels_ok (WssServer.quitChannel S gid σ).
Proof.
  intros Hok. unfold WssServer.quitChannel.
  destruct (toString gid) as [key|]; [|exact Hok].
  destruct (WssServer.channelMap σ !! key) as [c|] eqn:Hkey; [|exact Hok].
  destruct (Hok key c Hkey) as [Hcount Hpos].
  destruct (WssServer.sessions c !! S) as [r|] eqn:HS; cbn.
  - destruct (WssServer.count c - 1 <=? 0) eqn:Hle.
    + eapply channels_ok_delete; [exact Hok|reflexivity].
    + eapply channels_ok_insert; [exact Hok| |reflexivity].
      apply Z.leb_gt in Hle. split; cbn; [|lia].
      rewrite map_size_delete_Some by eauto. lia.
  - destruct (WssServer.count c <=? 0) eqn:Hle.
    + eapply channels_ok_delete; [exact Hok|reflexivity].
    + eapply channels_ok_insert; [exact Hok| |reflexivity]. by split.
Qed.

Lemma deleteChannel_ok (gid : jsval) (σ : WssServer.t) :
  channels_ok σ -> channels_ok (WssServer.deleteChannel gid σ).
Proof.
  intros Hok. unfold WssServer.deleteChannel.
  destruct (toString gid) as [key|]; [|exact Hok].
  destruct (WssServer.channelMap σ !! key) as [c|] eqn:Hkey;
    [|destruct (inherited key); exact Hok].
  eapply channels_ok_delete; [exact Hok|]. cbn.
  rewrite channelMap_quitSessions. reflexivity.
Qed.

Lemma quitChannels_ok (S : WssServer.ref) (gids : list string) (σ : WssServer.t) :
  channels_ok σ ->
  channels_ok (foldl (fun σ gid => WssServer.quitChannel S (JStr gid) σ) σ gids).
Proof.
  revert σ. induction gids as [|gid gids IH]; intros σ Hok; [exact Hok|].
  cbn [foldl]. apply IH, quitChannel_ok, Hok.
Qed.

Lemma onWebSocketClose_ok (S : WssServer.ref) (code : Z) (reason : string) (σ : WssServer.t) :
  channels_ok σ -> channels_ok (WssServer._onWebSocketClose S code reason σ).
Proof.
  intros Hok. unfold WssServer._onWebSocketClose.
  eapply channels_ok_same; [|cbn; apply channelMap_unbindUid].
  apply quitChannels_ok.
  eapply channels_ok_same; [exact Hok|].
  destruct (WssServer.sessionCloseListener _); reflexivity.
Qed.

Lemma registry_step_ok (σ σ' : WssServer.t) :
  registry_step σ σ' -> channels_ok σ -> channels_ok σ'.
Proof.
  intros Hstep Hok. destruct Hstep.
  - eapply channels_ok_same; [exact Hok|reflexivity].
  - by apply joinChannel_ok.
  - by apply quitChannel_ok.
  - by apply deleteChannel_ok.
  - by apply onWebSocketClose_ok.
  - eapply channels_ok_same; [exact Hok|apply channelMap_bindUid].
  - eapply channels_ok_same; [exact Hok|apply channelMap_unbindUid].
Qed.

Lemma reachable_channels_ok (config : WssServer.WssServerConfig) (σ : WssServer.t) :
  reachable config σ -> channels_ok σ.
Proof.
  unfold reachable. revert σ. apply rtc_ind_r.
  - intros key c. cbn [WssServer.create WssServer.channelMap].
    rewrite lookup_empty. discriminate.
  - intros σ1 σ2 _ Hstep IH. eapply registry_step_ok; eassumption.
Qed.

Lemma join_member (S : WssServer.ref) (key : string) (c : WssServer.GroupChannel)
    (σ : WssServer.t) :
  exists channel,
    WssServer.channelMap (WssServer.join S key c σ) !! key = Some channel
    /\ is_Some (WssServer.sessions channel !! S).
Proof.
  unfold WssServer.join.
  destruct (WssServer.sessions c !! S) as [r|] eqn:HS; cbn.
  - exists c. rewrite lookup_insert_eq. eauto.
  - eexists. rewrite lookup_insert_eq. split; [reflexivity|]. cbn.
    rewrite lookup_insert_eq. eauto.
Qed.

Lemma joinChannel_member (S : WssServer.ref) (gid : jsval) (key : string) (σ : WssServer.t) :
  toString gid = Some key ->
  (WssServer.channelMap σ !! key = None -> inherited key = false) ->
  exists channel,
    WssServer.channelMap (WssServer.joinChannel S gid σ) !! key = Some channel
    /\ is_Some (WssServer.sessions channel !! S).
Proof.
  intros Hkey Hown. unfold WssServer.joinChannel. rewrite Hkey.
  destruct (WssServer.channelMap σ !! key) as [c|]; [apply join_member|].
  rewrite (Hown eq_refl). apply join_member.
Qed.

Lemma joinChannel_again (S : WssServer.ref) (gid : jsval) (σ : WssServer.t) :
  let σ1 := WssServer.joinChannel S gid σ in
  WssServer.channelMap (WssServer.joinChannel S gid σ1) = WssServer.channelMap σ1
  /\ WssServer.heap (WssServer.joinChannel S gid σ1) = WssServer.heap σ1.
Proof.
  intros σ1. destruct (toString gid) as [key|] eqn:Hkey.
  - destruct (WssServer.channelMap σ !! key) as [c|] eqn:Hc;
      [|destruct (inherited key) eqn:Hin].
    + destruct (joinChannel_member S gid key σ Hkey) as (c1 & Hc1 & [r Hr]);
        [rewrite Hc; discriminate|].
      fold σ1 in Hc1. unfold WssServer.joinChannel, WssServer.join. rewrite Hkey, Hc1.
      rewrite Hr. cbn [present negb]. project.
      split; [|reflexivity]. by apply insert_id.
    + assert (Hσ1 : σ1 = σ).
      { subst σ1. unfold WssServer.joinChannel. rewrite Hkey, Hc, Hin. reflexivity. }
      rewrite Hσ1. fold σ1. rewrite Hσ1. by split.
    + destruct (joinChannel_member S gid key σ Hkey) as (c1 & Hc1 & [r Hr]);
        [intros _; exact Hin|].
      fold σ1 in Hc1. unfold WssServer.joinChannel, WssServer.join. rewrite Hkey, Hc1.
      rewrite Hr. cbn [present negb]. project.
      split; [|reflexivity]. by apply insert_id.
  - unfold WssServer.joinChannel. rewrite Hkey. by split.
Qed.

(** In the states that the server reaches through connections, the channel
    operations, the UID operations and the close event: the count of a
    registered channel is the number of its members, and a channel is
    registered exactly when its count is positive.  Under a key that names no
    member of [Object.prototype], a channel is made by the first join.  A
    channel is removed when its last member quits, and joining a channel a
    second time changes neither the channel registry nor the sessions. *)
Lemma channel_registry_invariant (config : WssServer.WssServerConfig) (σ : WssServer.t) :
  reachable config σ ->
  (forall key channel, WssServer.channelMap σ !! key = Some channel ->
     WssServer.count channel = Z.of_nat (size (WssServer.sessions channel)))
  /\ (forall key, is_Some (WssServer.channelMap σ !! key) <-> member_count key σ > 0)
  /\ (forall S gid key, toString gid = Some key ->
        inherited key = false ->
        WssServer.channelMap σ !! key = None ->
        WssServer.channelMap (WssServer.joinChannel S gid σ) !! key
          = Some (WssServer.Channel 1 {[S := S]}))
  /\ (forall S gid key channel, toString gid = Some key ->
        WssServer.channelMap σ !! key = Some channel ->
        WssServer.sessions channel = {[S := S]} ->
        WssServer.channelMap (WssServer.quitChannel S gid σ) !! key = None)
  /\ (forall S gid,
        let σ1 := WssServer.joinChannel S gid σ in
        WssServer.channelMap (WssServer.joinChannel S gid σ1) = WssServer.channelMap σ1
        /\ WssServer.heap (WssServer.joinChannel S gid σ1) = WssServer.heap σ1).
Proof.
  intros Hreach. pose proof (reachable_channels_ok config σ Hreach) as Hok.
  split; [|split; [|split; [|split]]].
  - intros key c Hc. apply (Hok key c Hc).
  - intros key. unfold member_count.
    destruct (WssServer.channelMap σ !! key) as [c|] eqn:Hc; cbn.
    + split; [intros _; apply (Hok key c Hc) | eauto].
    + split; [intros [? [=]] | lia].
  - intros S gid key Hkey Hin Hnone. unfold WssServer.joinChannel, WssServer.join.
    rewrite Hkey, Hnone, Hin. cbn. rewrite lookup_empty. cbn.
    rewrite lookup_insert_eq, insert_empty. reflexivity.
  - intros S gid key c Hkey Hc Honly.
    destruct (Hok key c Hc) as [Hcount _].
    rewrite Honly, map_size_singleton in Hcount.
    unfold WssServer.quitChannel. rewrite Hkey, Hc, Honly, lookup_singleton_eq. cbn.
    rewrite Hcount. cbn. apply lookup_delete_eq.
  - intros S gid. apply joinChannel_again.
Qed.

Lemma registry_step_own_channels (σ σ' : WssServer.t) :
  registry_step σ σ' -> own_channels σ -> own_channels σ'.
Proof.
  intros Hstep Hown key Hin. specialize (Hown key Hin). destruct Hstep.
  - exact Hown.
  - unfold WssServer.joinChannel. destruct (toString gid) as [k|]; [|exact Hown].
    destruct (WssServer.channelMap σ !! k) as [c|] eqn:Hc.
    + unfold WssServer.join. destruct (negb _); project;
        (rewrite lookup_insert_ne; [exact Hown | congruence]).
    + destruct (inherited k) eqn:Hk; [exact Hown|].
      unfold WssServer.join. destruct (negb _); project;
        (rewrite lookup_insert_ne; [exact Hown | congruence]).
  - unfold WssServer.quitChannel. destruct (toString gid) as [k|]; [|exact Hown].
    destruct (WssServer.channelMap σ !! k) as [c|] eqn:Hc; [|exact Hown].
    assert (k ≠ key) by congruence.
    destruct (present _); cbn [fst snd]; destruct (_ <=? 0); project;
      rewrite ?lookup_delete_ne, ?lookup_insert_ne by assumption; exact Hown.
  - unfold WssServer.deleteChannel. destruct (toString gid) as [k|]; [|exact Hown].
    destruct (WssServer.channelMap σ !! k) as [c|] eqn:Hc;
      [|destruct (inherited k); exact Hown].
    project. rewrite channelMap_quitSessions.
    rewrite lookup_delete_ne by congruence. exact Hown.
  - unfold WssServer._onWebSocketClose. cbn. rewrite channelMap_unbindUid.
    set (σ1 := match WssServer.sessionCloseListener _ with Some _ => _ | None => _ end).
    assert (H1 : WssServer.channelMap σ1 !! key = None).
    { subst σ1. destruct (WssServer.sessionCloseListener σ); exact Hown. }
    clearbody σ1. generalize (from_option (fun x => elements (WssSession.channel x)) []
                                (WssServer.heap σ1 !! S)).
    intros gids. revert σ1 H1. induction gids as [|g gids IH]; intros σ1 H1; [exact H1|].
    cbn [foldl]. apply IH.
    unfold WssServer.quitChannel. cbn [toString join_item].
    destruct (WssServer.channelMap σ1 !! g) as [c|] eqn:Hc; [|exact H1].
    assert (g ≠ key) by congruence.
    destruct (present _); cbn [fst snd]; destruct (_ <=? 0); project;
      rewrite ?lookup_delete_ne, ?lookup_insert_ne by assumption; exact H1.
  - rewrite channelMap_bindUid. exact Hown.
  - rewrite channelMap_unbindUid. exact Hown.
Qed.

(** C6. In every state that the server reaches through connections, the
    channel operations, the UID operations and the close event, a first join
    of a channel whose key names a member of [Object.prototype] makes no
    channel: [joinChannel] takes the inherited member for the channel and
    throws at [channel.sessions[session.id]], the registry has no channel
    under the key before or after, and the session is left as it was. *)
Theorem joinChannel_inherited_key_makes_no_channel (config : WssServer.WssServerConfig)
    (σ : WssServer.t) (S : WssServer.ref) (gid : jsval) (key : string) :
  reachable config σ ->
  toString gid = Some key ->
  inherited key = true ->
  WssServer.channelMap σ !! key = None
  /\ WssServer.joinChannel S gid σ = σ
  /\ WssServer.channelMap (WssServer.joinChannel S gid σ) !! key = None.
Proof.
  intros Hreach Hkey Hin.
  assert (Hown : own_channels σ).
  { revert σ Hreach. apply rtc_ind_r.
    - intros k _. cbn [WssServer.create WssServer.channelMap]. apply lookup_empty.
    - intros σ1 σ2 _ Hstep IH. exact (registry_step_own_channels σ1 σ2 Hstep IH). }
  pose proof (Hown key Hin) as Hnone.
  assert (Hjoin : WssServer.joinChannel S gid σ = σ).
  { unfold WssServer.joinChannel. rewrite Hkey, Hnone, Hin. reflexivity. }
  split; [exact Hnone|]. split; [exact Hjoin|]. rewrite Hjoin. exact Hnone.
Qed.

(** ** The bridge client *)

Lemma with_events_nil (b : WssBridge.t) : with_events [] b = b.
Proof. destruct b. unfold with_events. cbn. rewrite app_nil_r. reflexivity. Qed.

Lemma with_events_app (e1 e2 : list WssBridge.event) (b : WssBridge.t) :
  with_events e2 (with_events e1 b) = with_events (e1 ++ e2) b.
Proof. unfold with_events. cbn. rewrite app_assoc. reflexivity. Qed.

Lemma callError_events (reqId : Z) (r : WssBridgeRequest.t) (b : WssBridge.t) :
  WssBridge.callError reqId r WssBridgeResponse.GatewayTimeout b
  = with_events (timeout_call reqId r) b.
Proof.
  unfold WssBridge.callError, timeout_call.
  destruct (WssBridgeRequest.onerror r); [reflexivity|].
  symmetry. apply with_events_nil.
Qed.

Lemma sweep_spec (time timeout : Z) (l : list (Z * WssBridgeRequest.t))
    (b : WssBridge.t) :
  WssBridge.sweep time timeout l b
  = (with_events (sweep_events time timeout l) b,
     map fst (List.filter (overdue time timeout) l)).
Proof.
  revert b. induction l as [|[k r] l IH]; intros b.
  - cbn. rewrite with_events_nil. reflexivity.
  - cbn [WssBridge.sweep sweep_events flat_map List.filter].
    unfold overdue at 1 3. cbn [snd fst].
    destruct (time - WssBridgeRequest.time r >? timeout).
    + rewrite IH, callError_events, with_events_app. reflexivity.
    + rewrite IH. reflexivity.
Qed.

Lemma filter_filter_andb {A} (f g : A -> bool) (l : list A) :
  List.filter f (List.filter g l) = List.filter (fun x => g x && f x) l.
Proof.
  induction l as [|x l IH]; [reflexivity|].
  cbn. destruct (g x); cbn; [destruct (f x)|]; rewrite IH; reflexivity.
Qed.

Lemma requests_delete_all (ids : list Z) (b : WssBridge.t) :
  WssBridge.requests (WssBridge.delete_all ids b)
  = List.filter (fun kr => negb (existsb (Z.eqb (fst kr)) ids)) (WssBridge.requests b).
Proof.
  revert b. induction ids as [|k ids IH]; intros b.
  - cbn. induction (WssBridge.requests b) as [|x l IHl]; [reflexivity|].
    cbn. rewrite <- IHl. reflexivity.
  - cbn [WssBridge.delete_all fold_left].
    change (fold_left _ ids ?b0) with (WssBridge.delete_all ids b0).
    rewrite IH. cbn. unfold WssBridge.requests_delete.
    rewrite filter_filter_andb. apply List.filter_ext. intros kr. cbn.
    rewrite negb_orb. reflexivity.
Qed.

Lemma trace_delete_all (ids : list Z) (b : WssBridge.t) :
  WssBridge.trace (WssBridge.delete_all ids b) = WssBridge.trace b.
Proof.
  revert b. induction ids as [|k ids IH]; intros b; [reflexivity|].
  cbn [WssBridge.delete_all fold_left].
  change (fold_left _ ids ?b0) with (WssBridge.delete_all ids b0).
  rewrite IH. reflexivity.
Qed.

Lemma calls_for_app (reqId : Z) (e1 e2 : list WssBridge.event) :
  calls_for reqId (e1 ++ e2) = calls_for reqId e1 ++ calls_for reqId e2.
Proof. apply List.filter_app. Qed.

Lemma quiet_refl (b : WssBridge.t) : quiet b b.
Proof. split; [reflexivity|]. exists []. rewrite app_nil_r. by split. Qed.

Lemma quiet_trans (b1 b2 b3 : WssBridge.t) : quiet b1 b2 -> quiet b2 b3 -> quiet b1 b3.
Proof.
  intros (Hr1 & e1 & Ht1 & Hc1) (Hr2 & e2 & Ht2 & Hc2).
  split; [congruence|]. exists (e1 ++ e2). split.
  - rewrite Ht2, Ht1, app_assoc. reflexivity.
  - intros k. rewrite calls_for_app, Hc1, Hc2. reflexivity.
Qed.

Lemma quiet_same (b b' : WssBridge.t) :
  WssBridge.requests b' = WssBridge.requests b ->
  WssBridge.trace b' = WssBridge.trace b ->
  quiet b b'.
Proof.
  intros Hr Ht. split; [exact Hr|]. exists []. rewrite app_nil_r. by split.
Qed.

Lemma quiet_emit (e : WssBridge.event) (b : WssBridge.t) :
  (forall reqId, calls_for reqId [e] = []) -> quiet b (WssBridge.emit e b).
Proof. intros He. split; [reflexivity|]. exists [e]. by split. Qed.

Lemma quiet_safeClose (code : Z) (reason : string) (b : WssBridge.t) :
  quiet b (WssBridge.safeClose code reason b).
Proof.
  unfold WssBridge.safeClose. destruct (WssBridge.socket b); [|apply quiet_refl].
  apply (quiet_trans _ (WssBridge.emit (WssBridge.SocketClose code reason) b));
    [apply quiet_emit; reflexivity | by apply quiet_same].
Qed.

Lemma quiet_safeOpen (b : WssBridge.t) : quiet b (WssBridge.safeOpen b).
Proof.
  unfold WssBridge.safeOpen.
  set (b1 := WssBridge.safeClose _ _ b).
  assert (quiet b b1) by apply quiet_safeClose.
  destruct (WssBridge.expired b1); [assumption|].
  eapply quiet_trans; [eassumption|].
  apply (quiet_trans _ (WssBridge.emit (WssBridge.SocketNew (WssBridge.host b1)) b1));
    [apply quiet_emit; reflexivity | by apply quiet_same].
Qed.

Lemma quiet_sendPackData `{Platform} (pack : WssBridgePackData.t) (i : input)
    (b : WssBridge.t) :
  quiet b (WssBridge.sendPackData pack i b).
Proof.
  unfold WssBridge.sendPackData.
  destruct (WssBridge.expired b); [apply quiet_refl|].
  destruct (WssBridge.isConnected b); [|apply quiet_refl].
  destruct (WssBridgePackData.serialize _ _ _ _ _) as [[[|c s]|buf]|];
    try (apply quiet_emit; reflexivity);
    destruct (WssBridge.has_onerror b);
    solve [apply quiet_refl | apply quiet_emit; reflexivity].
Qed.

(** What follows the sweep in [onTimerTick] calls no request callback. *)
Lemma quiet_keepalive `{Platform} (hb : input) (b : WssBridge.t) :
  quiet b (WssBridge.keepalive hb b).
Proof.
  unfold WssBridge.keepalive. cbn zeta.
  match goal with |- quiet b (if WssBridge.has_onsecond ?b1 then _ else _) =>
    set (b' := b1) end.
  assert (Hq : quiet b b').
  { subst b'. destruct (WssBridge.isConnected b).
    - destruct (mod_is_zero _ _); [|apply quiet_refl].
      eapply quiet_trans; [|apply quiet_sendPackData]. by apply quiet_same.
    - destruct (mod_is_zero _ _ && _); [|apply quiet_refl].
      eapply quiet_trans; [|apply quiet_safeOpen].
      destruct (WssBridge.has_onretry _).
      + apply (quiet_trans _ (WssBridge.set_retryCnt (WssBridge.retryCnt b + 1) b));
          [by apply quiet_same | apply quiet_emit; reflexivity].
      + by apply quiet_same. }
  clearbody b'. destruct (WssBridge.has_onsecond b'); [|exact Hq].
  eapply quiet_trans; [exact Hq|]. apply quiet_emit. reflexivity.
Qed.

(** The tick as a whole: the sweep's calls, then events that call no request
    callback; the pending requests that remain are those not overdue. *)
Lemma onTimerTick_spec `{Platform} (i hb : input) (b : WssBridge.t) :
  let ids := map fst (List.filter (overdue (clock i) (WssBridge.timeout b)) (WssBridge.requests b)) in
  WssBridge.requests (WssBridge.onTimerTick i hb b)
    = List.filter (fun kr => negb (existsb (Z.eqb (fst kr)) ids)) (WssBridge.requests b)
  /\ exists events,
       WssBridge.trace (WssBridge.onTimerTick i hb b)
         = WssBridge.trace b
             ++ sweep_events (clock i) (WssBridge.timeout b) (WssBridge.requests b) ++ events
       /\ forall reqId, calls_for reqId events = [].
Proof.
  intros ids. unfold WssBridge.onTimerTick.
  cbn [WssBridge.set_timerInc WssBridge.timeout WssBridge.requests].
  rewrite sweep_spec. fold ids.
  match goal with |- context [WssBridge.delete_all ids ?b0] =>
    generalize (requests_delete_all ids b0), (trace_delete_all ids b0);
    generalize (WssBridge.delete_all ids b0) end.
  intros b2 Hr2 Ht2.
  destruct (quiet_keepalive hb b2) as (Hr & events & Ht & Hc).
  split.
  - rewrite Hr, Hr2. reflexivity.
  - exists events. split; [|exact Hc].
    rewrite Ht, Ht2. cbn [with_events WssBridge.trace]. rewrite <- app_assoc. reflexivity.
Qed.

(** Pending requests as a dictionary: a reqId files one request. *)
Lemma NoDup_fst_inj {A} (l : list (Z * A)) (x y : Z * A) :
  NoDup (map fst l) -> In x l -> In y l -> fst x = fst y -> x = y.
Proof.
  induction l as [|z l IH]; intros Hnd Hx Hy Hfst; [destruct Hx|].
  cbn in Hnd. apply NoDup_cons in Hnd as [Hz Hnd].
  destruct Hx as [->|Hx], Hy as [->|Hy].
  - reflexivity.
  - exfalso. apply Hz. rewrite Hfst. apply list_elem_of_In, in_map, Hy.
  - exfalso. apply Hz. rewrite <- Hfst. apply list_elem_of_In, in_map, Hx.
  - by apply IH.
Qed.

Lemma In_keys_filter {A} (f : Z * A -> bool) (l : list (Z * A)) (k : Z) :
  In k (map fst (List.filter f l)) -> In k (map fst l).
Proof.
  rewrite !in_map_iff. intros (x & Hk & Hx). apply List.filter_In in Hx as [Hx _]. eauto.
Qed.

Lemma NoDup_keys_filter {A} (f : Z * A -> bool) (l : list (Z * A)) :
  NoDup (map fst l) -> NoDup (map fst (List.filter f l)).
Proof.
  induction l as [|x l IH]; intros Hnd; [constructor|].
  cbn in Hnd. apply NoDup_cons in Hnd as [Hx Hnd]. cbn.
  destruct (f x); [|by apply IH]. cbn. apply NoDup_cons. split; [|by apply IH].
  intros Hin. apply Hx. apply list_elem_of_In. eapply In_keys_filter.
  apply list_elem_of_In. exact Hin.
Qed.

Lemma requests_get_absent (k : Z) (l : list (Z * WssBridgeRequest.t)) :
  ~ In k (map fst l) -> WssBridge.requests_get k l = None.
Proof.
  induction l as [|[k' r'] l IH]; intros Hk; [reflexivity|].
  cbn. destruct (k' =? k) eqn:Heq.
  - apply Z.eqb_eq in Heq. exfalso. apply Hk. left. exact Heq.
  - apply IH. intros Hin. apply Hk. right. exact Hin.
Qed.

Lemma requests_get_present (k : Z) (r : WssBridgeRequest.t) (l : list (Z * WssBridgeRequest.t)) :
  NoDup (map fst l) -> In (k, r) l -> WssBridge.requests_get k l = Some r.
Proof.
  induction l as [|[k' r'] l IH]; intros Hnd Hin; [destruct Hin|].
  cbn in Hnd. apply NoDup_cons in Hnd as [Hk' Hnd]. cbn.
  destruct Hin as [[= -> ->]|Hin].
  - rewrite Z.eqb_refl. reflexivity.
  - destruct (k' =? k) eqn:Heq; [|by apply IH].
    apply Z.eqb_eq in Heq. subst k'. exfalso. apply Hk'.
    apply list_elem_of_In. apply (in_map fst _ _ Hin).
Qed.

Lemma sweep_ids_overdue (time timeout : Z) (l : list (Z * WssBridgeRequest.t))
    (kr : Z * WssBridgeRequest.t) :
  NoDup (map fst l) -> In kr l ->
  existsb (Z.eqb (fst kr)) (map fst (List.filter (overdue time timeout) l))
  = overdue time timeout kr.
Proof.
  intros Hnd Hin. destruct (overdue time timeout kr) eqn:Hov.
  - apply existsb_exists. exists (fst kr). split; [|apply Z.eqb_refl].
    apply in_map, List.filter_In. by split.
  - apply not_true_is_false. intros Hex.
    apply existsb_exists in Hex as (k & Hk & Heq). apply Z.eqb_eq in Heq. subst k.
    apply in_map_iff in Hk as (kr' & Hfst & Hkr').
    apply List.filter_In in Hkr' as [Hkr' Hov'].
    assert (kr' = kr) by (eapply NoDup_fst_inj; eauto). subst kr'. congruence.
Qed.

Lemma calls_for_timeout_call (k k' : Z) (r : WssBridgeRequest.t) :
  calls_for k (timeout_call k' r) = if k' =? k then timeout_call k' r else [].
Proof.
  unfold timeout_call. destruct (WssBridgeRequest.onerror r); cbn.
  - destruct (k' =? k); reflexivity.
  - destruct (k' =? k); reflexivity.
Qed.

Lemma calls_for_sweep_absent (time timeout k : Z) (l : list (Z * WssBridgeRequest.t)) :
  ~ In k (map fst l) -> calls_for k (sweep_events time timeout l) = [].
Proof.
  induction l as [|[k' r'] l IH]; intros Hk; [reflexivity|].
  cbn [sweep_events flat_map]. rewrite calls_for_app. fold (sweep_events time timeout l).
  rewrite IH by (intros Hin; apply Hk; right; exact Hin).
  rewrite app_nil_r. cbn [fst snd].
  destruct (overdue time timeout (k', r')); [|reflexivity].
  rewrite calls_for_timeout_call.
  destruct (k' =? k) eqn:Heq; [|reflexivity].
  apply Z.eqb_eq in Heq. exfalso. apply Hk. left. exact Heq.
Qed.

Lemma calls_for_sweep (time timeout k : Z) (r : WssBridgeRequest.t)
    (l : list (Z * WssBridgeRequest.t)) :
  NoDup (map fst l) -> In (k, r) l ->
  calls_for k (sweep_events time timeout l)
  = if overdue time timeout (k, r) then timeout_call k r else [].
Proof.
  induction l as [|[k' r'] l IH]; intros Hnd Hin; [destruct Hin|].
  cbn in Hnd. apply NoDup_cons in Hnd as [Hk' Hnd].
  cbn [sweep_events flat_map]. rewrite calls_for_app. fold (sweep_events time timeout l).
  cbn [fst snd]. destruct Hin as [[= -> ->]|Hin].
  - rewrite calls_for_sweep_absent, app_nil_r
      by (intros Hin; apply Hk'; apply list_elem_of_In; exact Hin).
    destruct (overdue time timeout (k, r)); [|reflexivity].
    rewrite calls_for_timeout_call, Z.eqb_refl. reflexivity.
  - rewrite IH by assumption.
    assert (Hne : (k' =? k) = false).
    { apply Z.eqb_neq. intros ->. apply Hk'. apply list_elem_of_In.
      apply (in_map fst _ _ Hin). }
    destruct (overdue time timeout (k', r')); [|reflexivity].
    rewrite calls_for_timeout_call, Hne. reflexivity.
Qed.

(** One pending request across a tick. *)
Lemma onTimerTick_request `{Platform} (i hb : input) (b : WssBridge.t)
    (reqId : Z) (request : WssBridgeRequest.t) :
  NoDup (map fst (WssBridge.requests b)) ->
  In (reqId, request) (WssBridge.requests b) ->
  let b' := WssBridge.onTimerTick i hb b in
  WssBridge.requests b'
    = List.filter (fun kr => negb (overdue (clock i) (WssBridge.timeout b) kr))
        (WssBridge.requests b)
  /\ exists events,
       WssBridge.trace b' = WssBridge.trace b ++ events
       /\ if overdue (clock i) (WssBridge.timeout b) (reqId, request)
          then calls_for reqId events = timeout_call reqId request
               /\ WssBridge.requests_get reqId (WssBridge.requests b') = None
          else calls_for reqId events = []
               /\ WssBridge.requests_get reqId (WssBridge.requests b') = Some request.
Proof.
  intros Hnd Hin b'.
  destruct (onTimerTick_spec i hb b) as (Hreq & events & Htrace & Hquiet).
  cbn zeta in Hreq. fold b' in Hreq, Htrace.
  assert (Hreq' : WssBridge.requests b'
    = List.filter (fun kr => negb (overdue (clock i) (WssBridge.timeout b) kr))
        (WssBridge.requests b)).
  { rewrite Hreq. apply List.filter_ext_in. intros kr Hkr.
    rewrite sweep_ids_overdue by assumption. reflexivity. }
  split; [exact Hreq'|].
  eexists. split; [exact Htrace|].
  rewrite calls_for_app, Hquiet, app_nil_r, (calls_for_sweep _ _ _ request) by assumption.
  destruct (overdue (clock i) (WssBridge.timeout b) (reqId, request)) eqn:Hov.
  - split; [reflexivity|]. rewrite Hreq'. apply requests_get_absent.
    intros Hk. apply in_map_iff in Hk as (kr & Hfst & Hkr).
    apply List.filter_In in Hkr as [Hkr Hnov].
    assert (kr = (reqId, request)) by (eapply NoDup_fst_inj; eauto). subst kr.
    rewrite Hov in Hnov. discriminate.
  - split; [reflexivity|]. rewrite Hreq'. apply requests_get_present.
    + by apply NoDup_keys_filter.
    + apply List.filter_In. split; [exact Hin|]. rewrite Hov. reflexivity.
Qed.

Lemma requests_get_set (k : Z) (r : WssBridgeRequest.t) (l : list (Z * WssBridgeRequest.t)) :
  WssBridge.requests_get k (WssBridge.requests_set k r l) = Some r.
Proof.
  induction l as [|[k' r'] l IH]; cbn.
  - rewrite Z.eqb_refl. reflexivity.
  - destruct (k' =? k) eqn:Heq; cbn; rewrite Heq; [reflexivity | exact IH].
Qed.

Lemma requests_set_keys (k : Z) (r : WssBridgeRequest.t) (l : list (Z * WssBridgeRequest.t)) :
  map fst (WssBridge.requests_set k r l)
  = if existsb (Z.eqb k) (map fst l) then map fst l else map fst l ++ [k].
Proof.
  induction l as [|[k' r'] l IH]; [reflexivity|].
  cbn. rewrite (Z.eqb_sym k k'). destruct (k' =? k) eqn:Heq; cbn; [reflexivity|].
  rewrite IH. destruct (existsb (Z.eqb k) (map fst l)); reflexivity.
Qed.

Lemma requests_set_NoDup (k : Z) (r : WssBridgeRequest.t) (l : list (Z * WssBridgeRequest.t)) :
  NoDup (map fst l) -> NoDup (map fst (WssBridge.requests_set k r l)).
Proof.
  intros Hnd. rewrite requests_set_keys.
  destruct (existsb (Z.eqb k) (map fst l)) eqn:Hex; [exact Hnd|].
  apply NoDup_app. split; [exact Hnd|]. split; [|apply NoDup_singleton].
  intros x Hx Hk. apply list_elem_of_singleton in Hk. subst x.
  apply not_true_iff_false in Hex. apply Hex. apply existsb_exists.
  exists k. split; [by apply list_elem_of_In | apply Z.eqb_refl].
Qed.

Lemma requests_set_In (k : Z) (r : WssBridgeRequest.t) (l : list (Z * WssBridgeRequest.t)) :
  In (k, r) (WssBridge.requests_set k r l).
Proof.
  induction l as [|[k' r'] l IH]; cbn; [by left|].
  destruct (k' =? k) eqn:Heq.
  - apply Z.eqb_eq in Heq. subst k'. by left.
  - right. exact IH.
Qed.

(** The pending requests stay a dictionary across a tick. *)
Lemma onTimerTick_keys_NoDup `{Platform} (i hb : input) (b : WssBridge.t) :
  NoDup (map fst (WssBridge.requests b)) ->
  NoDup (map fst (WssBridge.requests (WssBridge.onTimerTick i hb b))).
Proof.
  intros Hnd. destruct (onTimerTick_spec i hb b) as [Hreq _]. cbn zeta in Hreq.
  rewrite Hreq. by apply NoDup_keys_filter.
Qed.

(** C5. On a tick of the bridge client, every pending request whose age
    exceeds the timeout gets exactly one call, that of its error callback
    with the response 504 'Gateway Timeout', and is removed from the pending
    requests; the pending requests whose age is at most the timeout get no
    call and stay as they are. *)
Theorem timeout_sweep_completes_overdue `{Platform} (i hb : input) (b : WssBridge.t) :
  NoDup (map fst (WssBridge.requests b)) ->
  let b' := WssBridge.onTimerTick i hb b in
  WssBridge.requests b'
    = List.filter (fun kr => negb (overdue (clock i) (WssBridge.timeout b) kr))
        (WssBridge.requests b)
  /\ exists events,
       WssBridge.trace b' = WssBridge.trace b ++ events
       /\ forall reqId request, In (reqId, request) (WssBridge.requests b) ->
            if clock i - WssBridgeRequest.time request >? WssBridge.timeout b
            then calls_for reqId events
                   = match WssBridgeRequest.onerror request with
                     | Some cb => [WssBridge.CallError reqId cb
                                     (WssBridgeResponse.Build (JNum 504) (JStr "Gateway Timeout"))]
                     | None => []
                     end
                 /\ WssBridge.requests_get reqId (WssBridge.requests b') = None
            else calls_for reqId events = []
                 /\ WssBridge.requests_get reqId (WssBridge.requests b') = Some request.
Proof.
  intros Hnd b'.
  destruct (onTimerTick_spec i hb b) as (Hreq & events & Htrace & Hquiet).
  cbn zeta in Hreq. fold b' in Hreq, Htrace.
  assert (Hreq' : WssBridge.requests b'
    = List.filter (fun kr => negb (overdue (clock i) (WssBridge.timeout b) kr))
        (WssBridge.requests b)).
  { rewrite Hreq. apply List.filter_ext_in. intros kr Hkr.
    rewrite sweep_ids_overdue by assumption. reflexivity. }
  split; [exact Hreq'|].
  eexists. split; [exact Htrace|]. intros reqId request Hin.
  rewrite calls_for_app, Hquiet, app_nil_r, (calls_for_sweep _ _ _ request) by assumption.
  change (clock i - WssBridgeRequest.time request >? WssBridge.timeout b)
    with (overdue (clock i) (WssBridge.timeout b) (reqId, request)).
  destruct (overdue (clock i) (WssBridge.timeout b) (reqId, request)) eqn:Hov.
  - split; [reflexivity|]. rewrite Hreq'. apply requests_get_absent.
    intros Hk. apply in_map_iff in Hk as (kr & Hfst & Hkr).
    apply List.filter_In in Hkr as [Hkr Hnov].
    assert (kr = (reqId, request)) by (eapply NoDup_fst_inj; eauto). subst kr.
    rewrite Hov in Hnov. discriminate.
  - split; [reflexivity|]. rewrite Hreq'. apply requests_get_present.
    + by apply NoDup_keys_filter.
    + apply List.filter_In. split; [exact Hin|]. rewrite Hov. reflexivity.
Qed.

(** C7. A [request] made while the bridge client is not connected sends no
    frame and reports no failure: the event trace is unchanged.  When one of
    the two callbacks is given, the request is still filed under its reqId;
    and in any later state that still holds it, a tick that finds it older
    than the timeout removes it and calls its error callback, if it has one,
    with the response 504. *)
Theorem request_while_disconnected `{Platform} (route : string) (message : jsval)
    (onsuccess onerror : option callback) (i : input) (b : WssBridge.t) :
  WssBridge.isConnected b = false ->
  let reqId := WssBridge.reqIdInc b in
  let pending := WssBridgeRequest.Build (clock i) onsuccess onerror in
  let b1 := WssBridge.request route message onsuccess onerror i b in
  WssBridge.trace b1 = WssBridge.trace b
  /\ WssBridge.reqIdInc b1 = reqId + 1
  /\ (present onsuccess || present onerror = false ->
        WssBridge.requests b1 = WssBridge.requests b)
  /\ (present onsuccess || present onerror = true ->
        WssBridge.requests_get reqId (WssBridge.requests b1) = Some pending
        /\ In (reqId, pending) (WssBridge.requests b1)
        /\ (NoDup (map fst (WssBridge.requests b)) ->
            NoDup (map fst (WssBridge.requests b1))))
  /\ (forall (b2 : WssBridge.t) (j hb : input),
        NoDup (map fst (WssBridge.requests b2)) ->
        In (reqId, pending) (WssBridge.requests b2) ->
        clock j - clock i > WssBridge.timeout b2 ->
        let b3 := WssBridge.onTimerTick j hb b2 in
        WssBridge.requests_get reqId (WssBridge.requests b3) = None
        /\ exists events,
             WssBridge.trace b3 = WssBridge.trace b2 ++ events
             /\ calls_for reqId events
                = match onerror with
                  | Some cb => [WssBridge.CallError reqId cb
                                  (WssBridgeResponse.Build (JNum 504) (JStr "Gateway Timeout"))]
                  | None => []
                  end).
Proof.
  intros Hconn reqId pending b1.
  assert (Hb1 : b1 =
    let b0 := WssBridge.set_reqIdInc (reqId + 1) b in
    if present onsuccess || present onerror
    then WssBridge.set_requests
           (WssBridge.requests_set reqId pending (WssBridge.requests b0)) b0
    else b0).
  { subst b1. unfold WssBridge.request. fold reqId. fold pending. cbn zeta.
    unfold WssBridge.sendPackData.
    match goal with |- (if WssBridge.expired ?x then _ else _) = _ => set (bx := x) end.
    assert (Hx : WssBridge.isConnected bx = false).
    { subst bx. destruct (present onsuccess || present onerror); exact Hconn. }
    rewrite Hx. destruct (WssBridge.expired bx); reflexivity. }
  cbn zeta in Hb1.
  split; [|split; [|split; [|split]]].
  - rewrite Hb1. destruct (present onsuccess || present onerror); reflexivity.
  - rewrite Hb1. destruct (present onsuccess || present onerror); reflexivity.
  - intros Hnone. rewrite Hb1, Hnone. reflexivity.
  - intros Hsome. rewrite Hb1, Hsome. cbn. split; [apply requests_get_set|].
    split; [apply requests_set_In | apply requests_set_NoDup].
  - intros b2 j hb Hnd Hin Hage b3.
    destruct (onTimerTick_request j hb b2 reqId pending Hnd Hin)
      as (_ & events & Htrace & Hres).
    fold b3 in Htrace, Hres.
    assert (Hov : overdue (clock j) (WssBridge.timeout b2) (reqId, pending) = true).
    { unfold overdue. cbn. apply Z.gtb_lt. lia. }
    rewrite Hov in Hres. destruct Hres as [Hcalls Hgone].
    split; [exact Hgone|]. exists events. split; [exact Htrace|]. exact Hcalls.
Qed.

(** ** The packet codec *)

Section Codec.
Context `{Platform}.

Lemma frame_split (salt iv body : list Z) :
  length salt = 4%nat -> length iv = 4%nat ->
  slice 0 4 (salt ++ iv ++ body) = salt
  /\ slice 4 8 (salt ++ iv ++ body) = iv
  /\ drop 8 (salt ++ iv ++ body) = body.
Proof.
  intros Hs Hi.
  destruct salt as [|s0 [|s1 [|s2 [|s3 [|]]]]]; try discriminate.
  destruct iv as [|i0 [|i1 [|i2 [|i3 [|]]]]]; try discriminate.
  repeat split.
Qed.

Lemma of_object_None (obj : jsval) :
  WssBridgePackData.of_object obj = None <-> is_nullish obj = true.
Proof. destruct obj; cbn; split; intros; congruence. Qed.

(** C1. For every packet, password setting and binary setting,
    deserializing what [serialize] made of the packet, with the same password,
    gives the packet back: same route, same reqId, same message.  The JSON
    library is asked to carry the packet, and, when a password is set, the
    crypto library to carry the JSON text. *)
Theorem serialize_deserialize_roundtrip (pack : WssBridgePackData.t) (pwd : option string)
    (binary : bool) (salt iv : list Z) (str : string) :
  json_carries pack str ->
  (forall p, pwd_set pwd = Some p -> cipher_carries p binary salt iv str) ->
  exists data,
    WssBridgePackData.serialize pack pwd binary salt iv = Some data
    /\ WssBridgePackData.deserialize data pwd = Some pack.
Proof.
  intros (Hstr & obj & Hparse & Hobj) Hcipher.
  unfold WssBridgePackData.serialize, WssBridgePackData.deserialize. rewrite Hstr.
  destruct (pwd_set pwd) as [p|] eqn:Hpwd.
  - destruct (Hcipher p eq_refl) as (Hsalt & Hiv & Hdec & Hframe). cbn zeta.
    set (words := salt ++ iv ++ AES_encrypt str (HmacSHA256 salt p) iv) in *.
    eexists. split; [reflexivity|].
    assert (Hwords : WssBridgePackData.frame_words
                       (if binary then WBinary (Int32Array_buffer words)
                        else WText (Base64_stringify words)) = Some words).
    { destruct binary; cbn.
      - rewrite Int32Array_roundtrip, map_to_int32_id by exact Hframe. reflexivity.
      - rewrite Hframe. reflexivity. }
    rewrite Hwords. subst words.
    destruct (frame_split salt iv (AES_encrypt str (HmacSHA256 salt p) iv) Hsalt Hiv)
      as (-> & -> & ->).
    rewrite Hdec, Hparse. exact Hobj.
  - eexists. split; [reflexivity|]. cbn. rewrite Hparse. exact Hobj.
Qed.

(** The failures of [deserialize] are the steps that throw. *)
Lemma deserialize_None_iff (data : wire) (pwd : option string) :
  WssBridgePackData.deserialize data pwd = None <-> decode_throws data pwd.
Proof.
  unfold WssBridgePackData.deserialize. split.
  - destruct (pwd_set pwd) as [p|] eqn:Hpwd.
    + destruct (WssBridgePackData.frame_words data) as [words|] eqn:Hwords.
      * destruct (AES_decrypt _ _ _) as [decRes|] eqn:Hdec;
          [|intros _; eapply throws_decrypt; eassumption].
        destruct (JSON_parse decRes) as [obj|] eqn:Hparse;
          [|intros _; eapply throws_parse_decrypted; eassumption].
        intros Hobj. apply of_object_None in Hobj.
        eapply throws_null_decrypted; eassumption.
      * destruct data as [s|buffer]; [discriminate|].
        intros _. eapply throws_buffer_length; eassumption.
    + destruct data as [s|buffer]; [|discriminate].
      destruct (JSON_parse s) as [obj|] eqn:Hparse;
        [|intros _; by apply throws_parse_text].
      intros Hobj. apply of_object_None in Hobj. eapply throws_null_text; eassumption.
  - intros Hthrows.
    destruct Hthrows as [pwd p buffer Hpwd Hlen
                        |pwd p data words Hpwd Hwords Hdec
                        |pwd p data words decRes Hpwd Hwords Hdec Hparse
                        |pwd p data words decRes obj Hpwd Hwords Hdec Hparse Hobj
                        |pwd s Hpwd Hparse
                        |pwd s obj Hpwd Hparse Hobj];
      rewrite Hpwd.
    + cbn [WssBridgePackData.frame_words]. rewrite Hlen. reflexivity.
    + rewrite Hwords, Hdec. reflexivity.
    + rewrite Hwords, Hdec, Hparse. reflexivity.
    + rewrite Hwords, Hdec, Hparse. by apply of_object_None.
    + rewrite Hparse. reflexivity.
    + rewrite Hparse. by apply of_object_None.
Qed.

(** C8, as the code has it.  Without a password, every binary frame, empty
    or not, decodes to the packet whose three fields are [undefined]; the
    server then rejects it at the format check and closes the session with
    code 4002.  With or without a password, [deserialize] returns [null]
    exactly when one of its steps throws: a buffer whose length is not a
    multiple of four, decrypted bytes that are not text, text that is not
    JSON, or the JSON value null.  It is a total function: no exception
    leaves it. *)
Theorem binary_frame_in_plaintext_mode (σ : WssServer.t) (S : WssServer.ref)
    (x : WssSession.t) (rs : readyState) (buffer : ArrayBuffer) (i : input) :
  pwd_set (WssServer.pwd (WssServer.config σ)) = None ->
  WssServer.heap σ !! S = Some x ->
  WssSession.socket x = Some rs ->
  WssBridgePackData.deserialize (WBinary buffer) (WssServer.pwd (WssServer.config σ))
    = Some empty_pack
  /\ WssServer._onWebSocketMessage S (WBinary buffer) i σ =
       WssServer.set_heap (<[S := WssSession.set_socket None x]> (WssServer.heap σ))
         (WssServer.emit (WssServer.SocketClose S 4002 "format error")
            (WssServer.emit (WssServer.Log "error" "_onWebSocketMessage:" (Some S)) σ))
  /\ (forall data pwd,
        WssBridgePackData.deserialize data pwd = None <-> decode_throws data pwd).
Proof.
  intros Hpwd Hx Hsock.
  assert (Hdec : WssBridgePackData.deserialize (WBinary buffer)
                   (WssServer.pwd (WssServer.config σ)) = Some empty_pack).
  { unfold WssBridgePackData.deserialize. rewrite Hpwd. reflexivity. }
  split; [exact Hdec|]. split; [|apply deserialize_None_iff].
  unfold WssServer._onWebSocketMessage. rewrite Hdec.
  cbn [empty_pack WssBridgePackData.route WssBridgePackData.reqId
       WssBridgePackData.message typeof_string typeof_number is_nullish negb orb].
  unfold WssServer.reject.
  rewrite (session_close_live S RouteCode.CODE_FORMAT _ x rs); [reflexivity| |exact Hsock].
  project. exact Hx.
Qed.

End Codec.

(** C2. The constant [ROUTE_INNERGRP] is ['$innerGRP'], without the closing
    dollar sign of the reserved form, so not every reserved route begins and
    ends with a dollar sign.  The receive pipeline does not take a packet on
    ['$innerGRP$'] for a cluster group message: it looks the route up among
    the user routes, and closes the session with code 4006 when there is none.
    And the frame that [pushClusterChannel] sends to a peer carries the route
    ['$innerGRP']. *)
Theorem innerGRP_route_lacks_closing_dollar :
  RouteCode.dollar_delimited RouteCode.ROUTE_INNERGRP = false
  /\ forallb RouteCode.dollar_delimited RouteCode.routes = false
  /\ (forall (P : Platform) (σ : WssServer.t) (S : WssServer.ref)
        (pack : WssBridgePackData.t) (i : input),
        WssServer.dispatch S pack "$innerGRP$" i σ =
          match WssServer.routerMap σ !! "$innerGRP$" with
          | Some listener =>
              WssServer.emit (WssServer.CallRouter listener S pack)
                (WssServer.emit (WssServer.Log "debug" "_onWebSocketMessage:" (Some S)) σ)
          | None => WssServer.reject S RouteCode.CODE_ROUTE σ
          end)
  /\ map (fun d => WssBridgePackData.route
                     <$> WssBridgePackData.deserialize (H := Ref.platform) d (Some "p"))
         (Scenario.peer_sent Scenario.group_push)
       = [Some (JStr "$innerGRP")].
Proof.
  split; [reflexivity|]. split; [reflexivity|]. split.
  - intros P σ S pack i. reflexivity.
  - vm_compute. reflexivity.
Qed.

(** C8 as stated fails: without a password, a buffer of four bytes is neither
    the empty buffer nor a frame that the codec makes, and yet it decodes to
    a packet, not to a failure. *)
Lemma nonempty_buffer_is_no_decode_failure :
  ~ (forall data : wire,
       data <> WBinary [] ->
       ~ plaintext_frame (H := Ref.platform) data ->
       WssBridgePackData.deserialize (H := Ref.platform) data None = None).
Proof.
  intros Hclaim.
  specialize (Hclaim (WBinary [0; 0; 0; 0])).
  assert (Hno : WssBridgePackData.deserialize (H := Ref.platform)
                  (WBinary [0; 0; 0; 0]) None = None).
  { apply Hclaim; [discriminate|].
    intros (pack & binary & salt & iv & Hser).
    unfold WssBridgePackData.serialize in Hser.
    destruct (JSON_stringify _); cbn [pwd_set] in Hser; discriminate. }
  discriminate.
Qed.

(** ** Concrete runs of the properties

    Each property that has premises is run here on the reference platform
    and the scenario. *)

Lemma Forall_int32 (words : list Z) : forallb is_int32 words = true -> Forall int32 words.
Proof.
  intros Hall. apply Forall_forall. intros z Hz.
  rewrite forallb_forall in Hall. apply list_elem_of_In in Hz. specialize (Hall z Hz).
  unfold is_int32 in Hall. unfold int32. lia.
Qed.

Lemma serialize_deserialize_roundtrip_witness :
  exists data,
    WssBridgePackData.serialize (H := Ref.platform) Scenario.echo (Some "p") true
      (rand_salt Scenario.rnd) (rand_iv Scenario.rnd) = Some data
    /\ WssBridgePackData.deserialize (H := Ref.platform) data (Some "p") = Some Scenario.echo.
Proof.
  apply (serialize_deserialize_roundtrip (H := Ref.platform) Scenario.echo (Some "p") true
           (rand_salt Scenario.rnd) (rand_iv Scenario.rnd)
           (Ref.print (WssBridgePackData.to_object Scenario.echo))).
  - split; [vm_compute; reflexivity|]. eexists. split; vm_compute; reflexivity.
  - intros p [= <-]. split; [vm_compute; reflexivity|]. split; [vm_compute; reflexivity|].
    split; [vm_compute; reflexivity|].
    apply Forall_int32. vm_compute. reflexivity.
Defined.

Lemma reqId_ring_check_witness :
  WssServer.trace
    (WssServer._onWebSocketMessage (H := Ref.platform) 1 Scenario.echo_frame Scenario.rnd
       Scenario.served)
  = WssServer.trace Scenario.served
      ++ [WssServer.Log "error" "_onWebSocketMessage:" (Some 1);
          WssServer.SocketClose 1 4003 "repeat error"].
Proof.
  edestruct (reqId_ring_check (H := Ref.platform) Scenario.served 1 Scenario.echo_frame
               Scenario.rnd "echo" 1 (JStr "hi")) as [Hseen _].
  - vm_compute. reflexivity.
  - reflexivity.
  - vm_compute. reflexivity.
  - reflexivity.
  - rewrite Hseen; [reflexivity|]. vm_compute. apply list_elem_of_here.
Defined.

Lemma validateInnerData_reads_route_word_sign_witness :
  WssServer._validateInnerData (H := Ref.platform) Scenario.forged Scenario.server = Some true.
Proof.
  rewrite <- (validateInnerData_reads_route_word_sign (H := Ref.platform) Scenario.server
                Scenario.envelope Scenario.forged);
    vm_compute; reflexivity.
Defined.

Lemma bindUid_displaces_old_session_witness :
  WssServer.sessionMap
    (WssServer._onWebSocketClose 1 4009 "newbind error"
       (WssServer.bindUid 2 (JStr "u") true Scenario.bound)) !! "u" = Some 2.
Proof.
  edestruct (bindUid_displaces_old_session Scenario.bound 1 2 (JStr "u") "u")
    as (_ & _ & _ & _ & _ & Hclose).
  - lia.
  - reflexivity.
  - vm_compute. reflexivity.
  - vm_compute. reflexivity.
  - vm_compute. reflexivity.
  - reflexivity.
  - reflexivity.
  - reflexivity.
  - apply Hclose.
Defined.

Lemma bindUid_on_own_uid_closes_self_witness :
  WssSession.socket <$>
    WssServer.heap (WssServer.bindUid 1 (JStr "u") true Scenario.bound) !! 1 = Some None
  /\ WssServer.sessionMap (WssServer.bindUid 1 (JStr "u") true Scenario.bound) !! "u" = Some 1.
Proof.
  edestruct (bindUid_on_own_uid_closes_self Scenario.bound 1 (JStr "u") "u")
    as (_ & Hmap & Hheap & _).
  - reflexivity.
  - vm_compute. reflexivity.
  - vm_compute. reflexivity.
  - reflexivity.
  - reflexivity.
  - reflexivity.
  - rewrite Hheap. split; [reflexivity | exact Hmap].
Defined.

Lemma channel_registry_invariant_witness :
  is_Some (WssServer.channelMap Scenario.joined !! "room")
  <-> member_count "room" Scenario.joined > 0.
Proof.
  destruct (channel_registry_invariant WssServer.default_config Scenario.joined)
    as (_ & Hiff & _).
  - unfold reachable. eapply rtc_l; [apply step_connection|].
    eapply rtc_l; [apply step_joinChannel|]. apply rtc_refl.
  - apply Hiff.
Defined.

Lemma bindUid_leaves_falsy_holder_bound_witness :
  WssServer.trace (WssServer.bindUid 2 (JNum 0) true Scenario.zero)
  = WssServer.trace Scenario.zero
      ++ [WssServer.SocketClose 1 4009 "newbind error";
          WssServer.Log "debug" "bindUid:" (Some 2)]
  /\ WssSession.uid <$> WssServer.heap (WssServer.bindUid 2 (JNum 0) true Scenario.zero) !! 1
     = Some (JNum 0)
  /\ WssSession.uid <$> WssServer.heap (WssServer.bindUid 2 (JNum 0) true Scenario.zero) !! 2
     = Some (JNum 0).
Proof.
  edestruct (bindUid_leaves_falsy_holder_bound Scenario.zero 1 2 (JNum 0) "0")
    as (Htrace & HA & _ & HB & _).
  - lia.
  - reflexivity.
  - reflexivity.
  - vm_compute. reflexivity.
  - vm_compute. reflexivity.
  - vm_compute. reflexivity.
  - reflexivity.
  - reflexivity.
  - rewrite HA, HB. split; [exact Htrace|]. split; reflexivity.
Defined.

Lemma bindUid_falsy_uid_survives_close_witness :
  WssServer.sessionMap
    (WssServer._onWebSocketClose 1 4009 "newbind error"
       (WssServer.bindUid 1 (JNum 0) true Scenario.zero)) !! "0" = Some 1
  /\ WssSession.socket <$>
       WssServer.heap (WssServer.bindUid 1 (JNum 0) true Scenario.zero) !! 1 = Some None.
Proof.
  edestruct (bindUid_falsy_uid_survives_close Scenario.zero 1 (JNum 0) "0")
    as (_ & _ & Hheap & Hclose).
  - reflexivity.
  - reflexivity.
  - vm_compute. reflexivity.
  - vm_compute. reflexivity.
  - reflexivity.
  - reflexivity.
  - rewrite Hheap. split; [apply Hclose | reflexivity].
Defined.

Lemma joinChannel_inherited_key_makes_no_channel_witness :
  WssServer.joinChannel 1 (JStr "constructor") Scenario.plain = Scenario.plain
  /\ WssServer.channelMap (WssServer.joinChannel 1 (JStr "constructor") Scenario.plain)
       !! "constructor" = None.
Proof.
  destruct (joinChannel_inherited_key_makes_no_channel WssServer.default_config
              Scenario.plain 1 (JStr "constructor") "constructor") as (_ & Hsame & Hnone).
  - unfold reachable. eapply rtc_l; [apply step_connection|]. apply rtc_refl.
  - reflexivity.
  - reflexivity.
  - split; [exact Hsame | exact Hnone].
Defined.

Lemma timeout_sweep_completes_overdue_witness :
  WssBridge.requests
    (WssBridge.onTimerTick (H := Ref.platform) (Input 9000 [] []) (Input 9000 [] [])
       Scenario.offline)
  = [(1, WssBridgeRequest.Build 5000 (Some 3%nat) None)].
Proof.
  destruct (timeout_sweep_completes_overdue (H := Ref.platform) (Input 9000 [] [])
              (Input 9000 [] []) Scenario.offline) as [Hreq _].
  - vm_compute. apply NoDup_cons. split; [|apply NoDup_singleton].
    intros Hin. apply list_elem_of_singleton in Hin. discriminate.
  - rewrite Hreq. vm_compute. reflexivity.
Defined.

Lemma request_while_disconnected_witness :
  WssBridge.trace
    (WssBridge.request (H := Ref.platform) "a" JNull None (Some 5%nat) (Input 0 [] [])
       Scenario.idle) = []
  /\ WssBridge.requests_get 0
       (WssBridge.requests
          (WssBridge.request (H := Ref.platform) "a" JNull None (Some 5%nat) (Input 0 [] [])
             Scenario.idle))
     = Some (WssBridgeRequest.Build 0 None (Some 5%nat)).
Proof.
  destruct (request_while_disconnected (H := Ref.platform) "a" JNull None (Some 5%nat)
              (Input 0 [] []) Scenario.idle) as (Htrace & _ & _ & Hfiled & _).
  - reflexivity.
  - split; [exact Htrace|]. apply Hfiled. reflexivity.
Defined.

Lemma binary_frame_in_plaintext_mode_witness :
  WssBridgePackData.deserialize (H := Ref.platform) (WBinary [])
    (WssServer.pwd (WssServer.config Scenario.plain)) = Some empty_pack
  /\ WssServer.trace
       (WssServer._onWebSocketMessage (H := Ref.platform) 1 (WBinary []) Scenario.rnd
          Scenario.plain)
     = WssServer.trace Scenario.plain
         ++ [WssServer.Log "error" "_onWebSocketMessage:" (Some 1);
             WssServer.SocketClose 1 4002 "format error"].
Proof.
  edestruct (binary_frame_in_plaintext_mode (H := Ref.platform) Scenario.plain 1)
    as (Hdec & Hmsg & _).
  - reflexivity.
  - vm_compute. reflexivity.
  - reflexivity.
  - split; [apply Hdec|]. rewrite Hmsg. reflexivity.
Defined.

(** The end-to-end scenarios of the specification, on the model: the echo of
    a request (E1), the echo of a heartbeat (E2), the close on a repeated
    reqId (E3) and the displacement of a bound session (E4). *)
Example round_trip_echo :
  Scenario.sent_to 1
    (WssServer.response (H := Ref.platform) 1 Scenario.echo
       (WssBridgeResponse.Build (JNum 200) (JStr "HI")) Scenario.rnd Scenario.served)
  = [Some (WssBridgePackData.Build (JStr "$response$") (JNum 1)
             (JObj [("code", JNum 200); ("data", JStr "HI")]))].
Proof. vm_compute. reflexivity. Qed.

Example heartbeat_echo :
  let σ := WssServer._onWebSocketMessage (H := Ref.platform) 1 (Scenario.frame_of Scenario.heartbeat)
             (Input 2000 [5; 6; 7; 8] [9; 10; 11; 12]) Scenario.server in
  Scenario.sent_to 1 σ = [Some Scenario.heartbeat]
  /\ WssSession.lastHeart <$> WssServer.heap σ !! 1 = Some 2000.
Proof. vm_compute. split; reflexivity. Qed.

Example duplicate_id_close :
  Scenario.closes (WssServer._onWebSocketMessage (H := Ref.platform) 1 Scenario.echo_frame Scenario.rnd
            Scenario.served) = [(1, 4003)].
Proof. vm_compute. reflexivity. Qed.

Example uid_displacement :
  let σ := WssServer.bindUid 2 (JStr "u") true Scenario.bound in
  Scenario.closes σ = [(1, 4009)] /\ WssServer.sessionMap σ !! "u" = Some 2.
Proof. vm_compute. split; reflexivity. Qed.

(** A UID that is falsy in JavaScript (0, or the empty string) is indexed,
    but the session does not count as bound. *)
Example falsy_uid :
  let σ := WssServer.bindUid 1 (JNum 0) false Scenario.server in
  WssServer.sessionMap σ !! "0" = Some 1 /\ WssServer.session_isBinded 1 σ = false.
Proof. vm_compute. split; reflexivity. Qed.

(** * Further properties

    What the code shows beyond the specification: the handling of frames on
    the server, the registries of a running server, the cluster calls, and
    the listeners and requests of the bridge. *)

(** ** Events of the server *)

Lemma more_nil σ : more [] σ = σ.
Proof. destruct σ. unfold more. cbn. rewrite app_nil_r. reflexivity. Qed.

Lemma more_app e1 e2 σ : more e2 (more e1 σ) = more (e1 ++ e2) σ.
Proof. unfold more. cbn. rewrite app_assoc. reflexivity. Qed.

Lemma emit_more e σ : WssServer.emit e σ = more [e] σ.
Proof. reflexivity. Qed.

Lemma frames_to_more data evs σ r : frames_to data (more evs σ) r = frames_to data σ r.
Proof. reflexivity. Qed.

Lemma session_send_more r data σ :
  WssServer.session_send r data σ = more (frames_to data σ r) σ.
Proof.
  unfold WssServer.session_send, frames_to.
  destruct (WssServer.heap σ !! r) as [x|]; [|symmetry; apply more_nil].
  destruct (WssSession.send x); [reflexivity | symmetry; apply more_nil].
Qed.

Lemma foldl_session_send {K} (l : list (K * WssServer.ref)) data σ :
  foldl (fun σ kv => WssServer.session_send (snd kv) data σ) σ l
  = more (flat_map (fun kv => frames_to data σ (snd kv)) l) σ.
Proof.
  revert σ. induction l as [|kv l IH]; intros σ; cbn [foldl flat_map].
  - symmetry. apply more_nil.
  - rewrite session_send_more, IH, more_app. reflexivity.
Qed.

Lemma same_identity_refl x : same_identity x x.
Proof. repeat split. Qed.

Lemma same_identity_trans x y z : same_identity x y -> same_identity y z -> same_identity x z.
Proof. unfold same_identity. intros (?&?&?&?&?) (?&?&?&?&?). repeat split; congruence. Qed.

Lemma registries_kept_refl σ : registries_kept σ σ.
Proof. repeat split. Qed.

Lemma registries_kept_trans σ1 σ2 σ3 :
  registries_kept σ1 σ2 -> registries_kept σ2 σ3 -> registries_kept σ1 σ3.
Proof.
  unfold registries_kept. intros (?&?&?&?&?&?&?&?&?) (?&?&?&?&?&?&?&?&?).
  repeat split; congruence.
Qed.

Lemma heap_confined_refl S σ : heap_confined S σ σ.
Proof.
  intros r. destruct (WssServer.heap σ !! r); [|exact I].
  split; [apply same_identity_refl | reflexivity].
Qed.

Lemma heap_confined_trans S σ1 σ2 σ3 :
  heap_confined S σ1 σ2 -> heap_confined S σ2 σ3 -> heap_confined S σ1 σ3.
Proof.
  intros H12 H23 r. specialize (H12 r). specialize (H23 r).
  destruct (WssServer.heap σ1 !! r), (WssServer.heap σ2 !! r), (WssServer.heap σ3 !! r);
    try contradiction; try exact I.
  destruct H12 as [Ha Hb], H23 as [Hc Hd]. split.
  - eapply same_identity_trans; eassumption.
  - intros Hne. rewrite (Hd Hne). apply (Hb Hne).
Qed.

Lemma confined_refl S σ : confined S σ σ.
Proof.
  split; [apply registries_kept_refl|]. split; [apply heap_confined_refl|].
  exists []. rewrite app_nil_r. split; [reflexivity | constructor].
Qed.

Lemma grows_trans P σ1 σ2 σ3 : grows P σ1 σ2 -> grows P σ2 σ3 -> grows P σ1 σ3.
Proof.
  intros (e1 & Ht1 & Hf1) (e2 & Ht2 & Hf2).
  exists (e1 ++ e2). rewrite Ht2, Ht1, app_assoc. split; [reflexivity|].
  apply Forall_app. split; assumption.
Qed.



Lemma confined_trans S σ1 σ2 σ3 : confined S σ1 σ2 -> confined S σ2 σ3 -> confined S σ1 σ3.
Proof.
  intros (Hr1 & Hh1 & Hg1) (Hr2 & Hh2 & Hg2).
  split; [eapply registries_kept_trans; eassumption|].
  split; [eapply heap_confined_trans; eassumption|].
  eapply grows_trans; eassumption.
Qed.

Lemma heap_confined_same S σ σ' :
  WssServer.heap σ' = WssServer.heap σ -> heap_confined S σ σ'.
Proof.
  intros Heq r. rewrite Heq. destruct (WssServer.heap σ !! r); [|exact I].
  split; [apply same_identity_refl | reflexivity].
Qed.

Lemma confined_more S events σ :
  Forall (handling_event S) events -> confined S σ (more events σ).
Proof.
  intros Hev. split; [repeat split|]. split; [apply heap_confined_same; reflexivity|].
  exists events. split; [reflexivity | exact Hev].
Qed.

Lemma confined_emit S e σ : handling_event S e -> confined S σ (WssServer.emit e σ).
Proof. intros He. apply (confined_more S [e]). repeat constructor. exact He. Qed.

Lemma handling_frames_to S data σ r : Forall (handling_event S) (frames_to data σ r).
Proof.
  unfold frames_to. destruct (WssServer.heap σ !! r) as [x|]; [|constructor].
  destruct (WssSession.send x); repeat constructor.
Qed.

Lemma handling_flat_frames {K} S data σ (l : list (K * WssServer.ref)) :
  Forall (handling_event S) (flat_map (fun kv => frames_to data σ (snd kv)) l).
Proof.
  induction l as [|kv l IH]; cbn [flat_map]; [constructor|].
  apply Forall_app. split; [apply handling_frames_to | exact IH].
Qed.

Lemma confined_session_close S cr σ :
  4001 <= fst cr <= 4006 -> confined S σ (WssServer.session_close S cr σ).
Proof.
  intros Hcode. unfold WssServer.session_close, WssSession.close.
  destruct (WssServer.heap σ !! S) as [x|] eqn:Hx; [|apply confined_refl].
  destruct (WssSession.socket x) as [rs|] eqn:Hs; [|apply confined_refl].
  split; [repeat split|]. split.
  - intros r. cbn [WssServer.heap WssServer.set_heap WssServer.emit].
    destruct (decide (r = S)) as [->|Hne].
    + rewrite Hx, lookup_insert_eq. split; [repeat split | congruence].
    + rewrite lookup_insert_ne by congruence.
      destruct (WssServer.heap σ !! r); [|exact I].
      split; [apply same_identity_refl | reflexivity].
  - eexists. split; [reflexivity|]. repeat constructor; lia.
Qed.

Lemma push_event_handling S events :
  Forall push_event events -> Forall (handling_event S) events.
Proof.
  intros Hev. eapply Forall_impl; [exact Hev|].
  intros [] He; try contradiction; exact I.
Qed.

Lemma push_frames_to data σ r : Forall push_event (frames_to data σ r).
Proof.
  unfold frames_to. destruct (WssServer.heap σ !! r) as [x|]; [|constructor].
  destruct (WssSession.send x); repeat constructor.
Qed.

Lemma push_flat_frames {K} data σ (l : list (K * WssServer.ref)) :
  Forall push_event (flat_map (fun kv => frames_to data σ (snd kv)) l).
Proof.
  induction l as [|kv l IH]; cbn [flat_map]; [constructor|].
  apply Forall_app. split; [apply push_frames_to | exact IH].
Qed.

Section Handling.
Context `{Platform}.

(** What the three pushes of the node add to the trace. *)
Lemma pushSession_spec uid route message i σ :
  WssServer.pushSession uid route message i σ =
    match toString uid with
    | Some key =>
        match WssServer.sessionMap σ !! key with
        | Some r =>
            more (frames_to
                    (WssServer.serialize (WssBridgePackData.Build route JUndefined message) i σ)
                    σ r
                  ++ [WssServer.Log "debug" "pushSession:" (Some r)]) σ
        | None => σ
        end
    | None => σ
    end.
Proof.
  unfold WssServer.pushSession.
  destruct (toString uid) as [key|]; [|reflexivity].
  destruct (WssServer.sessionMap σ !! key) as [r|]; [|reflexivity].
  rewrite session_send_more, emit_more, more_app. reflexivity.
Qed.

Lemma pushChannel_spec gid route message i σ :
  WssServer.pushChannel gid route message i σ =
    match toString gid with
    | Some key =>
        match WssServer.channelMap σ !! key with
        | Some channel =>
            more (flat_map
                    (fun kv =>
                       frames_to
                         (WssServer.serialize
                            (WssBridgePackData.Build route JUndefined message) i σ)
                         σ (snd kv))
                    (map_to_list (WssServer.sessions channel))
                  ++ [WssServer.Log "debug" "pushChannel:" None]) σ
        | None =>
            if inherited key then more [WssServer.Log "debug" "pushChannel:" None] σ else σ
        end
    | None => σ
    end.
Proof.
  unfold WssServer.pushChannel.
  destruct (toString gid) as [key|]; [|reflexivity].
  destruct (WssServer.channelMap σ !! key) as [c|];
    [|destruct (inherited key); [apply emit_more | reflexivity]].
  rewrite foldl_session_send, emit_more, more_app. reflexivity.
Qed.

Lemma broadcast_spec route message i σ :
  WssServer.broadcast route message i σ =
    more (flat_map
            (fun kv =>
               frames_to
                 (WssServer.serialize (WssBridgePackData.Build route JUndefined message) i σ)
                 σ (snd kv))
            (map_to_list (WssServer.sessionMap σ))
          ++ [WssServer.Log "debug" "broadcast:" None]) σ.
Proof.
  unfold WssServer.broadcast.
  rewrite foldl_session_send, emit_more, more_app. reflexivity.
Qed.

Lemma pushSession_more uid route message i σ :
  exists events, WssServer.pushSession uid route message i σ = more events σ
                 /\ Forall push_event events.
Proof.
  rewrite pushSession_spec.
  destruct (toString uid) as [key|]; [|exists []; split; [symmetry; apply more_nil|constructor]].
  destruct (WssServer.sessionMap σ !! key) as [r|];
    [|exists []; split; [symmetry; apply more_nil|constructor]].
  eexists. split; [reflexivity|].
  apply Forall_app. split; [apply push_frames_to | repeat constructor].
Qed.

Lemma pushChannel_more gid route message i σ :
  exists events, WssServer.pushChannel gid route message i σ = more events σ
                 /\ Forall push_event events.
Proof.
  rewrite pushChannel_spec.
  destruct (toString gid) as [key|]; [|exists []; split; [symmetry; apply more_nil|constructor]].
  destruct (WssServer.channelMap σ !! key) as [c|].
  - eexists. split; [reflexivity|].
    apply Forall_app. split; [apply push_flat_frames | repeat constructor].
  - destruct (inherited key).
    + eexists. split; [reflexivity | repeat constructor].
    + exists []. split; [symmetry; apply more_nil | constructor].
Qed.

Lemma broadcast_more route message i σ :
  exists events, WssServer.broadcast route message i σ = more events σ
                 /\ Forall push_event events.
Proof.
  rewrite broadcast_spec. eexists. split; [reflexivity|].
  apply Forall_app. split; [apply push_flat_frames | repeat constructor].
Qed.

Lemma confined_reject S cr σ :
  4001 <= fst cr <= 4006 -> confined S σ (WssServer.reject S cr σ).
Proof.
  intros Hcode. unfold WssServer.reject.
  eapply confined_trans; [|apply confined_session_close; exact Hcode].
  apply confined_emit. exact I.
Qed.

Lemma confined_session_update S f σ :
  (forall x, same_identity x (f x)) -> confined S σ (WssServer.session_update f S σ).
Proof.
  intros Hf. split; [repeat split|]. split.
  - intros r. unfold WssServer.session_update. cbn [WssServer.heap WssServer.set_heap].
    destruct (decide (r = S)) as [->|Hne].
    + rewrite lookup_alter_eq. destruct (WssServer.heap σ !! S); cbn; [|exact I].
      split; [apply Hf | congruence].
    + rewrite lookup_alter_ne by congruence.
      destruct (WssServer.heap σ !! r); [|exact I].
      split; [apply same_identity_refl | reflexivity].
  - exists []. cbn. rewrite app_nil_r. split; [reflexivity | constructor].
Qed.

Lemma confined_dispatch S pack route i σ :
  confined S σ (WssServer.dispatch S pack route i σ).
Proof.
  unfold WssServer.dispatch.
  destruct (String.eqb route RouteCode.ROUTE_HEARTICK).
  { unfold WssServer._sendHeartick.
    rewrite session_send_more, emit_more, more_app.
    eapply confined_trans; [|apply confined_more, Forall_app; split;
                              [apply handling_frames_to | repeat constructor]].
    eapply confined_trans; [|apply confined_session_update; intros x; repeat split].
    apply confined_emit. exact I. }
  destruct (String.eqb route RouteCode.ROUTE_INNERP2P).
  { destruct (WssServer._validateInnerData _ σ) as [[|]|];
      [| apply confined_reject; cbn; lia | apply confined_refl].
    edestruct pushSession_more as (ev & -> & Hev).
    eapply confined_trans; [|apply confined_more, push_event_handling, Hev]. apply confined_emit. exact I. }
  destruct (String.eqb route RouteCode.ROUTE_INNERGRP).
  { destruct (WssServer._validateInnerData _ σ) as [[|]|];
      [| apply confined_reject; cbn; lia | apply confined_refl].
    edestruct pushChannel_more as (ev & -> & Hev).
    eapply confined_trans; [|apply confined_more, push_event_handling, Hev]. apply confined_emit. exact I. }
  destruct (String.eqb route RouteCode.ROUTE_INNERALL).
  { destruct (WssServer._validateInnerData _ σ) as [[|]|];
      [| apply confined_reject; cbn; lia | apply confined_refl].
    edestruct broadcast_more as (ev & -> & Hev).
    eapply confined_trans; [|apply confined_more, push_event_handling, Hev]. apply confined_emit. exact I. }
  destruct (String.eqb route RouteCode.ROUTE_INNERRMC).
  { destruct (WssServer._validateInnerData _ σ) as [[|]|];
      [| apply confined_reject; cbn; lia | apply confined_refl].
    destruct (WssServer.remoteMap σ !! _);
      [| destruct (inherited _); [apply confined_emit; exact I | apply confined_reject; cbn; lia]].
    rewrite !emit_more, more_app. apply confined_more. repeat constructor. }
  destruct (WssServer.routerMap σ !! route);
    [| destruct (inherited _); [apply confined_emit; exact I | apply confined_reject; cbn; lia]].
  rewrite !emit_more, more_app. apply confined_more. repeat constructor.
Qed.

Lemma confined_set_session S x x' σ :
  WssServer.heap σ !! S = Some x -> same_identity x x' ->
  confined S σ (WssServer.set_heap (<[S := x']> (WssServer.heap σ)) σ).
Proof.
  intros Hx Hid. split; [repeat split|]. split.
  - intros r. cbn [WssServer.heap WssServer.set_heap].
    destruct (decide (r = S)) as [->|Hne].
    + rewrite Hx, lookup_insert_eq. split; [exact Hid | congruence].
    + rewrite lookup_insert_ne by congruence.
      destruct (WssServer.heap σ !! r); [|exact I].
      split; [apply same_identity_refl | reflexivity].
  - exists []. cbn. rewrite app_nil_r. split; [reflexivity | constructor].
Qed.

Lemma onWebSocketMessage_confined (σ : WssServer.t) (S : WssServer.ref) (data : wire)
    (i : input) :
  confined S σ (WssServer._onWebSocketMessage S data i σ).
Proof.
  unfold WssServer._onWebSocketMessage.
  destruct (WssBridgePackData.deserialize data _) as [pack|];
    [| apply confined_reject; cbn; lia].
  destruct (negb _ || negb _ || _); [apply confined_reject; cbn; lia|].
  destruct (WssBridgePackData.route pack) as [| | | |route| |]; try apply confined_refl.
  destruct (WssBridgePackData.reqId pack) as [| | |reqId| | |]; try apply confined_refl.
  destruct (WssServer.heap σ !! S) as [x|] eqn:Hx; [|apply confined_refl].
  unfold WssSession.updateReqId.
  destruct (WssSession.seen reqId (WssSession.reqIdList x)); cbn [negb].
  - eapply confined_trans; [|apply confined_reject; cbn; lia].
    apply (confined_set_session S x x σ Hx), same_identity_refl.
  - eapply confined_trans; [|apply confined_dispatch].
    apply (confined_set_session S x _ σ Hx). repeat split.
Qed.
(** X1. Whatever frame a session sends, its handling by [_onWebSocketMessage]
    leaves the configuration, the routers and remote listeners, the registries
    of sockets, UIDs, channels and cluster nodes, the close listener and the
    session counter as they were.  No session object but the sender's changes,
    and the sender's keeps its id, ip, UID, context and channels.  The events
    that are added are log lines, frames, calls of a router or a remote
    listener for the sender, and closes of the sender's socket with a code from
    4001 to 4006; the close listener is not called. *)
Theorem message_handling_is_confined (σ : WssServer.t) (S : WssServer.ref) (data : wire)
    (i : input) :
  let σ' := WssServer._onWebSocketMessage S data i σ in
  registries_kept σ σ' /\
  (forall r, r ≠ S -> WssServer.heap σ' !! r = WssServer.heap σ !! r) /\
  (forall x, WssServer.heap σ !! S = Some x ->
     exists x', WssServer.heap σ' !! S = Some x' /\ same_identity x x') /\
  (WssServer.heap σ !! S = None -> WssServer.heap σ' !! S = None) /\
  grows (handling_event S) σ σ'.
Proof.
  destruct (onWebSocketMessage_confined σ S data i) as (Hreg & Hheap & Hgrow).
  cbv zeta. split; [exact Hreg|]. split; [|split; [|split; [|exact Hgrow]]].
  - intros r Hne. specialize (Hheap r).
    destruct (WssServer.heap σ !! r) as [x|], (WssServer.heap _ !! r) as [x'|];
      try contradiction; [|reflexivity].
    destruct Hheap as [_ Heq]. rewrite (Heq Hne). reflexivity.
  - intros x Hx. specialize (Hheap S). rewrite Hx in Hheap.
    destruct (WssServer.heap _ !! S) as [x'|]; [|contradiction].
    exists x'. split; [reflexivity | apply Hheap].
  - intros Hx. specialize (Hheap S). rewrite Hx in Hheap.
    destruct (WssServer.heap _ !! S); [contradiction | reflexivity].
Qed.
End Handling.

Section Handling2.
Context `{Platform}.

Lemma reject_live S cr σ x rs :
  WssServer.heap σ !! S = Some x -> WssSession.socket x = Some rs ->
  WssServer.reject S cr σ = closed S cr x σ.
Proof.
  intros Hx Hs. unfold WssServer.reject.
  erewrite session_close_live; [| exact Hx | exact Hs].
  rewrite !emit_more, more_app. reflexivity.
Qed.

(** X2. A frame of a session with a socket that cannot be decoded closes that
    socket with 4001 'parse error'.  A decoded packet whose route is no string,
    whose reqId is no number or whose message is null or undefined closes it
    with 4002 'format error'.  In both cases the error is logged, the session
    object loses its socket, and nothing else changes: the ring of reqIds is
    as it was. *)
Theorem invalid_frame_is_rejected (σ : WssServer.t) (S : WssServer.ref) (data : wire)
    (i : input) (x : WssSession.t) (rs : readyState) :
  WssServer.heap σ !! S = Some x ->
  WssSession.socket x = Some rs ->
  (WssBridgePackData.deserialize data (WssServer.pwd (WssServer.config σ)) = None ->
     WssServer._onWebSocketMessage S data i σ = closed S (4001, "parse error") x σ)
  /\ (forall pack,
        WssBridgePackData.deserialize data (WssServer.pwd (WssServer.config σ)) = Some pack ->
        typeof_string (WssBridgePackData.route pack) = false
        \/ typeof_number (WssBridgePackData.reqId pack) = false
        \/ is_nullish (WssBridgePackData.message pack) = true ->
        WssServer._onWebSocketMessage S data i σ = closed S (4002, "format error") x σ).
Proof.
  intros Hx Hs. split.
  - intros Hdec. unfold WssServer._onWebSocketMessage. rewrite Hdec.
    apply (reject_live S RouteCode.CODE_PARSE σ x rs Hx Hs).
  - intros pack Hdec Hbad. unfold WssServer._onWebSocketMessage. rewrite Hdec.
    assert (Hor : negb (typeof_string (WssBridgePackData.route pack))
                  || negb (typeof_number (WssBridgePackData.reqId pack))
                  || is_nullish (WssBridgePackData.message pack) = true).
    { destruct Hbad as [-> | [-> | ->]]; cbn [negb orb]; [reflexivity| |];
        rewrite ?orb_true_r; reflexivity. }
    rewrite Hor. apply (reject_live S RouteCode.CODE_FORMAT σ x rs Hx Hs).
Qed.

(** A well-formed packet with a novel reqId goes to the dispatch with the
    id recorded. *)
Lemma onWebSocketMessage_fresh σ S data i route reqId message x :
  WssBridgePackData.deserialize data (WssServer.pwd (WssServer.config σ))
    = Some (WssBridgePackData.Build (JStr route) (JNum reqId) message) ->
  is_nullish message = false ->
  WssServer.heap σ !! S = Some x ->
  reqId ∉ WssSession.reqIdList x ->
  WssServer._onWebSocketMessage S data i σ =
    WssServer.dispatch S (WssBridgePackData.Build (JStr route) (JNum reqId) message) route i
      (WssServer.set_heap
         (<[S := WssSession.set_reqIdList
                   (ring_push reqId (WssServer.reqIdCache (WssServer.config σ))
                      (WssSession.reqIdList x)) x]> (WssServer.heap σ)) σ).
Proof.
  intros Hdec Hmsg Hx Hin.
  unfold WssServer._onWebSocketMessage. rewrite Hdec.
  cbn [WssBridgePackData.route WssBridgePackData.reqId WssBridgePackData.message
       typeof_string typeof_number negb orb].
  rewrite Hmsg, Hx. unfold WssSession.updateReqId.
  apply seen_not_elem_of in Hin. rewrite Hin. cbn [negb]. reflexivity.
Qed.

Lemma onWebSocketMessage_heartbeat (σ : WssServer.t) (S : WssServer.ref) (data : wire)
    (i : input) (reqId : Z) (message : jsval) (x : WssSession.t) :
  let pack := WssBridgePackData.Build (JStr "$heartick$") (JNum reqId) message in
  WssBridgePackData.deserialize data (WssServer.pwd (WssServer.config σ)) = Some pack ->
  is_nullish message = false ->
  WssServer.heap σ !! S = Some x ->
  WssSession.socket x = Some OPEN ->
  reqId ∉ WssSession.reqIdList x ->
  WssServer.trace (WssServer._onWebSocketMessage S data i σ) =
    WssServer.trace σ
      ++ [WssServer.Log "trace" "_onWebSocketMessage:" (Some S);
          WssServer.SocketSend S (WssServer.serialize pack i σ)
            (WssServer.binary (WssServer.config σ));
          WssServer.Log "trace" "_sendHeartick:" (Some S)].
Proof.
  intros pack Hdec Hmsg Hx Hs Hin.
  rewrite (onWebSocketMessage_fresh σ S data i _ reqId message x Hdec Hmsg Hx Hin).
  unfold WssServer.dispatch. cbn [String.eqb Ascii.eqb Bool.eqb RouteCode.ROUTE_HEARTICK].
  unfold WssServer._sendHeartick, WssServer.session_send.
  project. cbn [WssServer.binary WssServer.config].
  rewrite lookup_alter_eq, lookup_insert_eq. cbn [fmap option_fmap option_map].
  unfold WssSession.send. cbn [WssSession.socket WssSession.updateHeart
    WssSession.set_lastHeart WssSession.set_reqIdList].
  rewrite Hs. cbn [is_open]. project. rewrite <- !app_assoc. reflexivity.
Qed.

(** X3. A heartbeat packet with a novel reqId, from a session whose socket is
    open, is sent back to the session as it came.  The session's last
    heartbeat becomes the time of arrival, the socket stays open, and the
    session is not expired at any time up to the timeout after the arrival. *)
Theorem heartbeat_is_echoed (σ : WssServer.t) (S : WssServer.ref) (data : wire) (i : input)
    (reqId : Z) (message : jsval) (x : WssSession.t) :
  let pack := WssBridgePackData.Build (JStr "$heartick$") (JNum reqId) message in
  let σ' := WssServer._onWebSocketMessage S data i σ in
  WssBridgePackData.deserialize data (WssServer.pwd (WssServer.config σ)) = Some pack ->
  is_nullish message = false ->
  WssServer.heap σ !! S = Some x ->
  WssSession.socket x = Some OPEN ->
  reqId ∉ WssSession.reqIdList x ->
  WssServer.trace σ' =
    WssServer.trace σ
      ++ [WssServer.Log "trace" "_onWebSocketMessage:" (Some S);
          WssServer.SocketSend S (WssServer.serialize pack i σ)
            (WssServer.binary (WssServer.config σ));
          WssServer.Log "trace" "_sendHeartick:" (Some S)]
  /\ (exists x', WssServer.heap σ' !! S = Some x'
        /\ WssSession.lastHeart x' = clock i
        /\ WssSession.socket x' = Some OPEN
        /\ forall time timeout, time <= clock i + timeout ->
             WssSession.isExpired time timeout x' = false).
Proof.
  intros pack σ' Hdec Hmsg Hx Hs Hin.
  split; [exact (onWebSocketMessage_heartbeat σ S data i reqId message x Hdec Hmsg Hx Hs Hin)|].
  subst σ'.
  rewrite (onWebSocketMessage_fresh σ S data i _ reqId message x Hdec Hmsg Hx Hin).
  unfold WssServer.dispatch. cbn [String.eqb Ascii.eqb Bool.eqb RouteCode.ROUTE_HEARTICK].
  unfold WssServer._sendHeartick, WssServer.session_send.
  project. rewrite lookup_alter_eq, lookup_insert_eq. cbn [fmap option_fmap option_map].
  unfold WssSession.send. cbn [WssSession.socket WssSession.updateHeart
    WssSession.set_lastHeart WssSession.set_reqIdList].
  rewrite Hs. cbn [is_open]. project.
  rewrite lookup_alter_eq, lookup_insert_eq. cbn [fmap option_fmap option_map].
  eexists. split; [reflexivity|].
  cbn [WssSession.lastHeart WssSession.socket WssSession.updateHeart
       WssSession.set_lastHeart WssSession.set_reqIdList].
  split; [reflexivity|]. split; [exact Hs|].
  intros time timeout Hle. unfold WssSession.isExpired.
  cbn [WssSession.lastHeart WssSession.updateHeart WssSession.set_lastHeart].
  destruct (Z.gtb_spec time (clock i + timeout)); [lia | reflexivity].
Qed.
End Handling2.

(** ** Routes and envelopes *)

Section Routes.
Context `{Platform}.




Lemma prim_add_string_l (s : string) (b : prim) :
  prim_add (PStr s) b = PStr (s +:+ prim_ToString b).
Proof. reflexivity. Qed.

Lemma generated_envelope_verdict (σ1 σ : WssServer.t) (tid : jsval)
    (route : string) (message : jsval) (word : string) :
  WssServer._validateInnerData (WssServer._generateInnerData tid route message word σ1) σ
  = Some (String.eqb
            (MD5 (prim_add (prim_add (PStr route) (PStr word)) (WssServer.secret_prim σ1)))
            (MD5 (prim_add (prim_add (PStr route) (PStr word)) (WssServer.secret_prim σ)))).
Proof.
  unfold WssServer._validateInnerData, WssServer._generateInnerData.
  destruct (truthy tid); reflexivity.
Qed.

Lemma generated_envelope_verifies (σ1 σ2 : WssServer.t) (tid : jsval)
    (route : string) (message : jsval) (word : string) :
  WssServer.secret (WssServer.config σ1) = WssServer.secret (WssServer.config σ2) ->
  WssServer._validateInnerData (WssServer._generateInnerData tid route message word σ1) σ2
    = Some true.
Proof.
  intros Hsec. rewrite generated_envelope_verdict. unfold WssServer.secret_prim.
  rewrite Hsec, String.eqb_refl. reflexivity.
Qed.

(** X5. An envelope made by [_generateInnerData] on a node is accepted by
    [_validateInnerData] on every node that has the same secret.  A node
    without a secret signs and verifies as one whose secret is the text
    [null]. *)
Theorem signed_envelope_is_accepted (σ1 σ2 : WssServer.t) (tid : jsval) (route : string)
    (message : jsval) (word : string) :
  (WssServer.secret (WssServer.config σ1) = WssServer.secret (WssServer.config σ2) ->
     WssServer._validateInnerData (WssServer._generateInnerData tid route message word σ1) σ2
       = Some true)
  /\ (WssServer.secret (WssServer.config σ1) = None ->
      WssServer.secret (WssServer.config σ2) = Some "null" ->
      WssServer._validateInnerData (WssServer._generateInnerData tid route message word σ1) σ2
        = Some true).
Proof.
  split.
  - apply generated_envelope_verifies.
  - intros Hs1 Hs2. rewrite generated_envelope_verdict.
    unfold WssServer.secret_prim. rewrite Hs1, Hs2.
    rewrite !prim_add_string_l. cbn [prim_ToString]. rewrite String.eqb_refl. reflexivity.
Qed.

(** X6. On each of the four routes that carry an envelope, an envelope whose
    signature does not verify closes the sender with 4004, and nothing else is
    done.  A message that is a string, a number, a boolean or an array never
    verifies. *)
Theorem inner_routes_require_signature (σ : WssServer.t) (S : WssServer.ref)
    (pack : WssBridgePackData.t) (route : string) (i : input) :
  In route inner_routes ->
  (WssServer._validateInnerData (WssBridgePackData.message pack) σ = Some false ->
     WssServer.dispatch S pack route i σ = WssServer.reject S RouteCode.CODE_SIGN σ
     /\ forall x rs, WssServer.heap σ !! S = Some x -> WssSession.socket x = Some rs ->
          WssServer.dispatch S pack route i σ = closed S (4004, "sign error") x σ)
  /\ (match WssBridgePackData.message pack with
      | JObj _ | JUndefined | JNull => True
      | _ => WssServer._validateInnerData (WssBridgePackData.message pack) σ = Some false
      end).
Proof.
  intros Hin. split.
  - intros Hv.
    assert (Hd : WssServer.dispatch S pack route i σ = WssServer.reject S RouteCode.CODE_SIGN σ).
    { unfold WssServer.dispatch.
      cbn in Hin. destruct Hin as [<- | [<- | [<- | [<- | []]]]];
        cbn [String.eqb Ascii.eqb Bool.eqb RouteCode.ROUTE_HEARTICK RouteCode.ROUTE_INNERP2P
             RouteCode.ROUTE_INNERGRP RouteCode.ROUTE_INNERALL RouteCode.ROUTE_INNERRMC];
        rewrite Hv; reflexivity. }
    split; [exact Hd|]. intros x rs Hx Hs. rewrite Hd.
    apply (reject_live S RouteCode.CODE_SIGN σ x rs Hx Hs).
  - destruct (WssBridgePackData.message pack); try exact I; reflexivity.
Qed.

(** X7. A packet on the route $innerP2P$ whose message is an envelope signed
    with the receiving node's secret is relayed by [pushSession]: after the log
    line of the arrival, the session bound to the envelope's tid is sent, if
    its socket is open, one frame with the envelope's route and message and no
    reqId; when no session is bound to the tid, nothing more happens.  An
    envelope made for a falsy tid carries no tid, and the receiving node pushes
    to nobody. *)
Theorem signed_push_is_relayed (σ0 σ : WssServer.t) (S : WssServer.ref)
    (pack : WssBridgePackData.t) (i : input) (tid : jsval) (route : string)
    (message : jsval) (word : string) :
  WssServer.secret (WssServer.config σ0) = WssServer.secret (WssServer.config σ) ->
  WssBridgePackData.message pack = WssServer._generateInnerData tid route message word σ0 ->
  let received := WssServer.Log "debug" "_onWebSocketMessage:" (Some S) in
  let data :=
    WssServer.serialize (WssBridgePackData.Build (JStr route) JUndefined message) i σ in
  (forall key, truthy tid = true -> toString tid = Some key ->
     WssServer.dispatch S pack RouteCode.ROUTE_INNERP2P i σ =
       match WssServer.sessionMap σ !! key with
       | Some T =>
           more ([received] ++ frames_to data σ T
                 ++ [WssServer.Log "debug" "pushSession:" (Some T)]) σ
       | None => more [received] σ
       end)
  /\ (truthy tid = false ->
      WssServer.dispatch S pack RouteCode.ROUTE_INNERP2P i σ = more [received] σ).
Proof.
  intros Hsec Hmsg received data.
  assert (Hv : WssServer._validateInnerData (WssBridgePackData.message pack) σ = Some true).
  { rewrite Hmsg. apply generated_envelope_verifies. exact Hsec. }
  assert (Hd : WssServer.dispatch S pack RouteCode.ROUTE_INNERP2P i σ =
               WssServer.pushSession (WssServer.field (WssBridgePackData.message pack) "tid")
                 (WssServer.field (WssBridgePackData.message pack) "route")
                 (WssServer.field (WssBridgePackData.message pack) "message") i
                 (WssServer.emit received σ)).
  { unfold WssServer.dispatch.
    cbn [String.eqb Ascii.eqb Bool.eqb RouteCode.ROUTE_HEARTICK RouteCode.ROUTE_INNERP2P].
    rewrite Hv. reflexivity. }
  rewrite Hd, Hmsg, pushSession_spec. unfold WssServer._generateInnerData.
  split.
  - intros key Ht Hkey. rewrite Ht.
    change (WssServer.field (JObj _) "tid") with tid.
    change (WssServer.field (JObj _) "route") with (JStr route).
    change (WssServer.field (JObj _) "message") with message.
    rewrite Hkey. cbn [WssServer.sessionMap WssServer.emit].
    destruct (WssServer.sessionMap σ !! key) as [T|]; [|reflexivity].
    rewrite emit_more, more_app. reflexivity.
  - intros Ht. rewrite Ht.
    change (WssServer.field (JObj _) "tid") with JUndefined.
    cbn [toString]. reflexivity.
Qed.

(** X8. In a state in which [setRemote] was not given the route __proto__:
    a packet on the route $innerRMC$ whose message is an envelope signed with
    the receiving node's secret is handed, once, to the remote listener
    registered under the envelope's route, as a packet with the envelope's
    route and message and the reqId of the incoming packet.  Without a
    listener of its own the route is read from the plain object [_remoteMap]:
    where it names a member of [Object.prototype], such as toString, that
    member is taken for the listener, so that the debug line is written, no
    listener is called and the sender is not closed; every other route closes
    the sender with 4005. *)
Theorem signed_remote_call_is_served (σ0 σ : WssServer.t) (S : WssServer.ref)
    (pack : WssBridgePackData.t) (i : input) (tid : jsval) (route : string)
    (message : jsval) (word : string) :
  WssServer.secret (WssServer.config σ0) = WssServer.secret (WssServer.config σ) ->
  WssBridgePackData.message pack = WssServer._generateInnerData tid route message word σ0 ->
  WssServer.remoteMap σ !! "__proto__" = None ->
  WssServer.dispatch S pack RouteCode.ROUTE_INNERRMC i σ =
    match WssServer.remoteMap σ !! route with
    | Some listener =>
        more [WssServer.Log "debug" "_onWebSocketMessage:" (Some S);
              WssServer.CallRemote listener S
                (WssBridgePackData.Build (JStr route) (WssBridgePackData.reqId pack) message)] σ
    | None =>
        if inherited route
        then more [WssServer.Log "debug" "_onWebSocketMessage:" (Some S)] σ
        else WssServer.reject S RouteCode.CODE_REMOTE σ
    end.
Proof.
  intros Hsec Hmsg _.
  assert (Hv : WssServer._validateInnerData (WssBridgePackData.message pack) σ = Some true).
  { rewrite Hmsg. apply generated_envelope_verifies. exact Hsec. }
  unfold WssServer.dispatch.
  cbn [String.eqb Ascii.eqb Bool.eqb RouteCode.ROUTE_HEARTICK RouteCode.ROUTE_INNERP2P
       RouteCode.ROUTE_INNERGRP RouteCode.ROUTE_INNERALL RouteCode.ROUTE_INNERRMC].
  rewrite Hv, Hmsg. unfold WssServer._generateInnerData.
  assert (Hr : forall l, WssServer.field (JObj ((if truthy tid then [("tid", tid)] else []) ++ l)) "route"
                 = WssServer.field (JObj l) "route").
  { intros l. destruct (truthy tid); reflexivity. }
  assert (Hm : forall l, WssServer.field (JObj ((if truthy tid then [("tid", tid)] else []) ++ l)) "message"
                 = WssServer.field (JObj l) "message").
  { intros l. destruct (truthy tid); reflexivity. }
  rewrite !Hr, !Hm.
  change (WssServer.field (JObj _) "route") with (JStr route).
  change (WssServer.field (JObj _) "message") with message.
  change (WssServer.property_key (JStr route)) with route.
  destruct (WssServer.remoteMap σ !! route) as [listener|].
  - rewrite !emit_more, more_app. reflexivity.
  - destruct (inherited route); [apply emit_more | reflexivity].
Qed.
End Routes.

(** ** The ring of reqIds *)

Lemma updateReqId_list (reqId cacheSize : Z) (x : WssSession.t) :
  WssSession.reqIdList (snd (WssSession.updateReqId reqId cacheSize x)) =
    if WssSession.seen reqId (WssSession.reqIdList x) then WssSession.reqIdList x
    else ring_push reqId cacheSize (WssSession.reqIdList x).
Proof.
  unfold WssSession.updateReqId, ring_push, WssSession.splice0.
  destruct (WssSession.seen reqId (WssSession.reqIdList x)); reflexivity.
Qed.

Lemma updateReqId_fresh (reqId cacheSize : Z) (x : WssSession.t) :
  fst (WssSession.updateReqId reqId cacheSize x)
  = negb (WssSession.seen reqId (WssSession.reqIdList x)).
Proof.
  unfold WssSession.updateReqId.
  destruct (WssSession.seen reqId (WssSession.reqIdList x)); reflexivity.
Qed.

Lemma ring_push_length (reqId cacheSize : Z) (l : list Z) :
  Z.of_nat (length (ring_push reqId cacheSize l)) =
    (if Z.of_nat (length l) >=? cacheSize
     then Z.of_nat (length l) - Z.min (Z.of_nat (length l)) (Z.max 0 (cacheSize / 2))
     else Z.of_nat (length l)) + 1.
Proof.
  unfold ring_push. rewrite length_app. cbn [length].
  destruct (Z.of_nat (length l) >=? cacheSize); [|lia].
  rewrite length_drop. lia.
Qed.

Lemma feed_cons (cacheSize reqId : Z) (ids : list Z) (x : WssSession.t) :
  feed cacheSize (reqId :: ids) x
  = feed cacheSize ids (snd (WssSession.updateReqId reqId cacheSize x)).
Proof. reflexivity. Qed.

Lemma accepted_cons (cacheSize reqId : Z) (ids : list Z) (x : WssSession.t) :
  accepted cacheSize (reqId :: ids) x
  = (if WssSession.seen reqId (WssSession.reqIdList x) then [] else [reqId])
      ++ accepted cacheSize ids (snd (WssSession.updateReqId reqId cacheSize x)).
Proof.
  cbn [accepted]. unfold WssSession.updateReqId.
  destruct (WssSession.seen reqId (WssSession.reqIdList x)); reflexivity.
Qed.

(** X9. With a cache size of 2 or more, a ring that holds at most cache size
    reqIds holds at most that many after any sequence of packets.  With a
    cache size of 1 or less the ring is never cut: after any sequence of
    packets it is the old ring followed by every reqId that was accepted. *)
Theorem reqId_ring_is_bounded (cacheSize : Z) (ids : list Z) (x : WssSession.t) :
  (2 <= cacheSize ->
   Z.of_nat (length (WssSession.reqIdList x)) <= cacheSize ->
   Z.of_nat (length (WssSession.reqIdList (feed cacheSize ids x))) <= cacheSize)
  /\ (cacheSize <= 1 ->
      WssSession.reqIdList (feed cacheSize ids x)
        = WssSession.reqIdList x ++ accepted cacheSize ids x).
Proof.
  split.
  - intros Hc. revert x. induction ids as [|reqId ids IH]; intros x Hx; [exact Hx|].
    rewrite feed_cons. apply IH. rewrite updateReqId_list.
    destruct (WssSession.seen reqId (WssSession.reqIdList x)); [exact Hx|].
    rewrite ring_push_length.
    destruct (Z.geb_spec (Z.of_nat (length (WssSession.reqIdList x))) cacheSize) as [Hge|Hlt].
    + assert (1 <= cacheSize / 2) by (apply Z.div_le_lower_bound; lia).
      assert (cacheSize / 2 <= cacheSize) by (apply Z.div_le_upper_bound; lia).
      lia.
    + lia.
  - intros Hc. revert x. induction ids as [|reqId ids IH]; intros x.
    + cbn. rewrite app_nil_r. reflexivity.
    + rewrite feed_cons, accepted_cons, IH, updateReqId_list.
      destruct (WssSession.seen reqId (WssSession.reqIdList x)); cbn [app]; [reflexivity|].
      unfold ring_push.
      assert (Hz : Z.to_nat (cacheSize / 2) = 0%nat).
      { assert (cacheSize / 2 < 1) by (apply Z.div_lt_upper_bound; lia). lia. }
      rewrite Hz. cbn [drop].
      destruct (_ >=? _); rewrite <- app_assoc; reflexivity.
Qed.

Lemma ring_push_NoDup (reqId cacheSize : Z) (l : list Z) :
  NoDup l -> reqId ∉ l -> NoDup (ring_push reqId cacheSize l).
Proof.
  intros Hnd Hin. unfold ring_push. apply NoDup_app.
  assert (Hsub : forall k : list Z, k ⊆ l -> forall y, y ∈ k -> y ∉ [reqId]).
  { intros k Hk y Hy Hy'. apply list_elem_of_singleton in Hy'. subst y. apply Hin, Hk, Hy. }
  destruct (_ >=? _).
  - split; [apply (sublist_NoDup _ l Hnd (sublist_drop _ _))|].
    split; [apply Hsub, subseteq_drop | apply NoDup_singleton].
  - split; [exact Hnd|]. split; [apply Hsub; reflexivity | apply NoDup_singleton].
Qed.

Lemma ring_push_suffix (reqId cacheSize : Z) (l h : list Z) :
  (exists older, h = older ++ l) ->
  exists older, h ++ [reqId] = older ++ ring_push reqId cacheSize l.
Proof.
  intros [older ->]. unfold ring_push. destruct (_ >=? _).
  - exists (older ++ take (Z.to_nat (cacheSize / 2)) l).
    rewrite <- !app_assoc. f_equal. rewrite app_assoc, take_drop. reflexivity.
  - exists older. rewrite <- app_assoc. reflexivity.
Qed.

Lemma ring_push_window (reqId cacheSize : Z) (l : list Z) (n : Z) :
  Z.of_nat (length l) >= Z.min n (window cacheSize) ->
  Z.of_nat (length (ring_push reqId cacheSize l)) >= Z.min (n + 1) (window cacheSize).
Proof.
  intros Hl. rewrite ring_push_length. unfold window in *.
  destruct (Z.geb_spec (Z.of_nat (length l)) cacheSize) as [Hge|Hlt]; [|lia].
  destruct (Z.le_gt_cases 0 cacheSize) as [Hpos|Hneg].
  - assert (0 <= cacheSize / 2) by (apply Z.div_pos; lia).
    assert (cacheSize / 2 <= cacheSize) by (apply Z.div_le_upper_bound; lia).
    lia.
  - assert (cacheSize / 2 < 0) by (apply Z.div_lt_upper_bound; lia).
    assert (cacheSize <= 2 * (cacheSize / 2) + 1).
    { pose proof (Z.div_mod cacheSize 2 ltac:(lia)).
      pose proof (Z.mod_pos_bound cacheSize 2 ltac:(lia)). lia. }
    lia.
Qed.

Lemma ring_invariant (cacheSize : Z) (ids : list Z) (x : WssSession.t) (h : list Z) :
  NoDup (WssSession.reqIdList x) ->
  (exists older, h = older ++ WssSession.reqIdList x) ->
  Z.of_nat (length (WssSession.reqIdList x)) >= Z.min (Z.of_nat (length h)) (window cacheSize) ->
  let x' := feed cacheSize ids x in
  let h' := h ++ accepted cacheSize ids x in
  NoDup (WssSession.reqIdList x')
  /\ (exists older, h' = older ++ WssSession.reqIdList x')
  /\ Z.of_nat (length (WssSession.reqIdList x')) >= Z.min (Z.of_nat (length h')) (window cacheSize).
Proof.
  revert x h. induction ids as [|reqId ids IH]; intros x h Hnd Hsuf Hlen; cbn zeta.
  - cbn [feed fold_left accepted]. rewrite app_nil_r. auto.
  - rewrite feed_cons, accepted_cons.
    destruct (WssSession.seen reqId (WssSession.reqIdList x)) eqn:Hseen.
    + cbn [app]. apply IH; rewrite updateReqId_list, Hseen; assumption.
    + rewrite app_assoc. apply IH; rewrite updateReqId_list, Hseen.
      * apply ring_push_NoDup; [exact Hnd | by apply seen_not_elem_of].
      * apply ring_push_suffix, Hsuf.
      * rewrite length_app. cbn [length].
        replace (Z.of_nat (length h + 1)) with (Z.of_nat (length h) + 1) by lia.
        apply ring_push_window, Hlen.
Qed.

(** X10. Starting from an empty ring, after any sequence of packets the ring
    has no reqId twice and is the end of the sequence of the accepted reqIds;
    each of the last [cacheSize - cacheSize / 2 + 1] accepted reqIds is still
    in it, so that a packet that repeats one of them is refused and changes
    nothing. *)
Theorem recent_reqIds_are_remembered (cacheSize : Z) (ids : list Z) (x : WssSession.t) :
  WssSession.reqIdList x = [] ->
  let x' := feed cacheSize ids x in
  let h := accepted cacheSize ids x in
  NoDup (WssSession.reqIdList x')
  /\ (exists older, h = older ++ WssSession.reqIdList x')
  /\ (forall (k : nat) (reqId : Z),
        Z.of_nat k <= window cacheSize ->
        reqId ∈ drop (length h - k) h ->
        WssSession.updateReqId reqId cacheSize x' = (false, x')).
Proof.
  intros Hnil x' h.
  destruct (ring_invariant cacheSize ids x [] ) as (Hnd & [older Hsuf] & Hlen).
  { rewrite Hnil. constructor. }
  { exists []. rewrite Hnil. reflexivity. }
  { rewrite Hnil. cbn. unfold window. lia. }
  cbn [app] in Hsuf, Hlen. fold h in Hsuf, Hlen. fold x' in Hnd, Hsuf, Hlen.
  split; [exact Hnd|]. split; [exists older; exact Hsuf|].
  intros k reqId Hk Hin.
  assert (Hring : reqId ∈ WssSession.reqIdList x').
  { assert (Hh : length h = (length older + length (WssSession.reqIdList x'))%nat).
    { rewrite Hsuf at 1. apply length_app. }
    rewrite Hsuf in Hin at 2.
    rewrite drop_app_ge in Hin by lia.
    eapply subseteq_drop, Hin. }
  apply seen_elem_of in Hring. unfold WssSession.updateReqId. rewrite Hring. reflexivity.
Qed.

(** ** The registries and the session objects *)

Lemma alike_refl σ : alike σ σ.
Proof. intros r. destruct (WssServer.heap σ !! r); [apply same_identity_refl | exact I]. Qed.

Lemma alike_trans σ1 σ2 σ3 : alike σ1 σ2 -> alike σ2 σ3 -> alike σ1 σ3.
Proof.
  intros H12 H23 r. specialize (H12 r). specialize (H23 r).
  destruct (WssServer.heap σ1 !! r), (WssServer.heap σ2 !! r), (WssServer.heap σ3 !! r);
    try contradiction; try exact I.
  eapply same_identity_trans; eassumption.
Qed.

Lemma heap_confined_alike S σ σ' : heap_confined S σ σ' -> alike σ σ'.
Proof.
  intros Hc r. specialize (Hc r).
  destruct (WssServer.heap σ !! r), (WssServer.heap σ' !! r); try contradiction; try exact I.
  apply Hc.
Qed.

Lemma alike_same σ σ' : WssServer.heap σ' = WssServer.heap σ -> alike σ σ'.
Proof. intros Heq r. rewrite Heq. destruct (WssServer.heap σ !! r); [apply same_identity_refl | exact I]. Qed.

(** The invariant reads the registries and the identities of the session
    objects only. *)
Lemma consistent_alike σ σ' :
  consistent σ -> registries_kept σ σ' -> alike σ σ' -> consistent σ'.
Proof.
  intros [Hb Hc Hk Hm Hs] (_ & _ & _ & Hsock & Hsess & Hchan & _ & _ & Hinc) Hal.
  assert (Hback : forall r x', WssServer.heap σ' !! r = Some x' ->
            exists x, WssServer.heap σ !! r = Some x /\ same_identity x x').
  { intros r x' Hx'. specialize (Hal r). rewrite Hx' in Hal.
    destruct (WssServer.heap σ !! r) as [x|]; [eauto | contradiction]. }
  assert (Hforth : forall r x, WssServer.heap σ !! r = Some x ->
            exists x', WssServer.heap σ' !! r = Some x' /\ same_identity x x').
  { intros r x Hx. specialize (Hal r). rewrite Hx in Hal.
    destruct (WssServer.heap σ' !! r) as [x'|]; [eauto | contradiction]. }
  constructor.
  - intros r x' Hx'. destruct (Hback r x' Hx') as (x & Hx & Hid & _).
    rewrite Hid, Hinc. apply (Hb r x Hx).
  - intros key c. rewrite Hchan. apply Hc.
  - intros key c k r. rewrite Hchan. apply Hk.
  - intros key r. unfold member, joined. rewrite Hchan.
    specialize (Hm key r). unfold member, joined in Hm. rewrite Hm. split.
    + intros (x & Hx & Hin). destruct (Hforth r x Hx) as (x' & Hx' & _ & _ & _ & _ & Hch).
      exists x'. rewrite Hch. auto.
    + intros (x' & Hx' & Hin). destruct (Hback r x' Hx') as (x & Hx & _ & _ & _ & _ & Hch).
      exists x. rewrite <- Hch. auto.
  - intros k r. rewrite Hsock. intros Hkr. destruct (Hs k r Hkr) as [-> [x Hx]].
    split; [reflexivity|]. destruct (Hforth k x Hx) as (x' & Hx' & _). eauto.
Qed.

Lemma consistent_more events σ : consistent σ -> consistent (more events σ).
Proof.
  intros Hok. eapply consistent_alike; [exact Hok | repeat split | apply alike_same; reflexivity].
Qed.

Lemma consistent_create config : consistent (WssServer.create config).
Proof.
  constructor; cbn [WssServer.create WssServer.heap WssServer.channelMap
                    WssServer.sessionMap WssServer.socketMap WssServer.increment].
  - intros r x. rewrite lookup_empty. discriminate.
  - intros key c. cbn [WssServer.create WssServer.channelMap]. rewrite lookup_empty. discriminate.
  - intros key c k r. rewrite lookup_empty. discriminate.
  - intros key r. unfold member, joined. cbn [WssServer.create WssServer.heap WssServer.channelMap].
    split; intros (c & Hc & _); rewrite lookup_empty in Hc; discriminate.
  - intros k r. rewrite lookup_empty. discriminate.
Qed.

Lemma consistent_connection ip time σ :
  consistent σ -> consistent (WssServer._onWebSocketConnection ip time σ).
Proof.
  intros [Hb Hc Hk Hm Hs].
  assert (Hfresh : WssServer.heap σ !! WssServer.increment σ = None).
  { destruct (WssServer.heap σ !! WssServer.increment σ) as [x|] eqn:Hx; [|reflexivity].
    destruct (Hb _ x Hx). lia. }
  unfold WssServer._onWebSocketConnection.
  constructor; project.
  - intros r x. rewrite lookup_insert. case_decide.
    + intros [= <-]. subst r. cbn [WssSession.create WssSession.id]. split; [reflexivity | lia].
    + intros Hx. destruct (Hb r x Hx). split; [assumption | lia].
  - exact Hc.
  - exact Hk.
  - intros key r. unfold member, joined. project.
    specialize (Hm key r). unfold member, joined in Hm. rewrite Hm.
    rewrite lookup_insert. case_decide.
    + subst r. rewrite Hfresh. split.
      * intros (x & [=] & _).
      * intros (x & [= <-] & Hin). cbn in Hin. by apply not_elem_of_empty in Hin.
    + reflexivity.
  - intros k r. rewrite lookup_insert. case_decide.
    + intros [= <-]. subst k. split; [reflexivity|]. rewrite lookup_insert_eq. eauto.
    + intros Hkr. destruct (Hs k r Hkr) as [-> [x Hx]]. split; [reflexivity|].
      assert (WssServer.increment σ ≠ k) by (destruct (Hb k x Hx); lia).
      rewrite lookup_insert_ne by assumption. eauto.
Qed.

Lemma elem_of_join (key key' : string) (C : gset string) :
  key' ∈ ({[key]} ∪ C : gset string) <-> key' = key \/ key' ∈ C.
Proof. rewrite elem_of_union, elem_of_singleton. reflexivity. Qed.

Lemma elem_of_quit (key key' : string) (C : gset string) :
  key' ∈ (C ∖ {[key]} : gset string) <-> key' ∈ C /\ key' ≠ key.
Proof. rewrite elem_of_difference, elem_of_singleton. reflexivity. Qed.

Lemma joinChannel_consistent S gid σ :
  consistent σ -> is_Some (WssServer.heap σ !! S) ->
  consistent (WssServer.joinChannel S gid σ).
Proof.
  intros Hok [x Hx].
  pose proof (joinChannel_ok S gid σ (counts_right _ Hok)) as Hc'.
  destruct Hok as [Hb Hc Hk Hm Hs].
  unfold WssServer.joinChannel in *.
  destruct (toString gid) as [key|]; [|constructor; assumption].
  set (c := default (WssServer.Channel 0 ∅) (WssServer.channelMap σ !! key)).
  assert (Hcase :
    match WssServer.channelMap σ !! key with
    | Some channel => WssServer.join S key channel σ
    | None => if inherited key then σ
              else WssServer.join S key (WssServer.Channel 0 ∅) σ
    end = σ
    \/ match WssServer.channelMap σ !! key with
       | Some channel => WssServer.join S key channel σ
       | None => if inherited key then σ
                 else WssServer.join S key (WssServer.Channel 0 ∅) σ
       end = WssServer.join S key c σ).
  { subst c. destruct (WssServer.channelMap σ !! key); [right; reflexivity|].
    destruct (inherited key); [left | right]; reflexivity. }
  destruct Hcase as [Heq|Heq]; rewrite Heq in *; clear Heq; [constructor; assumption|].
  unfold WssServer.join in *.
  assert (Hcm : forall r, WssServer.sessions c !! r = Some r <-> member key r σ).
  { intros r. unfold member. subst c.
    destruct (WssServer.channelMap σ !! key) as [ch|]; cbn.
    - split; [eauto | intros (ch' & [= <-] & Hr); exact Hr].
    - rewrite lookup_empty. split; [discriminate | intros (? & [=] & _)]. }
  assert (Hck : forall k r, WssServer.sessions c !! k = Some r -> r = k).
  { intros k r. subst c. destruct (WssServer.channelMap σ !! key) as [ch|] eqn:Hch; cbn.
    - apply (Hk key ch k r Hch).
    - rewrite lookup_empty. discriminate. }
  destruct (WssServer.sessions c !! S) as [r0|] eqn:HS; cbn [present negb] in *.
  - assert (Hkey : WssServer.channelMap σ !! key = Some c).
    { subst c. destruct (WssServer.channelMap σ !! key) as [ch|]; [reflexivity|].
      cbn in HS. rewrite lookup_empty in HS. discriminate. }
    eapply consistent_alike;
      [constructor; eassumption | | apply alike_same; reflexivity].
    repeat split. project. apply insert_id, Hkey.
  - constructor; project.
    + intros r x'. rewrite lookup_alter. case_decide.
      * subst r. rewrite Hx. intros [= <-]. apply (Hb S x Hx).
      * apply Hb.
    + exact Hc'.
    + intros key' ch k r. rewrite lookup_insert. case_decide.
      * intros [= <-]. cbn [WssServer.sessions]. rewrite lookup_insert. case_decide.
        -- intros [= <-]. congruence.
        -- apply Hck.
      * apply Hk.
    + intros key' r. unfold member, joined. project.
      rewrite lookup_insert, lookup_alter.
      specialize (Hm key' r). unfold member, joined in Hm.
      destruct (decide (key = key')) as [<-|Hne].
      * split.
        -- intros (ch & [= <-] & Hr). cbn [WssServer.sessions] in Hr.
           rewrite lookup_insert in Hr. case_decide.
           ++ subst r. rewrite Hx. eexists. split; [reflexivity|].
              cbn [WssSession.joinChannel WssSession.set_channel WssSession.channel].
              apply elem_of_join. by left.
           ++ apply Hcm, Hm in Hr. exact Hr.
        -- intros (x' & Hx' & Hin). eexists. split; [reflexivity|].
           cbn [WssServer.sessions]. rewrite lookup_insert. case_decide.
           ++ congruence.
           ++ apply Hcm, Hm. eauto.
      * rewrite Hm. case_decide.
        -- subst r. rewrite Hx. split.
           ++ intros (x0 & [= <-] & Hin). eexists. split; [reflexivity|].
              cbn [WssSession.joinChannel WssSession.set_channel WssSession.channel].
              apply elem_of_join. by right.
           ++ intros (x' & [= <-] & Hin). exists x. split; [reflexivity|].
              cbn [WssSession.joinChannel WssSession.set_channel WssSession.channel] in Hin.
              apply elem_of_join in Hin. destruct Hin as [->|Hin]; [congruence | exact Hin].
        -- reflexivity.
    + intros k r Hkr. destruct (Hs k r Hkr) as [-> [x0 Hx0]]. split; [reflexivity|].
      rewrite lookup_alter. case_decide; [subst k; rewrite Hx0|rewrite Hx0]; eauto.
Qed.

Lemma quitChannel_consistent S gid σ :
  consistent σ -> consistent (WssServer.quitChannel S gid σ).
Proof.
  intros Hok.
  pose proof (quitChannel_ok S gid σ (counts_right _ Hok)) as Hc'.
  destruct Hok as [Hb Hc Hk Hm Hs].
  unfold WssServer.quitChannel in *.
  destruct (toString gid) as [key|]; [|constructor; assumption].
  destruct (WssServer.channelMap σ !! key) as [ch|] eqn:Hch; [|constructor; assumption].
  destruct (Hc key ch Hch) as [Hcount Hpos].
  destruct (WssServer.sessions ch !! S) as [r0|] eqn:HS; cbn [present] in *.
  - assert (r0 = S) by (apply (Hk key ch S r0 Hch HS)). subst r0.
    assert (Hjoin : joined key S σ) by (apply Hm; exists ch; auto).
    destruct Hjoin as (x & Hx & Hin).
    assert (Hsize : size (delete S (WssServer.sessions ch)) = Nat.pred (size (WssServer.sessions ch))).
    { apply map_size_delete_Some. eauto. }
    (* the channel registry afterwards, in both cases *)
    set (cm' := if WssServer.count ch - 1 <=? 0
                then delete key (WssServer.channelMap σ)
                else <[key := WssServer.Channel (WssServer.count ch - 1)
                                (delete S (WssServer.sessions ch))]> (WssServer.channelMap σ)).
    assert (Hmem : forall key' r,
              (exists channel, cm' !! key' = Some channel
                               /\ WssServer.sessions channel !! r = Some r)
              <-> member key' r σ /\ ~ (key' = key /\ r = S)).
    { intros key' r. unfold member. subst cm'.
      destruct (decide (key' = key)) as [->|Hne].
      - rewrite Hch. destruct (Z.leb_spec (WssServer.count ch - 1) 0) as [Hle|Hgt].
        + rewrite lookup_delete_eq.
          assert (Hempty : delete S (WssServer.sessions ch) = ∅).
          { apply map_size_empty_inv. lia. }
          split; [intros (? & [=] & _)|].
          intros [(ch' & [= <-] & Hr) Hne]. exfalso. apply Hne. split; [reflexivity|].
          destruct (decide (r = S)) as [|Hrs]; [assumption|].
          assert (Hd : delete S (WssServer.sessions ch) !! r = Some r)
            by (rewrite lookup_delete_ne by congruence; exact Hr).
          rewrite Hempty, lookup_empty in Hd. discriminate.
        + rewrite lookup_insert_eq. split.
          * intros (ch' & [= <-] & Hr). cbn [WssServer.sessions] in Hr.
            rewrite lookup_delete in Hr. case_decide; [discriminate|].
            split; [eauto | intros [_ ->]; congruence].
          * intros [(ch' & [= <-] & Hr) Hn]. eexists. split; [reflexivity|].
            cbn [WssServer.sessions]. rewrite lookup_delete_ne; [exact Hr|].
            intros ->. apply Hn. auto.
      - assert (Hsame : (if WssServer.count ch - 1 <=? 0
                then delete key (WssServer.channelMap σ)
                else <[key := WssServer.Channel (WssServer.count ch - 1)
                                (delete S (WssServer.sessions ch))]> (WssServer.channelMap σ))
                  !! key' = WssServer.channelMap σ !! key').
        { destruct (_ <=? _); [apply lookup_delete_ne | apply lookup_insert_ne]; congruence. }
        rewrite Hsame. split; [intros Hm'; split; [exact Hm' | intros [? _]; congruence]|].
        intros [Hm' _]. exact Hm'. }
    assert (Hkeyed : forall key' channel k r, cm' !! key' = Some channel ->
              WssServer.sessions channel !! k = Some r -> r = k).
    { intros key' channel k r. subst cm'. destruct (_ <=? _).
      - rewrite lookup_delete. case_decide; [discriminate|]. apply Hk.
      - rewrite lookup_insert. case_decide.
        + intros [= <-]. cbn [WssServer.sessions]. rewrite lookup_delete.
          case_decide; [discriminate|]. apply (Hk key ch k r Hch).
        + apply Hk. }
    assert (Hheap : forall r,
              alter (WssSession.quitChannel key) S (WssServer.heap σ) !! r
              = if decide (S = r) then Some (WssSession.quitChannel key x)
                else WssServer.heap σ !! r).
    { intros r. rewrite lookup_alter. case_decide; [subst r; rewrite Hx|]; reflexivity. }
    cbn [WssServer.count] in Hc' |- *.
    assert (Hgoal : forall σ',
              WssServer.heap σ' = alter (WssSession.quitChannel key) S (WssServer.heap σ) ->
              WssServer.channelMap σ' = cm' ->
              WssServer.sessionMap σ' = WssServer.sessionMap σ ->
              WssServer.socketMap σ' = WssServer.socketMap σ ->
              WssServer.increment σ' = WssServer.increment σ ->
              channels_ok σ' -> consistent σ').
    { intros σ' Hh' Hcm' Hsm' Hso' Hin' Hco'. constructor.
      - intros r x'. rewrite Hh', Hheap, Hin'. case_decide.
        + subst r. intros [= <-]. apply (Hb S x Hx).
        + apply Hb.
      - exact Hco'.
      - intros key' channel k r. rewrite Hcm'. apply Hkeyed.
      - intros key' r. unfold member, joined. rewrite Hcm', Hh', Hmem, Hheap, (Hm key' r).
        unfold joined. case_decide.
        + subst r. rewrite Hx. split.
          * intros [(x0 & [= <-] & Hin0) Hn]. eexists. split; [reflexivity|].
            cbn [WssSession.quitChannel WssSession.set_channel WssSession.channel].
            apply elem_of_quit. split; [exact Hin0 | intros ->; apply Hn; auto].
          * intros (x' & [= <-] & Hin'0).
            cbn [WssSession.quitChannel WssSession.set_channel WssSession.channel] in Hin'0.
            apply elem_of_quit in Hin'0. destruct Hin'0 as [Hin0 Hn].
            split; [eauto | intros [? _]; congruence].
        + split; [intros [Hj _]; exact Hj | intros Hj; split; [exact Hj | intros [_ ?]; congruence]].
      - intros k r. rewrite Hso', Hh'. intros Hkr. destruct (Hs k r Hkr) as [-> [x0 Hx0]].
        split; [reflexivity|]. rewrite Hheap. case_decide; eauto. }
    subst cm'. destruct (WssServer.count ch - 1 <=? 0); apply Hgoal; try reflexivity; exact Hc'.
  - cbn [WssServer.count] in *.
    destruct (Z.leb_spec (WssServer.count ch) 0) as [Hle|Hgt]; [lia|].
    eapply consistent_alike;
      [constructor; eassumption | | apply alike_same; reflexivity].
    repeat split. project. apply insert_id, Hch.
Qed.

(** What the loop of [deleteChannel] does to the session objects. *)
Lemma quit_all_heap (key : string) (l : list (Z * WssServer.ref)) (σ : WssServer.t) :
  let σ' := foldl (fun σ kv => WssServer.session_update (WssSession.quitChannel key) (snd kv) σ)
              σ l in
  registries_kept σ σ'
  /\ (forall key' r, joined key' r σ' <-> joined key' r σ /\ ~ (key' = key /\ r ∈ l.*2))
  /\ (forall k r, bound_to k r σ' <-> bound_to k r σ)
  /\ (forall r x', WssServer.heap σ' !! r = Some x' ->
        exists x, WssServer.heap σ !! r = Some x /\ WssSession.id x' = WssSession.id x)
  /\ (forall r, is_Some (WssServer.heap σ !! r) -> is_Some (WssServer.heap σ' !! r)).
Proof.
  revert σ. induction l as [|[k s] l IH]; intros σ; cbn zeta.
  - cbn [foldl fmap list_fmap]. split; [apply registries_kept_refl|].
    split; [|split; [reflexivity | split; [eauto | auto]]].
    intros key' r. split; [intros Hj; split; [exact Hj|] | intros [Hj _]; exact Hj].
    intros [_ Hin]. by apply not_elem_of_nil in Hin.
  - cbn [foldl snd]. set (σ1 := WssServer.session_update (WssSession.quitChannel key) s σ).
    destruct (IH σ1) as (Hr & Hj & Hbd & Hid & Hal).
    assert (Hh1 : forall r, WssServer.heap σ1 !! r =
              if decide (s = r) then WssSession.quitChannel key <$> WssServer.heap σ !! s
              else WssServer.heap σ !! r).
    { intros r. subst σ1. apply heap_session_update. }
    split; [eapply registries_kept_trans; [|exact Hr]; repeat split|].
    split; [|split; [|split]].
    + intros key' r. rewrite Hj. unfold joined. rewrite Hh1.
      cbn [fmap list_fmap snd]. rewrite elem_of_cons.
      case_decide.
      * subst r. destruct (WssServer.heap σ !! s) as [x|]; cbn.
        -- split.
           ++ intros [(x' & [= <-] & Hin) Hn].
              cbn [WssSession.quitChannel WssSession.set_channel WssSession.channel] in Hin.
              apply elem_of_quit in Hin. destruct Hin as [Hin Hne].
              split; [eauto | intros [? _]; congruence].
           ++ intros [(x' & [= <-] & Hin) Hn]. split.
              ** eexists. split; [reflexivity|].
                 cbn [WssSession.quitChannel WssSession.set_channel WssSession.channel].
                 apply elem_of_quit. split; [exact Hin | intros ->; apply Hn; auto].
              ** intros [-> Hl]. apply Hn. auto.
        -- split; intros [(x' & [=] & _) _].
      * split.
        -- intros [Hjo Hn]. split; [exact Hjo|]. intros [-> [->|Hl]]; [congruence|].
           apply Hn. auto.
        -- intros [Hjo Hn]. split; [exact Hjo|]. intros [-> Hl]. apply Hn. auto.
    + intros k' r. rewrite Hbd. unfold bound_to. rewrite Hh1. case_decide; [|reflexivity].
      subst r. destruct (WssServer.heap σ !! s) as [x|]; cbn.
      * split.
        -- intros (x' & [= <-] & Ht & Hu). eexists. split; [reflexivity|]. auto.
        -- intros (x' & [= <-] & Ht & Hu). eexists. split; [reflexivity|]. auto.
      * split; intros (x' & [=] & _).
    + intros r x' Hx'. destruct (Hid r x' Hx') as (x1 & Hx1 & Hi1).
      rewrite Hh1 in Hx1. case_decide.
      * subst r. destruct (WssServer.heap σ !! s) as [x|]; cbn in Hx1; [|discriminate].
        injection Hx1 as <-. exists x. split; [reflexivity | exact Hi1].
      * eauto.
    + intros r [x Hx]. apply Hal. rewrite Hh1. case_decide; [subst r; rewrite Hx|]; eauto.
Qed.

Lemma deleteChannel_consistent gid σ :
  consistent σ -> consistent (WssServer.deleteChannel gid σ).
Proof.
  intros Hok.
  pose proof (deleteChannel_ok gid σ (counts_right _ Hok)) as Hc'.
  destruct Hok as [Hb Hc Hk Hm Hs].
  unfold WssServer.deleteChannel in *.
  destruct (toString gid) as [key|]; [|constructor; assumption].
  destruct (WssServer.channelMap σ !! key) as [ch|] eqn:Hch;
    [|destruct (inherited key); [rewrite emit_more; apply consistent_more|];
      constructor; assumption].
  set (l := map_to_list (WssServer.sessions ch)) in *.
  destruct (quit_all_heap key l σ) as (Hr & Hj & Hbd & Hid & Hal).
  set (σ1 := foldl _ σ l) in *.
  destruct Hr as (_ & _ & _ & Hsock & Hsess & Hchan & _ & _ & Hinc).
  constructor; project.
  - intros r x' Hx'. destruct (Hid r x' Hx') as (x & Hx & ->). rewrite Hinc. apply (Hb r x Hx).
  - exact Hc'.
  - intros key' c k r. rewrite Hchan, lookup_delete. case_decide; [discriminate|]. apply Hk.
  - intros key' r.
    assert (Hj' : joined key' r (WssServer.emit (WssServer.Log "debug" "deleteChannel:" None)
               (WssServer.set_channelMap (delete key (WssServer.channelMap σ1)) σ1))
             <-> joined key' r σ1) by reflexivity.
    rewrite Hj', Hj, <- (Hm key' r). unfold member. project.
    rewrite Hchan, lookup_delete. case_decide.
    + subst key'. rewrite Hch. split; [intros (? & [=] & _)|].
      intros [(c & [= <-] & Hmem) Hn]. exfalso. apply Hn. split; [reflexivity|].
      apply list_elem_of_fmap. exists (r, r). split; [reflexivity|].
      apply elem_of_map_to_list. exact Hmem.
    + split; [intros Hmem; split; [exact Hmem | intros [? _]; congruence]|].
      intros [Hmem _]. exact Hmem.
  - intros k r. rewrite Hsock. intros Hkr. destruct (Hs k r Hkr) as [-> Hx].
    split; [reflexivity | apply Hal, Hx].
Qed.

Lemma unbindUid_cases (S : WssServer.ref) (σ : WssServer.t) :
  (WssServer.unbindUid S σ = σ /\ forall key, ~ bound_to key S σ)
  \/ (exists x key,
        WssServer.heap σ !! S = Some x /\ truthy (WssSession.uid x) = true
        /\ toString (WssSession.uid x) = Some key
        /\ WssServer.unbindUid S σ =
             WssServer.session_update WssSession.unbindUid S
               (WssServer.set_sessionMap (delete key (WssServer.sessionMap σ))
                  (WssServer.emit (WssServer.Log "debug" "unbindUid:" (Some S)) σ))).
Proof.
  destruct (WssServer.heap σ !! S) as [x|] eqn:Hx.
  - destruct (WssSession.isBinded x) eqn:Hbx.
    + right. destruct (truthy_toString _ Hbx) as [key Hkey].
      exists x, key. split; [reflexivity|]. split; [exact Hbx|]. split; [exact Hkey|].
      apply (unbindUid_bound S σ x key Hx Hbx Hkey).
    + left. split; [apply (unbindUid_unbound S σ x Hx Hbx)|].
      intros key (x' & Hx' & Ht & _). rewrite Hx in Hx'. injection Hx' as <-.
      unfold WssSession.isBinded in Hbx. congruence.
  - left. split.
    + unfold WssServer.unbindUid. rewrite Hx. reflexivity.
    + intros key (x' & Hx' & _). congruence.
Qed.

Lemma unbindUid_consistent S σ :
  consistent σ ->
  consistent (WssServer.unbindUid S σ)
  /\ (forall key, ~ bound_to key S (WssServer.unbindUid S σ))
  /\ (forall key, WssServer.sessionMap σ !! key = None ->
        WssServer.sessionMap (WssServer.unbindUid S σ) !! key = None)
  /\ (forall r, is_Some (WssServer.heap σ !! r) ->
        is_Some (WssServer.heap (WssServer.unbindUid S σ) !! r)).
Proof.
  intros Hok.
  destruct (unbindUid_cases S σ) as [[-> Hnb] | (x & key & Hx & Ht & Hkey & ->)].
  { split; [exact Hok|]. split; [exact Hnb|]. auto. }
  destruct Hok as [Hb Hc Hk Hm Hs].
  assert (Hheap : forall r,
            WssServer.heap
              (WssServer.session_update WssSession.unbindUid S
                 (WssServer.set_sessionMap (delete key (WssServer.sessionMap σ))
                    (WssServer.emit (WssServer.Log "debug" "unbindUid:" (Some S)) σ))) !! r
            = if decide (S = r) then Some (WssSession.unbindUid x) else WssServer.heap σ !! r).
  { intros r. rewrite heap_session_update. project.
    case_decide; [rewrite Hx|]; reflexivity. }
  assert (Hbound : forall k r,
            bound_to k r
              (WssServer.session_update WssSession.unbindUid S
                 (WssServer.set_sessionMap (delete key (WssServer.sessionMap σ))
                    (WssServer.emit (WssServer.Log "debug" "unbindUid:" (Some S)) σ)))
            <-> bound_to k r σ /\ r ≠ S).
  { intros k r. unfold bound_to. rewrite Hheap. case_decide.
    - subst r. split.
      + intros (x' & [= <-] & Ht' & _). discriminate.
      + intros [_ Hn]. congruence.
    - split; [intros Hbd; split; [exact Hbd | congruence] | intros [Hbd _]; exact Hbd]. }
  split; [|split; [|split]].
  - constructor.
    + intros r x'. rewrite Hheap. project. case_decide.
      * subst r. intros [= <-]. apply (Hb S x Hx).
      * apply Hb.
    + exact Hc.
    + exact Hk.
    + intros key' r. specialize (Hm key' r). unfold member, joined in *. rewrite Hheap.
      project. rewrite Hm. case_decide; [|reflexivity].
      subst r. rewrite Hx. split.
      * intros (x0 & [= <-] & Hin). eexists. split; [reflexivity | exact Hin].
      * intros (x' & [= <-] & Hin). eexists. split; [reflexivity | exact Hin].
    + intros k r Hkr. destruct (Hs k r Hkr) as [-> [x0 Hx0]]. split; [reflexivity|].
      rewrite Hheap. case_decide; eauto.
  - intros k Hbd. apply Hbound in Hbd. destruct Hbd as [_ Hn]. congruence.
  - intros k Hnone. project. rewrite lookup_delete. case_decide; [reflexivity | exact Hnone].
  - intros r [x0 Hx0]. rewrite Hheap. case_decide; eauto.
Qed.

Lemma session_close_frame S cr σ :
  registries_kept σ (WssServer.session_close S cr σ)
  /\ heap_confined S σ (WssServer.session_close S cr σ).
Proof.
  unfold WssServer.session_close, WssSession.close.
  destruct (WssServer.heap σ !! S) as [x|] eqn:Hx;
    [|split; [apply registries_kept_refl | apply heap_confined_refl]].
  destruct (WssSession.socket x) as [rs|] eqn:Hs;
    [|split; [apply registries_kept_refl | apply heap_confined_refl]].
  split; [repeat split|].
  intros r. cbn [WssServer.heap WssServer.set_heap WssServer.emit].
  destruct (decide (r = S)) as [->|Hne].
  - rewrite Hx, lookup_insert_eq. split; [repeat split | congruence].
  - rewrite lookup_insert_ne by congruence.
    destruct (WssServer.heap σ !! r); [|exact I].
    split; [apply same_identity_refl | reflexivity].
Qed.

Lemma session_close_consistent S cr σ :
  consistent σ -> consistent (WssServer.session_close S cr σ).
Proof.
  intros Hok. destruct (session_close_frame S cr σ) as [Hr Hh].
  eapply consistent_alike; [exact Hok | exact Hr | eapply heap_confined_alike, Hh].
Qed.

Lemma session_close_alloc S cr σ r :
  is_Some (WssServer.heap σ !! r) -> is_Some (WssServer.heap (WssServer.session_close S cr σ) !! r).
Proof.
  intros [x Hx]. destruct (session_close_frame S cr σ) as [_ Hh]. specialize (Hh r).
  rewrite Hx in Hh. revert Hh.
  destruct (WssServer.heap (WssServer.session_close S cr σ) !! r); [eauto | intros []].
Qed.

Lemma session_close_bound S cr σ key r :
  bound_to key r (WssServer.session_close S cr σ) <-> bound_to key r σ.
Proof.
  destruct (session_close_frame S cr σ) as [_ Hh]. specialize (Hh r). unfold bound_to.
  destruct (WssServer.heap σ !! r) as [x|], (WssServer.heap _ !! r) as [x'|];
    try contradiction.
  - destruct Hh as [(_ & _ & Hu & _) _]. split.
    + intros (? & [= <-] & Ht & Hk). exists x. rewrite <- Hu. auto.
    + intros (? & [= <-] & Ht & Hk). exists x'. rewrite Hu. auto.
  - split; intros (? & [=] & _).
Qed.

Lemma rebind_consistent S uid key σ :
  consistent σ -> is_Some (WssServer.heap σ !! S) ->
  consistent (WssServer.rebind S uid key σ).
Proof.
  intros Hoka Halloca. unfold WssServer.rebind.
  destruct (unbindUid_consistent S σ Hoka) as (Hokb & Hnbb & Hkeep & Halb).
  set (σb := WssServer.unbindUid S σ) in *.
  destruct (Halb S Halloca) as [xb Hxb].
  destruct Hokb as [Hb Hc Hk Hm Hs].
  assert (Hheap : forall r,
            WssServer.heap (WssServer.session_update (WssSession.bindUid uid) S σb) !! r
            = if decide (S = r) then Some (WssSession.bindUid uid xb)
              else WssServer.heap σb !! r).
  { intros r. rewrite heap_session_update. case_decide; [rewrite Hxb|]; reflexivity. }
  constructor; project.
  - intros r x'. fold (WssServer.session_update (WssSession.bindUid uid) S σb).
    rewrite Hheap. case_decide.
    + subst r. intros [= <-]. apply (Hb S xb Hxb).
    + apply Hb.
  - exact Hc.
  - exact Hk.
  - intros key' r. specialize (Hm key' r). unfold member, joined in *. project.
    fold (WssServer.session_update (WssSession.bindUid uid) S σb).
    rewrite Hheap, Hm. case_decide; [|reflexivity].
    subst r. rewrite Hxb. split.
    + intros (x0 & [= <-] & Hin). eexists. split; [reflexivity | exact Hin].
    + intros (x' & [= <-] & Hin). eexists. split; [reflexivity | exact Hin].
  - intros k r Hkr. destruct (Hs k r Hkr) as [-> [x0 Hx0]]. split; [reflexivity|].
    fold (WssServer.session_update (WssSession.bindUid uid) S σb).
    rewrite Hheap. case_decide; eauto.
Qed.

Lemma bindUid_consistent S uid closeold σ :
  consistent σ -> is_Some (WssServer.heap σ !! S) ->
  consistent (WssServer.bindUid S uid closeold σ).
Proof.
  intros Hok Halloc. unfold WssServer.bindUid.
  destruct (toString uid) as [key|]; [|exact Hok].
  destruct (WssServer.sessionMap σ !! key) as [old|].
  - destruct (unbindUid_consistent old σ Hok) as (Hok1 & _ & _ & Hal).
    destruct closeold.
    + apply rebind_consistent; [apply session_close_consistent, Hok1|].
      apply session_close_alloc, Hal, Halloc.
    + apply rebind_consistent; [exact Hok1 | apply Hal, Halloc].
  - destruct (inherited key); [exact Hok | apply rebind_consistent; assumption].
Qed.

(** [quitChannel] takes the session out of the one channel and leaves every
    other listing as it was. *)
Lemma quitChannel_member S gid key σ key' r :
  consistent σ -> toString gid = Some key ->
  member key' r (WssServer.quitChannel S gid σ)
  <-> member key' r σ /\ ~ (key' = key /\ r = S).
Proof.
  intros [Hb Hc Hk Hm Hs] Hkey. unfold WssServer.quitChannel. rewrite Hkey.
  assert (Hid : member key' r σ <-> member key' r σ /\ ~ (key' = key /\ r = S)
                \/ (key' = key /\ r = S /\ member key S σ)).
  { split; [|intros [[? _]|(-> & -> & ?)]; assumption].
    intros Hmem. destruct (decide (key' = key /\ r = S)) as [[-> ->]|Hn]; auto. }
  destruct (WssServer.channelMap σ !! key) as [ch|] eqn:Hch.
  2:{ split; [|intros [? _]; assumption]. intros Hmem. split; [exact Hmem|].
      intros [-> ->]. destruct Hmem as (c & Hc' & _). congruence. }
  destruct (Hc key ch Hch) as [Hcount Hpos].
  destruct (WssServer.sessions ch !! S) as [r0|] eqn:HS; cbn [present].
  - assert (Hsize : size (delete S (WssServer.sessions ch)) = Nat.pred (size (WssServer.sessions ch))).
    { apply map_size_delete_Some. eauto. }
    cbn [WssServer.count]. unfold member.
    destruct (decide (key' = key)) as [->|Hne].
    + rewrite Hch. destruct (Z.leb_spec (WssServer.count ch - 1) 0) as [Hle|Hgt]; project.
      * rewrite lookup_delete_eq.
        assert (Hempty : delete S (WssServer.sessions ch) = ∅).
        { apply map_size_empty_inv. lia. }
        split; [intros (? & [=] & _)|].
        intros [(ch' & [= <-] & Hr) Hne]. exfalso. apply Hne. split; [reflexivity|].
        destruct (decide (r = S)) as [|Hrs]; [assumption|].
        assert (Hd : delete S (WssServer.sessions ch) !! r = Some r)
          by (rewrite lookup_delete_ne by congruence; exact Hr).
        rewrite Hempty, lookup_empty in Hd. discriminate.
      * rewrite lookup_insert_eq. split.
        -- intros (ch' & [= <-] & Hr). cbn [WssServer.sessions] in Hr.
           rewrite lookup_delete in Hr. case_decide; [discriminate|].
           split; [eauto | intros [_ ->]; congruence].
        -- intros [(ch' & [= <-] & Hr) Hn]. eexists. split; [reflexivity|].
           cbn [WssServer.sessions]. rewrite lookup_delete_ne; [exact Hr|].
           intros ->. apply Hn. auto.
    + destruct (WssServer.count ch - 1 <=? 0); project;
        [rewrite lookup_delete_ne by congruence | rewrite lookup_insert_ne by congruence];
        (split; [intros Hm'; split; [exact Hm' | intros [? _]; congruence]|];
         intros [Hm' _]; exact Hm').
  - cbn [WssServer.count].
    destruct (Z.leb_spec (WssServer.count ch) 0) as [Hle|Hgt]; [lia|].
    unfold member. project. rewrite insert_id by exact Hch.
    split; [|intros [? _]; assumption]. intros Hmem. split; [exact Hmem|].
    intros [-> ->]. destruct Hmem as (c & Hc' & Hr). congruence.
Qed.

Lemma quitChannels_consistent S (gids : list string) σ :
  consistent σ ->
  let σ' := foldl (fun σ gid => WssServer.quitChannel S (JStr gid) σ) σ gids in
  consistent σ'
  /\ forall key r, member key r σ' <-> member key r σ /\ ~ (key ∈ gids /\ r = S).
Proof.
  revert σ. induction gids as [|gid gids IH]; intros σ Hok; cbn zeta.
  - cbn [foldl]. split; [exact Hok|]. intros key r.
    split; [intros Hm; split; [exact Hm|] | intros [? _]; assumption].
    intros [Hin _]. by apply not_elem_of_nil in Hin.
  - cbn [foldl].
    destruct (IH (WssServer.quitChannel S (JStr gid) σ) (quitChannel_consistent S _ σ Hok))
      as [Hok' Hmem].
    split; [exact Hok'|]. intros key r.
    rewrite Hmem, (quitChannel_member S (JStr gid) gid σ key r Hok eq_refl), elem_of_cons.
    split.
    + intros [[Hm Hn1] Hn2]. split; [exact Hm|]. intros [[->|Hin] ->]; [apply Hn1|apply Hn2]; auto.
    + intros [Hm Hn]. split; [split; [exact Hm|]|]; intros [? ?]; apply Hn; auto.
Qed.

Lemma onWebSocketClose_consistent S code reason σ :
  consistent σ ->
  let σ' := WssServer._onWebSocketClose S code reason σ in
  consistent σ'
  /\ (forall x, WssServer.heap σ !! S = Some x -> forall key, ~ member key S σ')
  /\ WssServer.socketMap σ' !! S = None
  /\ (forall key r, r ≠ S -> (member key r σ' <-> member key r σ)).
Proof.
  intros Hok. cbn zeta. unfold WssServer._onWebSocketClose.
  set (σ1 := match WssServer.sessionCloseListener _ with Some _ => _ | None => _ end).
  assert (H1 : exists events, σ1 = more events σ).
  { subst σ1. cbn [WssServer.sessionCloseListener WssServer.emit].
    destruct (WssServer.sessionCloseListener σ).
    - rewrite !emit_more, more_app. eauto.
    - rewrite emit_more. eauto. }
  destruct H1 as [events H1].
  assert (Hok1 : consistent σ1) by (rewrite H1; apply consistent_more, Hok).
  set (gids := from_option _ _ _).
  assert (Hgids : gids = from_option (fun x => elements (WssSession.channel x)) []
                           (WssServer.heap σ !! S)).
  { subst gids. rewrite H1. reflexivity. }
  destruct (quitChannels_consistent S gids σ1 Hok1) as [Hok2 Hmem2].
  set (σ2 := foldl _ σ1 gids) in *.
  destruct (unbindUid_consistent S σ2 Hok2) as (Hok3 & Hnb3 & Hkeep3 & Hal3).
  set (σ3 := WssServer.unbindUid S σ2) in *.
  assert (Hchan3 : WssServer.channelMap σ3 = WssServer.channelMap σ2)
    by apply channelMap_unbindUid.
  assert (Hok' : consistent (WssServer.set_socketMap (delete S (WssServer.socketMap σ3)) σ3)).
  { destruct Hok3 as [Hb Hc Hk Hm Hs]. constructor; try assumption.
    project. intros k r. rewrite lookup_delete. case_decide; [discriminate | apply Hs]. }
  assert (Hmem' : forall key r,
            member key r (WssServer.set_socketMap (delete S (WssServer.socketMap σ3)) σ3)
            <-> member key r σ /\ ~ (key ∈ gids /\ r = S)).
  { intros key r.
    assert (Ha : member key r (WssServer.set_socketMap (delete S (WssServer.socketMap σ3)) σ3)
                 <-> member key r σ2).
    { unfold member. project. rewrite Hchan3. reflexivity. }
    assert (Hb : member key r σ1 <-> member key r σ) by (rewrite H1; reflexivity).
    rewrite Ha, Hmem2, Hb. reflexivity. }
  split; [exact Hok'|]. split; [|split].
  - intros x Hx key Hm. apply Hmem' in Hm. destruct Hm as [Hm Hn]. apply Hn.
    split; [|reflexivity].
    apply (members_joined _ Hok) in Hm. destruct Hm as (x' & Hx' & Hin).
    rewrite Hgids, Hx. cbn. rewrite Hx in Hx'. injection Hx' as <-.
    apply elem_of_elements, Hin.
  - project. apply lookup_delete_eq.
  - intros key r Hne. rewrite Hmem'. split; [intros [? _]; assumption|].
    intros Hm. split; [exact Hm | intros [_ ?]; congruence].
Qed.

(** ** The index of UIDs *)

Lemma same_uids_refl σ : same_uids σ σ.
Proof. intros r. reflexivity. Qed.

Lemma same_uids_trans σ1 σ2 σ3 : same_uids σ1 σ2 -> same_uids σ2 σ3 -> same_uids σ1 σ3.
Proof. intros H12 H23 r. rewrite H23. apply H12. Qed.

Lemma same_uids_heap σ σ' : WssServer.heap σ' = WssServer.heap σ -> same_uids σ σ'.
Proof. intros Heq r. rewrite Heq. reflexivity. Qed.

Lemma alike_same_uids σ σ' : alike σ σ' -> same_uids σ σ'.
Proof.
  intros Hal r. specialize (Hal r).
  destruct (WssServer.heap σ !! r) as [x|], (WssServer.heap σ' !! r) as [x'|];
    try contradiction; [|reflexivity].
  destruct Hal as (_ & _ & Hu & _). cbn. by rewrite Hu.
Qed.

Lemma same_uids_session_update f S σ :
  (forall x, WssSession.uid (f x) = WssSession.uid x) ->
  same_uids σ (WssServer.session_update f S σ).
Proof.
  intros Hf r. rewrite heap_session_update. case_decide; [|reflexivity].
  subst r. destruct (WssServer.heap σ !! S) as [x|]; cbn; [|reflexivity]. by rewrite Hf.
Qed.

Lemma same_uids_bound σ σ' key r : same_uids σ σ' -> bound_to key r σ' <-> bound_to key r σ.
Proof.
  intros Hu. specialize (Hu r). unfold bound_to.
  destruct (WssServer.heap σ !! r) as [x|], (WssServer.heap σ' !! r) as [x'|];
    try discriminate.
  - injection Hu as Hu. split.
    + intros (? & [= <-] & Ht & Hk). exists x. rewrite <- Hu. auto.
    + intros (? & [= <-] & Ht & Hk). exists x'. rewrite Hu. auto.
  - split; intros (? & [=] & _).
Qed.

Lemma same_uids_alloc σ σ' r :
  same_uids σ σ' -> is_Some (WssServer.heap σ !! r) -> is_Some (WssServer.heap σ' !! r).
Proof.
  intros Hu [x Hx]. specialize (Hu r). rewrite Hx in Hu.
  destruct (WssServer.heap σ' !! r); [eauto | discriminate].
Qed.

(** The invariant of the index reads the index and the UIDs of the session
    objects only. *)
Lemma indexed_same_uids σ σ' :
  indexed σ -> WssServer.sessionMap σ' = WssServer.sessionMap σ -> same_uids σ σ' ->
  indexed σ'.
Proof.
  intros [Hi Hh Ho] Hsess Hu. constructor.
  - intros key r Hb. rewrite Hsess. apply Hi. by apply (same_uids_bound σ σ').
  - intros key r. rewrite Hsess. intros Hkr. eapply same_uids_alloc; [exact Hu | eauto].
  - intros key. rewrite Hsess. apply Ho.
Qed.

Lemma indexed_alike σ σ' :
  indexed σ -> registries_kept σ σ' -> alike σ σ' -> indexed σ'.
Proof.
  intros Hok (_ & _ & _ & _ & Hsess & _) Hal.
  eapply indexed_same_uids; [exact Hok | exact Hsess | apply alike_same_uids, Hal].
Qed.

Lemma indexed_more events σ : indexed σ -> indexed (more events σ).
Proof.
  intros Hok. eapply indexed_same_uids; [exact Hok | reflexivity|].
  apply same_uids_heap. reflexivity.
Qed.

Lemma indexed_create config : indexed (WssServer.create config).
Proof.
  constructor; cbn [WssServer.create WssServer.heap WssServer.sessionMap].
  - intros key r (x & Hx & _). cbn [WssServer.create WssServer.heap] in Hx.
    rewrite lookup_empty in Hx. discriminate.
  - intros key r. rewrite lookup_empty. discriminate.
  - intros key _. apply lookup_empty.
Qed.

Lemma indexed_connection ip time σ :
  consistent σ -> indexed σ -> indexed (WssServer._onWebSocketConnection ip time σ).
Proof.
  intros Hok [Hi Hh Ho].
  assert (Hfresh : WssServer.heap σ !! WssServer.increment σ = None).
  { destruct (WssServer.heap σ !! WssServer.increment σ) as [x|] eqn:Hx; [|reflexivity].
    destruct (heap_below _ Hok _ x Hx). lia. }
  unfold WssServer._onWebSocketConnection.
  constructor; project.
  - intros key r. unfold bound_to. project. rewrite lookup_insert. case_decide.
    + intros (x & [= <-] & Ht & _). discriminate.
    + apply Hi.
  - intros key r Hkr. destruct (Hh key r Hkr) as [x Hx].
    rewrite lookup_insert. case_decide; eauto.
  - exact Ho.
Qed.

Lemma joinChannel_uids S gid σ : same_uids σ (WssServer.joinChannel S gid σ).
Proof.
  assert (Hjoin : forall key c, same_uids σ (WssServer.join S key c σ)).
  { intros key c. unfold WssServer.join.
    destruct (negb _); [|apply same_uids_heap; reflexivity].
    eapply same_uids_trans;
      [apply (same_uids_session_update (WssSession.joinChannel key) S) | apply same_uids_heap];
      reflexivity. }
  unfold WssServer.joinChannel.
  destruct (toString gid) as [key|]; [|apply same_uids_heap; reflexivity].
  destruct (WssServer.channelMap σ !! key) as [c|]; [apply Hjoin|].
  destruct (inherited key); [apply same_uids_heap; reflexivity | apply Hjoin].
Qed.

Lemma sessionMap_joinChannel S gid σ :
  WssServer.sessionMap (WssServer.joinChannel S gid σ) = WssServer.sessionMap σ.
Proof.
  assert (Hjoin : forall key c,
            WssServer.sessionMap (WssServer.join S key c σ) = WssServer.sessionMap σ).
  { intros key c. unfold WssServer.join. destruct (negb _); reflexivity. }
  unfold WssServer.joinChannel.
  destruct (toString gid) as [key|]; [|reflexivity].
  destruct (WssServer.channelMap σ !! key) as [c|]; [apply Hjoin|].
  destruct (inherited key); [reflexivity | apply Hjoin].
Qed.

Lemma quitChannel_uids S gid σ : same_uids σ (WssServer.quitChannel S gid σ).
Proof. intros r. apply quitChannel_uid. Qed.

Lemma deleteChannel_index gid σ :
  WssServer.sessionMap (WssServer.deleteChannel gid σ) = WssServer.sessionMap σ
  /\ same_uids σ (WssServer.deleteChannel gid σ).
Proof.
  unfold WssServer.deleteChannel.
  destruct (toString gid) as [key|]; [|split; [reflexivity | apply same_uids_heap; reflexivity]].
  destruct (WssServer.channelMap σ !! key) as [ch|];
    [|destruct (inherited key); split; first [reflexivity | apply same_uids_heap; reflexivity]].
  generalize (map_to_list (WssServer.sessions ch)). intros l.
  assert (Hloop : forall σ0,
            WssServer.sessionMap
              (foldl (fun σ kv =>
                        WssServer.session_update (WssSession.quitChannel key) (snd kv) σ) σ0 l)
            = WssServer.sessionMap σ0
            /\ same_uids σ0
                 (foldl (fun σ kv =>
                           WssServer.session_update (WssSession.quitChannel key) (snd kv) σ)
                    σ0 l)).
  { induction l as [|kv l IH]; intros σ0; cbn [foldl];
      [split; [reflexivity | apply same_uids_heap; reflexivity]|].
    destruct (IH (WssServer.session_update (WssSession.quitChannel key) (snd kv) σ0))
      as [Hs Hu].
    split; [rewrite Hs; reflexivity|].
    eapply same_uids_trans; [|exact Hu].
    apply (same_uids_session_update (WssSession.quitChannel key)). reflexivity. }
  destruct (Hloop σ) as [Hs Hu]. split; [exact Hs | exact Hu].
Qed.

(** What [unbindUid] does to the index and to the UIDs. *)
Lemma unbindUid_frame S σ :
  (forall k r, bound_to k r (WssServer.unbindUid S σ) <-> bound_to k r σ /\ r ≠ S)
  /\ (forall r, is_Some (WssServer.heap σ !! r) ->
        is_Some (WssServer.heap (WssServer.unbindUid S σ) !! r))
  /\ ((WssServer.sessionMap (WssServer.unbindUid S σ) = WssServer.sessionMap σ
       /\ forall key, ~ bound_to key S σ)
      \/ exists key, bound_to key S σ
           /\ WssServer.sessionMap (WssServer.unbindUid S σ)
              = delete key (WssServer.sessionMap σ)).
Proof.
  destruct (unbindUid_cases S σ) as [[-> Hnb] | (x & key & Hx & Ht & Hkey & ->)].
  { split; [|split; [auto | left; auto]].
    intros k r. split; [|intros [? _]; assumption].
    intros Hb. split; [exact Hb | intros ->; exact (Hnb k Hb)]. }
  assert (Hheap : forall r,
            WssServer.heap
              (WssServer.session_update WssSession.unbindUid S
                 (WssServer.set_sessionMap (delete key (WssServer.sessionMap σ))
                    (WssServer.emit (WssServer.Log "debug" "unbindUid:" (Some S)) σ))) !! r
            = if decide (S = r) then Some (WssSession.unbindUid x) else WssServer.heap σ !! r).
  { intros r. rewrite heap_session_update. project.
    case_decide; [rewrite Hx|]; reflexivity. }
  split; [|split].
  - intros k r. unfold bound_to. rewrite Hheap. case_decide.
    + subst r. split.
      * intros (x' & [= <-] & Ht' & _). discriminate.
      * intros [_ Hn]. congruence.
    + split; [intros Hbd; split; [exact Hbd | congruence] | intros [Hbd _]; exact Hbd].
  - intros r [x0 Hx0]. rewrite Hheap. case_decide; eauto.
  - right. exists key. split; [exists x; auto | reflexivity].
Qed.

Lemma bound_to_key key1 key2 r σ : bound_to key1 r σ -> bound_to key2 r σ -> key1 = key2.
Proof. intros (x1 & Hx1 & _ & Hk1) (x2 & Hx2 & _ & Hk2). congruence. Qed.

Lemma unbindUid_indexed S σ : indexed σ -> indexed (WssServer.unbindUid S σ).
Proof.
  intros [Hi Hh Ho]. destruct (unbindUid_frame S σ) as (Hbound & Hal & Hmap).
  constructor.
  - intros k r Hb. apply Hbound in Hb. destruct Hb as [Hb Hne].
    destruct Hmap as [[-> _] | (key & HS & ->)]; [apply Hi, Hb|].
    rewrite lookup_delete_ne; [apply Hi, Hb|].
    intros <-. apply Hi in Hb, HS. congruence.
  - intros k r Hkr. apply Hal, (Hh k).
    destruct Hmap as [[Heq _] | (key & _ & Heq)]; rewrite Heq in Hkr; [exact Hkr|].
    rewrite lookup_delete in Hkr. case_decide; [discriminate | exact Hkr].
  - intros k Hk. destruct Hmap as [[-> _] | (key & _ & ->)]; [apply Ho, Hk|].
    rewrite lookup_delete. case_decide; [reflexivity | apply Ho, Hk].
Qed.

Lemma session_close_indexed S cr σ : indexed σ -> indexed (WssServer.session_close S cr σ).
Proof.
  intros Hok. destruct (session_close_frame S cr σ) as [Hr Hh].
  eapply indexed_alike; [exact Hok | exact Hr | eapply heap_confined_alike, Hh].
Qed.

Lemma rebind_indexed S uid key σ :
  indexed σ -> is_Some (WssServer.heap σ !! S) -> toString uid = Some key ->
  inherited key = false ->
  (forall r, bound_to key r σ -> r = S) ->
  indexed (WssServer.rebind S uid key σ).
Proof.
  intros Hok Halloc Hkey Hown Hfree. unfold WssServer.rebind.
  pose proof (unbindUid_indexed S σ Hok) as [Hi Hh Ho].
  destruct (unbindUid_frame S σ) as (Hbound & Hal & _).
  set (σb := WssServer.unbindUid S σ) in *.
  destruct (Hal S Halloc) as [xb Hxb].
  assert (Hheap : forall r,
            WssServer.heap (WssServer.session_update (WssSession.bindUid uid) S σb) !! r
            = if decide (S = r) then Some (WssSession.bindUid uid xb)
              else WssServer.heap σb !! r).
  { intros r. rewrite heap_session_update. case_decide; [rewrite Hxb|]; reflexivity. }
  constructor; project.
  - intros k r. unfold bound_to. project.
    fold (WssServer.session_update (WssSession.bindUid uid) S σb).
    rewrite Hheap. case_decide.
    + subst r. intros (x' & [= <-] & _ & Hk').
      cbn [WssSession.bindUid WssSession.set_uid WssSession.uid] in Hk'.
      assert (k = key) by congruence. subst k. apply lookup_insert_eq.
    + intros Hb. rewrite lookup_insert_ne; [apply Hi, Hb|].
      intros <-. apply Hbound in Hb. destruct Hb as [Hb Hne]. apply Hne, Hfree, Hb.
  - intros k r. rewrite lookup_insert. case_decide.
    + intros [= <-]. fold (WssServer.session_update (WssSession.bindUid uid) S σb).
      rewrite Hheap. case_decide; [eauto | congruence].
    + intros Hkr. destruct (Hh k r Hkr) as [x0 Hx0].
      fold (WssServer.session_update (WssSession.bindUid uid) S σb).
      rewrite Hheap. case_decide; eauto.
  - intros k Hk. rewrite lookup_insert_ne by congruence. apply Ho, Hk.
Qed.

Lemma bindUid_indexed S uid closeold σ :
  indexed σ -> is_Some (WssServer.heap σ !! S) ->
  indexed (WssServer.bindUid S uid closeold σ).
Proof.
  intros Hok Halloc. unfold WssServer.bindUid.
  destruct (toString uid) as [key|] eqn:Hkey; [|exact Hok].
  destruct (WssServer.sessionMap σ !! key) as [old|] eqn:Hold.
  - assert (Hown : inherited key = false).
    { destruct (inherited key) eqn:Hin; [|reflexivity].
      rewrite (index_own _ Hok key Hin) in Hold. discriminate. }
    destruct (unbindUid_frame old σ) as (Hbound & Hal & _).
    assert (Hfree : forall r, ~ bound_to key r (WssServer.unbindUid old σ)).
    { intros r Hb. apply Hbound in Hb. destruct Hb as [Hb Hne].
      apply (index_bound _ Hok) in Hb. congruence. }
    pose proof (unbindUid_indexed old σ Hok) as Hok1.
    destruct closeold.
    + apply rebind_indexed; [apply session_close_indexed, Hok1 | | exact Hkey | exact Hown |].
      * apply session_close_alloc, Hal, Halloc.
      * intros r Hb. apply session_close_bound in Hb. destruct (Hfree r Hb).
    + apply rebind_indexed; [exact Hok1 | apply Hal, Halloc | exact Hkey | exact Hown |].
      intros r Hb. destruct (Hfree r Hb).
  - destruct (inherited key) eqn:Hown; [exact Hok|].
    apply rebind_indexed; [exact Hok | exact Halloc | exact Hkey | exact Hown |].
    intros r Hb. apply (index_bound _ Hok) in Hb. congruence.
Qed.

(** What the close event does to the index: the entry under the UID that
    [isBinded] sees the session hold is taken out, and no other. *)
Lemma onWebSocketClose_index S code reason σ :
  let σ' := WssServer._onWebSocketClose S code reason σ in
  (indexed σ -> indexed σ')
  /\ (forall key, ~ bound_to key S σ')
  /\ (forall key r, WssServer.sessionMap σ' !! key = Some r
        <-> WssServer.sessionMap σ !! key = Some r /\ ~ bound_to key S σ).
Proof.
  cbn zeta. unfold WssServer._onWebSocketClose.
  set (σ1 := match WssServer.sessionCloseListener _ with Some _ => _ | None => _ end).
  assert (H1 : exists events, σ1 = more events σ).
  { subst σ1. cbn [WssServer.sessionCloseListener WssServer.emit].
    destruct (WssServer.sessionCloseListener σ).
    - rewrite !emit_more, more_app. eauto.
    - rewrite emit_more. eauto. }
  destruct H1 as [events H1].
  set (gids := from_option _ _ _).
  set (σ2 := foldl _ σ1 gids).
  assert (Hs2 : WssServer.sessionMap σ2 = WssServer.sessionMap σ).
  { subst σ2. rewrite quitChannels_sessionMap, H1. reflexivity. }
  assert (Hu2 : same_uids σ σ2).
  { intros r. subst σ2. rewrite quitChannels_uid, H1. reflexivity. }
  destruct (unbindUid_frame S σ2) as (Hbound & Hal & Hmap).
  set (σ3 := WssServer.unbindUid S σ2) in *.
  split; [|split].
  - intros Hok.
    assert (Hok3 : indexed σ3).
    { apply unbindUid_indexed. eapply indexed_same_uids; [exact Hok | exact Hs2 | exact Hu2]. }
    eapply indexed_same_uids; [exact Hok3 | reflexivity | apply same_uids_heap; reflexivity].
  - intros key Hb.
    assert (Hb3 : bound_to key S σ3) by exact Hb.
    apply Hbound in Hb3. destruct Hb3 as [_ Hne]. congruence.
  - intros key r. project.
    destruct Hmap as [[-> Hnb] | (k & HS & ->)].
    + rewrite Hs2. split; [|intros [? _]; assumption].
      intros Hkr. split; [exact Hkr|]. intros Hb. apply (Hnb key).
      by apply (same_uids_bound σ σ2).
    + rewrite Hs2, lookup_delete. case_decide.
      * subst k. split; [discriminate|]. intros [_ Hn]. destruct Hn.
        by apply (same_uids_bound σ σ2) in HS.
      * split; [|intros [? _]; assumption].
        intros Hkr. split; [exact Hkr|]. intros Hb.
        apply (same_uids_bound σ σ2 key S Hu2) in Hb.
        pose proof (bound_to_key _ _ _ _ HS Hb). congruence.
Qed.

(** ** The life cycle *)

Lemma flat_map_ext_in {A B} (f g : A -> list B) (l : list A) :
  (forall a, a ∈ l -> f a = g a) -> flat_map f l = flat_map g l.
Proof.
  induction l as [|a l IH]; intros Hfg; [reflexivity|]. cbn [flat_map].
  rewrite (Hfg a), IH; [reflexivity | | apply list_elem_of_here].
  intros b Hb. apply Hfg. by apply list_elem_of_further.
Qed.

Lemma filter_length_ext_in {A} (f g : A -> bool) (l : list A) :
  (forall a, a ∈ l -> f a = g a) -> length (List.filter f l) = length (List.filter g l).
Proof.
  induction l as [|a l IH]; intros Hfg; [reflexivity|]. cbn [List.filter].
  rewrite (Hfg a) by apply list_elem_of_here.
  assert (IH' : length (List.filter f l) = length (List.filter g l)).
  { apply IH. intros b Hb. apply Hfg. by apply list_elem_of_further. }
  destruct (g a); cbn [length]; rewrite IH'; reflexivity.
Qed.

Lemma set_socket_None_id (x : WssSession.t) :
  WssSession.socket x = None -> WssSession.set_socket None x = x.
Proof. destruct x. cbn. intros ->. reflexivity. Qed.

(** The loop of [_onServerLifeCycle] over sessions that are all different. *)
Lemma life_cycle_loop (now : WssServer.ref -> Z) (l : list (Z * WssServer.ref))
    (σ : WssServer.t) (ts tb : Z) :
  NoDup l.*2 ->
  let res :=
    foldl (fun '(σ, (totalSocket, totalSession)) kv =>
             let session := snd kv in
             match WssServer.heap σ !! session with
             | Some x =>
                 if WssSession.isExpired (now session)
                      (WssServer.timeout (WssServer.config σ)) x
                 then (WssServer.session_close session RouteCode.CODE_TIMEOUT σ,
                       (totalSocket, totalSession))
                 else (σ, (totalSocket + 1,
                           totalSession + (if WssSession.isBinded x then 1 else 0)))
             | None => (σ, (totalSocket, totalSession))
             end)
      (σ, (ts, tb)) l in
  registries_kept σ (fst res)
  /\ (forall r, WssServer.heap (fst res) !! r =
        (fun x => if bool_decide (r ∈ l.*2) && expired_at now σ r
                  then WssSession.set_socket None x else x) <$> WssServer.heap σ !! r)
  /\ WssServer.trace (fst res) = WssServer.trace σ ++ flat_map (timeout_closes now σ) l.*2
  /\ fst (snd res) = ts + Z.of_nat (length (List.filter (counted now σ) l.*2))
  /\ snd (snd res) =
       tb + Z.of_nat (length (List.filter
                                (fun r => counted now σ r && WssServer.session_isBinded r σ)
                                l.*2)).
Proof.
  revert σ ts tb. induction l as [|[k s] l IH]; intros σ ts tb Hnd; cbn zeta.
  - cbn [foldl fst snd fmap list_fmap flat_map List.filter length].
    split; [apply registries_kept_refl|]. split; [|split; [by rewrite app_nil_r | split; lia]].
    intros r. rewrite bool_decide_eq_false_2 by apply not_elem_of_nil. cbn [andb].
    destruct (WssServer.heap σ !! r); reflexivity.
  - cbn [fmap list_fmap snd] in Hnd. apply NoDup_cons in Hnd. destruct Hnd as [Hs Hnd].
    cbn [foldl snd].
    set (step1 := match WssServer.heap σ !! s with Some _ => _ | None => _ end).
    (* the state after the first session *)
    assert (H1 : exists σ1 ts1 tb1, step1 = (σ1, (ts1, tb1))
              /\ registries_kept σ σ1
              /\ (forall r, r ≠ s -> WssServer.heap σ1 !! r = WssServer.heap σ !! r)
              /\ WssServer.heap σ1 !! s =
                   (fun x => if expired_at now σ s then WssSession.set_socket None x else x)
                     <$> WssServer.heap σ !! s
              /\ WssServer.trace σ1 = WssServer.trace σ ++ timeout_closes now σ s
              /\ ts1 = ts + (if counted now σ s then 1 else 0)
              /\ tb1 = tb + (if counted now σ s && WssServer.session_isBinded s σ then 1 else 0)).
    { subst step1. unfold timeout_closes, expired_at, counted, has_socket, WssServer.session_isBinded.
      destruct (WssServer.heap σ !! s) as [x|] eqn:Hx; cbn [from_option fmap option_fmap option_map].
      - destruct (WssSession.isExpired _ _ x) eqn:Hexp; cbn [negb andb].
        + unfold WssServer.session_close, WssSession.close. rewrite Hx.
          destruct (WssSession.socket x) as [rs|] eqn:Hsock; cbn [present].
          * do 3 eexists. split; [reflexivity|]. split; [repeat split|].
            project. split; [intros r Hr; apply lookup_insert_ne; congruence|].
            split; [apply lookup_insert_eq|]. split; [reflexivity|]. cbn [andb]. split; lia.
          * do 3 eexists. split; [reflexivity|]. split; [repeat split|].
            split; [reflexivity|]. rewrite Hx, set_socket_None_id by exact Hsock.
            split; [reflexivity|]. split; [by rewrite app_nil_r|]. cbn [andb]. split; lia.
        + do 3 eexists. split; [reflexivity|]. split; [repeat split|].
          split; [reflexivity|]. rewrite Hx. split; [reflexivity|].
          split; [by rewrite app_nil_r|]. cbn [andb]. split; [lia|].
          destruct (WssSession.isBinded x); lia.
      - do 3 eexists. split; [reflexivity|]. split; [repeat split|].
        split; [reflexivity|]. rewrite Hx. split; [reflexivity|].
        split; [by rewrite app_nil_r|]. cbn [andb]. split; lia. }
    destruct H1 as (σ1 & ts1 & tb1 & -> & Hr1 & Hother & Hself & Htr1 & Hts1 & Htb1).
    destruct (IH σ1 ts1 tb1 Hnd) as (Hr & Hh & Htr & Hts & Htb).
    assert (Hcfg : WssServer.config σ1 = WssServer.config σ) by apply Hr1.
    assert (Hsame : forall r, r ∈ l.*2 ->
              expired_at now σ1 r = expired_at now σ r
              /\ counted now σ1 r = counted now σ r
              /\ has_socket r σ1 = has_socket r σ
              /\ WssServer.session_isBinded r σ1 = WssServer.session_isBinded r σ).
    { intros r Hr0. assert (r ≠ s) by (intros ->; contradiction).
      unfold expired_at, counted, has_socket, WssServer.session_isBinded.
      rewrite Hother, Hcfg by assumption. auto. }
    split; [eapply registries_kept_trans; eassumption|].
    split; [|split; [|split]].
    + intros r. rewrite Hh. cbn [fmap list_fmap snd].
      destruct (decide (r = s)) as [->|Hne].
      * rewrite (bool_decide_eq_false_2 (s ∈ l.*2)) by exact Hs.
        rewrite (bool_decide_eq_true_2 (s ∈ s :: l.*2)) by apply list_elem_of_here.
        cbn [andb]. rewrite Hself. destruct (WssServer.heap σ !! s); reflexivity.
      * rewrite Hother by exact Hne.
        destruct (bool_decide (r ∈ l.*2)) eqn:Hin.
        -- apply bool_decide_eq_true_1 in Hin.
           rewrite (bool_decide_eq_true_2 (r ∈ s :: l.*2)) by (by apply list_elem_of_further).
           destruct (Hsame r Hin) as (-> & _). reflexivity.
        -- apply bool_decide_eq_false_1 in Hin.
           rewrite (bool_decide_eq_false_2 (r ∈ s :: l.*2)); [reflexivity|].
           intros Hc. apply elem_of_cons in Hc. destruct Hc; [congruence | contradiction].
    + refine (eq_trans Htr _). rewrite Htr1. cbn [fmap list_fmap snd flat_map]. rewrite <- app_assoc. f_equal. f_equal.
      apply flat_map_ext_in. intros r Hr0. unfold timeout_closes.
      destruct (Hsame r Hr0) as (-> & _ & -> & _). reflexivity.
    + refine (eq_trans Hts _). rewrite Hts1. cbn [fmap list_fmap snd List.filter].
      rewrite (filter_length_ext_in (counted now σ1) (counted now σ))
        by (intros r Hr0; apply (Hsame r Hr0)).
      destruct (counted now σ s); cbn [length]; lia.
    + refine (eq_trans Htb _). rewrite Htb1. cbn [fmap list_fmap snd List.filter].
      rewrite (filter_length_ext_in
                 (fun r => counted now σ1 r && WssServer.session_isBinded r σ1)
                 (fun r => counted now σ r && WssServer.session_isBinded r σ)).
      2:{ intros r Hr0. destruct (Hsame r Hr0) as (_ & -> & _ & ->). reflexivity. }
      destruct (counted now σ s && WssServer.session_isBinded s σ); cbn [length]; lia.
Qed.

Lemma connected_keys (σ : WssServer.t) :
  consistent σ ->
  NoDup (connected σ)
  /\ forall r, r ∈ connected σ <-> WssServer.socketMap σ !! r = Some r.
Proof.
  intros Hok. unfold connected.
  assert (Heq : (map_to_list (WssServer.socketMap σ)).*2
                = (map_to_list (WssServer.socketMap σ)).*1).
  { apply list_fmap_ext. intros i [k r] Hi. cbn.
    apply list_elem_of_lookup_2, elem_of_map_to_list in Hi.
    apply (sockets_keyed _ Hok k r Hi). }
  split.
  - rewrite Heq. apply NoDup_fst_map_to_list.
  - intros r. rewrite list_elem_of_fmap. split.
    + intros ([k r'] & -> & Hin). apply elem_of_map_to_list in Hin. cbn.
      destruct (sockets_keyed _ Hok k r' Hin) as [-> _]. exact Hin.
    + intros Hr. exists (r, r). split; [reflexivity|]. by apply elem_of_map_to_list.
Qed.

Lemma closes_for_app r e1 e2 : closes_for r (e1 ++ e2) = closes_for r e1 ++ closes_for r e2.
Proof. unfold closes_for. apply flat_map_app. Qed.

Lemma closes_for_timeouts now σ r (l : list WssServer.ref) :
  NoDup l ->
  closes_for r (flat_map (timeout_closes now σ) l) =
    if bool_decide (r ∈ l) && expired_at now σ r && has_socket r σ
    then [(4008, "timeout error")] else [].
Proof.
  induction l as [|s l IH]; intros Hnd.
  - cbn. rewrite bool_decide_eq_false_2 by apply not_elem_of_nil. reflexivity.
  - apply NoDup_cons in Hnd. destruct Hnd as [Hs Hnd].
    cbn [flat_map]. rewrite closes_for_app, (IH Hnd).
    unfold timeout_closes at 1.
    destruct (decide (r = s)) as [->|Hne].
    + rewrite (bool_decide_eq_true_2 (s ∈ s :: l)) by apply list_elem_of_here.
      rewrite (bool_decide_eq_false_2 (s ∈ l)) by exact Hs. cbn [andb].
      destruct (expired_at now σ s && has_socket s σ); [|reflexivity].
      cbn. rewrite Z.eqb_refl. reflexivity.
    + assert (Hin : bool_decide (r ∈ s :: l) = bool_decide (r ∈ l)).
      { apply bool_decide_ext. rewrite elem_of_cons. split; [intros [?|?]; [congruence|assumption] | auto]. }
      rewrite Hin.
      destruct (expired_at now σ s && has_socket s σ); [|reflexivity].
      cbn. destruct (Z.eqb_spec s r); [congruence | reflexivity].
Qed.

Lemma onServerLifeCycle_spec (now : WssServer.ref -> Z) (σ : WssServer.t) :
  NoDup (connected σ) ->
  let res := WssServer._onServerLifeCycle now σ in
  registries_kept σ (fst res)
  /\ (forall r, WssServer.heap (fst res) !! r =
        (fun x => if bool_decide (r ∈ connected σ) && expired_at now σ r
                  then WssSession.set_socket None x else x) <$> WssServer.heap σ !! r)
  /\ WssServer.trace (fst res) =
       WssServer.trace σ ++ flat_map (timeout_closes now σ) (connected σ)
         ++ [WssServer.Log "info" "_onServerLifeCycle:" None]
  /\ fst (snd res) = Z.of_nat (length (List.filter (counted now σ) (connected σ)))
  /\ snd (snd res) =
       Z.of_nat (length (List.filter
                           (fun r => counted now σ r && WssServer.session_isBinded r σ)
                           (connected σ))).
Proof.
  intros Hnd. cbn zeta. unfold WssServer._onServerLifeCycle.
  pose proof (life_cycle_loop now (map_to_list (WssServer.socketMap σ)) σ 0 0 Hnd) as Hloop.
  cbn zeta in Hloop.
  destruct (foldl _ (σ, (0, 0)) (map_to_list (WssServer.socketMap σ))) as [σ1 [ts1 tb1]].
  cbn [fst snd] in *. destruct Hloop as (Hr & Hh & Htr & Hts & Htb).
  split; [eapply registries_kept_trans; [exact Hr | repeat split]|].
  split; [exact Hh|]. project. rewrite Htr, <- app_assoc.
  split; [reflexivity|]. split; [rewrite Hts | rewrite Htb]; reflexivity.
Qed.

Lemma onServerLifeCycle_consistent now σ :
  consistent σ -> consistent (fst (WssServer._onServerLifeCycle now σ)).
Proof.
  intros Hok. destruct (connected_keys σ Hok) as [Hnd _].
  destruct (onServerLifeCycle_spec now σ Hnd) as (Hr & Hh & _).
  eapply consistent_alike; [exact Hok | exact Hr |].
  intros r. rewrite Hh. destruct (WssServer.heap σ !! r) as [x|]; cbn; [|exact I].
  destruct (_ && _); repeat split.
Qed.

(** ** The states of a running server *)

Section Runs.
Context `{Platform}.

Lemma response_more S reqPack message i σ :
  exists events, WssServer.response S reqPack message i σ = more events σ
                 /\ Forall push_event events.
Proof.
  unfold WssServer.response. rewrite session_send_more, emit_more, more_app.
  eexists. split; [reflexivity|].
  apply Forall_app. split; [apply push_frames_to | repeat constructor].
Qed.

Lemma pushSessionBatch_loop_more uids data σ :
  exists events, fst (WssServer.pushSessionBatch_loop uids data σ) = more events σ
                 /\ Forall push_event events.
Proof.
  revert σ. induction uids as [|uid uids IH]; intros σ; cbn [WssServer.pushSessionBatch_loop].
  - exists []. split; [symmetry; apply more_nil | constructor].
  - destruct (toString uid) as [key|];
      [|exists []; split; [symmetry; apply more_nil | constructor]].
    destruct (WssServer.sessionMap σ !! key) as [r|];
      [|destruct (inherited key);
        [exists []; split; [symmetry; apply more_nil | constructor] | apply IH]].
    rewrite session_send_more. destruct (IH (more (frames_to data σ r) σ)) as (ev & -> & Hev).
    rewrite more_app. eexists. split; [reflexivity|].
    apply Forall_app. split; [apply push_frames_to | exact Hev].
Qed.

Lemma pushSessionBatch_more uids route message i σ :
  exists events, WssServer.pushSessionBatch uids route message i σ = more events σ
                 /\ Forall push_event events.
Proof.
  unfold WssServer.pushSessionBatch.
  destruct (pushSessionBatch_loop_more uids
              (WssServer.serialize (WssBridgePackData.Build route JUndefined message) i σ) σ)
    as (ev & Heq & Hev).
  destruct (WssServer.pushSessionBatch_loop uids _ σ) as [σ1 finished]. cbn [fst] in Heq.
  subst σ1. destruct finished; [|eauto].
  rewrite emit_more, more_app. eexists. split; [reflexivity|].
  apply Forall_app. split; [exact Hev | repeat constructor].
Qed.

Lemma pushChannelCustom_more gid route message customCallback ins σ :
  exists events,
    WssServer.pushChannelCustom gid route message customCallback ins σ = more events σ
    /\ Forall push_event events.
Proof.
  unfold WssServer.pushChannelCustom.
  destruct (toString gid) as [key|]; [|exists []; split; [symmetry; apply more_nil | constructor]].
  destruct (WssServer.channelMap σ !! key) as [c|];
    [|exists []; split; [symmetry; apply more_nil | constructor]].
  generalize (map_to_list (WssServer.sessions c)). intros l. revert σ.
  induction l as [|kv l IH]; intros σ; cbn [foldl].
  - exists []. split; [symmetry; apply more_nil | constructor].
  - destruct (WssServer.heap σ !! kv.2) as [x|]; [|apply IH].
    rewrite session_send_more, emit_more, more_app.
    match goal with |- context [foldl _ (more ?ev σ) l] =>
      destruct (IH (more ev σ)) as (ev' & -> & Hev') end.
    rewrite more_app. eexists. split; [reflexivity|].
    apply Forall_app. split; [|exact Hev'].
    apply Forall_app. split; [apply push_frames_to | repeat constructor].
Qed.

Lemma onWebSocketError_consistent S error σ :
  consistent σ -> consistent (WssServer._onWebSocketError S error σ).
Proof.
  intros Hok. unfold WssServer._onWebSocketError.
  apply session_close_consistent. rewrite emit_more. apply consistent_more, Hok.
Qed.

Lemma consistent_sessions_kept σ σ' :
  consistent σ -> sessions_kept σ σ' -> consistent σ'.
Proof.
  intros [Hb Hc Hk Hm Hs] (Hh & Hchan & Hsess & Hsock & Hinc & _).
  constructor.
  - intros r x. rewrite Hh, Hinc. apply Hb.
  - intros key c. rewrite Hchan. apply Hc.
  - intros key c k r. rewrite Hchan. apply Hk.
  - intros key r. unfold member, joined. rewrite Hchan, Hh. apply Hm.
  - intros k r. rewrite Hsock, Hh. apply Hs.
Qed.

Lemma indexed_sessions_kept σ σ' :
  indexed σ -> sessions_kept σ σ' -> indexed σ'.
Proof.
  intros Hok (Hh & _ & Hsess & _).
  eapply indexed_same_uids; [exact Hok | exact Hsess | apply same_uids_heap, Hh].
Qed.

Lemma sessions_kept_refl σ : sessions_kept σ σ.
Proof. repeat split. Qed.

Lemma sessions_kept_trans σ1 σ2 σ3 :
  sessions_kept σ1 σ2 -> sessions_kept σ2 σ3 -> sessions_kept σ1 σ3.
Proof.
  unfold sessions_kept. intros (?&?&?&?&?&?) (?&?&?&?&?&?). repeat split; congruence.
Qed.

Lemma initClusters_kept links nodes σ :
  sessions_kept σ (WssServer.initClusters links nodes σ).
Proof.
  revert σ. induction links as [|appName links IH]; intros σ; cbn [WssServer.initClusters].
  - apply sessions_kept_refl.
  - destruct (nodes !! appName) as [addresses|];
      [|destruct (inherited_empty appName); [apply IH | apply sessions_kept_refl]].
    eapply sessions_kept_trans; [|apply IH].
    destruct (0 <? _)%nat; repeat split.
Qed.

Lemma cluster_push_kept inner what appName tid route message word dispatchCallback ins σ :
  sessions_kept σ
    (WssServer.cluster_push inner what appName tid route message word dispatchCallback ins σ).
Proof.
  unfold WssServer.cluster_push.
  destruct (WssServer.clusterMap σ !! appName) as [cluster|]; [|apply sessions_kept_refl].
  destruct dispatchCallback as [f|].
  - destruct (WssServer.cluster_at cluster _); [repeat split | apply sessions_kept_refl].
  - generalize (seq 0 (length cluster)).
    generalize (WssServer._generateInnerData tid route message word σ). intros innerData l.
    revert σ. induction l as [|k l IH]; intros σ; cbn [foldl].
    + apply sessions_kept_refl.
    + eapply sessions_kept_trans; [|apply IH]. repeat split.
Qed.

Lemma pushClusterChannel_eq appName gid route message word dispatchCallback ins σ :
  WssServer.pushClusterChannel appName gid route message word dispatchCallback ins σ
  = WssServer.cluster_push RouteCode.ROUTE_INNERGRP "pushClusterChannel:" appName gid route
      message word dispatchCallback ins σ.
Proof. reflexivity. Qed.

Lemma remote_call_kept what onsuccess onerror appName route message word dispatchCallback
    rand i σ :
  sessions_kept σ
    (WssServer.remote_call what onsuccess onerror appName route message word dispatchCallback
       rand i σ).
Proof.
  unfold WssServer.remote_call.
  destruct (WssServer.clusterMap σ !! appName) as [cluster|]; [|apply sessions_kept_refl].
  destruct (WssServer.cluster_at cluster _); [repeat split | apply sessions_kept_refl].
Qed.

Lemma server_step_consistent σ σ' : server_step σ σ' -> consistent σ -> consistent σ'.
Proof.
  intros Hstep Hok. destruct Hstep.
  - apply consistent_connection, Hok.
  - destruct (onWebSocketMessage_confined σ S data i) as (Hr & Hh & _).
    eapply consistent_alike; [exact Hok | exact Hr | eapply heap_confined_alike, Hh].
  - apply onWebSocketError_consistent, Hok.
  - apply (onWebSocketClose_consistent S code reason σ Hok).
  - apply onServerLifeCycle_consistent, Hok.
  - apply joinChannel_consistent; assumption.
  - apply quitChannel_consistent, Hok.
  - apply deleteChannel_consistent, Hok.
  - apply bindUid_consistent; assumption.
  - apply (unbindUid_consistent S σ Hok).
  - destruct (response_more S reqPack message i σ) as (ev & -> & _). apply consistent_more, Hok.
  - destruct (pushSession_more uid route message i σ) as (ev & -> & _). apply consistent_more, Hok.
  - destruct (pushSessionBatch_more uids route message i σ) as (ev & -> & _).
    apply consistent_more, Hok.
  - destruct (pushChannel_more gid route message i σ) as (ev & -> & _). apply consistent_more, Hok.
  - destruct (pushChannelCustom_more gid route message customCallback ins σ) as (ev & -> & _).
    apply consistent_more, Hok.
  - destruct (broadcast_more route message i σ) as (ev & -> & _). apply consistent_more, Hok.
  - eapply consistent_sessions_kept; [exact Hok | repeat split].
  - eapply consistent_sessions_kept; [exact Hok | repeat split].
  - eapply consistent_sessions_kept; [exact Hok | repeat split].
  - eapply consistent_sessions_kept; [exact Hok | apply initClusters_kept].
  - eapply consistent_sessions_kept; [exact Hok|].
    unfold WssServer.start in *.
    repeat match goal with
           | Hst : (if ?c then _ else _) = inr _ |- _ => destruct c; [discriminate|]
           end.
    match goal with Hst : inr _ = inr _ |- _ => injection Hst as <- end. repeat split.
  - eapply consistent_sessions_kept; [exact Hok | repeat split].
  - eapply consistent_sessions_kept; [exact Hok | apply cluster_push_kept].
  - eapply consistent_sessions_kept; [exact Hok|].
    rewrite pushClusterChannel_eq. apply cluster_push_kept.
  - eapply consistent_sessions_kept; [exact Hok | apply cluster_push_kept].
  - eapply consistent_sessions_kept; [exact Hok | apply remote_call_kept].
  - eapply consistent_sessions_kept; [exact Hok | apply remote_call_kept].
Qed.

Lemma runs_consistent config σ : runs config σ -> consistent σ.
Proof.
  unfold runs. revert σ. apply rtc_ind_r.
  - apply consistent_create.
  - intros σ1 σ2 _ Hstep IH. eapply server_step_consistent; eassumption.
Qed.

Lemma server_step_indexed σ σ' :
  server_step σ σ' -> consistent σ -> indexed σ -> indexed σ'.
Proof.
  intros Hstep Hcon Hok. destruct Hstep.
  - apply indexed_connection; assumption.
  - destruct (onWebSocketMessage_confined σ S data i) as (Hr & Hh & _).
    eapply indexed_alike; [exact Hok | exact Hr | eapply heap_confined_alike, Hh].
  - unfold WssServer._onWebSocketError. apply session_close_indexed.
    rewrite emit_more. apply indexed_more, Hok.
  - apply (onWebSocketClose_index S code reason σ), Hok.
  - destruct (connected_keys σ Hcon) as [Hnd _].
    destruct (onServerLifeCycle_spec now σ Hnd) as (Hr & Hh & _).
    eapply indexed_alike; [exact Hok | exact Hr |].
    intros r. rewrite Hh. destruct (WssServer.heap σ !! r) as [x|]; cbn; [|exact I].
    destruct (_ && _); repeat split.
  - eapply indexed_same_uids; [exact Hok | apply sessionMap_joinChannel | apply joinChannel_uids].
  - eapply indexed_same_uids;
      [exact Hok | apply quitChannel_sessionMap | apply quitChannel_uids].
  - destruct (deleteChannel_index gid σ) as [Hs Hu].
    eapply indexed_same_uids; [exact Hok | exact Hs | exact Hu].
  - apply bindUid_indexed; assumption.
  - apply unbindUid_indexed, Hok.
  - destruct (response_more S reqPack message i σ) as (ev & -> & _). apply indexed_more, Hok.
  - destruct (pushSession_more uid route message i σ) as (ev & -> & _). apply indexed_more, Hok.
  - destruct (pushSessionBatch_more uids route message i σ) as (ev & -> & _).
    apply indexed_more, Hok.
  - destruct (pushChannel_more gid route message i σ) as (ev & -> & _). apply indexed_more, Hok.
  - destruct (pushChannelCustom_more gid route message customCallback ins σ) as (ev & -> & _).
    apply indexed_more, Hok.
  - destruct (broadcast_more route message i σ) as (ev & -> & _). apply indexed_more, Hok.
  - eapply indexed_sessions_kept; [exact Hok | repeat split].
  - eapply indexed_sessions_kept; [exact Hok | repeat split].
  - eapply indexed_sessions_kept; [exact Hok | repeat split].
  - eapply indexed_sessions_kept; [exact Hok | apply initClusters_kept].
  - eapply indexed_sessions_kept; [exact Hok|].
    unfold WssServer.start in *.
    repeat match goal with
           | Hst : (if ?c then _ else _) = inr _ |- _ => destruct c; [discriminate|]
           end.
    match goal with Hst : inr _ = inr _ |- _ => injection Hst as <- end. repeat split.
  - eapply indexed_sessions_kept; [exact Hok | repeat split].
  - eapply indexed_sessions_kept; [exact Hok | apply cluster_push_kept].
  - eapply indexed_sessions_kept; [exact Hok|].
    rewrite pushClusterChannel_eq. apply cluster_push_kept.
  - eapply indexed_sessions_kept; [exact Hok | apply cluster_push_kept].
  - eapply indexed_sessions_kept; [exact Hok | apply remote_call_kept].
  - eapply indexed_sessions_kept; [exact Hok | apply remote_call_kept].
Qed.

Lemma runs_indexed config σ : runs config σ -> indexed σ.
Proof.
  intros Hruns.
  assert (Hboth : consistent σ /\ indexed σ); [|apply Hboth].
  revert σ Hruns. unfold runs. apply rtc_ind_r.
  - split; [apply consistent_create | apply indexed_create].
  - intros σ1 σ2 _ Hstep [Hc Hi].
    split; [eapply server_step_consistent | eapply server_step_indexed]; eassumption.
Qed.
End Runs.

(** ** What holds in every state of a running server *)







Lemma rebind_entry S uid key σ :
  is_Some (WssServer.heap σ !! S) ->
  WssServer.sessionMap (WssServer.rebind S uid key σ) !! key = Some S
  /\ exists x, WssServer.heap (WssServer.rebind S uid key σ) !! S
               = Some (WssSession.bindUid uid x).
Proof.
  intros Halloc. unfold WssServer.rebind. project.
  split; [apply lookup_insert_eq|].
  destruct (unbindUid_frame S σ) as (_ & Hal & _). destruct (Hal S Halloc) as [xb Hxb].
  exists xb. rewrite lookup_alter_eq, Hxb. reflexivity.
Qed.

Section Registry.
Context `{Platform}.

(** X11. In every state of a running server, whatever UIDs were bound:
    for the UID of a session that [isBinded] takes for bound (a truthy UID),
    [getSession] gives that session, so that no two sessions hold the same
    truthy UID; what [getSession] gives of the index is a session object; and
    for a UID whose string names a member of [Object.prototype], under which
    the index never has an entry, it gives that member.  The converse fails:
    after [bindUid] with a UID that is falsy (0 or the empty string),
    [getSession] gives the session for this UID although the session holds
    no UID that [isBinded] sees. *)
Theorem uid_index_finds_the_bound_session (config : WssServer.WssServerConfig)
    (σ : WssServer.t) :
  runs config σ ->
  (forall uid key r, toString uid = Some key -> bound_to key r σ ->
     WssServer.getSession uid σ = Some (Own r))
  /\ (forall key r1 r2, bound_to key r1 σ -> bound_to key r2 σ -> r1 = r2)
  /\ (forall uid r, WssServer.getSession uid σ = Some (Own r) ->
        is_Some (WssServer.heap σ !! r))
  /\ (forall uid key, toString uid = Some key -> inherited key = true ->
        WssServer.getSession uid σ = Some Inherited)
  /\ (forall S uid key closeold,
        is_Some (WssServer.heap σ !! S) -> toString uid = Some key ->
        truthy uid = false -> inherited key = false ->
        let σ' := WssServer.bindUid S uid closeold σ in
        WssServer.getSession uid σ' = Some (Own S) /\ forall k, ~ bound_to k S σ').
Proof.
  intros Hruns. pose proof (runs_indexed config σ Hruns) as Hok.
  split; [|split; [|split; [|split]]].
  - intros uid key r Hkey Hb. unfold WssServer.getSession.
    rewrite Hkey, (index_bound _ Hok key r Hb). reflexivity.
  - intros key r1 r2 H1 H2. apply (index_bound _ Hok) in H1, H2. congruence.
  - intros uid r. unfold WssServer.getSession.
    destruct (toString uid) as [key|]; [|discriminate].
    destruct (WssServer.sessionMap σ !! key) as [s|] eqn:Hs.
    + intros [= <-]. apply (index_heap _ Hok key s Hs).
    + destruct (inherited key); discriminate.
  - intros uid key Hkey Hin. unfold WssServer.getSession.
    rewrite Hkey, (index_own _ Hok key Hin), Hin. reflexivity.
  - intros S uid key closeold Halloc Hkey Hfalsy Hown σ'.
    assert (Hre : exists σa, σ' = WssServer.rebind S uid key σa
                             /\ is_Some (WssServer.heap σa !! S)).
    { subst σ'. unfold WssServer.bindUid. rewrite Hkey, Hown.
      destruct (WssServer.sessionMap σ !! key) as [old|]; [|eauto].
      eexists. split; [reflexivity|].
      destruct (unbindUid_frame old σ) as (_ & Hal & _).
      destruct closeold; [apply session_close_alloc|]; apply Hal, Halloc. }
    destruct Hre as (σa & -> & Halloca).
    destruct (rebind_entry S uid key σa Halloca) as [Hentry [x Hx]].
    split.
    + unfold WssServer.getSession. rewrite Hkey, Hentry. reflexivity.
    + intros k (x' & Hx' & Ht & _). rewrite Hx in Hx'. injection Hx' as <-.
      cbn [WssSession.bindUid WssSession.set_uid WssSession.uid] in Ht. congruence.
Qed.

(** X12. In every state of a running server, a channel lists a session exactly
    when the object of the session lists the channel; every entry of a channel
    is filed under the id of its session, and that session has an object. *)
Theorem channel_membership_is_mutual (config : WssServer.WssServerConfig) (σ : WssServer.t) :
  runs config σ ->
  (forall key r, member key r σ <-> joined key r σ)
  /\ (forall key channel k r,
        WssServer.channelMap σ !! key = Some channel ->
        WssServer.sessions channel !! k = Some r ->
        r = k /\ is_Some (WssServer.heap σ !! r)).
Proof.
  intros Hruns. pose proof (runs_consistent config σ Hruns) as Hok.
  split; [apply (members_joined _ Hok)|].
  intros key channel k r Hc Hr.
  assert (r = k) by (apply (members_keyed _ Hok key channel k r Hc Hr)). subst k.
  split; [reflexivity|].
  assert (Hm : member key r σ) by (exists channel; auto).
  apply (members_joined _ Hok) in Hm. destruct Hm as (x & Hx & _). eauto.
Qed.

(** X13. After the close event of a session of a running server, whatever
    UIDs were bound: no channel lists the session, the session holds no truthy
    UID, and its socket is no longer registered; the memberships of the other
    sessions are as before.  Of the index of UIDs exactly the entry under the
    truthy UID of the session is taken out.  Every other entry stays, also one
    that leads to the closed session: an entry made for a UID that is 0 or the
    empty string outlasts the session. *)
Theorem close_event_cleans_up (config : WssServer.WssServerConfig) (σ : WssServer.t)
    (S : WssServer.ref) (code : Z) (reason : string) (x : WssSession.t) :
  runs config σ ->
  WssServer.heap σ !! S = Some x ->
  let σ' := WssServer._onWebSocketClose S code reason σ in
  (forall key, ~ member key S σ')
  /\ (forall key, ~ bound_to key S σ')
  /\ WssServer.socketMap σ' !! S = None
  /\ (forall key r, r ≠ S -> (member key r σ' <-> member key r σ))
  /\ (forall key r, WssServer.sessionMap σ' !! key = Some r
        <-> WssServer.sessionMap σ !! key = Some r /\ ~ bound_to key S σ).
Proof.
  intros Hruns Hx σ'. pose proof (runs_consistent config σ Hruns) as Hok.
  destruct (onWebSocketClose_consistent S code reason σ Hok) as (_ & Hgone & Hsock & Hmem).
  destruct (onWebSocketClose_index S code reason σ) as (_ & Hnb & Hidx).
  split; [exact (Hgone x Hx)|]. split; [exact Hnb|]. split; [exact Hsock|].
  split; [exact Hmem | exact Hidx].
Qed.

(** X14. A run of the life cycle of a running server changes no registry.
    The sessions that are connected and expired lose their socket, and each of
    them that had one gets exactly one close, with 4008 'timeout error'; no
    other session is closed or changed.  The total of sockets is the number of
    connected sessions that are not expired, the total of sessions the number
    of those that are bound to a UID, and the second is at most the first. *)
Theorem life_cycle_closes_the_expired (config : WssServer.WssServerConfig)
    (now : WssServer.ref -> Z) (σ : WssServer.t) :
  runs config σ ->
  let σ' := fst (WssServer._onServerLifeCycle now σ) in
  let totalSocket := fst (snd (WssServer._onServerLifeCycle now σ)) in
  let totalSession := snd (snd (WssServer._onServerLifeCycle now σ)) in
  registries_kept σ σ'
  /\ (forall r x, WssServer.heap σ !! r = Some x ->
        WssServer.heap σ' !! r =
          Some (if bool_decide (WssServer.socketMap σ !! r = Some r) && expired_at now σ r
                then WssSession.set_socket None x else x))
  /\ (exists events,
        WssServer.trace σ' = WssServer.trace σ ++ events
        /\ forall r, closes_for r events =
             if bool_decide (WssServer.socketMap σ !! r = Some r)
                && expired_at now σ r && has_socket r σ
             then [(4008, "timeout error")] else [])
  /\ totalSocket = Z.of_nat (length (List.filter (counted now σ) (connected σ)))
  /\ totalSession =
       Z.of_nat (length (List.filter
                           (fun r => counted now σ r && WssServer.session_isBinded r σ)
                           (connected σ)))
  /\ 0 <= totalSession <= totalSocket.
Proof.
  intros Hruns. cbn zeta. pose proof (runs_consistent config σ Hruns) as Hok.
  destruct (connected_keys σ Hok) as [Hnd Hin].
  destruct (onServerLifeCycle_spec now σ Hnd) as (Hr & Hh & Htr & Hts & Htb).
  assert (Hdec : forall r, bool_decide (r ∈ connected σ)
                           = bool_decide (WssServer.socketMap σ !! r = Some r)).
  { intros r. apply bool_decide_ext, Hin. }
  split; [exact Hr|]. split; [|split; [|split; [exact Hts | split; [exact Htb|]]]].
  - intros r x Hx. rewrite Hh, Hx, Hdec. reflexivity.
  - eexists. split; [exact Htr|]. intros r.
    rewrite closes_for_app, (closes_for_timeouts now σ r _ Hnd), Hdec. cbn.
    apply app_nil_r.
  - rewrite Hts, Htb. split; [lia|]. apply inj_le.
    generalize (connected σ). intros l. induction l as [|r l IH]; [reflexivity|].
    cbn [List.filter]. destruct (counted now σ r); cbn [andb].
    + destruct (WssServer.session_isBinded r σ); cbn [length]; lia.
    + exact IH.
Qed.


End Registry.

(** ** The start of the server and the cluster *)

(** X17. [start] succeeds exactly when the cycle is at least 10,000 ms and the
    timeout at least three cycles.  It then keeps the configuration, and the
    heartbeat interval of the cluster bridges, the cycle in whole seconds, is
    at least 10 s and, three times over, within the timeout.  The error
    'timeout >= 30,000ms' is given only when the cycle is in range and the
    timeout is below 30,000 ms.  The default configuration starts. *)
Theorem start_accepts_sound_timing (σ : WssServer.t) :
  let cycle := WssServer.cycle (WssServer.config σ) in
  let timeout := WssServer.timeout (WssServer.config σ) in
  let heartick := cycle / 1000 in
  (forall σ', WssServer.start σ = inr σ' ->
     10000 <= cycle /\ 3 * cycle <= timeout
     /\ 10 <= heartick /\ heartick * 1000 <= cycle /\ 3 * (heartick * 1000) <= timeout
     /\ WssServer.config σ' = WssServer.config σ)
  /\ (10000 <= cycle -> 3 * cycle <= timeout -> exists σ', WssServer.start σ = inr σ')
  /\ (forall message, WssServer.start σ = inl message ->
        message = "timeout >= 30,000ms" -> 10000 <= cycle /\ timeout < 30000)
  /\ exists σ', WssServer.start (WssServer.create WssServer.default_config) = inr σ'.
Proof.
  cbn zeta. unfold WssServer.start.
  destruct (Z.ltb_spec (WssServer.cycle (WssServer.config σ)) 10000) as [Hc|Hc].
  { split; [intros σ' [=]|]. split; [intros; lia|]. split; [|cbn; eauto].
    intros message [= <-] [=]. }
  destruct (Z.ltb_spec (WssServer.timeout (WssServer.config σ)) 30000) as [Ht|Ht].
  { split; [intros σ' [=]|]. split; [intros; lia|]. split; [|cbn; eauto].
    intros message _ _. lia. }
  destruct (Z.gtb_spec (WssServer.cycle (WssServer.config σ) * 3)
              (WssServer.timeout (WssServer.config σ))) as [H3|H3].
  { split; [intros σ' [=]|]. split; [intros; lia|]. split; [|cbn; eauto].
    intros message [= <-] [=]. }
  split; [|split; [eauto | split; [intros message [=] | cbn; eauto]]].
  intros σ' [= <-].
  assert (10 <= WssServer.cycle (WssServer.config σ) / 1000)
    by (apply Z.div_le_lower_bound; lia).
  assert (WssServer.cycle (WssServer.config σ) / 1000 * 1000
          <= WssServer.cycle (WssServer.config σ)).
  { pose proof (Z.mul_div_le (WssServer.cycle (WssServer.config σ)) 1000 ltac:(lia)). lia. }
  repeat split; lia.
Qed.

Lemma initClusters_config links nodes σ :
  WssServer.config (WssServer.initClusters links nodes σ) = WssServer.config σ.
Proof. apply (initClusters_kept links nodes σ). Qed.

Lemma initClusters_groups links nodes σ appName cluster :
  WssServer.clusterMap (WssServer.initClusters links nodes σ) !! appName = Some cluster ->
  WssServer.clusterMap σ !! appName = Some cluster
  \/ (appName ∈ links /\ cluster ≠ []
      /\ exists addresses,
           nodes !! appName = Some addresses
           /\ cluster =
                map (fun a =>
                       WssServer.Node appName (WssServer.node_url a)
                         (WssBridge.constructor (WssServer.node_url a)
                            (WssServer.pwd (WssServer.config σ))
                            (WssServer.binary (WssServer.config σ)) 8000
                            (WssServer.cycle (WssServer.config σ) / 1000) 2))
                  addresses).
Proof.
  revert σ. induction links as [|link links IH]; intros σ; cbn [WssServer.initClusters].
  - auto.
  - destruct (nodes !! link) as [addresses|] eqn:Hn.
    2:{ destruct (inherited_empty link); [|auto].
        intros Hc. apply IH in Hc. destruct Hc as [Hc | (Hin & Hne & a & Ha & Hmade)]; [auto|].
        right. split; [by apply list_elem_of_further|]. split; [exact Hne|]. eauto. }
    set (made := map _ addresses).
    set (σ1 := if (0 <? length made)%nat then _ else σ).
    assert (Hcfg : WssServer.config σ1 = WssServer.config σ)
      by (subst σ1; destruct (0 <? _)%nat; reflexivity).
    intros Hc. apply IH in Hc. rewrite Hcfg in Hc.
    destruct Hc as [Hc | (Hin & Hne & a & Ha & Hmade)].
    + subst σ1. destruct (Nat.ltb_spec 0 (length made)) as [Hlen|Hlen]; [|auto].
      revert Hc. project. rewrite lookup_insert. case_decide; [|auto].
      subst link. intros [= <-]. right. split; [apply list_elem_of_here|].
      split; [intros Hnil; rewrite Hnil in Hlen; cbn in Hlen; lia|].
      exists addresses. auto.
    + right. split; [by apply list_elem_of_further|]. split; [exact Hne|]. eauto.
Qed.

(** X18. After [initClusters] on a new server, a group of the cluster map is
    one of the links, has an entry among the nodes, and has one node for each
    of its addresses.  Every node carries the name of its group and a bridge
    for its url with the server's password and binary setting, a timeout of
    8000 ms, the cycle in seconds as heartbeat interval and 2 s as reconnection
    interval; the bridge is not connected, has no timer, no pending request and
    has sent nothing. *)
Theorem initClusters_makes_idle_bridges (config : WssServer.WssServerConfig)
    (links : list string) (nodes : gmap string (list WssServer.address))
    (appName : string) (cluster : list WssServer.ClusterNode) :
  WssServer.clusterMap (WssServer.initClusters links nodes (WssServer.create config))
    !! appName = Some cluster ->
  appName ∈ links /\ cluster ≠ []
  /\ (exists addresses, nodes !! appName = Some addresses
                        /\ length cluster = length addresses)
  /\ forall node, node ∈ cluster ->
       WssServer.grp node = appName
       /\ WssBridge.host (WssServer.rmc node) = WssBridge.ws_host (WssServer.url node)
       /\ WssBridge.pwd (WssServer.rmc node) = WssServer.pwd config
       /\ WssBridge.binary (WssServer.rmc node) = WssServer.binary config
       /\ WssBridge.timeout (WssServer.rmc node) = 8000
       /\ WssBridge.heartick (WssServer.rmc node) = WssServer.cycle config / 1000
       /\ WssBridge.conntick (WssServer.rmc node) = 2
       /\ WssBridge.socket (WssServer.rmc node) = None
       /\ WssBridge.timer (WssServer.rmc node) = false
       /\ WssBridge.requests (WssServer.rmc node) = []
       /\ WssBridge.trace (WssServer.rmc node) = [].
Proof.
  intros Hc. apply initClusters_groups in Hc.
  destruct Hc as [Hc | (Hin & Hne & addresses & Ha & ->)].
  { cbn in Hc. rewrite lookup_empty in Hc. discriminate. }
  split; [exact Hin|]. split; [exact Hne|].
  split; [exists addresses; split; [exact Ha | apply length_map]|].
  intros node Hnode. apply list_elem_of_fmap in Hnode. destruct Hnode as (a & -> & _).
  cbn. repeat split.
Qed.

Section Cluster.
Context `{Platform}.

(** The loop of a push to every node of a group, after [k] rounds. *)
Lemma cluster_push_rounds (inner what appName : string) (innerData : jsval)
    (ins : nat -> input) (cluster : list WssServer.ClusterNode) (σ : WssServer.t) (k : nat) :
  WssServer.clusterMap σ !! appName = Some cluster ->
  (k <= length cluster)%nat ->
  let σ' :=
    foldl (fun σ k =>
             let cluster := default [] (WssServer.clusterMap σ !! appName) in
             let cluster := WssServer.node_request k inner innerData (ins k) cluster in
             WssServer.emit (WssServer.Log "debug" what None)
               (WssServer.set_clusterMap (<[appName := cluster]> (WssServer.clusterMap σ)) σ))
      σ (seq 0 k) in
  exists cluster',
    WssServer.clusterMap σ' !! appName = Some cluster'
    /\ length cluster' = length cluster
    /\ (forall j : nat, cluster' !! j =
          if (j <? k)%nat
          then (fun node =>
                  WssServer.Node (WssServer.grp node) (WssServer.url node)
                    (WssBridge.request inner innerData None None (ins j) (WssServer.rmc node)))
                 <$> cluster !! j
          else cluster !! j)
    /\ WssServer.trace σ' =
         WssServer.trace σ ++ replicate k (WssServer.Log "debug" what None)
    /\ (forall a, a ≠ appName -> WssServer.clusterMap σ' !! a = WssServer.clusterMap σ !! a).
Proof.
  intros Hc. induction k as [|k IH]; intros Hk; cbn zeta.
  - cbn [seq foldl replicate]. exists cluster. rewrite app_nil_r. repeat split; auto.
  - rewrite seq_S, foldl_app. cbn [foldl Nat.add].
    destruct (IH ltac:(lia)) as (ck & Hck & Hlen & Hlook & Htr & Hoth).
    cbn zeta in *. set (σk := foldl _ σ (seq 0 k)) in *.
    rewrite Hck. cbn [default from_option id].
    assert (Hkk : ck !! k = cluster !! k).
    { rewrite Hlook. rewrite (proj2 (Nat.ltb_ge k k)) by lia. reflexivity. }
    destruct (lookup_lt_is_Some_2 cluster k ltac:(lia)) as [node Hnode].
    unfold WssServer.node_request. rewrite Hkk, Hnode.
    eexists. project. rewrite lookup_insert_eq. split; [reflexivity|].
    split; [rewrite length_insert; exact Hlen|].
    split; [|split].
    + intros j. destruct (decide (j = k)) as [->|Hne].
      * rewrite list_lookup_insert_eq by lia.
        rewrite (proj2 (Nat.ltb_lt k (S k))) by lia. rewrite Hnode. reflexivity.
      * rewrite list_lookup_insert_ne by congruence. rewrite Hlook.
        destruct (Nat.ltb_spec j k), (Nat.ltb_spec j (S k)); try reflexivity; lia.
    + rewrite Htr. rewrite replicate_S_end, app_assoc. reflexivity.
    + intros a Ha. rewrite lookup_insert_ne by congruence. apply Hoth, Ha.
Qed.

Lemma cluster_push_all (inner what appName : string) (tid : jsval) (route : string)
    (message : jsval) (word : string) (ins : nat -> input)
    (cluster : list WssServer.ClusterNode) (σ : WssServer.t) :
  WssServer.clusterMap σ !! appName = Some cluster ->
  let σ' := WssServer.cluster_push inner what appName tid route message word None ins σ in
  (exists cluster',
     WssServer.clusterMap σ' !! appName = Some cluster'
     /\ requested inner (WssServer._generateInnerData tid route message word σ) ins
          cluster cluster')
  /\ WssServer.trace σ' =
       WssServer.trace σ ++ replicate (length cluster) (WssServer.Log "debug" what None)
  /\ (forall a, a ≠ appName -> WssServer.clusterMap σ' !! a = WssServer.clusterMap σ !! a)
  /\ sessions_kept σ σ'.
Proof.
  intros Hc. cbn zeta.
  split; [|split; [|split; [|apply cluster_push_kept]]];
    unfold WssServer.cluster_push; rewrite Hc;
    destruct (cluster_push_rounds inner what appName
                (WssServer._generateInnerData tid route message word σ) ins cluster σ
                (length cluster) Hc ltac:(lia)) as (c' & Hc' & Hlen & Hlook & Htr & Hoth).
  - exists c'. split; [exact Hc'|]. split; [exact Hlen|].
    intros k node Hnode. rewrite Hlook.
    rewrite (proj2 (Nat.ltb_lt k (length cluster))) by (eapply lookup_lt_Some, Hnode).
    rewrite Hnode. reflexivity.
  - exact Htr.
  - exact Hoth.
Qed.

(** X19. [pushClusterSession], [pushClusterChannel] and [clusterBroadcast]
    without a dispatch callback make one request on every node of the group,
    on the routes $innerP2P$, $innerGRP and $innerALL$, with the envelope that
    [_generateInnerData] signs for the target (no target for the broadcast)
    and without callbacks.  The nodes keep their group and url, one event is
    added to the trace for each node, and the sessions, channels and UIDs of
    the server are untouched. *)
Theorem cluster_push_reaches_every_node (σ : WssServer.t) (appName : string)
    (tid : jsval) (route : string) (message : jsval) (word : string) (ins : nat -> input)
    (cluster : list WssServer.ClusterNode) :
  WssServer.clusterMap σ !! appName = Some cluster ->
  let after (inner : string) (tid : jsval) (σ' : WssServer.t) :=
    exists cluster',
      WssServer.clusterMap σ' !! appName = Some cluster'
      /\ requested inner (WssServer._generateInnerData tid route message word σ) ins
           cluster cluster'
      /\ length (WssServer.trace σ') = (length (WssServer.trace σ) + length cluster)%nat
      /\ sessions_kept σ σ' in
  after RouteCode.ROUTE_INNERP2P tid
    (WssServer.pushClusterSession appName tid route message word None ins σ)
  /\ after RouteCode.ROUTE_INNERGRP tid
       (WssServer.pushClusterChannel appName tid route message word None ins σ)
  /\ after RouteCode.ROUTE_INNERALL JNull
       (WssServer.clusterBroadcast appName route message word None ins σ).
Proof.
  intros Hc after.
  assert (Hall : forall inner what tid0,
            after inner tid0
              (WssServer.cluster_push inner what appName tid0 route message word None ins σ)).
  { intros inner what tid0.
    destruct (cluster_push_all inner what appName tid0 route message word ins cluster σ Hc)
      as ((c' & Hc' & Hreq) & Htr & _ & Hkept).
    exists c'. split; [exact Hc'|]. split; [exact Hreq|]. split; [|exact Hkept].
    rewrite Htr, length_app, length_replicate. reflexivity. }
  split; [apply Hall|]. split; [rewrite pushClusterChannel_eq; apply Hall | apply Hall].
Qed.

Lemma request_requests (route : string) (message : jsval) (onsuccess onerror : option callback)
    (i : input) (b : WssBridge.t) :
  WssBridge.requests (WssBridge.request route message onsuccess onerror i b) =
    if present onsuccess || present onerror
    then WssBridge.requests_set (WssBridge.reqIdInc b)
           (WssBridgeRequest.Build (clock i) onsuccess onerror) (WssBridge.requests b)
    else WssBridge.requests b.
Proof.
  unfold WssBridge.request.
  match goal with |- WssBridge.requests (WssBridge.sendPackData ?p i ?b0) = _ =>
    destruct (quiet_sendPackData p i b0) as [-> _] end.
  destruct (present onsuccess || present onerror); reflexivity.
Qed.

(** X20. [callRemote] and [callRemoteForResult] on a group that has nodes
    make one request on the route $innerRMC$, with the signed envelope without
    target, on the one node at the drawn index, which is never past the last
    node; the other nodes and the rest of the server are unchanged but for one
    log line.  [callRemote] files no callback; [callRemoteForResult] files the
    resolver as success and as error callback, under the reqId that the node's
    bridge had next. *)
Theorem remote_call_reaches_one_node (σ : WssServer.t) (appName route : string)
    (message : jsval) (word : string) (rand : Z) (i : input) (resolve : callback)
    (cluster : list WssServer.ClusterNode) :
  WssServer.clusterMap σ !! appName = Some cluster ->
  cluster ≠ [] ->
  0 <= rand ->
  let envelope := WssServer._generateInnerData JNull route message word σ in
  let k := Z.to_nat (Z.min rand (Z.of_nat (length cluster) - 1)) in
  exists node,
    cluster !! k = Some node
    /\ WssServer.callRemote appName route message word None rand i σ =
         more [WssServer.Log "debug" "callRemote:" None]
           (WssServer.set_clusterMap
              (<[appName :=
                   <[k := WssServer.Node (WssServer.grp node) (WssServer.url node)
                            (WssBridge.request RouteCode.ROUTE_INNERRMC envelope None None i
                               (WssServer.rmc node))]> cluster]>
                 (WssServer.clusterMap σ)) σ)
    /\ (let b' := WssBridge.request RouteCode.ROUTE_INNERRMC envelope (Some resolve)
                    (Some resolve) i (WssServer.rmc node) in
        WssServer.callRemoteForResult appName route message word None resolve rand i σ =
          more [WssServer.Log "debug" "callRemoteForResult:" None]
            (WssServer.set_clusterMap
               (<[appName :=
                    <[k := WssServer.Node (WssServer.grp node) (WssServer.url node) b']>
                      cluster]>
                  (WssServer.clusterMap σ)) σ)
        /\ WssBridge.requests_get (WssBridge.reqIdInc (WssServer.rmc node))
             (WssBridge.requests b')
           = Some (WssBridgeRequest.Build (clock i) (Some resolve) (Some resolve))).
Proof.
  intros Hc Hne Hrand envelope k.
  assert (Hlen : (0 < length cluster)%nat) by (destruct cluster; [congruence | cbn; lia]).
  assert (Hk : (k < length cluster)%nat) by (subst k; lia).
  destruct (lookup_lt_is_Some_2 cluster k Hk) as [node Hnode].
  assert (Hat : WssServer.cluster_at cluster (Z.min rand (Z.of_nat (length cluster) - 1))
                = Some node).
  { unfold WssServer.cluster_at.
    destruct (Z.ltb_spec (Z.min rand (Z.of_nat (length cluster) - 1)) 0); [lia | exact Hnode]. }
  exists node. split; [exact Hnode|].
  unfold WssServer.callRemote, WssServer.callRemoteForResult, WssServer.remote_call.
  rewrite Hc, Hat. fold envelope. fold k.
  split; [reflexivity|]. split; [reflexivity|].
  rewrite request_requests. cbn [present orb]. apply requests_get_set.
Qed.

(** A group that is not registered, or has no node, or an index outside
    the group, makes the call throw before anything is done. *)
Lemma remote_call_nowhere what onsuccess onerror appName route message word dispatchCallback
    rand i σ :
  match WssServer.clusterMap σ !! appName with
  | None => True
  | Some cluster =>
      forall index,
        index = match dispatchCallback with
                | Some f => f cluster JNull
                              (WssServer._generateInnerData JNull route message word σ)
                | None => Z.min rand (Z.of_nat (length cluster) - 1)
                end ->
        index < 0 \/ Z.of_nat (length cluster) <= index
  end ->
  WssServer.remote_call what onsuccess onerror appName route message word dispatchCallback
    rand i σ = σ.
Proof.
  unfold WssServer.remote_call.
  destruct (WssServer.clusterMap σ !! appName) as [cluster|]; [|reflexivity].
  intros Hout. specialize (Hout _ eq_refl).
  set (index := match dispatchCallback with Some _ => _ | None => _ end) in *.
  unfold WssServer.cluster_at. destruct (Z.ltb_spec index 0) as [|Hge]; [reflexivity|].
  rewrite lookup_ge_None_2 by lia. reflexivity.
Qed.
End Cluster.

(** ** The listeners of the bridge *)

Lemma handler_eq_refl (h : handler) : handler_eq h h = true.
Proof. destruct h; cbn; [reflexivity | reflexivity | apply Nat.eqb_refl]. Qed.

Lemma handler_eq_true (a b : handler) : handler_eq a b = true <-> a = b.
Proof.
  destruct a, b; cbn; try (split; [discriminate | congruence]); try tauto.
  rewrite Nat.eqb_eq. split; congruence.
Qed.

(** Taking the object at the address [a] out of an array of different
    objects. *)
Lemma splice_indexOf (a : nat) (ls : list (nat * WssBridgeListener.t)) :
  NoDup ls.*1 ->
  match WssBridge.indexOf a ls with
  | Some index => delete index ls
  | None => ls
  end = List.filter (fun item => negb (Nat.eqb (fst item) a)) ls.
Proof.
  induction ls as [|[a' it] ls IH]; intros Hnd; [reflexivity|].
  cbn [fmap list_fmap fst] in Hnd. apply NoDup_cons in Hnd. destruct Hnd as [Hin Hnd].
  cbn [WssBridge.indexOf List.filter fst]. destruct (Nat.eqb_spec a' a) as [->|Hne]; cbn [negb].
  - cbn [delete list_delete]. symmetry.
    (* nothing else lies at the address *)
    clear IH. induction ls as [|[b it'] ls IH']; [reflexivity|].
    cbn [fmap list_fmap fst] in Hin, Hnd. apply not_elem_of_cons in Hin. destruct Hin as [Hab Hin].
    apply NoDup_cons in Hnd. destruct Hnd as [_ Hnd].
    cbn [List.filter fst]. destruct (Nat.eqb_spec b a); [congruence|]. cbn [negb].
    f_equal. apply IH'; assumption.
  - specialize (IH Hnd). destruct (WssBridge.indexOf a ls) as [index|]; cbn.
    + f_equal. exact IH.
    + f_equal. exact IH.
Qed.

Lemma filter_NoDup_fst {A} (f : nat * A -> bool) (ls : list (nat * A)) :
  NoDup ls.*1 -> NoDup (List.filter f ls).*1.
Proof.
  induction ls as [|[a it] ls IH]; intros Hnd; [constructor|].
  cbn [fmap list_fmap fst] in Hnd. apply NoDup_cons in Hnd. destruct Hnd as [Hin Hnd].
  cbn [List.filter]. destruct (f (a, it)); [|apply IH, Hnd].
  cbn [fmap list_fmap fst]. apply NoDup_cons. split; [|apply IH, Hnd].
  intros Hc. apply Hin. apply list_elem_of_fmap in Hc. destruct Hc as ([b it'] & -> & Hb).
  apply list_elem_of_In, filter_In in Hb. destruct Hb as [Hb _].
  apply list_elem_of_fmap. exists (b, it'). split; [reflexivity | by apply list_elem_of_In].
Qed.

Lemma filter_filter {A} (f g : A -> bool) (l : list A) :
  List.filter f (List.filter g l) = List.filter (fun x => g x && f x) l.
Proof.
  induction l as [|x l IH]; [reflexivity|]. cbn [List.filter].
  destruct (g x); cbn [List.filter andb]; [destruct (f x)|]; rewrite IH; reflexivity.
Qed.

(** The loop of [removeListener] over the collected objects. *)
Lemma splice_all (del ls : list (nat * WssBridgeListener.t)) :
  NoDup ls.*1 ->
  fold_left
    (fun ls item =>
       match WssBridge.indexOf (fst item) ls with
       | Some index => delete index ls
       | None => ls
       end) del ls
  = List.filter (fun item => negb (existsb (Nat.eqb (fst item)) del.*1)) ls.
Proof.
  revert ls. induction del as [|d del IH]; intros ls Hnd; cbn [fold_left fmap list_fmap existsb].
  - induction ls as [|x ls IHl]; [reflexivity|]. cbn. f_equal.
    apply IHl. cbn in Hnd. by apply NoDup_cons in Hnd as [_ ?].
  - rewrite splice_indexOf by exact Hnd.
    rewrite IH by (apply filter_NoDup_fst, Hnd).
    rewrite filter_filter. apply filter_ext. intros [a it]. cbn [fst].
    rewrite (Nat.eqb_sym a (fst d)). destruct (Nat.eqb (fst d) a); reflexivity.
Qed.

Lemma fmap_rev {A B} (f : A -> B) (l : list A) : f <$> rev l = rev (f <$> l).
Proof.
  induction l as [|x l IH]; [reflexivity|]. cbn [rev]. rewrite fmap_app, IH. reflexivity.
Qed.

Lemma existsb_rev {A} (f : A -> bool) (l : list A) :
  existsb f (rev l) = existsb f l.
Proof.
  destruct (existsb f l) eqn:He.
  - apply existsb_exists in He. destruct He as (x & Hin & Hx).
    apply existsb_exists. exists x. split; [by apply in_rev in Hin | exact Hx].
  - apply not_true_is_false. intros Hc. apply existsb_exists in Hc.
    destruct Hc as (x & Hin & Hx). apply in_rev in Hin.
    assert (existsb f l = true) by (apply existsb_exists; eauto). congruence.
Qed.

(** An address is among those of the listeners of [h] exactly when the
    object that lies there has the callback [h]. *)
Lemma collected_address (h : handler) (ls : list (nat * WssBridgeListener.t))
    (a : nat) (it : WssBridgeListener.t) :
  NoDup ls.*1 -> In (a, it) ls ->
  existsb (Nat.eqb a)
    (List.filter (fun item => handler_eq (WssBridgeListener.onmessage (snd item)) h) ls).*1
  = handler_eq (WssBridgeListener.onmessage it) h.
Proof.
  intros Hnd Hin.
  destruct (handler_eq (WssBridgeListener.onmessage it) h) eqn:Hh.
  - apply existsb_exists. exists a. split; [|apply Nat.eqb_refl].
    apply list_elem_of_In, list_elem_of_fmap. exists (a, it). split; [reflexivity|].
    apply list_elem_of_In, filter_In. split; [exact Hin | exact Hh].
  - apply not_true_is_false. intros Hex. apply existsb_exists in Hex.
    destruct Hex as (a' & Hin' & Ha'). apply Nat.eqb_eq in Ha'. subst a'.
    apply list_elem_of_In, list_elem_of_fmap in Hin'.
    destruct Hin' as ([a'' it'] & Hfst & Hin'). cbn in Hfst. subst a''.
    apply list_elem_of_In, filter_In in Hin'. destruct Hin' as [Hin' Hh'].
    cbn [snd] in Hh'.
    assert (it' = it); [|subst it'; congruence].
    apply list_elem_of_In in Hin, Hin'.
    apply list_elem_of_lookup in Hin, Hin'.
    destruct Hin as [j Hj], Hin' as [j' Hj'].
    assert (j = j'); [|subst j'; congruence].
    eapply NoDup_lookup; [exact Hnd | |];
      rewrite list_lookup_fmap; [rewrite Hj | rewrite Hj']; reflexivity.
Qed.

Lemma removeListener_spec (route : string) (onmessage : handler) (T : WssBridge.table)
    (ls : list (nat * WssBridgeListener.t)) :
  WssBridge.listeners T !! route = Some ls ->
  NoDup ls.*1 ->
  WssBridge.removeListener route onmessage T =
    match onmessage with
    | HUndefined => put route [] T
    | _ => put route (without onmessage ls) T
    end.
Proof.
  intros Hls Hnd. unfold WssBridge.removeListener. rewrite Hls.
  assert (Heq : forall h,
    fold_left
      (fun ls item =>
         match WssBridge.indexOf (fst item) ls with
         | Some index => delete index ls
         | None => ls
         end)
      (rev (List.filter
              (fun item => handler_eq (WssBridgeListener.onmessage (snd item)) h) ls)) ls
    = without h ls).
  { intros h. rewrite splice_all by exact Hnd. unfold without.
    apply filter_ext_in. intros [a it] Hin. cbn [fst snd]. f_equal.
    rewrite fmap_rev, existsb_rev. apply collected_address; assumption. }
  destruct onmessage as [| |cb]; [reflexivity| |].
  all: cbv zeta; rewrite Heq; unfold put; destruct (without _ ls); reflexivity.
Qed.

Lemma put_lookup (route route' : string) (ls : list (nat * WssBridgeListener.t))
    (T : WssBridge.table) :
  WssBridge.listeners (put route ls T) !! route' =
    if decide (route = route')
    then match ls with [] => None | _ => Some ls end
    else WssBridge.listeners T !! route'.
Proof.
  unfold put. cbn [WssBridge.listeners]. destruct (decide (route = route')) as [->|Hne].
  - destruct ls; [apply lookup_delete_eq | apply lookup_insert_eq].
  - destruct ls; [apply lookup_delete_ne | apply lookup_insert_ne]; exact Hne.
Qed.

Lemma put_ok (route : string) (ls : list (nat * WssBridgeListener.t)) (T : WssBridge.table) :
  table_ok T ->
  NoDup ls.*1 -> (forall a, a ∈ ls.*1 -> (a < WssBridge.fresh T)%nat) ->
  table_ok (put route ls T).
Proof.
  intros Hok Hnd Hlt route' ls' Hl. rewrite put_lookup in Hl.
  destruct (decide (route = route')) as [->|Hne].
  - destruct ls as [|x ls]; [discriminate|]. injection Hl as <-.
    split; [discriminate|]. split; [exact Hnd | exact Hlt].
  - exact (Hok _ _ Hl).
Qed.

Lemma without_sub (h : handler) (ls : list (nat * WssBridgeListener.t)) (a : nat) :
  a ∈ (without h ls).*1 -> a ∈ ls.*1.
Proof.
  intros Ha. apply list_elem_of_fmap in Ha. destruct Ha as (x & -> & Hx).
  apply list_elem_of_In, filter_In in Hx. destruct Hx as [Hx _].
  apply list_elem_of_fmap. exists x. split; [reflexivity | by apply list_elem_of_In].
Qed.

Lemma removeListener_ok (route : string) (h : handler) (T : WssBridge.table) :
  table_ok T -> table_ok (WssBridge.removeListener route h T).
Proof.
  intros Hok. destruct (WssBridge.listeners T !! route) as [ls|] eqn:Hls.
  - destruct (Hok _ _ Hls) as (_ & Hnd & Hlt).
    rewrite (removeListener_spec _ _ _ _ Hls Hnd).
    destruct h; apply put_ok; try exact Hok; try constructor;
      try (intros a Ha; apply elem_of_nil in Ha; contradiction);
      try (apply filter_NoDup_fst, Hnd);
      intros a Ha; apply Hlt; eapply without_sub; exact Ha.
  - unfold WssBridge.removeListener. rewrite Hls. exact Hok.
Qed.

Lemma removeListeners_ok (route : string) (hs : list (nat * WssBridgeListener.t))
    (T : WssBridge.table) :
  table_ok T ->
  table_ok
    (fold_left
       (fun T item => WssBridge.removeListener route (WssBridgeListener.onmessage (snd item)) T)
       hs T).
Proof.
  revert T. induction hs as [|x hs IH]; intros T Hok; [exact Hok|].
  cbn [fold_left]. apply IH, removeListener_ok, Hok.
Qed.

(** [addListener] either throws or puts the listener at the end of the
    array of the route. *)
Lemma addListener_cases (route : string) (once : bool) (h : handler) (T : WssBridge.table) :
  (WssBridge.listeners T !! route = None /\ inherited route = true
   /\ WssBridge.addListener route once h T = T)
  \/ ((is_Some (WssBridge.listeners T !! route) \/ inherited route = false)
      /\ WssBridge.addListener route once h T =
           WssBridge.Table
             (<[route := default [] (WssBridge.listeners T !! route)
                         ++ [(WssBridge.fresh T, WssBridgeListener.Build once h)]]>
                (WssBridge.listeners T))
             (S (WssBridge.fresh T))).
Proof.
  unfold WssBridge.addListener.
  destruct (WssBridge.listeners T !! route) as [ls|]; [right; split; [eauto | reflexivity]|].
  destruct (inherited route); [left | right]; auto.
Qed.

Lemma addListener_ok (route : string) (once : bool) (h : handler) (T : WssBridge.table) :
  table_ok T -> table_ok (WssBridge.addListener route once h T).
Proof.
  intros Hok.
  destruct (addListener_cases route once h T) as [(_ & _ & ->) | [_ ->]]; [exact Hok|].
  intros route' ls Hl.
  cbn [WssBridge.listeners WssBridge.fresh] in Hl |- *.
  destruct (decide (route = route')) as [->|Hne].
  - rewrite lookup_insert_eq in Hl. injection Hl as <-.
    split; [by destruct (default [] _)|].
    assert (Hold : NoDup (default [] (WssBridge.listeners T !! route')).*1 /\
                   forall a, a ∈ (default [] (WssBridge.listeners T !! route')).*1 ->
                             (a < WssBridge.fresh T)%nat).
    { destruct (WssBridge.listeners T !! route') as [ls|] eqn:Hls; cbn [default].
      - destruct (Hok _ _ Hls) as (_ & ? & ?). split; assumption.
      - split; [constructor | intros a Ha; apply elem_of_nil in Ha; contradiction]. }
    destruct Hold as [Hnd Hlt]. rewrite fmap_app. cbn [fmap list_fmap fst]. split.
    + apply NoDup_app. split; [exact Hnd|]. split; [|apply NoDup_singleton].
      intros a Ha Ha'. apply list_elem_of_singleton in Ha'. subst a.
      apply Hlt in Ha. lia.
    + intros a Ha. apply elem_of_app in Ha. destruct Ha as [Ha|Ha].
      * apply Hlt in Ha. lia.
      * apply list_elem_of_singleton in Ha. subst a. lia.
  - rewrite lookup_insert_ne in Hl by exact Hne.
    destruct (Hok _ _ Hl) as (? & ? & Hlt). split; [assumption|]. split; [assumption|].
    intros a Ha. apply Hlt in Ha. lia.
Qed.

Lemma triggerEvent_ok (pack : WssBridgePackData.t) (T : WssBridge.table) :
  table_ok T -> table_ok (fst (WssBridge.triggerEvent pack T)).
Proof.
  intros Hok. unfold WssBridge.triggerEvent.
  destruct (WssBridge.listeners T !! _); cbn [fst]; [|exact Hok].
  apply removeListeners_ok, Hok.
Qed.

(** No array lies under a name that [Object.prototype] lends. *)
Lemma removeListener_none (route route' : string) (h : handler) (T : WssBridge.table) :
  WssBridge.listeners T !! route' = None ->
  WssBridge.listeners (WssBridge.removeListener route h T) !! route' = None.
Proof.
  intros Hnone. unfold WssBridge.removeListener.
  destruct (WssBridge.listeners T !! route) as [ls|] eqn:Hls; [|exact Hnone].
  assert (Hne : route ≠ route') by congruence.
  destruct h; [|destruct (_ =? _)%nat..]; cbn [WssBridge.listeners];
    rewrite ?lookup_delete_ne, ?lookup_insert_ne by exact Hne; exact Hnone.
Qed.

Lemma removeListeners_none (route route' : string) (hs : list (nat * WssBridgeListener.t))
    (T : WssBridge.table) :
  WssBridge.listeners T !! route' = None ->
  WssBridge.listeners
    (fold_left
       (fun T item => WssBridge.removeListener route (WssBridgeListener.onmessage (snd item)) T)
       hs T) !! route' = None.
Proof.
  revert T. induction hs as [|x hs IH]; intros T Hnone; [exact Hnone|].
  cbn [fold_left]. apply IH, removeListener_none, Hnone.
Qed.

Lemma tables_own (T : WssBridge.table) (route : string) :
  tables T -> inherited route = true -> WssBridge.listeners T !! route = None.
Proof.
  intros Hr Hin. revert T Hr. unfold tables. apply rtc_ind_r.
  - apply lookup_empty.
  - intros T T' _ Hstep IH. destruct Hstep as [route0 once h T|route0 h T|pack T].
    + destruct (addListener_cases route0 once h T) as [(_ & _ & ->) | [Hcan ->]];
        [exact IH|].
      cbn [WssBridge.listeners]. rewrite lookup_insert_ne; [exact IH|].
      intros ->. destruct Hcan as [[ls Hls] | Hown]; congruence.
    + apply removeListener_none, IH.
    + unfold WssBridge.triggerEvent.
      destruct (WssBridge.listeners T !! WssBridge.property_key _); cbn [fst]; [|exact IH].
      apply removeListeners_none, IH.
Qed.

Lemma tables_ok (T : WssBridge.table) : tables T -> table_ok T.
Proof.
  unfold tables. revert T. apply rtc_ind_r.
  - intros route ls Hl. cbn in Hl. rewrite lookup_empty in Hl. discriminate.
  - intros T T' _ Hstep IH. destruct Hstep.
    + apply addListener_ok, IH.
    + apply removeListener_ok, IH.
    + apply triggerEvent_ok, IH.
Qed.

Lemma listeners_of_put (route route' : string) (ls : list (nat * WssBridgeListener.t))
    (T : WssBridge.table) :
  listeners_of route' (put route ls T) =
    if decide (route = route') then ls else listeners_of route' T.
Proof.
  unfold listeners_of. rewrite put_lookup. destruct (decide (route = route')); [|reflexivity].
  destruct ls; reflexivity.
Qed.

Lemma removeListener_listeners (route route' : string) (h : handler) (T : WssBridge.table) :
  table_ok T ->
  listeners_of route' (WssBridge.removeListener route h T) =
    if decide (route = route')
    then match h with
         | HUndefined => []
         | _ => without h (listeners_of route' T)
         end
    else listeners_of route' T.
Proof.
  intros Hok. destruct (WssBridge.listeners T !! route) as [ls|] eqn:Hls.
  - destruct (Hok _ _ Hls) as (_ & Hnd & _).
    rewrite (removeListener_spec _ _ _ _ Hls Hnd).
    destruct h; rewrite listeners_of_put; destruct (decide (route = route')) as [<-|];
      try reflexivity; unfold listeners_of; rewrite Hls; reflexivity.
  - unfold WssBridge.removeListener. rewrite Hls.
    destruct (decide (route = route')) as [<-|]; [|reflexivity].
    unfold listeners_of. rewrite Hls. destruct h; reflexivity.
Qed.

(** X21. On a table made by the listener functions, [removeListener(route,
    onmessage)] leaves under the route the listeners whose callback is not
    [onmessage], in their order, and none at all when [onmessage] is
    undefined.  The listeners of the other routes stay. *)
Theorem removeListener_takes_out_the_callback (route : string) (onmessage : handler)
    (T : WssBridge.table) :
  tables T ->
  listeners_of route (WssBridge.removeListener route onmessage T) =
    match onmessage with
    | HUndefined => []
    | _ => without onmessage (listeners_of route T)
    end /\
  (forall route', route' ≠ route ->
     listeners_of route' (WssBridge.removeListener route onmessage T) = listeners_of route' T) /\
  tables (WssBridge.removeListener route onmessage T).
Proof.
  intros Hr. pose proof (tables_ok _ Hr) as Hok. split; [|split].
  - rewrite removeListener_listeners by exact Hok. rewrite decide_True by reflexivity.
    reflexivity.
  - intros route' Hne. rewrite removeListener_listeners by exact Hok.
    rewrite decide_False by congruence. reflexivity.
  - eapply rtc_r; [exact Hr | constructor].
Qed.

Lemma without_all_cons (h : handler) (hs : list handler)
    (ls : list (nat * WssBridgeListener.t)) :
  without_all (h :: hs) ls =
    without_all hs match h with HUndefined => [] | _ => without h ls end.
Proof.
  assert (Hnil : without_all hs [] = []) by (unfold without_all; destruct (existsb _ hs); reflexivity).
  unfold without_all in *. cbn [existsb].
  destruct h as [| |cb]; cbn [handler_eq orb]; [exact (eq_sym Hnil)| |].
  all: destruct (existsb (handler_eq HUndefined) hs); [reflexivity|].
  all: unfold without; rewrite filter_filter; apply filter_ext; intros [a it]; cbn [snd];
       rewrite negb_orb; reflexivity.
Qed.

Lemma removeListeners_listeners (route route' : string)
    (hs : list (nat * WssBridgeListener.t)) (T : WssBridge.table) :
  table_ok T ->
  listeners_of route'
    (fold_left
       (fun T item => WssBridge.removeListener route (WssBridgeListener.onmessage (snd item)) T)
       hs T) =
    if decide (route = route')
    then without_all (List.map (fun item => WssBridgeListener.onmessage (snd item)) hs)
           (listeners_of route' T)
    else listeners_of route' T.
Proof.
  revert T. induction hs as [|x hs IH]; intros T Hok; cbn [fold_left List.map].
  - destruct (decide (route = route')); [|reflexivity].
    unfold without_all. cbn [existsb]. symmetry.
    induction (listeners_of route' T) as [|y l IHl]; [reflexivity|].
    cbn [List.filter negb]. f_equal. exact IHl.
  - rewrite IH by (apply removeListener_ok, Hok).
    rewrite removeListener_listeners by exact Hok.
    destruct (decide (route = route')); [|reflexivity].
    rewrite without_all_cons. reflexivity.
Qed.

Lemma triggerEvent_calls (pack : WssBridgePackData.t) (T : WssBridge.table) :
  calls_of pack T =
    flat_map (fun item => WssBridge.callMessage (snd item) (WssBridgePackData.message pack))
      (listeners_of (WssBridge.property_key (WssBridgePackData.route pack)) T).
Proof.
  unfold calls_of, WssBridge.triggerEvent, listeners_of.
  destruct (WssBridge.listeners T !! _); reflexivity.
Qed.

Lemma triggerEvent_listeners (pack : WssBridgePackData.t) (T : WssBridge.table)
    (route' : string) :
  table_ok T ->
  let route := WssBridge.property_key (WssBridgePackData.route pack) in
  listeners_of route' (fst (WssBridge.triggerEvent pack T)) =
    if decide (route = route')
    then without_all
           (List.map (fun item => WssBridgeListener.onmessage (snd item))
              (List.filter (fun item => WssBridgeListener.once (snd item))
                 (listeners_of route' T)))
           (listeners_of route' T)
    else listeners_of route' T.
Proof.
  intros Hok route. unfold WssBridge.triggerEvent. fold route.
  destruct (WssBridge.listeners T !! route) as [ls|] eqn:Hls; cbn [fst].
  - rewrite removeListeners_listeners by exact Hok.
    destruct (decide (route = route')) as [<-|]; [|reflexivity].
    unfold listeners_of. rewrite Hls. reflexivity.
  - destruct (decide (route = route')) as [<-|]; [|reflexivity].
    unfold listeners_of. rewrite Hls. reflexivity.
Qed.

(** X22. A pushed packet calls every listener of its route, in the order of
    registration, with the packet's message.  Afterwards the route keeps the
    listeners whose callback is not that of a listener registered as once: a
    lasting listener that shares its callback with a once listener goes with
    it, and a once listener without callback takes all listeners of the route.
    The other routes are untouched. *)
Theorem push_calls_every_listener_in_order (pack : WssBridgePackData.t)
    (T : WssBridge.table) :
  tables T ->
  let route := WssBridge.property_key (WssBridgePackData.route pack) in
  let ls := listeners_of route T in
  let T' := fst (WssBridge.triggerEvent pack T) in
  calls_of pack T =
    flat_map (fun item => WssBridge.callMessage (snd item) (WssBridgePackData.message pack)) ls /\
  listeners_of route T' =
    without_all
      (List.map (fun item => WssBridgeListener.onmessage (snd item))
         (List.filter (fun item => WssBridgeListener.once (snd item)) ls)) ls /\
  (forall route', route' ≠ route -> listeners_of route' T' = listeners_of route' T).
Proof.
  intros Hr route ls T'. pose proof (tables_ok _ Hr) as Hok.
  split; [apply triggerEvent_calls|]. split.
  - subst T' ls. rewrite triggerEvent_listeners by exact Hok. fold route.
    rewrite decide_True by reflexivity. reflexivity.
  - intros route' Hne. subst T'. rewrite triggerEvent_listeners by exact Hok. fold route.
    rewrite decide_False by congruence. reflexivity.
Qed.

Lemma without_all_gone (hs : list handler) (ls : list (nat * WssBridgeListener.t))
    (h : handler) (x : nat * WssBridgeListener.t) :
  In h hs -> In x (without_all hs ls) -> WssBridgeListener.onmessage (snd x) ≠ h.
Proof.
  intros Hh Hx Heq. unfold without_all in Hx.
  destruct (existsb (handler_eq HUndefined) hs); [contradiction|].
  apply filter_In in Hx. destruct Hx as [_ Hx]. apply negb_true_iff in Hx.
  assert (existsb (handler_eq (WssBridgeListener.onmessage (snd x))) hs = true); [|congruence].
  apply existsb_exists. exists h. split; [exact Hh|]. rewrite Heq. apply handler_eq_refl.
Qed.

(** X23. On a route that names no member of [Object.prototype], a listener
    registered as once is called with the message of the next packet pushed on
    its route, and a later packet on that route does not call its callback.
    On a route that names such a member, such as toString, [addListener]
    finds the member instead of an array and throws at [listeners.push]: the
    table stays as it is, no listener lies under the route, and a packet on
    the route calls nothing. *)
Theorem once_listener_is_called_once (route : string) (cb : nat)
    (pack pack' : WssBridgePackData.t) (T : WssBridge.table) :
  tables T ->
  WssBridge.property_key (WssBridgePackData.route pack) = route ->
  WssBridge.property_key (WssBridgePackData.route pack') = route ->
  let T1 := WssBridge.addListener route true (HFun cb) T in
  let T2 := fst (WssBridge.triggerEvent pack T1) in
  (inherited route = false ->
     WssBridge.OnMessage cb (WssBridgePackData.message pack) ∈ calls_of pack T1 /\
     (forall message, WssBridge.OnMessage cb message ∉ calls_of pack' T2))
  /\ (inherited route = true ->
        T1 = T /\ listeners_of route T1 = [] /\ calls_of pack T1 = []).
Proof.
  intros Hr Hroute Hroute' T1 T2. split.
  2:{ intros Hin. pose proof (tables_own T route Hr Hin) as Hnone.
      assert (HT : T1 = T).
      { subst T1. unfold WssBridge.addListener. rewrite Hnone, Hin. reflexivity. }
      split; [exact HT|]. rewrite HT. unfold listeners_of. rewrite Hnone.
      split; [reflexivity|].
      unfold calls_of, WssBridge.triggerEvent. rewrite Hroute, Hnone. reflexivity. }
  intros Hown.
  assert (Hr1 : tables T1) by (eapply rtc_r; [exact Hr | constructor]).
  pose proof (triggerEvent_calls pack T1) as Hcalls.
  pose proof (triggerEvent_listeners pack T1 route (tables_ok _ Hr1)) as Hrest.
  pose proof (triggerEvent_calls pack' T2) as Hcalls'.
  cbv zeta in Hrest. rewrite Hroute in Hcalls, Hrest. rewrite Hroute' in Hcalls'.
  rewrite decide_True in Hrest by reflexivity.
  assert (Hl1 : listeners_of route T1 =
                listeners_of route T ++ [(WssBridge.fresh T, WssBridgeListener.Build true (HFun cb))]).
  { unfold listeners_of, T1.
    destruct (addListener_cases route true (HFun cb) T) as [(_ & Hin & _) | [_ ->]];
      [congruence|].
    cbn [WssBridge.listeners]. rewrite lookup_insert_eq. reflexivity. }
  split.
  - rewrite Hcalls, Hl1. apply list_elem_of_In, in_flat_map.
    eexists. split; [apply in_or_app; right; left; reflexivity|]. left. reflexivity.
  - intros message Hin. rewrite Hcalls' in Hin. apply list_elem_of_In, in_flat_map in Hin.
    destruct Hin as (x & Hx & Hcall). fold T2 in Hrest. rewrite Hrest in Hx.
    eapply (without_all_gone _ _ (HFun cb)) in Hx.
    + unfold WssBridge.callMessage in Hcall.
      destruct (WssBridgeListener.onmessage (snd x)) as [| |cb'] eqn:Hom;
        try contradiction.
      destruct Hcall as [Hcall|[]]. injection Hcall as -> _. congruence.
    + apply in_map_iff. eexists. split; [|apply filter_In; split].
      2: { rewrite Hl1. apply in_or_app. right. left. reflexivity. }
      all: reflexivity.
Qed.

(** ** The requests of the bridge *)

Section Bridge.
Context `{Platform}.

Lemma reqIdInc_safeClose code reason b :
  WssBridge.reqIdInc (WssBridge.safeClose code reason b) = WssBridge.reqIdInc b.
Proof. unfold WssBridge.safeClose. destruct (WssBridge.socket b); reflexivity. Qed.

Lemma reqIdInc_safeOpen b :
  WssBridge.reqIdInc (WssBridge.safeOpen b) = WssBridge.reqIdInc b.
Proof.
  unfold WssBridge.safeOpen. destruct (WssBridge.expired _); cbn [WssBridge.reqIdInc WssBridge.set_socket WssBridge.emit];
    apply reqIdInc_safeClose.
Qed.

Lemma reqIdInc_sendPackData pack i b :
  WssBridge.reqIdInc (WssBridge.sendPackData pack i b) = WssBridge.reqIdInc b.
Proof.
  unfold WssBridge.sendPackData.
  destruct (WssBridge.expired b); [reflexivity|].
  destruct (WssBridge.isConnected b); [|reflexivity].
  destruct (WssBridgePackData.serialize _ _ _ _ _) as [[[|c s]|buf]|];
    try reflexivity; destruct (WssBridge.has_onerror b); reflexivity.
Qed.

Lemma reqIdInc_keepalive hb b :
  WssBridge.reqIdInc b <= WssBridge.reqIdInc (WssBridge.keepalive hb b).
Proof.
  unfold WssBridge.keepalive. cbv zeta.
  match goal with |- _ <= WssBridge.reqIdInc (if WssBridge.has_onsecond ?b1 then _ else _) =>
    assert (Hle : WssBridge.reqIdInc b <= WssBridge.reqIdInc b1); [|destruct (WssBridge.has_onsecond b1); exact Hle] end.
  destruct (WssBridge.isConnected b).
  - destruct (mod_is_zero _ _); [|lia]. rewrite reqIdInc_sendPackData. cbn. lia.
  - destruct (mod_is_zero _ _ && _); [|lia]. rewrite reqIdInc_safeOpen.
    destruct (WssBridge.has_onretry _); cbn; lia.
Qed.

Lemma reqIdInc_delete_all ids b :
  WssBridge.reqIdInc (WssBridge.delete_all ids b) = WssBridge.reqIdInc b.
Proof.
  revert b. induction ids as [|k ids IH]; intros b; [reflexivity|].
  cbn [WssBridge.delete_all fold_left].
  change (fold_left _ ids ?b0) with (WssBridge.delete_all ids b0).
  rewrite IH. reflexivity.
Qed.

Lemma reqIdInc_onTimerTick i hb b :
  WssBridge.reqIdInc b <= WssBridge.reqIdInc (WssBridge.onTimerTick i hb b).
Proof.
  unfold WssBridge.onTimerTick. cbv zeta. rewrite sweep_spec.
  etransitivity; [|apply reqIdInc_keepalive]. rewrite reqIdInc_delete_all. cbn. lia.
Qed.

(** A step that files and answers nothing keeps the bridge in order. *)
Lemma bridge_ok_quiet b b' :
  bridge_ok b -> quiet b b' -> WssBridge.reqIdInc b <= WssBridge.reqIdInc b' ->
  bridge_ok b'.
Proof.
  intros [Hnd Hlt Hpend Honce Hnew] (Hreq & events & Htr & Hq) Hle.
  assert (Hcalls : forall k, calls_for k (WssBridge.trace b') = calls_for k (WssBridge.trace b)).
  { intros k. rewrite Htr, calls_for_app, Hq, app_nil_r. reflexivity. }
  split.
  - rewrite Hreq. exact Hnd.
  - rewrite Hreq. intros k Hk. specialize (Hlt k Hk). lia.
  - rewrite Hreq. intros k Hk. rewrite Hcalls. apply Hpend, Hk.
  - intros k. rewrite Hcalls. apply Honce.
  - intros k Hk. rewrite Hcalls. apply Hnew. lia.
Qed.

Lemma bridge_ok_constructor host pwd binary timeout heartick conntick :
  bridge_ok (WssBridge.constructor host pwd binary timeout heartick conntick).
Proof.
  split; cbn.
  - constructor.
  - intros k [].
  - reflexivity.
  - intros _. lia.
  - reflexivity.
Qed.

Lemma bridge_ok_request route message onsuccess onerror i b :
  bridge_ok b -> bridge_ok (WssBridge.request route message onsuccess onerror i b).
Proof.
  intros Hok. unfold WssBridge.request. cbv zeta.
  eapply bridge_ok_quiet; [|apply quiet_sendPackData|rewrite reqIdInc_sendPackData; lia].
  destruct Hok as [Hnd Hlt Hpend Honce Hnew].
  destruct (present onsuccess || present onerror).
  - assert (Hex : existsb (Z.eqb (WssBridge.reqIdInc b)) (map fst (WssBridge.requests b)) = false).
    { apply not_true_is_false. intros Hex. apply existsb_exists in Hex.
      destruct Hex as (k & Hk & Heq). apply Z.eqb_eq in Heq. subst k.
      specialize (Hlt _ Hk). lia. }
    split; cbn [WssBridge.requests WssBridge.set_requests WssBridge.set_reqIdInc
                WssBridge.reqIdInc WssBridge.trace].
    + apply requests_set_NoDup, Hnd.
    + intros k. rewrite requests_set_keys, Hex. intros Hk. apply in_app_or in Hk.
      destruct Hk as [Hk|[<-|[]]]; [specialize (Hlt k Hk)|]; lia.
    + intros k. rewrite requests_set_keys, Hex. intros Hk. apply in_app_or in Hk.
      destruct Hk as [Hk|[<-|[]]]; [apply Hpend, Hk | apply Hnew; lia].
    + exact Honce.
    + intros k Hk. apply Hnew. lia.
  - split; cbn [WssBridge.requests WssBridge.set_requests WssBridge.set_reqIdInc
                WssBridge.reqIdInc WssBridge.trace].
    + exact Hnd.
    + intros k Hk. specialize (Hlt k Hk). lia.
    + exact Hpend.
    + exact Honce.
    + intros k Hk. apply Hnew. lia.
Qed.

Lemma timeout_call_once k r : (length (timeout_call k r) <= 1)%nat.
Proof. unfold timeout_call. destruct (WssBridgeRequest.onerror r); cbn; lia. Qed.

Lemma bridge_ok_onTimerTick i hb b :
  bridge_ok b -> bridge_ok (WssBridge.onTimerTick i hb b).
Proof.
  intros [Hnd Hlt Hpend Honce Hnew].
  destruct (onTimerTick_spec i hb b) as (Hreq & events & Htr & Hq). cbv zeta in Hreq.
  pose proof (reqIdInc_onTimerTick i hb b) as Hle.
  set (b' := WssBridge.onTimerTick i hb b) in *.
  assert (Hcalls : forall k, calls_for k (WssBridge.trace b') =
            calls_for k (WssBridge.trace b) ++
            calls_for k (sweep_events (clock i) (WssBridge.timeout b) (WssBridge.requests b))).
  { intros k. rewrite Htr, !calls_for_app, Hq, app_nil_r. reflexivity. }
  assert (Hsub : forall k, In k (map fst (WssBridge.requests b')) ->
                           In k (map fst (WssBridge.requests b))).
  { intros k. rewrite Hreq. apply In_keys_filter. }
  split.
  - rewrite Hreq. apply NoDup_keys_filter, Hnd.
  - intros k Hk. specialize (Hlt k (Hsub k Hk)). lia.
  - intros k Hk. rewrite Hcalls, (Hpend k (Hsub k Hk)). cbn [app].
    rewrite Hreq in Hk. apply in_map_iff in Hk. destruct Hk as ([k' r] & Hfst & Hin).
    cbn in Hfst. subst k'. apply filter_In in Hin. destruct Hin as [Hin Hkeep].
    rewrite (calls_for_sweep _ _ _ r) by assumption.
    rewrite (sweep_ids_overdue _ _ _ (k, r)) in Hkeep by assumption.
    destruct (overdue _ _ (k, r)); [discriminate | reflexivity].
  - intros k. rewrite Hcalls.
    destruct (in_dec Z.eq_dec k (map fst (WssBridge.requests b))) as [Hk|Hk].
    + rewrite (Hpend k Hk). cbn [app].
      apply in_map_iff in Hk. destruct Hk as ([k' r] & Hfst & Hin). cbn in Hfst. subst k'.
      rewrite (calls_for_sweep _ _ _ r) by assumption.
      destruct (overdue _ _ _); [apply timeout_call_once | cbn; lia].
    + rewrite calls_for_sweep_absent, app_nil_r by exact Hk. apply Honce.
  - intros k Hk. rewrite Hcalls, Hnew by lia. cbn [app].
    apply calls_for_sweep_absent. intros Hin. specialize (Hlt k Hin). lia.
Qed.

(** A frame that answers a pending request. *)
Lemma readPackData_answer data i b T pack reqId request :
  WssBridgePackData.deserialize data (WssBridge.pwd b) = Some pack ->
  WssBridgePackData.route pack = JStr WssBridgePackData.ROUTE_RESPONSE ->
  WssBridge.requests_find (WssBridge.property_key (WssBridgePackData.reqId pack))
    (WssBridge.requests b) = Some (reqId, request) ->
  WssBridge.readPackData data i b T =
    Some (WssBridge.set_requests (WssBridge.requests_delete reqId (WssBridge.requests b))
            (with_events (answer reqId request (response_of (WssBridgePackData.message pack)))
               (WssBridge.set_netDelay (clock i - WssBridgeRequest.time request) b)),
          T, []).
Proof.
  intros Hde Hroute Hfind. unfold WssBridge.readPackData. rewrite Hde, Hroute.
  cbn [strict_eq_str]. change (String.eqb _ WssBridgePackData.ROUTE_HEARTICK) with false.
  change (String.eqb WssBridgePackData.ROUTE_RESPONSE WssBridgePackData.ROUTE_RESPONSE) with true.
  cbv iota. rewrite Hfind. cbv zeta. fold (response_of (WssBridgePackData.message pack)).
  unfold answer, WssBridge.callSuccess, WssBridge.callError.
  destruct (WssBridgeResponse.ok _);
    [destruct (WssBridgeRequest.onsuccess request) | destruct (WssBridgeRequest.onerror request)];
    try reflexivity;
    rewrite with_events_nil; reflexivity.
Qed.

Lemma answer_once reqId request resp k :
  (length (calls_for k (answer reqId request resp)) <= 1)%nat /\
  (k ≠ reqId -> calls_for k (answer reqId request resp) = []).
Proof.
  unfold answer.
  destruct (WssBridgeResponse.ok resp);
    [destruct (WssBridgeRequest.onsuccess request) | destruct (WssBridgeRequest.onerror request)];
    cbn; try (split; [lia | reflexivity]);
    destruct (Z.eqb_spec reqId k); cbn; (split; [lia | congruence]).
Qed.

Lemma requests_find_In key l reqId request :
  WssBridge.requests_find key l = Some (reqId, request) -> In (reqId, request) l.
Proof. intros Hf. apply find_some in Hf. tauto. Qed.

Lemma requests_delete_keys reqId (l : list (Z * WssBridgeRequest.t)) k :
  In k (map fst (WssBridge.requests_delete reqId l)) <-> In k (map fst l) /\ k ≠ reqId.
Proof.
  unfold WssBridge.requests_delete. rewrite !in_map_iff. split.
  - intros ([k' r] & Hfst & Hin). cbn in Hfst. subst k'. apply filter_In in Hin.
    destruct Hin as [Hin Hne]. cbn in Hne. apply negb_true_iff, Z.eqb_neq in Hne.
    split; [exists (k, r); tauto | exact Hne].
  - intros [([k' r] & Hfst & Hin) Hne]. cbn in Hfst. subst k'. exists (k, r).
    split; [reflexivity|]. apply filter_In. split; [exact Hin|]. cbn.
    apply negb_true_iff, Z.eqb_neq, Hne.
Qed.

Lemma bridge_ok_readPackData data i b T b' T' calls :
  WssBridge.readPackData data i b T = Some (b', T', calls) ->
  bridge_ok b -> bridge_ok b'.
Proof.
  intros Hread Hok. unfold WssBridge.readPackData in Hread.
  destruct (WssBridgePackData.deserialize data (WssBridge.pwd b)) as [pack|] eqn:Hde.
  2: { injection Hread as <- _ _. destruct (WssBridge.has_onerror b); [|exact Hok].
       eapply bridge_ok_quiet; [exact Hok | apply quiet_emit; reflexivity | cbn; lia]. }
  destruct (strict_eq_str (WssBridgePackData.route pack) WssBridgePackData.ROUTE_HEARTICK).
  { destruct (WssBridge.clock_minus _ _); [|discriminate]. injection Hread as <- _ _.
    eapply bridge_ok_quiet; [exact Hok | by apply quiet_same | cbn; lia]. }
  destruct (strict_eq_str (WssBridgePackData.route pack) WssBridgePackData.ROUTE_RESPONSE) eqn:Hresp.
  2: { destruct (WssBridge.triggerEvent pack T). injection Hread as <- _ _. exact Hok. }
  destruct (WssBridge.requests_find _ _) as [[reqId request]|] eqn:Hfind.
  2: { destruct (inherited _); [discriminate|]. injection Hread as <- _ _. exact Hok. }
  assert (Hb' : b' =
    WssBridge.set_requests (WssBridge.requests_delete reqId (WssBridge.requests b))
      (with_events (answer reqId request (response_of (WssBridgePackData.message pack)))
         (WssBridge.set_netDelay (clock i - WssBridgeRequest.time request) b))).
  { cbv zeta in Hread. fold (response_of (WssBridgePackData.message pack)) in Hread.
    unfold answer. unfold WssBridge.callSuccess, WssBridge.callError in Hread.
    destruct (WssBridgeResponse.ok _);
      [destruct (WssBridgeRequest.onsuccess request) | destruct (WssBridgeRequest.onerror request)];
      injection Hread as <- _ _; try reflexivity; rewrite with_events_nil; reflexivity. }
  subst b'. clear Hread. apply requests_find_In in Hfind.
  destruct Hok as [Hnd Hlt Hpend Honce Hnew].
  assert (Hkey : In reqId (map fst (WssBridge.requests b))) by (apply in_map_iff; exists (reqId, request); tauto).
  split; cbn [WssBridge.requests WssBridge.set_requests WssBridge.reqIdInc WssBridge.trace
              with_events WssBridge.set_netDelay].
  - apply NoDup_keys_filter, Hnd.
  - intros k Hk. apply requests_delete_keys in Hk. apply Hlt. tauto.
  - intros k Hk. apply requests_delete_keys in Hk. destruct Hk as [Hk Hne].
    rewrite calls_for_app, (Hpend k Hk). apply answer_once, Hne.
  - intros k. rewrite calls_for_app, length_app.
    destruct (Z.eq_dec k reqId) as [->|Hne].
    + rewrite (Hpend reqId Hkey). apply answer_once.
    + rewrite (proj2 (answer_once reqId request _ k) Hne). cbn. specialize (Honce k). lia.
  - intros k Hk. rewrite calls_for_app, Hnew by exact Hk.
    apply answer_once. specialize (Hlt reqId Hkey). lia.
Qed.

Lemma bridge_step_ok b b' : bridge_step b b' -> bridge_ok b -> bridge_ok b'.
Proof.
  intros Hstep Hok. destruct Hstep.
  - unfold WssBridge.connect. cbv zeta.
    match goal with |- bridge_ok (WssBridge.set_timer_expired _ _ (WssBridge.safeOpen ?b0)) =>
      assert (Hq0 : quiet b b0) by (by apply quiet_same);
      pose proof (quiet_safeOpen b0) as Hq1;
      pose proof (reqIdInc_safeOpen b0) as Hr1 end.
    eapply bridge_ok_quiet; [exact Hok | |].
    + eapply quiet_trans; [exact Hq0|]. eapply quiet_trans; [exact Hq1|]. by apply quiet_same.
    + cbn [WssBridge.reqIdInc WssBridge.set_timer_expired]. rewrite Hr1. cbn. lia.
  - unfold WssBridge.disconnect. cbv zeta.
    eapply bridge_ok_quiet; [exact Hok | |].
    + eapply quiet_trans; [|apply quiet_safeClose]. by apply quiet_same.
    + rewrite reqIdInc_safeClose. cbn. lia.
  - apply bridge_ok_request, Hok.
  - eapply bridge_ok_quiet; [exact Hok | by apply quiet_same | cbn; lia].
  - eapply bridge_ok_quiet; [exact Hok | by apply quiet_same | cbn; lia].
  - apply bridge_ok_onTimerTick, Hok.
  - eapply bridge_ok_quiet; [exact Hok | by apply quiet_same | cbn; lia].
  - unfold WssBridge.onSocketMessage in *. destruct (WssBridge.expired b).
    + congruence.
    + eapply bridge_ok_readPackData; eassumption.
  - unfold WssBridge.onSocketClose. destruct (WssBridge.expired b); cbn [fst]; [exact Hok|].
    eapply bridge_ok_quiet; [exact Hok | apply quiet_safeClose | rewrite reqIdInc_safeClose; lia].
  - unfold WssBridge.onSocketError. destruct (WssBridge.expired b); [exact Hok|]. cbv zeta.
    match goal with |- bridge_ok (if WssBridge.has_onerror ?b0 then _ else _) =>
      assert (Hok0 : bridge_ok b0)
        by (eapply bridge_ok_quiet;
            [exact Hok | apply quiet_safeClose | rewrite reqIdInc_safeClose; lia]);
      destruct (WssBridge.has_onerror b0); [|exact Hok0] end.
    eapply bridge_ok_quiet; [exact Hok0 | apply quiet_emit; reflexivity | cbn; lia].
  - eapply bridge_ok_quiet; [exact Hok | by apply quiet_same | cbn; lia].
Qed.

Lemma bridges_ok b : bridges b -> bridge_ok b.
Proof.
  intros (host & pwd & binary & timeout & heartick & conntick & Hr).
  revert b Hr. apply rtc_ind_r.
  - apply bridge_ok_constructor.
  - intros b1 b2 _ Hstep IH. eapply bridge_step_ok; eassumption.
Qed.

Lemma requests_set_new reqId r (l : list (Z * WssBridgeRequest.t)) :
  ~ In reqId (map fst l) -> WssBridge.requests_set reqId r l = l ++ [(reqId, r)].
Proof.
  induction l as [|[k r'] l IH]; intros Hk; [reflexivity|].
  cbn [WssBridge.requests_set]. destruct (Z.eqb_spec k reqId) as [->|Hne].
  - exfalso. apply Hk. left. reflexivity.
  - cbn [app]. f_equal. apply IH. intros Hin. apply Hk. right. exact Hin.
Qed.

Lemma requests_find_num n (l : list (Z * WssBridgeRequest.t)) :
  WssBridge.requests_find (WssBridge.property_key (JNum n)) l =
    option_map (fun r => (n, r)) (WssBridge.requests_get n l).
Proof.
  unfold WssBridge.requests_find.
  induction l as [|[k r] l IH]; [reflexivity|].
  cbn [find WssBridge.requests_get fst].
  change (WssBridge.property_key (JNum n)) with (pretty n) in *.
  destruct (Z.eqb_spec k n) as [->|Hne].
  - rewrite String.eqb_refl. reflexivity.
  - destruct (String.eqb_spec (pretty k) (pretty n)) as [Heq|_]; [|exact IH].
    apply (inj pretty) in Heq. contradiction.
Qed.

Lemma requests_get_delete reqId k (l : list (Z * WssBridgeRequest.t)) :
  WssBridge.requests_get k (WssBridge.requests_delete reqId l) =
    if k =? reqId then None else WssBridge.requests_get k l.
Proof.
  unfold WssBridge.requests_delete. induction l as [|[k' r] l IH].
  - cbn. destruct (k =? reqId); reflexivity.
  - cbn [List.filter fst]. destruct (Z.eqb_spec k' reqId) as [->|Hne]; cbn [negb].
    + rewrite IH. cbn [WssBridge.requests_get]. rewrite (Z.eqb_sym reqId k).
      destruct (k =? reqId); reflexivity.
    + cbn [WssBridge.requests_get]. rewrite IH.
      destruct (Z.eqb_spec k' k) as [->|Hne']; [|reflexivity].
      destruct (Z.eqb_spec k reqId); [contradiction | reflexivity].
Qed.

(** The decimal string of a number names no member of [Object.prototype]. *)
Lemma pretty_N_go_head (x : N) (s : string) :
  (0 < x)%N -> exists d rest, pretty_N_go x s = String (pretty_N_char d) rest.
Proof.
  revert s. induction (N.lt_wf_0 x) as [x _ IH]; intros s Hpos.
  rewrite pretty_N_go_step by exact Hpos.
  destruct (N.eq_dec (x `div` 10) 0) as [H0|Hne].
  - rewrite H0, pretty_N_go_0. eauto.
  - apply IH; [apply N.div_lt; lia | apply N.neq_0_lt_0, Hne].
Qed.

Lemma inherited_digit (d : N) (rest : string) :
  inherited (String (pretty_N_char d) rest) = false.
Proof. unfold pretty_N_char. repeat case_match; reflexivity. Qed.

Lemma inherited_pretty (n : Z) : inherited (pretty n) = false.
Proof.
  assert (Hpos : forall p : positive, inherited (pretty p) = false).
  { intros p. unfold pretty, pretty_positive, pretty, pretty_N.
    rewrite decide_False by discriminate.
    destruct (pretty_N_go_head (N.pos p) "") as (d & rest & ->); [lia|].
    apply inherited_digit. }
  destruct n as [|p|p]; [reflexivity | apply Hpos|].
  change (pretty (Z.neg p)) with (String "-" (pretty p)). reflexivity.
Qed.

(** A frame that answers no pending request. *)
Lemma readPackData_stray data i b T pack :
  WssBridgePackData.deserialize data (WssBridge.pwd b) = Some pack ->
  WssBridgePackData.route pack = JStr WssBridgePackData.ROUTE_RESPONSE ->
  inherited (WssBridge.property_key (WssBridgePackData.reqId pack)) = false ->
  WssBridge.requests_find (WssBridge.property_key (WssBridgePackData.reqId pack))
    (WssBridge.requests b) = None ->
  WssBridge.readPackData data i b T = Some (b, T, []).
Proof.
  intros Hde Hroute Hown Hfind. unfold WssBridge.readPackData. rewrite Hde, Hroute.
  cbn [strict_eq_str]. change (String.eqb _ WssBridgePackData.ROUTE_HEARTICK) with false.
  change (String.eqb WssBridgePackData.ROUTE_RESPONSE WssBridgePackData.ROUTE_RESPONSE) with true.
  cbv iota. rewrite Hfind, Hown. reflexivity.
Qed.

Lemma pwd_onTimerTick i hb b :
  WssBridge.pwd (WssBridge.onTimerTick i hb b) = WssBridge.pwd b.
Proof.
  unfold WssBridge.onTimerTick. cbv zeta. rewrite sweep_spec.
  assert (Hd : forall ids b0, WssBridge.pwd (WssBridge.delete_all ids b0) = WssBridge.pwd b0).
  { intros ids. induction ids as [|k ids IH]; intros b0; [reflexivity|].
    cbn [WssBridge.delete_all fold_left].
    change (fold_left _ ids ?b1) with (WssBridge.delete_all ids b1). rewrite IH. reflexivity. }
  assert (Hc : forall code reason b0,
            WssBridge.pwd (WssBridge.safeClose code reason b0) = WssBridge.pwd b0).
  { intros. unfold WssBridge.safeClose. destruct (WssBridge.socket b0); reflexivity. }
  assert (Hs : forall pack b0, WssBridge.pwd (WssBridge.sendPackData pack hb b0) = WssBridge.pwd b0).
  { intros. unfold WssBridge.sendPackData.
    destruct (WssBridge.expired b0); [reflexivity|].
    destruct (WssBridge.isConnected b0); [|reflexivity].
    destruct (WssBridgePackData.serialize _ _ _ _ _) as [[[|c s]|buf]|];
      try reflexivity; destruct (WssBridge.has_onerror b0); reflexivity. }
  assert (Hk : forall b0, WssBridge.pwd (WssBridge.keepalive hb b0) = WssBridge.pwd b0).
  { intros b0. unfold WssBridge.keepalive. cbv zeta.
    match goal with |- WssBridge.pwd (if WssBridge.has_onsecond ?b1 then _ else _) = _ =>
      assert (He : WssBridge.pwd b1 = WssBridge.pwd b0);
        [|destruct (WssBridge.has_onsecond b1); exact He] end.
    destruct (WssBridge.isConnected b0).
    - destruct (mod_is_zero _ _); [|reflexivity]. rewrite Hs. reflexivity.
    - destruct (mod_is_zero _ _ && _); [|reflexivity]. unfold WssBridge.safeOpen.
      destruct (WssBridge.expired _); cbn [WssBridge.pwd WssBridge.set_socket WssBridge.emit];
        rewrite Hc; destruct (WssBridge.has_onretry _); reflexivity. }
  rewrite Hk, Hd. reflexivity.
Qed.

(** X24. In every state of a bridge, whatever was called on it and whatever
    its socket and its timer brought, the callbacks of the request filed under
    a reqId have been called at most once altogether: a request is never
    answered twice, be it by a response, by a repeated response or by the
    timeout. *)
Theorem request_is_answered_at_most_once (b : WssBridge.t) (reqId : Z) :
  bridges b -> (length (calls_for reqId (WssBridge.trace b)) <= 1)%nat.
Proof.
  intros (host & pwd & binary & timeout & heartick & conntick & Hr).
  assert (Hok : bridge_ok b).
  { revert b Hr. apply rtc_ind_r.
    - apply bridge_ok_constructor.
    - intros b1 b2 _ Hstep IH. exact (bridge_step_ok b1 b2 Hstep IH). }
  apply (answered_once _ Hok).
Qed.

(** X25. In every state of a bridge, a request with a callback is filed last,
    under the next reqId, and replaces no pending request: the pending requests
    have smaller reqIds, have not been answered, and are found unchanged
    afterwards; nothing has been called for the new reqId. *)
Theorem request_replaces_no_pending_request (b : WssBridge.t)
    (route : string) (message : jsval) (onsuccess onerror : option callback) (i : input) :
  bridges b ->
  present onsuccess || present onerror = true ->
  let b' := WssBridge.request route message onsuccess onerror i b in
  WssBridge.requests b' =
    WssBridge.requests b
      ++ [(WssBridge.reqIdInc b, WssBridgeRequest.Build (clock i) onsuccess onerror)] /\
  (forall k request, In (k, request) (WssBridge.requests b) ->
     k < WssBridge.reqIdInc b /\
     calls_for k (WssBridge.trace b) = [] /\
     WssBridge.requests_get k (WssBridge.requests b') = Some request) /\
  calls_for (WssBridge.reqIdInc b) (WssBridge.trace b') = [].
Proof.
  intros Hb Hcb b'. pose proof (bridges_ok _ Hb) as [Hnd Hlt Hpend Honce Hnew].
  assert (Hfresh : ~ In (WssBridge.reqIdInc b) (map fst (WssBridge.requests b))).
  { intros Hin. specialize (Hlt _ Hin). lia. }
  assert (Hreq : WssBridge.requests b' =
            WssBridge.requests b
              ++ [(WssBridge.reqIdInc b, WssBridgeRequest.Build (clock i) onsuccess onerror)]).
  { subst b'. unfold WssBridge.request. cbv zeta. rewrite Hcb.
    destruct (quiet_sendPackData
                (WssBridgePackData.Build (JStr route) (JNum (WssBridge.reqIdInc b)) message) i
                (WssBridge.set_requests
                   (WssBridge.requests_set (WssBridge.reqIdInc b)
                      (WssBridgeRequest.Build (clock i) onsuccess onerror)
                      (WssBridge.requests (WssBridge.set_reqIdInc (WssBridge.reqIdInc b + 1) b)))
                   (WssBridge.set_reqIdInc (WssBridge.reqIdInc b + 1) b))) as [Hq _].
    refine (eq_trans Hq _). cbn [WssBridge.requests WssBridge.set_requests WssBridge.set_reqIdInc].
    apply requests_set_new, Hfresh. }
  split; [exact Hreq|]. split.
  - intros k request Hin.
    assert (Hk : In k (map fst (WssBridge.requests b))) by (apply in_map_iff; exists (k, request); tauto).
    split; [apply Hlt, Hk|]. split; [apply Hpend, Hk|].
    rewrite Hreq. apply requests_get_present.
    + rewrite map_app. apply NoDup_app. split; [exact Hnd|]. split; [|apply NoDup_singleton].
      intros x Hx Hx'. apply list_elem_of_singleton in Hx'. cbn in Hx'. subst x.
      apply Hfresh, list_elem_of_In, Hx.
    + apply in_or_app. left. exact Hin.
  - subst b'. unfold WssBridge.request. cbv zeta.
    match goal with |- calls_for _ (WssBridge.trace (WssBridge.sendPackData ?p i ?b0)) = _ =>
      destruct (quiet_sendPackData p i b0) as (_ & events & Htr & Hq) end.
    rewrite Htr, calls_for_app, Hq, app_nil_r.
    destruct (present onsuccess || present onerror); apply Hnew; cbn; lia.
Qed.

(** X26. A response frame for a pending request of a bridge makes exactly the
    call of the request: the success callback when the code of the response is
    the number 200, the error callback otherwise, with the code and data of
    the response; it sets the net delay to the age of the request, removes the
    request and leaves the other pending requests.  The same frame once more
    does nothing, and so does a response for a reqId that is not pending.  No
    listener is called. *)
Theorem response_completes_its_request (b : WssBridge.t) (T : WssBridge.table)
    (data : wire) (i i' : input) (reqId : Z) (message : jsval) :
  bridges b ->
  WssBridgePackData.deserialize data (WssBridge.pwd b)
    = Some (WssBridgePackData.Build (JStr "$response$") (JNum reqId) message) ->
  match WssBridge.requests_get reqId (WssBridge.requests b) with
  | Some request =>
      exists b',
        WssBridge.readPackData data i b T = Some (b', T, []) /\
        WssBridge.trace b' = WssBridge.trace b ++ answer reqId request (response_of message) /\
        WssBridge.getNetDelay b' = clock i - WssBridgeRequest.time request /\
        (forall k, WssBridge.requests_get k (WssBridge.requests b') =
                   if k =? reqId then None else WssBridge.requests_get k (WssBridge.requests b)) /\
        WssBridge.readPackData data i' b' T = Some (b', T, [])
  | None => WssBridge.readPackData data i b T = Some (b, T, [])
  end.
Proof.
  intros Hb Hde. pose proof (requests_find_num reqId (WssBridge.requests b)) as Hfind.
  destruct (WssBridge.requests_get reqId (WssBridge.requests b)) as [request|] eqn:Hget;
    cbn [option_map] in Hfind.
  - eexists. split; [eapply readPackData_answer; [exact Hde | reflexivity | exact Hfind]|].
    cbn [WssBridge.trace WssBridge.set_requests with_events WssBridge.set_netDelay
         WssBridge.getNetDelay WssBridge.netDelay WssBridge.requests].
    split; [reflexivity|]. split; [reflexivity|]. split; [intros k; apply requests_get_delete|].
    eapply readPackData_stray; [exact Hde | reflexivity | apply inherited_pretty |].
    cbn [WssBridgePackData.reqId WssBridge.requests WssBridge.set_requests].
    rewrite requests_find_num, requests_get_delete, Z.eqb_refl. reflexivity.
  - eapply readPackData_stray;
      [exact Hde | reflexivity | apply inherited_pretty | exact Hfind].
Qed.

(** X27. When a tick has timed out a pending request, the request has had its
    one call, that of its error callback, if it has one, with 504, and a
    response that comes for it afterwards changes nothing and calls nothing. *)
Theorem late_response_is_ignored (b : WssBridge.t) (T : WssBridge.table)
    (data : wire) (i hb i' : input) (reqId : Z) (request : WssBridgeRequest.t)
    (message : jsval) :
  bridges b ->
  WssBridge.requests_get reqId (WssBridge.requests b) = Some request ->
  clock i - WssBridgeRequest.time request > WssBridge.timeout b ->
  WssBridgePackData.deserialize data (WssBridge.pwd b)
    = Some (WssBridgePackData.Build (JStr "$response$") (JNum reqId) message) ->
  let b1 := WssBridge.onTimerTick i hb b in
  calls_for reqId (WssBridge.trace b1) = timeout_call reqId request /\
  WssBridge.readPackData data i' b1 T = Some (b1, T, []).
Proof.
  intros Hb Hget Hlate Hde b1. pose proof (bridges_ok _ Hb) as [Hnd Hlt Hpend Honce Hnew].
  assert (Hin : In (reqId, request) (WssBridge.requests b)).
  { clear -Hget. induction (WssBridge.requests b) as [|[k r] l IH]; [discriminate|].
    cbn in Hget. destruct (Z.eqb_spec k reqId) as [->|Hne].
    - injection Hget as ->. left. reflexivity.
    - right. apply IH, Hget. }
  destruct (onTimerTick_request i hb b reqId request Hnd Hin) as (_ & events & Htr & Hcase).
  assert (Hov : overdue (clock i) (WssBridge.timeout b) (reqId, request) = true).
  { unfold overdue. cbn [snd]. apply Z.gtb_lt. lia. }
  rewrite Hov in Hcase. destruct Hcase as [Hcalls Hgone]. fold b1 in Htr, Hgone.
  split.
  - rewrite Htr, calls_for_app, Hcalls.
    rewrite (Hpend reqId) by (apply in_map_iff; exists (reqId, request); tauto). reflexivity.
  - apply (readPackData_stray data i' b1 T
             (WssBridgePackData.Build (JStr "$response$") (JNum reqId) message)).
    + subst b1. rewrite pwd_onTimerTick. exact Hde.
    + reflexivity.
    + apply inherited_pretty.
    + cbn [WssBridgePackData.reqId]. rewrite requests_find_num, Hgone. reflexivity.
Qed.

(** *** After [disconnect] *)

Lemma idle_after_same b b' :
  WssBridge.expired b' = true -> WssBridge.socket b' = None ->
  WssBridge.trace b' = WssBridge.trace b -> idle_after b b'.
Proof.
  intros He Hs Ht. split; [exact He|]. split; [exact Hs|].
  exists []. rewrite app_nil_r. split; [exact Ht | constructor].
Qed.

Lemma idle_after_trans b1 b2 b3 : idle_after b1 b2 -> idle_after b2 b3 -> idle_after b1 b3.
Proof.
  intros (_ & _ & e1 & Ht1 & He1) (He & Hs & e2 & Ht2 & He2).
  split; [exact He|]. split; [exact Hs|]. exists (e1 ++ e2). split.
  - rewrite Ht2, Ht1, app_assoc. reflexivity.
  - apply Forall_app. split; assumption.
Qed.

Lemma idle_after_emit e b :
  WssBridge.expired b = true -> WssBridge.socket b = None -> idle_event e ->
  idle_after b (WssBridge.emit e b).
Proof.
  intros He Hs Hi. split; [exact He|]. split; [exact Hs|].
  exists [e]. split; [reflexivity|]. constructor; [exact Hi | constructor].
Qed.

Lemma idle_sweep_events time timeout l : Forall idle_event (sweep_events time timeout l).
Proof.
  induction l as [|[k r] l IH]; [constructor|].
  cbn [sweep_events flat_map]. apply Forall_app. split; [|exact IH].
  destruct (overdue _ _ _); [|constructor]. unfold timeout_call. cbn [fst snd].
  destruct (WssBridgeRequest.onerror r); constructor; [reflexivity | constructor].
Qed.

Lemma delete_all_rest ids b :
  WssBridge.expired (WssBridge.delete_all ids b) = WssBridge.expired b /\
  WssBridge.socket (WssBridge.delete_all ids b) = WssBridge.socket b.
Proof.
  revert b. induction ids as [|k ids IH]; intros b; [split; reflexivity|].
  cbn [WssBridge.delete_all fold_left].
  change (fold_left _ ids ?b0) with (WssBridge.delete_all ids b0).
  destruct (IH (WssBridge.set_requests (WssBridge.requests_delete k (WssBridge.requests b)) b))
    as [-> ->]. split; reflexivity.
Qed.

Lemma safeClose_none code reason b :
  WssBridge.socket b = None -> WssBridge.safeClose code reason b = b.
Proof. intros Hs. unfold WssBridge.safeClose. rewrite Hs. reflexivity. Qed.

Lemma safeOpen_expired b :
  WssBridge.expired b = true -> WssBridge.socket b = None -> WssBridge.safeOpen b = b.
Proof.
  intros He Hs. unfold WssBridge.safeOpen. rewrite safeClose_none by exact Hs.
  rewrite He. reflexivity.
Qed.

Lemma sendPackData_expired pack i b :
  WssBridge.expired b = true -> WssBridge.sendPackData pack i b = b.
Proof. intros He. unfold WssBridge.sendPackData. rewrite He. reflexivity. Qed.

Lemma idle_keepalive hb b :
  WssBridge.expired b = true -> WssBridge.socket b = None ->
  idle_after b (WssBridge.keepalive hb b).
Proof.
  intros He Hs. unfold WssBridge.keepalive, WssBridge.isConnected. rewrite Hs.
  cbn [is_open]. cbv zeta.
  match goal with |- idle_after b (if WssBridge.has_onsecond ?b1 then _ else _) =>
    assert (Hi : idle_after b b1) end.
  { destruct (mod_is_zero _ _ && _); [|by apply idle_after_same].
    destruct (WssBridge.has_onretry _).
    - rewrite safeOpen_expired by assumption.
      apply (idle_after_trans _ (WssBridge.set_retryCnt (WssBridge.retryCnt b + 1) b));
        [by apply idle_after_same | by apply idle_after_emit].
    - rewrite safeOpen_expired by assumption. by apply idle_after_same. }
  match goal with |- idle_after b (if WssBridge.has_onsecond ?b1 then _ else _) =>
    destruct (WssBridge.has_onsecond b1); [|exact Hi] end.
  eapply idle_after_trans; [exact Hi|].
  destruct Hi as (He1 & Hs1 & _). by apply idle_after_emit.
Qed.

Lemma idle_step b b' :
  bridge_step b b' -> WssBridge.expired b = true -> WssBridge.socket b = None ->
  idle_after b b'.
Proof.
  intros Hstep He Hs. destruct Hstep.
  - unfold WssBridge.connect. cbv zeta. rewrite safeOpen_expired by assumption.
    by apply idle_after_same.
  - unfold WssBridge.disconnect. cbv zeta. rewrite safeClose_none by assumption.
    by apply idle_after_same.
  - unfold WssBridge.request. cbv zeta. rewrite sendPackData_expired.
    + destruct (present onsuccess || present onerror); by apply idle_after_same.
    + destruct (present onsuccess || present onerror); exact He.
  - by apply idle_after_same.
  - by apply idle_after_same.
  - unfold WssBridge.onTimerTick. cbv zeta. rewrite sweep_spec.
    match goal with |- idle_after b (WssBridge.keepalive hb ?b0) =>
      assert (Hi : idle_after b b0) end.
    { destruct (delete_all_rest
                  (map fst (List.filter (overdue (clock i)
                     (WssBridge.timeout (WssBridge.set_timerInc (WssBridge.timerInc b + 1) b)))
                     (WssBridge.requests (WssBridge.set_timerInc (WssBridge.timerInc b + 1) b))))
                  (with_events
                     (sweep_events (clock i)
                        (WssBridge.timeout (WssBridge.set_timerInc (WssBridge.timerInc b + 1) b))
                        (WssBridge.requests (WssBridge.set_timerInc (WssBridge.timerInc b + 1) b)))
                     (WssBridge.set_timerInc (WssBridge.timerInc b + 1) b))) as [He' Hs'].
      split; [rewrite He'; exact He|]. split; [rewrite Hs'; exact Hs|].
      eexists. split; [rewrite trace_delete_all; reflexivity | apply idle_sweep_events]. }
    eapply idle_after_trans; [exact Hi|]. destruct Hi as (He1 & Hs1 & _).
    by apply idle_keepalive.
  - by apply idle_after_same.
  - unfold WssBridge.onSocketMessage in *. rewrite He in *.
    match goal with Hm : Some _ = Some _ |- _ => injection Hm as <- _ _ end.
    by apply idle_after_same.
  - unfold WssBridge.onSocketClose. rewrite He. by apply idle_after_same.
  - unfold WssBridge.onSocketError. rewrite He. by apply idle_after_same.
  - congruence.
Qed.

(** X28. After [disconnect], whatever is called on the bridge and whatever
    arrives, [connect] included, the bridge stays expired and without a
    connection.  Of the events that the trace records, only the 504 of pending
    requests and the calls of [onretry] and [onsecond] are added: no socket is
    made or closed, no frame is sent, no request succeeds and [onerror] is not
    called.  A frame that still arrives is dropped without a call of a
    listener, and a close event is ignored without a call of [onclose]. *)
Theorem disconnect_is_final (b0 b : WssBridge.t) :
  rtc bridge_step (WssBridge.disconnect b0) b ->
  WssBridge.expired b = true /\
  WssBridge.isConnected b = false /\
  (exists events,
     WssBridge.trace b = WssBridge.trace (WssBridge.disconnect b0) ++ events /\
     Forall idle_event events) /\
  (forall data i T, WssBridge.onSocketMessage data i b T = Some (b, T, [])) /\
  (forall onclose code reason, WssBridge.onSocketClose onclose code reason b = (b, [])).
Proof.
  intros Hr.
  assert (Hi : idle_after (WssBridge.disconnect b0) b).
  { revert b Hr. apply rtc_ind_r.
    - apply idle_after_same; [| | reflexivity];
        unfold WssBridge.disconnect, WssBridge.safeClose; cbv zeta;
        destruct (WssBridge.socket (WssBridge.set_timer_expired _ _ _)) eqn:Hs;
        [reflexivity | reflexivity || exact Hs ..].
    - intros b1 b2 _ Hstep IH. eapply idle_after_trans; [exact IH|].
      destruct IH as (He & Hs & _). by apply idle_step. }
  destruct Hi as (He & Hs & Hev). split; [exact He|]. split; [|split; [exact Hev|split]].
  - unfold WssBridge.isConnected. rewrite Hs. reflexivity.
  - intros data i T. unfold WssBridge.onSocketMessage. rewrite He. reflexivity.
  - intros onclose code reason. unfold WssBridge.onSocketClose. rewrite He. reflexivity.
Qed.

(** *** A bridge and its server *)

Lemma pwd_sendPackData pack i b :
  WssBridge.pwd (WssBridge.sendPackData pack i b) = WssBridge.pwd b.
Proof.
  unfold WssBridge.sendPackData.
  destruct (WssBridge.expired b); [reflexivity|].
  destruct (WssBridge.isConnected b); [|reflexivity].
  destruct (WssBridgePackData.serialize _ _ _ _ _) as [[[|c s]|buf]|];
    try reflexivity; destruct (WssBridge.has_onerror b); reflexivity.
Qed.

(** A server without a password that is told to send binary frames: the
    text that [serialize] makes goes out as a binary frame, and the bridge
    decodes the buffer to a packet without route, reqId and message. *)
Lemma text_sent_as_binary pack i σ data frame pwd :
  pwd_set (WssServer.pwd (WssServer.config σ)) = None ->
  pwd_set pwd = None ->
  WssServer.serialize pack i σ = Some data ->
  arrives data true frame ->
  WssBridgePackData.deserialize frame pwd =
    Some (WssBridgePackData.Build JUndefined JUndefined JUndefined).
Proof.
  intros Hnp Hnb Hser Harr.
  unfold WssServer.serialize, WssBridgePackData.serialize in Hser. rewrite Hnp in Hser.
  destruct (JSON_stringify _) as [str|]; [|discriminate]. injection Hser as <-.
  inversion Harr; subst. unfold WssBridgePackData.deserialize. rewrite Hnb. reflexivity.
Qed.

Lemma requests_delete_new reqId r (l : list (Z * WssBridgeRequest.t)) :
  ~ In reqId (map fst l) -> WssBridge.requests_delete reqId (l ++ [(reqId, r)]) = l.
Proof.
  intros Hk. unfold WssBridge.requests_delete. rewrite List.filter_app. cbn [List.filter fst].
  rewrite Z.eqb_refl. cbn [negb]. rewrite app_nil_r.
  induction l as [|[k r'] l IH]; [reflexivity|]. cbn [List.filter fst].
  destruct (Z.eqb_spec k reqId) as [->|Hne].
  - exfalso. apply Hk. left. reflexivity.
  - cbn [negb]. f_equal. apply IH. intros Hin. apply Hk. right. exact Hin.
Qed.

(** X29. When a bridge makes a request with a callback and the server answers
    it with [response], the session being open, the server hands that one
    frame to [send] with the [binary] option of its configuration.  When the
    frame, as it arrives at the bridge under this option, decodes to the
    response, the bridge calls the success callback of the request when the
    code is the number 200 and the error callback otherwise, with the code and
    data that the server gave; the request is then no longer pending, and the
    net delay is the time from the request to the arrival of the response.
    A server without a password whose [binary] option is set sends its text
    as a binary frame; a bridge without a password decodes what arrives to a
    packet without route, reqId and message, which answers no request. *)
Theorem response_reaches_the_request_callback (b : WssBridge.t) (T : WssBridge.table)
    (σ : WssServer.t) (S : WssServer.ref) (x : WssSession.t)
    (route : string) (message : jsval) (onsuccess onerror : option callback)
    (reply : WssBridgeResponse.t) (i i1 i2 : input) (data frame : wire) :
  let reqId := WssBridge.reqIdInc b in
  let b1 := WssBridge.request route message onsuccess onerror i b in
  let reqPack := WssBridgePackData.Build (JStr route) (JNum reqId) message in
  let respPack :=
    WssBridgePackData.Build (JStr "$response$") (JNum reqId)
      (JObj [("code", WssBridgeResponse.code reply); ("data", WssBridgeResponse.data reply)]) in
  bridges b ->
  present onsuccess || present onerror = true ->
  WssServer.heap σ !! S = Some x ->
  WssSession.socket x = Some OPEN ->
  WssServer.serialize respPack i1 σ = Some data ->
  arrives data (WssServer.binary (WssServer.config σ)) frame ->
  WssServer.trace (WssServer.response S reqPack reply i1 σ) =
    WssServer.trace σ
      ++ [WssServer.SocketSend S (Some data) (WssServer.binary (WssServer.config σ));
          WssServer.Log "debug" "response:" (Some S)] /\
  (WssBridgePackData.deserialize frame (WssBridge.pwd b) = Some respPack ->
   exists b2,
     WssBridge.readPackData frame i2 b1 T = Some (b2, T, []) /\
     WssBridge.trace b2 =
       WssBridge.trace b1
         ++ answer reqId (WssBridgeRequest.Build (clock i) onsuccess onerror) reply /\
     WssBridge.requests b2 = WssBridge.requests b /\
     WssBridge.getNetDelay b2 = clock i2 - clock i) /\
  (pwd_set (WssServer.pwd (WssServer.config σ)) = None ->
   WssServer.binary (WssServer.config σ) = true ->
   pwd_set (WssBridge.pwd b) = None ->
   WssBridgePackData.deserialize frame (WssBridge.pwd b) =
     Some (WssBridgePackData.Build JUndefined JUndefined JUndefined)).
Proof.
  intros reqId b1 reqPack respPack Hb Hcb Hx Hopen Hser Harr.
  pose proof (bridges_ok _ Hb) as [Hnd Hlt Hpend Honce Hnew].
  assert (Hfresh : ~ In reqId (map fst (WssBridge.requests b))).
  { intros Hin. specialize (Hlt _ Hin). subst reqId. lia. }
  split; [|split].
  3:{ intros Hnp Hbin Hnb. apply (text_sent_as_binary respPack i1 σ data frame (WssBridge.pwd b));
        try assumption. rewrite <- Hbin. exact Harr. }
  2: intros Hde.
  - unfold WssServer.response. cbv zeta.
    change (WssBridgePackData.reqId reqPack) with (JNum reqId).
    change RouteCode.ROUTE_RESPONSE with "$response$". fold respPack. rewrite Hser.
    unfold WssServer.session_send. rewrite Hx. unfold WssSession.send. rewrite Hopen.
    cbn [is_open]. cbn [WssServer.trace WssServer.emit]. rewrite <- app_assoc. reflexivity.
  - assert (Hreq : WssBridge.requests b1 =
              WssBridge.requests b
                ++ [(reqId, WssBridgeRequest.Build (clock i) onsuccess onerror)]).
    { subst b1. unfold WssBridge.request. cbv zeta. rewrite Hcb.
      match goal with |- WssBridge.requests (WssBridge.sendPackData ?p i ?b0) = _ =>
        destruct (quiet_sendPackData p i b0) as [Hq _]; refine (eq_trans Hq _) end.
      cbn [WssBridge.requests WssBridge.set_requests WssBridge.set_reqIdInc].
      apply requests_set_new, Hfresh. }
    assert (Hpwd : WssBridge.pwd b1 = WssBridge.pwd b).
    { subst b1. unfold WssBridge.request. cbv zeta. rewrite pwd_sendPackData.
      destruct (present onsuccess || present onerror); reflexivity. }
    eexists. split.
    + eapply readPackData_answer; [rewrite Hpwd; exact Hde | reflexivity |].
      cbn [WssBridgePackData.reqId respPack]. rewrite requests_find_num, Hreq.
      rewrite (requests_get_present reqId (WssBridgeRequest.Build (clock i) onsuccess onerror)).
      * reflexivity.
      * rewrite map_app. apply NoDup_app. split; [exact Hnd|]. split; [|apply NoDup_singleton].
        intros k Hk Hk'. apply list_elem_of_singleton in Hk'. cbn in Hk'. subst k.
        apply Hfresh, list_elem_of_In, Hk.
      * apply in_or_app. right. left. reflexivity.
    + cbn [WssBridge.trace WssBridge.set_requests with_events WssBridge.set_netDelay
           WssBridge.getNetDelay WssBridge.netDelay WssBridge.requests
           WssBridgeRequest.time WssBridgePackData.message respPack].
      split; [destruct reply; reflexivity|]. split; [|reflexivity].
      rewrite Hreq. apply requests_delete_new, Hfresh.
Qed.

Lemma pwd_keepalive hb b : WssBridge.pwd (WssBridge.keepalive hb b) = WssBridge.pwd b.
Proof.
  unfold WssBridge.keepalive. cbv zeta.
  match goal with |- WssBridge.pwd (if WssBridge.has_onsecond ?b1 then _ else _) = _ =>
    assert (He : WssBridge.pwd b1 = WssBridge.pwd b);
      [|destruct (WssBridge.has_onsecond b1); exact He] end.
  destruct (WssBridge.isConnected b).
  - destruct (mod_is_zero _ _); [|reflexivity]. rewrite pwd_sendPackData. reflexivity.
  - destruct (mod_is_zero _ _ && _); [|reflexivity]. unfold WssBridge.safeOpen, WssBridge.safeClose.
    destruct (WssBridge.has_onretry _);
      repeat match goal with |- context [match ?c with _ => _ end] => destruct c end;
      reflexivity.
Qed.

(** X30. When a connected bridge is due for a heartbeat, it sends the frame of
    a heartbeat packet stamped with the time; the server, the session being
    open and the reqId novel, hands the packet back to [send] with the
    [binary] option of its configuration.  When the echo, as it arrives at the
    bridge under this option, decodes to the heartbeat, the net delay of the
    bridge becomes the time from the stamp to the arrival, while its events
    and its pending requests stay.  A server without a password whose
    [binary] option is set sends its text as a binary frame; a bridge without
    a password decodes what arrives to a packet without route, reqId and
    message, which is no heartbeat. *)
Theorem heartbeat_measures_the_round_trip (b : WssBridge.t) (T : WssBridge.table)
    (σ : WssServer.t) (S : WssServer.ref) (x : WssSession.t)
    (hb i1 i2 : input) (data0 data1 frame1 : wire) :
  let pack :=
    WssBridgePackData.Build (JStr "$heartick$") (JNum (WssBridge.reqIdInc b))
      (JNum (clock hb)) in
  let b1 := WssBridge.keepalive hb b in
  let σ1 := WssServer._onWebSocketMessage S data0 i1 σ in
  WssBridge.expired b = false ->
  WssBridge.isConnected b = true ->
  mod_is_zero (WssBridge.timerInc b) (WssBridge.heartick b) = true ->
  WssBridgePackData.serialize pack (WssBridge.pwd b) (WssBridge.binary b)
    (rand_salt hb) (rand_iv hb) = Some data0 ->
  data0 ≠ WText "" ->
  WssBridgePackData.deserialize data0 (WssServer.pwd (WssServer.config σ)) = Some pack ->
  WssServer.heap σ !! S = Some x ->
  WssSession.socket x = Some OPEN ->
  WssBridge.reqIdInc b ∉ WssSession.reqIdList x ->
  WssServer.serialize pack i1 σ = Some data1 ->
  arrives data1 (WssServer.binary (WssServer.config σ)) frame1 ->
  WssBridge.trace b1 =
    WssBridge.trace b
      ++ WssBridge.SocketSend data0
         :: (if WssBridge.has_onsecond b
             then [WssBridge.OnSecond (WssBridge.timerInc b) (WssBridge.netDelay b)] else []) /\
  WssServer.trace σ1 =
    WssServer.trace σ
      ++ [WssServer.Log "trace" "_onWebSocketMessage:" (Some S);
          WssServer.SocketSend S (Some data1) (WssServer.binary (WssServer.config σ));
          WssServer.Log "trace" "_sendHeartick:" (Some S)] /\
  (WssBridgePackData.deserialize frame1 (WssBridge.pwd b) = Some pack ->
   exists b2,
     WssBridge.readPackData frame1 i2 b1 T = Some (b2, T, []) /\
     WssBridge.getNetDelay b2 = clock i2 - clock hb /\
     WssBridge.trace b2 = WssBridge.trace b1 /\
     WssBridge.requests b2 = WssBridge.requests b) /\
  (pwd_set (WssServer.pwd (WssServer.config σ)) = None ->
   WssServer.binary (WssServer.config σ) = true ->
   pwd_set (WssBridge.pwd b) = None ->
   WssBridgePackData.deserialize frame1 (WssBridge.pwd b) =
     Some (WssBridgePackData.Build JUndefined JUndefined JUndefined)).
Proof.
  intros pack b1 σ1 Hexp Hconn Hmod Hser Hne Hde0 Hx Hopen Hfresh Hser1 Harr.
  assert (Hb1 : b1 =
    let b' := WssBridge.emit (WssBridge.SocketSend data0)
                (WssBridge.set_reqIdInc (WssBridge.reqIdInc b + 1) b) in
    if WssBridge.has_onsecond b
    then WssBridge.emit (WssBridge.OnSecond (WssBridge.timerInc b) (WssBridge.netDelay b)) b'
    else b').
  { subst b1. unfold WssBridge.keepalive. rewrite Hconn, Hmod. cbv zeta.
    unfold WssBridge.sendPackData.
    change (WssBridge.expired (WssBridge.set_reqIdInc _ b)) with (WssBridge.expired b).
    change (WssBridge.isConnected (WssBridge.set_reqIdInc _ b)) with (WssBridge.isConnected b).
    rewrite Hexp, Hconn. cbn [WssBridge.set_reqIdInc WssBridge.pwd WssBridge.binary].
    change WssBridgePackData.ROUTE_HEARTICK with "$heartick$". fold pack. rewrite Hser.
    destruct data0 as [[|c s]|buf]; [contradiction| |]; reflexivity. }
  split; [|split; [|split]].
  - rewrite Hb1. cbv zeta. destruct (WssBridge.has_onsecond b);
      cbn [WssBridge.trace WssBridge.emit WssBridge.set_reqIdInc];
      rewrite <- ?app_assoc; reflexivity.
  - pose proof (onWebSocketMessage_heartbeat σ S data0 i1 (WssBridge.reqIdInc b)
                  (JNum (clock hb)) x Hde0 eq_refl Hx Hopen Hfresh) as Htr.
    subst σ1. rewrite Htr. fold pack. rewrite Hser1. reflexivity.
  - intros Hde1. unfold WssBridge.readPackData.
    assert (Hpwd : WssBridge.pwd b1 = WssBridge.pwd b) by apply pwd_keepalive.
    rewrite Hpwd, Hde1.
    cbn [WssBridgePackData.route WssBridgePackData.message pack strict_eq_str WssBridge.clock_minus].
    change (String.eqb "$heartick$" WssBridgePackData.ROUTE_HEARTICK) with true. cbv iota.
    eexists. split; [reflexivity|].
    cbn [WssBridge.getNetDelay WssBridge.netDelay WssBridge.set_netDelay WssBridge.trace
         WssBridge.requests].
    split; [reflexivity|]. split; [reflexivity|].
    rewrite Hb1. cbv zeta. destruct (WssBridge.has_onsecond b); reflexivity.
  - intros Hnp Hbin Hnb.
    apply (text_sent_as_binary pack i1 σ data1 frame1 (WssBridge.pwd b)); try assumption.
    rewrite <- Hbin. exact Harr.
Qed.
End Bridge.

(** ** Concrete runs of the further properties *)

Lemma Trial_busy_runs : runs (H := Ref.platform) Scenario.config Trial.busy.
Proof.
  unfold runs, Trial.busy, Trial.pair.
  eapply rtc_l; [apply run_connection|].
  eapply rtc_l; [apply run_connection|].
  eapply rtc_l; [apply (run_joinChannel 1 (JStr "room")); vm_compute; eexists; reflexivity|].
  eapply rtc_l; [apply (run_bindUid 1 (JStr "u") true); vm_compute; eexists; reflexivity|].
  apply rtc_refl.
Defined.

Lemma Trial_stale_runs : runs (H := Ref.platform) Scenario.config Trial.stale.
Proof.
  unfold runs, Trial.stale, Trial.pair.
  eapply rtc_l; [apply run_connection|].
  eapply rtc_l; [apply run_connection|].
  eapply rtc_l; [apply (run_bindUid 1 (JNum 0) true); vm_compute; eexists; reflexivity|].
  eapply rtc_l; [apply (run_bindUid 1 (JStr "u") true); vm_compute; eexists; reflexivity|].
  apply rtc_refl.
Defined.

Lemma Trial_stale_entries :
  entries 1 Trial.stale = 2%nat /\ is_live 1 Trial.stale = true
  /\ WssServer.getSession (JNum 0) Trial.stale = Some (Own 1).
Proof. vm_compute. auto. Qed.

Lemma message_handling_is_confined_witness :
  registries_kept Scenario.server Scenario.served.
Proof.
  exact (proj1 (message_handling_is_confined (H := Ref.platform) Scenario.server 1
                  Scenario.echo_frame Scenario.rnd)).
Defined.

Lemma invalid_frame_is_rejected_witness :
  WssServer.trace
    (WssServer._onWebSocketMessage (H := Ref.platform) 1 (WText "?") Scenario.rnd
       Scenario.server)
  = WssServer.trace Scenario.server
      ++ [WssServer.Log "error" "_onWebSocketMessage:" (Some 1);
          WssServer.SocketClose 1 4001 "parse error"].
Proof.
  edestruct (invalid_frame_is_rejected (H := Ref.platform) Scenario.server 1 (WText "?")
               Scenario.rnd) as [Hparse _].
  - vm_compute. reflexivity.
  - reflexivity.
  - rewrite Hparse; [reflexivity|]. vm_compute. reflexivity.
Defined.

Lemma heartbeat_is_echoed_witness :
  WssServer.trace
    (WssServer._onWebSocketMessage (H := Ref.platform) 1
       (Scenario.frame_of Scenario.heartbeat) Scenario.rnd Scenario.server)
  = WssServer.trace Scenario.server
      ++ [WssServer.Log "trace" "_onWebSocketMessage:" (Some 1);
          WssServer.SocketSend 1
            (WssServer.serialize (H := Ref.platform) Scenario.heartbeat Scenario.rnd
               Scenario.server) false;
          WssServer.Log "trace" "_sendHeartick:" (Some 1)].
Proof.
  edestruct (heartbeat_is_echoed (H := Ref.platform) Scenario.server 1
               (Scenario.frame_of Scenario.heartbeat) Scenario.rnd 7 (JNum 1000))
    as [Htrace _].
  - vm_compute. reflexivity.
  - reflexivity.
  - vm_compute. reflexivity.
  - reflexivity.
  - vm_compute. apply not_elem_of_nil.
  - exact Htrace.
Defined.


Lemma signed_envelope_is_accepted_witness :
  WssServer._validateInnerData (H := Ref.platform) Scenario.envelope Scenario.bound
  = Some true.
Proof.
  apply (proj1 (signed_envelope_is_accepted (H := Ref.platform) Scenario.server Scenario.bound
                  (JStr "u") "evt" (JNum 1) "w-1")).
  reflexivity.
Defined.

Lemma inner_routes_require_signature_witness :
  WssServer.dispatch (H := Ref.platform) 1 Trial.unsigned "$innerP2P$" Scenario.rnd
    Scenario.server
  = WssServer.reject 1 RouteCode.CODE_SIGN Scenario.server.
Proof.
  apply (inner_routes_require_signature (H := Ref.platform) Scenario.server 1 Trial.unsigned
           "$innerP2P$" Scenario.rnd).
  - left. reflexivity.
  - reflexivity.
Defined.

Lemma signed_push_is_relayed_witness :
  WssServer.dispatch (H := Ref.platform) 2
    (WssBridgePackData.Build (JStr "$innerP2P$") (JNum 1) Trial.letter)
    RouteCode.ROUTE_INNERP2P Scenario.rnd Scenario.bound
  = match WssServer.sessionMap Scenario.bound !! "u" with
    | Some T =>
        more ([WssServer.Log "debug" "_onWebSocketMessage:" (Some 2)]
              ++ frames_to
                   (WssServer.serialize (H := Ref.platform)
                      (WssBridgePackData.Build (JStr "evt") JUndefined (JNum 1))
                      Scenario.rnd Scenario.bound) Scenario.bound T
              ++ [WssServer.Log "debug" "pushSession:" (Some T)]) Scenario.bound
    | None => more [WssServer.Log "debug" "_onWebSocketMessage:" (Some 2)] Scenario.bound
    end.
Proof.
  apply (proj1 (signed_push_is_relayed (H := Ref.platform) Scenario.bound Scenario.bound 2
                  (WssBridgePackData.Build (JStr "$innerP2P$") (JNum 1) Trial.letter)
                  Scenario.rnd (JStr "u") "evt" (JNum 1) "w-1" eq_refl eq_refl) "u");
    reflexivity.
Defined.

Lemma signed_remote_call_is_served_witness :
  WssServer.dispatch (H := Ref.platform) 2
    (WssBridgePackData.Build (JStr "$innerRMC$") (JNum 1) Trial.letter)
    RouteCode.ROUTE_INNERRMC Scenario.rnd Scenario.bound
  = match WssServer.remoteMap Scenario.bound !! "evt" with
    | Some listener =>
        more [WssServer.Log "debug" "_onWebSocketMessage:" (Some 2);
              WssServer.CallRemote listener 2
                (WssBridgePackData.Build (JStr "evt") (JNum 1) (JNum 1))] Scenario.bound
    | None =>
        if inherited "evt"
        then more [WssServer.Log "debug" "_onWebSocketMessage:" (Some 2)] Scenario.bound
        else WssServer.reject 2 RouteCode.CODE_REMOTE Scenario.bound
    end.
Proof.
  apply (signed_remote_call_is_served (H := Ref.platform) Scenario.bound Scenario.bound 2
           (WssBridgePackData.Build (JStr "$innerRMC$") (JNum 1) Trial.letter)
           Scenario.rnd (JStr "u") "evt" (JNum 1) "w-1" eq_refl eq_refl).
  vm_compute. reflexivity.
Defined.

Lemma reqId_ring_is_bounded_witness :
  Z.of_nat (length (WssSession.reqIdList (feed 4 Trial.ids Trial.newcomer))) <= 4.
Proof.
  apply (proj1 (reqId_ring_is_bounded 4 Trial.ids Trial.newcomer)).
  - lia.
  - simpl. lia.
Defined.

Lemma recent_reqIds_are_remembered_witness :
  WssSession.updateReqId 5 4 (feed 4 Trial.ids Trial.newcomer)
  = (false, feed 4 Trial.ids Trial.newcomer).
Proof.
  destruct (recent_reqIds_are_remembered 4 Trial.ids Trial.newcomer eq_refl)
    as (_ & _ & Hlast).
  apply (Hlast 1%nat 5).
  - vm_compute. discriminate.
  - vm_compute. apply list_elem_of_here.
Defined.

Lemma uid_index_finds_the_bound_session_witness :
  WssServer.getSession (JStr "u") Trial.stale = Some (Own 1).
Proof.
  apply (proj1 (uid_index_finds_the_bound_session (H := Ref.platform) Scenario.config
                  Trial.stale Trial_stale_runs) (JStr "u") "u" 1 eq_refl).
  unfold bound_to. eexists. split; [vm_compute; reflexivity|]. split; reflexivity.
Defined.

Lemma channel_membership_is_mutual_witness :
  member "room" 1 Trial.busy <-> joined "room" 1 Trial.busy.
Proof.
  apply (proj1 (channel_membership_is_mutual (H := Ref.platform) Scenario.config Trial.busy
                  Trial_busy_runs)).
Defined.

Lemma close_event_cleans_up_witness :
  WssServer.socketMap (WssServer._onWebSocketClose 1 1000 "bye" Trial.stale) !! 1 = None
  /\ WssServer.sessionMap (WssServer._onWebSocketClose 1 1000 "bye" Trial.stale) !! "0"
     = Some 1.
Proof.
  edestruct (close_event_cleans_up (H := Ref.platform) Scenario.config Trial.stale 1 1000 "bye")
    as (_ & _ & Hsocket & _ & Hindex).
  - exact Trial_stale_runs.
  - vm_compute. reflexivity.
  - split; [exact Hsocket|]. apply Hindex. split; [vm_compute; reflexivity|].
    intros (x & Hx & _ & Hkey). vm_compute in Hx. injection Hx as <-. discriminate Hkey.
Defined.

Lemma life_cycle_closes_the_expired_witness :
  registries_kept Trial.busy (fst (WssServer._onServerLifeCycle (fun _ => 200000) Trial.busy)).
Proof.
  exact (proj1 (life_cycle_closes_the_expired (H := Ref.platform) Scenario.config
                  (fun _ => 200000) Trial.busy Trial_busy_runs)).
Defined.



Lemma start_accepts_sound_timing_witness :
  exists σ', WssServer.start Trial.busy = inr σ'.
Proof.
  apply (start_accepts_sound_timing Trial.busy).
  - vm_compute. discriminate.
  - vm_compute. discriminate.
Defined.

Lemma initClusters_makes_idle_bridges_witness :
  "chat" ∈ ["chat"] /\ Trial.chat ≠ [].
Proof.
  destruct (initClusters_makes_idle_bridges Scenario.config ["chat"] Trial.nodes "chat"
              Trial.chat) as (Hlink & Hnodes & _).
  - vm_compute. reflexivity.
  - split; assumption.
Defined.

Lemma cluster_push_reaches_every_node_witness :
  exists cluster',
    WssServer.clusterMap
      (WssServer.pushClusterSession (H := Ref.platform) "chat" (JStr "u") "evt" (JNum 1)
         "w-1" None (fun _ => Scenario.rnd) Scenario.server) !! "chat" = Some cluster'
    /\ length cluster' = 1%nat.
Proof.
  destruct (cluster_push_reaches_every_node (H := Ref.platform) Scenario.server "chat"
              (JStr "u") "evt" (JNum 1) "w-1" (fun _ => Scenario.rnd) [Scenario.peer])
    as ((cluster' & Hc & (Hlen & _) & _) & _).
  - vm_compute. reflexivity.
  - exists cluster'. split; [exact Hc | exact Hlen].
Defined.

Lemma remote_call_reaches_one_node_witness :
  exists node,
    [Scenario.peer] !! Z.to_nat (Z.min 0 (Z.of_nat (length [Scenario.peer]) - 1)) = Some node.
Proof.
  destruct (remote_call_reaches_one_node (H := Ref.platform) Scenario.server "chat" "sum"
              (JNum 1) "w-1" 0 Scenario.rnd 9%nat [Scenario.peer])
    as (node & Hnode & _).
  - vm_compute. reflexivity.
  - discriminate.
  - lia.
  - exists node. exact Hnode.
Defined.

Lemma Trial_listening_tables : tables Trial.listening.
Proof.
  unfold tables, Trial.listening.
  eapply rtc_l; [apply (table_addListener "evt" false (HFun 2%nat))|].
  eapply rtc_l; [apply (table_addListener "evt" true (HFun 1%nat))|].
  apply rtc_refl.
Defined.

Lemma Trial_online_bridges : bridges (H := Ref.platform) Trial.online.
Proof.
  exists "http://10.0.0.1:3000", (Some "p"), false, 8000, 60, 3. unfold Trial.online.
  eapply rtc_l; [apply (do_connect false false true)|].
  eapply rtc_l; [apply (on_readyState CONNECTING OPEN); reflexivity|].
  apply rtc_refl.
Defined.

Lemma Trial_asked_bridges : bridges (H := Ref.platform) Trial.asked.
Proof.
  exists "http://10.0.0.1:3000", (Some "p"), false, 8000, 60, 3. unfold Trial.asked, Trial.online.
  eapply rtc_l; [apply (do_connect false false true)|].
  eapply rtc_l; [apply (on_readyState CONNECTING OPEN); reflexivity|].
  eapply rtc_l; [apply do_request|].
  apply rtc_refl.
Defined.

Lemma removeListener_takes_out_the_callback_witness :
  listeners_of "evt" (WssBridge.removeListener "evt" (HFun 1%nat) Trial.listening)
  = without (HFun 1%nat) (listeners_of "evt" Trial.listening).
Proof.
  exact (proj1 (removeListener_takes_out_the_callback "evt" (HFun 1%nat) Trial.listening
                  Trial_listening_tables)).
Defined.

Lemma push_calls_every_listener_in_order_witness :
  calls_of Trial.event Trial.listening
  = flat_map (fun item => WssBridge.callMessage (snd item) (JStr "news"))
      (listeners_of "evt" Trial.listening).
Proof.
  exact (proj1 (push_calls_every_listener_in_order Trial.event Trial.listening
                  Trial_listening_tables)).
Defined.

Lemma once_listener_is_called_once_witness :
  WssBridge.OnMessage 7%nat (JStr "news")
    ∈ calls_of Trial.event (WssBridge.addListener "evt" true (HFun 7%nat) Trial.listening).
Proof.
  exact (proj1 (proj1 (once_listener_is_called_once "evt" 7%nat Trial.event Trial.event
                         Trial.listening Trial_listening_tables eq_refl eq_refl) eq_refl)).
Defined.

Lemma request_is_answered_at_most_once_witness :
  (length (calls_for 0 (WssBridge.trace Trial.asked)) <= 1)%nat.
Proof.
  exact (request_is_answered_at_most_once (H := Ref.platform) Trial.asked 0
           Trial_asked_bridges).
Defined.

Lemma request_replaces_no_pending_request_witness :
  WssBridge.requests
    (WssBridge.request (H := Ref.platform) "sum" (JNum 2) (Some 4%nat) None Scenario.rnd
       Trial.asked)
  = WssBridge.requests Trial.asked
      ++ [(WssBridge.reqIdInc Trial.asked, WssBridgeRequest.Build 1000 (Some 4%nat) None)].
Proof.
  exact (proj1 (request_replaces_no_pending_request (H := Ref.platform) Trial.asked "sum"
                  (JNum 2) (Some 4%nat) None Scenario.rnd Trial_asked_bridges eq_refl)).
Defined.

Lemma response_completes_its_request_witness :
  exists b',
    WssBridge.readPackData (H := Ref.platform) Trial.answer_frame
      (Input 40 [] []) Trial.asked Trial.listening = Some (b', Trial.listening, [])
    /\ WssBridge.trace b'
       = WssBridge.trace Trial.asked
           ++ [WssBridge.CallSuccess 0 3%nat Trial.reply].
Proof.
  pose proof (response_completes_its_request (H := Ref.platform) Trial.asked Trial.listening
                Trial.answer_frame (Input 40 [] []) (Input 50 [] []) 0
                (JObj [("code", JNum 200); ("data", JStr "ok")]) Trial_asked_bridges) as Hthm.
  assert (Hget : WssBridge.requests_get 0 (WssBridge.requests Trial.asked)
                 = Some (WssBridgeRequest.Build 0 (Some 3%nat) (Some 5%nat)))
    by (vm_compute; reflexivity).
  rewrite Hget in Hthm.
  destruct Hthm as (b' & Hread & Htrace & _); [vm_compute; reflexivity|].
  exists b'. split; [exact Hread | exact Htrace].
Defined.

Lemma late_response_is_ignored_witness :
  WssBridge.readPackData (H := Ref.platform) Trial.answer_frame (Input 9500 [] [])
    (WssBridge.onTimerTick (H := Ref.platform) (Input 9000 [] []) (Input 9000 [] [])
       Trial.asked) Trial.listening
  = Some (WssBridge.onTimerTick (H := Ref.platform) (Input 9000 [] []) (Input 9000 [] [])
            Trial.asked, Trial.listening, []).
Proof.
  apply (late_response_is_ignored (H := Ref.platform) Trial.asked Trial.listening
           Trial.answer_frame (Input 9000 [] []) (Input 9000 [] []) (Input 9500 [] []) 0
           (WssBridgeRequest.Build 0 (Some 3%nat) (Some 5%nat))
           (JObj [("code", JNum 200); ("data", JStr "ok")]) Trial_asked_bridges).
  - vm_compute. reflexivity.
  - vm_compute. reflexivity.
  - vm_compute. reflexivity.
Defined.

Lemma disconnect_is_final_witness :
  WssBridge.isConnected
    (WssBridge.request (H := Ref.platform) "sum" (JNum 2) (Some 4%nat) None Scenario.rnd
       (WssBridge.disconnect Trial.asked)) = false.
Proof.
  apply (disconnect_is_final (H := Ref.platform) Trial.asked).
  eapply rtc_l; [apply do_request|]. apply rtc_refl.
Defined.

Lemma response_reaches_the_request_callback_witness :
  exists b2,
    WssBridge.readPackData (H := Ref.platform) Trial.answer_frame (Input 40 [] [])
      Trial.asked Trial.listening = Some (b2, Trial.listening, [])
    /\ WssBridge.getNetDelay b2 = 40 - 0.
Proof.
  destruct (response_reaches_the_request_callback (H := Ref.platform) Trial.online
              Trial.listening Scenario.server 1 (WssSession.create 1 "10.0.0.7" 0)
              "echo" (JStr "hi") (Some 3%nat) (Some 5%nat) Trial.reply
              (Input 0 (rand_salt Scenario.rnd) (rand_iv Scenario.rnd)) Scenario.rnd
              (Input 40 [] []) Trial.answer_frame Trial.answer_frame)
    as (_ & Hanswer & _).
  - exact Trial_online_bridges.
  - reflexivity.
  - vm_compute. reflexivity.
  - reflexivity.
  - vm_compute. reflexivity.
  - vm_compute. apply text_frame.
  - destruct Hanswer as (b2 & Hread & _ & _ & Hdelay); [vm_compute; reflexivity|].
    exists b2. split; [exact Hread | exact Hdelay].
Defined.

Lemma heartbeat_measures_the_round_trip_witness :
  exists b2,
    WssBridge.readPackData (H := Ref.platform) Trial.beat_frame (Input 1040 [] [])
      (WssBridge.keepalive (H := Ref.platform)
         (Input 1000 (rand_salt Scenario.rnd) (rand_iv Scenario.rnd)) Trial.online)
      Trial.listening = Some (b2, Trial.listening, [])
    /\ WssBridge.getNetDelay b2 = 1040 - 1000.
Proof.
  destruct (heartbeat_measures_the_round_trip (H := Ref.platform) Trial.online
              Trial.listening Scenario.server 1 (WssSession.create 1 "10.0.0.7" 0)
              (Input 1000 (rand_salt Scenario.rnd) (rand_iv Scenario.rnd)) Scenario.rnd
              (Input 1040 [] []) Trial.beat_frame Trial.beat_frame Trial.beat_frame)
    as (_ & _ & Hecho & _).
  - reflexivity.
  - reflexivity.
  - reflexivity.
  - vm_compute. reflexivity.
  - vm_compute. discriminate.
  - vm_compute. reflexivity.
  - vm_compute. reflexivity.
  - reflexivity.
  - vm_compute. apply not_elem_of_nil.
  - vm_compute. reflexivity.
  - vm_compute. apply text_frame.
  - destruct Hecho as (b2 & Hread & Hdelay & _); [vm_compute; reflexivity|].
    exists b2. split; [exact Hread | exact Hdelay].
Defined.
